(** * sls-migrate: the alert aggregate store and the reconciliation service

    A shallow embedding of [internal/store/alert_store.go] (the GORM-backed
    persistence engine of the Alert aggregate), of the model structs it
    persists, of the synchronisation service ([needsUpdate],
    [GetSyncStatus], [SyncDatabaseToSLS], [SyncSLSToDatabase]), of the alert
    service that stands between the handlers and the store, of the
    conversions between the model and the SDK's structs, and of the two list
    handlers.

    Go values are rendered as follows: [uint] identifiers as [N], [int64]
    and [int32] as [Z], [*T] as [option T], slices as lists, [string] as
    [string].  The relational store is a record of tables; GORM calls are
    state-passing functions in a small state-and-error monad. *)

From Stdlib Require Import ZArith NArith List String Bool Lia Arith DecimalString
  Sorted Permutation.
Import ListNotations.
Local Open Scope string_scope.
Local Open Scope list_scope.
Local Open Scope N_scope.

(** ** The model structs

    One record per struct of package [models].  GORM's back-reference fields
    ([Alert Alert], [AlertConfig AlertConfiguration]) are relationship
    declarations that the store never reads or writes; they are left out, as
    are the [UpdatedAt] bookkeeping columns and the [CreatedAt] columns that
    no query consults (only [alerts.created_at] is used, by [List]).

    The store assigns [AlertConfigID] on each of the seven configuration
    blocks ([originalConfig.ConditionConfig.AlertConfigID = configToCreate.ID]),
    so the block structs carry that [uint] field. *)

Module models.

Record ConditionConfiguration : Type := mkConditionConfiguration {
  cond_ID : N;
  cond_AlertConfigID : N;
  cond_Condition : option string;
  cond_CountCondition : option string
}.

Definition set_cond_ID (v : N) (x : ConditionConfiguration) : ConditionConfiguration :=
  mkConditionConfiguration v (cond_AlertConfigID x) (cond_Condition x)
  (cond_CountCondition x).
Definition set_cond_AlertConfigID (v : N) (x : ConditionConfiguration) : ConditionConfiguration :=
  mkConditionConfiguration (cond_ID x) v (cond_Condition x)
  (cond_CountCondition x).
Definition set_cond_Condition (v : option string) (x : ConditionConfiguration) : ConditionConfiguration :=
  mkConditionConfiguration (cond_ID x) (cond_AlertConfigID x) v
  (cond_CountCondition x).
Definition set_cond_CountCondition (v : option string) (x : ConditionConfiguration) : ConditionConfiguration :=
  mkConditionConfiguration (cond_ID x) (cond_AlertConfigID x) (cond_Condition
  x) v.

Record GroupConfiguration : Type := mkGroupConfiguration {
  grp_ID : N;
  grp_AlertConfigID : N;
  grp_Fields : option string;
  grp_Type : option string
}.

Definition set_grp_ID (v : N) (x : GroupConfiguration) : GroupConfiguration :=
  mkGroupConfiguration v (grp_AlertConfigID x) (grp_Fields x) (grp_Type x).
Definition set_grp_AlertConfigID (v : N) (x : GroupConfiguration) : GroupConfiguration :=
  mkGroupConfiguration (grp_ID x) v (grp_Fields x) (grp_Type x).
Definition set_grp_Fields (v : option string) (x : GroupConfiguration) : GroupConfiguration :=
  mkGroupConfiguration (grp_ID x) (grp_AlertConfigID x) v (grp_Type x).
Definition set_grp_Type (v : option string) (x : GroupConfiguration) : GroupConfiguration :=
  mkGroupConfiguration (grp_ID x) (grp_AlertConfigID x) (grp_Fields x) v.

Record PolicyConfiguration : Type := mkPolicyConfiguration {
  pol_ID : N;
  pol_AlertConfigID : N;
  pol_ActionPolicyId : option string;
  pol_AlertPolicyId : option string;
  pol_RepeatInterval : option string
}.

Definition set_pol_ID (v : N) (x : PolicyConfiguration) : PolicyConfiguration :=
  mkPolicyConfiguration v (pol_AlertConfigID x) (pol_ActionPolicyId x)
  (pol_AlertPolicyId x) (pol_RepeatInterval x).
Definition set_pol_AlertConfigID (v : N) (x : PolicyConfiguration) : PolicyConfiguration :=
  mkPolicyConfiguration (pol_ID x) v (pol_ActionPolicyId x) (pol_AlertPolicyId
  x) (pol_RepeatInterval x).
Definition set_pol_ActionPolicyId (v : option string) (x : PolicyConfiguration) : PolicyConfiguration :=
  mkPolicyConfiguration (pol_ID x) (pol_AlertConfigID x) v (pol_AlertPolicyId
  x) (pol_RepeatInterval x).
Definition set_pol_AlertPolicyId (v : option string) (x : PolicyConfiguration) : PolicyConfiguration :=
  mkPolicyConfiguration (pol_ID x) (pol_AlertConfigID x) (pol_ActionPolicyId
  x) v (pol_RepeatInterval x).
Definition set_pol_RepeatInterval (v : option string) (x : PolicyConfiguration) : PolicyConfiguration :=
  mkPolicyConfiguration (pol_ID x) (pol_AlertConfigID x) (pol_ActionPolicyId
  x) (pol_AlertPolicyId x) v.

Record TemplateConfiguration : Type := mkTemplateConfiguration {
  tpl_ID : N;
  tpl_AlertConfigID : N;
  tpl_TemplateId : option string;
  tpl_Lang : option string;
  tpl_Type : option string;
  tpl_Version : option string;
  tpl_Aonotations : option string;
  tpl_Tokens : option string
}.

Definition set_tpl_ID (v : N) (x : TemplateConfiguration) : TemplateConfiguration :=
  mkTemplateConfiguration v (tpl_AlertConfigID x) (tpl_TemplateId x) (tpl_Lang
  x) (tpl_Type x) (tpl_Version x) (tpl_Aonotations x) (tpl_Tokens x).
Definition set_tpl_AlertConfigID (v : N) (x : TemplateConfiguration) : TemplateConfiguration :=
  mkTemplateConfiguration (tpl_ID x) v (tpl_TemplateId x) (tpl_Lang x)
  (tpl_Type x) (tpl_Version x) (tpl_Aonotations x) (tpl_Tokens x).
Definition set_tpl_TemplateId (v : option string) (x : TemplateConfiguration) : TemplateConfiguration :=
  mkTemplateConfiguration (tpl_ID x) (tpl_AlertConfigID x) v (tpl_Lang x)
  (tpl_Type x) (tpl_Version x) (tpl_Aonotations x) (tpl_Tokens x).
Definition set_tpl_Lang (v : option string) (x : TemplateConfiguration) : TemplateConfiguration :=
  mkTemplateConfiguration (tpl_ID x) (tpl_AlertConfigID x) (tpl_TemplateId x)
  v (tpl_Type x) (tpl_Version x) (tpl_Aonotations x) (tpl_Tokens x).
Definition set_tpl_Type (v : option string) (x : TemplateConfiguration) : TemplateConfiguration :=
  mkTemplateConfiguration (tpl_ID x) (tpl_AlertConfigID x) (tpl_TemplateId x)
  (tpl_Lang x) v (tpl_Version x) (tpl_Aonotations x) (tpl_Tokens x).
Definition set_tpl_Version (v : option string) (x : TemplateConfiguration) : TemplateConfiguration :=
  mkTemplateConfiguration (tpl_ID x) (tpl_AlertConfigID x) (tpl_TemplateId x)
  (tpl_Lang x) (tpl_Type x) v (tpl_Aonotations x) (tpl_Tokens x).
Definition set_tpl_Aonotations (v : option string) (x : TemplateConfiguration) : TemplateConfiguration :=
  mkTemplateConfiguration (tpl_ID x) (tpl_AlertConfigID x) (tpl_TemplateId x)
  (tpl_Lang x) (tpl_Type x) (tpl_Version x) v (tpl_Tokens x).
Definition set_tpl_Tokens (v : option string) (x : TemplateConfiguration) : TemplateConfiguration :=
  mkTemplateConfiguration (tpl_ID x) (tpl_AlertConfigID x) (tpl_TemplateId x)
  (tpl_Lang x) (tpl_Type x) (tpl_Version x) (tpl_Aonotations x) v.

Record SinkAlerthubConfiguration : Type := mkSinkAlerthubConfiguration {
  hub_ID : N;
  hub_AlertConfigID : N;
  hub_Enabled : option bool
}.

Definition set_hub_ID (v : N) (x : SinkAlerthubConfiguration) : SinkAlerthubConfiguration :=
  mkSinkAlerthubConfiguration v (hub_AlertConfigID x) (hub_Enabled x).
Definition set_hub_AlertConfigID (v : N) (x : SinkAlerthubConfiguration) : SinkAlerthubConfiguration :=
  mkSinkAlerthubConfiguration (hub_ID x) v (hub_Enabled x).
Definition set_hub_Enabled (v : option bool) (x : SinkAlerthubConfiguration) : SinkAlerthubConfiguration :=
  mkSinkAlerthubConfiguration (hub_ID x) (hub_AlertConfigID x) v.

Record SinkCmsConfiguration : Type := mkSinkCmsConfiguration {
  cms_ID : N;
  cms_AlertConfigID : N;
  cms_Enabled : option bool
}.

Definition set_cms_ID (v : N) (x : SinkCmsConfiguration) : SinkCmsConfiguration :=
  mkSinkCmsConfiguration v (cms_AlertConfigID x) (cms_Enabled x).
Definition set_cms_AlertConfigID (v : N) (x : SinkCmsConfiguration) : SinkCmsConfiguration :=
  mkSinkCmsConfiguration (cms_ID x) v (cms_Enabled x).
Definition set_cms_Enabled (v : option bool) (x : SinkCmsConfiguration) : SinkCmsConfiguration :=
  mkSinkCmsConfiguration (cms_ID x) (cms_AlertConfigID x) v.

Record SinkEventStoreConfiguration : Type := mkSinkEventStoreConfiguration {
  es_ID : N;
  es_AlertConfigID : N;
  es_Enabled : option bool;
  es_Endpoint : option string;
  es_EventStore : option string;
  es_Project : option string;
  es_RoleArn : option string
}.

Definition set_es_ID (v : N) (x : SinkEventStoreConfiguration) : SinkEventStoreConfiguration :=
  mkSinkEventStoreConfiguration v (es_AlertConfigID x) (es_Enabled x)
  (es_Endpoint x) (es_EventStore x) (es_Project x) (es_RoleArn x).
Definition set_es_AlertConfigID (v : N) (x : SinkEventStoreConfiguration) : SinkEventStoreConfiguration :=
  mkSinkEventStoreConfiguration (es_ID x) v (es_Enabled x) (es_Endpoint x)
  (es_EventStore x) (es_Project x) (es_RoleArn x).
Definition set_es_Enabled (v : option bool) (x : SinkEventStoreConfiguration) : SinkEventStoreConfiguration :=
  mkSinkEventStoreConfiguration (es_ID x) (es_AlertConfigID x) v (es_Endpoint
  x) (es_EventStore x) (es_Project x) (es_RoleArn x).
Definition set_es_Endpoint (v : option string) (x : SinkEventStoreConfiguration) : SinkEventStoreConfiguration :=
  mkSinkEventStoreConfiguration (es_ID x) (es_AlertConfigID x) (es_Enabled x)
  v (es_EventStore x) (es_Project x) (es_RoleArn x).
Definition set_es_EventStore (v : option string) (x : SinkEventStoreConfiguration) : SinkEventStoreConfiguration :=
  mkSinkEventStoreConfiguration (es_ID x) (es_AlertConfigID x) (es_Enabled x)
  (es_Endpoint x) v (es_Project x) (es_RoleArn x).
Definition set_es_Project (v : option string) (x : SinkEventStoreConfiguration) : SinkEventStoreConfiguration :=
  mkSinkEventStoreConfiguration (es_ID x) (es_AlertConfigID x) (es_Enabled x)
  (es_Endpoint x) (es_EventStore x) v (es_RoleArn x).
Definition set_es_RoleArn (v : option string) (x : SinkEventStoreConfiguration) : SinkEventStoreConfiguration :=
  mkSinkEventStoreConfiguration (es_ID x) (es_AlertConfigID x) (es_Enabled x)
  (es_Endpoint x) (es_EventStore x) (es_Project x) v.

Record SeverityConfiguration : Type := mkSeverityConfiguration {
  sev_ID : N;
  sev_AlertConfigID : N;
  sev_Severity : option Z;
  sev_EvalConditionID : option N;
  sev_EvalCondition : option ConditionConfiguration
}.

Definition set_sev_ID (v : N) (x : SeverityConfiguration) : SeverityConfiguration :=
  mkSeverityConfiguration v (sev_AlertConfigID x) (sev_Severity x)
  (sev_EvalConditionID x) (sev_EvalCondition x).
Definition set_sev_AlertConfigID (v : N) (x : SeverityConfiguration) : SeverityConfiguration :=
  mkSeverityConfiguration (sev_ID x) v (sev_Severity x) (sev_EvalConditionID
  x) (sev_EvalCondition x).
Definition set_sev_EvalConditionID (v : option N) (x : SeverityConfiguration) : SeverityConfiguration :=
  mkSeverityConfiguration (sev_ID x) (sev_AlertConfigID x) (sev_Severity x) v
  (sev_EvalCondition x).
Definition set_sev_EvalCondition (v : option ConditionConfiguration) (x : SeverityConfiguration) : SeverityConfiguration :=
  mkSeverityConfiguration (sev_ID x) (sev_AlertConfigID x) (sev_Severity x)
  (sev_EvalConditionID x) v.

Record JoinConfiguration : Type := mkJoinConfiguration {
  join_ID : N;
  join_AlertConfigID : N;
  join_JoinType : option string;
  join_JoinConfig : option string
}.

Definition set_join_ID (v : N) (x : JoinConfiguration) : JoinConfiguration :=
  mkJoinConfiguration v (join_AlertConfigID x) (join_JoinType x)
  (join_JoinConfig x).
Definition set_join_AlertConfigID (v : N) (x : JoinConfiguration) : JoinConfiguration :=
  mkJoinConfiguration (join_ID x) v (join_JoinType x) (join_JoinConfig x).

Record AlertConfiguration : Type := mkAlertConfiguration {
  cfg_ID : N;
  cfg_AlertID : N;
  cfg_AutoAnnotation : option bool;
  cfg_Dashboard : option string;
  cfg_MuteUntil : option Z;
  cfg_NoDataFire : option bool;
  cfg_NoDataSeverity : option Z;
  cfg_Threshold : option Z;
  cfg_Type : option string;
  cfg_Version : option string;
  cfg_SendResolved : option bool;
  cfg_ConditionConfigID : option N;
  cfg_GroupConfigID : option N;
  cfg_PolicyConfigID : option N;
  cfg_TemplateConfigID : option N;
  cfg_SinkAlerthubConfigID : option N;
  cfg_SinkCmsConfigID : option N;
  cfg_SinkEventStoreConfigID : option N;
  cfg_ConditionConfig : option ConditionConfiguration;
  cfg_GroupConfig : option GroupConfiguration;
  cfg_PolicyConfig : option PolicyConfiguration;
  cfg_TemplateConfig : option TemplateConfiguration;
  cfg_SeverityConfigs : list SeverityConfiguration;
  cfg_JoinConfigs : list JoinConfiguration;
  cfg_SinkAlerthubConfig : option SinkAlerthubConfiguration;
  cfg_SinkCmsConfig : option SinkCmsConfiguration;
  cfg_SinkEventStoreConfig : option SinkEventStoreConfiguration
}.

Definition set_cfg_ID (v : N) (x : AlertConfiguration) : AlertConfiguration :=
  mkAlertConfiguration v (cfg_AlertID x) (cfg_AutoAnnotation x) (cfg_Dashboard
  x) (cfg_MuteUntil x) (cfg_NoDataFire x) (cfg_NoDataSeverity x)
  (cfg_Threshold x) (cfg_Type x) (cfg_Version x) (cfg_SendResolved x)
  (cfg_ConditionConfigID x) (cfg_GroupConfigID x) (cfg_PolicyConfigID x)
  (cfg_TemplateConfigID x) (cfg_SinkAlerthubConfigID x) (cfg_SinkCmsConfigID
  x) (cfg_SinkEventStoreConfigID x) (cfg_ConditionConfig x) (cfg_GroupConfig
  x) (cfg_PolicyConfig x) (cfg_TemplateConfig x) (cfg_SeverityConfigs x)
  (cfg_JoinConfigs x) (cfg_SinkAlerthubConfig x) (cfg_SinkCmsConfig x)
  (cfg_SinkEventStoreConfig x).
Definition set_cfg_AutoAnnotation (v : option bool) (x : AlertConfiguration) : AlertConfiguration :=
  mkAlertConfiguration (cfg_ID x) (cfg_AlertID x) v (cfg_Dashboard x)
  (cfg_MuteUntil x) (cfg_NoDataFire x) (cfg_NoDataSeverity x) (cfg_Threshold
  x) (cfg_Type x) (cfg_Version x) (cfg_SendResolved x) (cfg_ConditionConfigID
  x) (cfg_GroupConfigID x) (cfg_PolicyConfigID x) (cfg_TemplateConfigID x)
  (cfg_SinkAlerthubConfigID x) (cfg_SinkCmsConfigID x)
  (cfg_SinkEventStoreConfigID x) (cfg_ConditionConfig x) (cfg_GroupConfig x)
  (cfg_PolicyConfig x) (cfg_TemplateConfig x) (cfg_SeverityConfigs x)
  (cfg_JoinConfigs x) (cfg_SinkAlerthubConfig x) (cfg_SinkCmsConfig x)
  (cfg_SinkEventStoreConfig x).
Definition set_cfg_Dashboard (v : option string) (x : AlertConfiguration) : AlertConfiguration :=
  mkAlertConfiguration (cfg_ID x) (cfg_AlertID x) (cfg_AutoAnnotation x) v
  (cfg_MuteUntil x) (cfg_NoDataFire x) (cfg_NoDataSeverity x) (cfg_Threshold
  x) (cfg_Type x) (cfg_Version x) (cfg_SendResolved x) (cfg_ConditionConfigID
  x) (cfg_GroupConfigID x) (cfg_PolicyConfigID x) (cfg_TemplateConfigID x)
  (cfg_SinkAlerthubConfigID x) (cfg_SinkCmsConfigID x)
  (cfg_SinkEventStoreConfigID x) (cfg_ConditionConfig x) (cfg_GroupConfig x)
  (cfg_PolicyConfig x) (cfg_TemplateConfig x) (cfg_SeverityConfigs x)
  (cfg_JoinConfigs x) (cfg_SinkAlerthubConfig x) (cfg_SinkCmsConfig x)
  (cfg_SinkEventStoreConfig x).
Definition set_cfg_MuteUntil (v : option Z) (x : AlertConfiguration) : AlertConfiguration :=
  mkAlertConfiguration (cfg_ID x) (cfg_AlertID x) (cfg_AutoAnnotation x)
  (cfg_Dashboard x) v (cfg_NoDataFire x) (cfg_NoDataSeverity x) (cfg_Threshold
  x) (cfg_Type x) (cfg_Version x) (cfg_SendResolved x) (cfg_ConditionConfigID
  x) (cfg_GroupConfigID x) (cfg_PolicyConfigID x) (cfg_TemplateConfigID x)
  (cfg_SinkAlerthubConfigID x) (cfg_SinkCmsConfigID x)
  (cfg_SinkEventStoreConfigID x) (cfg_ConditionConfig x) (cfg_GroupConfig x)
  (cfg_PolicyConfig x) (cfg_TemplateConfig x) (cfg_SeverityConfigs x)
  (cfg_JoinConfigs x) (cfg_SinkAlerthubConfig x) (cfg_SinkCmsConfig x)
  (cfg_SinkEventStoreConfig x).
Definition set_cfg_NoDataFire (v : option bool) (x : AlertConfiguration) : AlertConfiguration :=
  mkAlertConfiguration (cfg_ID x) (cfg_AlertID x) (cfg_AutoAnnotation x)
  (cfg_Dashboard x) (cfg_MuteUntil x) v (cfg_NoDataSeverity x) (cfg_Threshold
  x) (cfg_Type x) (cfg_Version x) (cfg_SendResolved x) (cfg_ConditionConfigID
  x) (cfg_GroupConfigID x) (cfg_PolicyConfigID x) (cfg_TemplateConfigID x)
  (cfg_SinkAlerthubConfigID x) (cfg_SinkCmsConfigID x)
  (cfg_SinkEventStoreConfigID x) (cfg_ConditionConfig x) (cfg_GroupConfig x)
  (cfg_PolicyConfig x) (cfg_TemplateConfig x) (cfg_SeverityConfigs x)
  (cfg_JoinConfigs x) (cfg_SinkAlerthubConfig x) (cfg_SinkCmsConfig x)
  (cfg_SinkEventStoreConfig x).
Definition set_cfg_NoDataSeverity (v : option Z) (x : AlertConfiguration) : AlertConfiguration :=
  mkAlertConfiguration (cfg_ID x) (cfg_AlertID x) (cfg_AutoAnnotation x)
  (cfg_Dashboard x) (cfg_MuteUntil x) (cfg_NoDataFire x) v (cfg_Threshold x)
  (cfg_Type x) (cfg_Version x) (cfg_SendResolved x) (cfg_ConditionConfigID x)
  (cfg_GroupConfigID x) (cfg_PolicyConfigID x) (cfg_TemplateConfigID x)
  (cfg_SinkAlerthubConfigID x) (cfg_SinkCmsConfigID x)
  (cfg_SinkEventStoreConfigID x) (cfg_ConditionConfig x) (cfg_GroupConfig x)
  (cfg_PolicyConfig x) (cfg_TemplateConfig x) (cfg_SeverityConfigs x)
  (cfg_JoinConfigs x) (cfg_SinkAlerthubConfig x) (cfg_SinkCmsConfig x)
  (cfg_SinkEventStoreConfig x).
Definition set_cfg_Threshold (v : option Z) (x : AlertConfiguration) : AlertConfiguration :=
  mkAlertConfiguration (cfg_ID x) (cfg_AlertID x) (cfg_AutoAnnotation x)
  (cfg_Dashboard x) (cfg_MuteUntil x) (cfg_NoDataFire x) (cfg_NoDataSeverity
  x) v (cfg_Type x) (cfg_Version x) (cfg_SendResolved x)
  (cfg_ConditionConfigID x) (cfg_GroupConfigID x) (cfg_PolicyConfigID x)
  (cfg_TemplateConfigID x) (cfg_SinkAlerthubConfigID x) (cfg_SinkCmsConfigID
  x) (cfg_SinkEventStoreConfigID x) (cfg_ConditionConfig x) (cfg_GroupConfig
  x) (cfg_PolicyConfig x) (cfg_TemplateConfig x) (cfg_SeverityConfigs x)
  (cfg_JoinConfigs x) (cfg_SinkAlerthubConfig x) (cfg_SinkCmsConfig x)
  (cfg_SinkEventStoreConfig x).
Definition set_cfg_Type (v : option string) (x : AlertConfiguration) : AlertConfiguration :=
  mkAlertConfiguration (cfg_ID x) (cfg_AlertID x) (cfg_AutoAnnotation x)
  (cfg_Dashboard x) (cfg_MuteUntil x) (cfg_NoDataFire x) (cfg_NoDataSeverity
  x) (cfg_Threshold x) v (cfg_Version x) (cfg_SendResolved x)
  (cfg_ConditionConfigID x) (cfg_GroupConfigID x) (cfg_PolicyConfigID x)
  (cfg_TemplateConfigID x) (cfg_SinkAlerthubConfigID x) (cfg_SinkCmsConfigID
  x) (cfg_SinkEventStoreConfigID x) (cfg_ConditionConfig x) (cfg_GroupConfig
  x) (cfg_PolicyConfig x) (cfg_TemplateConfig x) (cfg_SeverityConfigs x)
  (cfg_JoinConfigs x) (cfg_SinkAlerthubConfig x) (cfg_SinkCmsConfig x)
  (cfg_SinkEventStoreConfig x).
Definition set_cfg_Version (v : option string) (x : AlertConfiguration) : AlertConfiguration :=
  mkAlertConfiguration (cfg_ID x) (cfg_AlertID x) (cfg_AutoAnnotation x)
  (cfg_Dashboard x) (cfg_MuteUntil x) (cfg_NoDataFire x) (cfg_NoDataSeverity
  x) (cfg_Threshold x) (cfg_Type x) v (cfg_SendResolved x)
  (cfg_ConditionConfigID x) (cfg_GroupConfigID x) (cfg_PolicyConfigID x)
  (cfg_TemplateConfigID x) (cfg_SinkAlerthubConfigID x) (cfg_SinkCmsConfigID
  x) (cfg_SinkEventStoreConfigID x) (cfg_ConditionConfig x) (cfg_GroupConfig
  x) (cfg_PolicyConfig x) (cfg_TemplateConfig x) (cfg_SeverityConfigs x)
  (cfg_JoinConfigs x) (cfg_SinkAlerthubConfig x) (cfg_SinkCmsConfig x)
  (cfg_SinkEventStoreConfig x).
Definition set_cfg_SendResolved (v : option bool) (x : AlertConfiguration) : AlertConfiguration :=
  mkAlertConfiguration (cfg_ID x) (cfg_AlertID x) (cfg_AutoAnnotation x)
  (cfg_Dashboard x) (cfg_MuteUntil x) (cfg_NoDataFire x) (cfg_NoDataSeverity
  x) (cfg_Threshold x) (cfg_Type x) (cfg_Version x) v (cfg_ConditionConfigID
  x) (cfg_GroupConfigID x) (cfg_PolicyConfigID x) (cfg_TemplateConfigID x)
  (cfg_SinkAlerthubConfigID x) (cfg_SinkCmsConfigID x)
  (cfg_SinkEventStoreConfigID x) (cfg_ConditionConfig x) (cfg_GroupConfig x)
  (cfg_PolicyConfig x) (cfg_TemplateConfig x) (cfg_SeverityConfigs x)
  (cfg_JoinConfigs x) (cfg_SinkAlerthubConfig x) (cfg_SinkCmsConfig x)
  (cfg_SinkEventStoreConfig x).
Definition set_cfg_ConditionConfigID (v : option N) (x : AlertConfiguration) : AlertConfiguration :=
  mkAlertConfiguration (cfg_ID x) (cfg_AlertID x) (cfg_AutoAnnotation x)
  (cfg_Dashboard x) (cfg_MuteUntil x) (cfg_NoDataFire x) (cfg_NoDataSeverity
  x) (cfg_Threshold x) (cfg_Type x) (cfg_Version x) (cfg_SendResolved x) v
  (cfg_GroupConfigID x) (cfg_PolicyConfigID x) (cfg_TemplateConfigID x)
  (cfg_SinkAlerthubConfigID x) (cfg_SinkCmsConfigID x)
  (cfg_SinkEventStoreConfigID x) (cfg_ConditionConfig x) (cfg_GroupConfig x)
  (cfg_PolicyConfig x) (cfg_TemplateConfig x) (cfg_SeverityConfigs x)
  (cfg_JoinConfigs x) (cfg_SinkAlerthubConfig x) (cfg_SinkCmsConfig x)
  (cfg_SinkEventStoreConfig x).
Definition set_cfg_GroupConfigID (v : option N) (x : AlertConfiguration) : AlertConfiguration :=
  mkAlertConfiguration (cfg_ID x) (cfg_AlertID x) (cfg_AutoAnnotation x)
  (cfg_Dashboard x) (cfg_MuteUntil x) (cfg_NoDataFire x) (cfg_NoDataSeverity
  x) (cfg_Threshold x) (cfg_Type x) (cfg_Version x) (cfg_SendResolved x)
  (cfg_ConditionConfigID x) v (cfg_PolicyConfigID x) (cfg_TemplateConfigID x)
  (cfg_SinkAlerthubConfigID x) (cfg_SinkCmsConfigID x)
  (cfg_SinkEventStoreConfigID x) (cfg_ConditionConfig x) (cfg_GroupConfig x)
  (cfg_PolicyConfig x) (cfg_TemplateConfig x) (cfg_SeverityConfigs x)
  (cfg_JoinConfigs x) (cfg_SinkAlerthubConfig x) (cfg_SinkCmsConfig x)
  (cfg_SinkEventStoreConfig x).
Definition set_cfg_PolicyConfigID (v : option N) (x : AlertConfiguration) : AlertConfiguration :=
  mkAlertConfiguration (cfg_ID x) (cfg_AlertID x) (cfg_AutoAnnotation x)
  (cfg_Dashboard x) (cfg_MuteUntil x) (cfg_NoDataFire x) (cfg_NoDataSeverity
  x) (cfg_Threshold x) (cfg_Type x) (cfg_Version x) (cfg_SendResolved x)
  (cfg_ConditionConfigID x) (cfg_GroupConfigID x) v (cfg_TemplateConfigID x)
  (cfg_SinkAlerthubConfigID x) (cfg_SinkCmsConfigID x)
  (cfg_SinkEventStoreConfigID x) (cfg_ConditionConfig x) (cfg_GroupConfig x)
  (cfg_PolicyConfig x) (cfg_TemplateConfig x) (cfg_SeverityConfigs x)
  (cfg_JoinConfigs x) (cfg_SinkAlerthubConfig x) (cfg_SinkCmsConfig x)
  (cfg_SinkEventStoreConfig x).
Definition set_cfg_TemplateConfigID (v : option N) (x : AlertConfiguration) : AlertConfiguration :=
  mkAlertConfiguration (cfg_ID x) (cfg_AlertID x) (cfg_AutoAnnotation x)
  (cfg_Dashboard x) (cfg_MuteUntil x) (cfg_NoDataFire x) (cfg_NoDataSeverity
  x) (cfg_Threshold x) (cfg_Type x) (cfg_Version x) (cfg_SendResolved x)
  (cfg_ConditionConfigID x) (cfg_GroupConfigID x) (cfg_PolicyConfigID x) v
  (cfg_SinkAlerthubConfigID x) (cfg_SinkCmsConfigID x)
  (cfg_SinkEventStoreConfigID x) (cfg_ConditionConfig x) (cfg_GroupConfig x)
  (cfg_PolicyConfig x) (cfg_TemplateConfig x) (cfg_SeverityConfigs x)
  (cfg_JoinConfigs x) (cfg_SinkAlerthubConfig x) (cfg_SinkCmsConfig x)
  (cfg_SinkEventStoreConfig x).
Definition set_cfg_SinkAlerthubConfigID (v : option N) (x : AlertConfiguration) : AlertConfiguration :=
  mkAlertConfiguration (cfg_ID x) (cfg_AlertID x) (cfg_AutoAnnotation x)
  (cfg_Dashboard x) (cfg_MuteUntil x) (cfg_NoDataFire x) (cfg_NoDataSeverity
  x) (cfg_Threshold x) (cfg_Type x) (cfg_Version x) (cfg_SendResolved x)
  (cfg_ConditionConfigID x) (cfg_GroupConfigID x) (cfg_PolicyConfigID x)
  (cfg_TemplateConfigID x) v (cfg_SinkCmsConfigID x)
  (cfg_SinkEventStoreConfigID x) (cfg_ConditionConfig x) (cfg_GroupConfig x)
  (cfg_PolicyConfig x) (cfg_TemplateConfig x) (cfg_SeverityConfigs x)
  (cfg_JoinConfigs x) (cfg_SinkAlerthubConfig x) (cfg_SinkCmsConfig x)
  (cfg_SinkEventStoreConfig x).
Definition set_cfg_SinkCmsConfigID (v : option N) (x : AlertConfiguration) : AlertConfiguration :=
  mkAlertConfiguration (cfg_ID x) (cfg_AlertID x) (cfg_AutoAnnotation x)
  (cfg_Dashboard x) (cfg_MuteUntil x) (cfg_NoDataFire x) (cfg_NoDataSeverity
  x) (cfg_Threshold x) (cfg_Type x) (cfg_Version x) (cfg_SendResolved x)
  (cfg_ConditionConfigID x) (cfg_GroupConfigID x) (cfg_PolicyConfigID x)
  (cfg_TemplateConfigID x) (cfg_SinkAlerthubConfigID x) v
  (cfg_SinkEventStoreConfigID x) (cfg_ConditionConfig x) (cfg_GroupConfig x)
  (cfg_PolicyConfig x) (cfg_TemplateConfig x) (cfg_SeverityConfigs x)
  (cfg_JoinConfigs x) (cfg_SinkAlerthubConfig x) (cfg_SinkCmsConfig x)
  (cfg_SinkEventStoreConfig x).
Definition set_cfg_SinkEventStoreConfigID (v : option N) (x : AlertConfiguration) : AlertConfiguration :=
  mkAlertConfiguration (cfg_ID x) (cfg_AlertID x) (cfg_AutoAnnotation x)
  (cfg_Dashboard x) (cfg_MuteUntil x) (cfg_NoDataFire x) (cfg_NoDataSeverity
  x) (cfg_Threshold x) (cfg_Type x) (cfg_Version x) (cfg_SendResolved x)
  (cfg_ConditionConfigID x) (cfg_GroupConfigID x) (cfg_PolicyConfigID x)
  (cfg_TemplateConfigID x) (cfg_SinkAlerthubConfigID x) (cfg_SinkCmsConfigID
  x) v (cfg_ConditionConfig x) (cfg_GroupConfig x) (cfg_PolicyConfig x)
  (cfg_TemplateConfig x) (cfg_SeverityConfigs x) (cfg_JoinConfigs x)
  (cfg_SinkAlerthubConfig x) (cfg_SinkCmsConfig x) (cfg_SinkEventStoreConfig
  x).
Definition set_cfg_ConditionConfig (v : option ConditionConfiguration) (x : AlertConfiguration) : AlertConfiguration :=
  mkAlertConfiguration (cfg_ID x) (cfg_AlertID x) (cfg_AutoAnnotation x)
  (cfg_Dashboard x) (cfg_MuteUntil x) (cfg_NoDataFire x) (cfg_NoDataSeverity
  x) (cfg_Threshold x) (cfg_Type x) (cfg_Version x) (cfg_SendResolved x)
  (cfg_ConditionConfigID x) (cfg_GroupConfigID x) (cfg_PolicyConfigID x)
  (cfg_TemplateConfigID x) (cfg_SinkAlerthubConfigID x) (cfg_SinkCmsConfigID
  x) (cfg_SinkEventStoreConfigID x) v (cfg_GroupConfig x) (cfg_PolicyConfig x)
  (cfg_TemplateConfig x) (cfg_SeverityConfigs x) (cfg_JoinConfigs x)
  (cfg_SinkAlerthubConfig x) (cfg_SinkCmsConfig x) (cfg_SinkEventStoreConfig
  x).
Definition set_cfg_GroupConfig (v : option GroupConfiguration) (x : AlertConfiguration) : AlertConfiguration :=
  mkAlertConfiguration (cfg_ID x) (cfg_AlertID x) (cfg_AutoAnnotation x)
  (cfg_Dashboard x) (cfg_MuteUntil x) (cfg_NoDataFire x) (cfg_NoDataSeverity
  x) (cfg_Threshold x) (cfg_Type x) (cfg_Version x) (cfg_SendResolved x)
  (cfg_ConditionConfigID x) (cfg_GroupConfigID x) (cfg_PolicyConfigID x)
  (cfg_TemplateConfigID x) (cfg_SinkAlerthubConfigID x) (cfg_SinkCmsConfigID
  x) (cfg_SinkEventStoreConfigID x) (cfg_ConditionConfig x) v
  (cfg_PolicyConfig x) (cfg_TemplateConfig x) (cfg_SeverityConfigs x)
  (cfg_JoinConfigs x) (cfg_SinkAlerthubConfig x) (cfg_SinkCmsConfig x)
  (cfg_SinkEventStoreConfig x).
Definition set_cfg_PolicyConfig (v : option PolicyConfiguration) (x : AlertConfiguration) : AlertConfiguration :=
  mkAlertConfiguration (cfg_ID x) (cfg_AlertID x) (cfg_AutoAnnotation x)
  (cfg_Dashboard x) (cfg_MuteUntil x) (cfg_NoDataFire x) (cfg_NoDataSeverity
  x) (cfg_Threshold x) (cfg_Type x) (cfg_Version x) (cfg_SendResolved x)
  (cfg_ConditionConfigID x) (cfg_GroupConfigID x) (cfg_PolicyConfigID x)
  (cfg_TemplateConfigID x) (cfg_SinkAlerthubConfigID x) (cfg_SinkCmsConfigID
  x) (cfg_SinkEventStoreConfigID x) (cfg_ConditionConfig x) (cfg_GroupConfig
  x) v (cfg_TemplateConfig x) (cfg_SeverityConfigs x) (cfg_JoinConfigs x)
  (cfg_SinkAlerthubConfig x) (cfg_SinkCmsConfig x) (cfg_SinkEventStoreConfig
  x).
Definition set_cfg_TemplateConfig (v : option TemplateConfiguration) (x : AlertConfiguration) : AlertConfiguration :=
  mkAlertConfiguration (cfg_ID x) (cfg_AlertID x) (cfg_AutoAnnotation x)
  (cfg_Dashboard x) (cfg_MuteUntil x) (cfg_NoDataFire x) (cfg_NoDataSeverity
  x) (cfg_Threshold x) (cfg_Type x) (cfg_Version x) (cfg_SendResolved x)
  (cfg_ConditionConfigID x) (cfg_GroupConfigID x) (cfg_PolicyConfigID x)
  (cfg_TemplateConfigID x) (cfg_SinkAlerthubConfigID x) (cfg_SinkCmsConfigID
  x) (cfg_SinkEventStoreConfigID x) (cfg_ConditionConfig x) (cfg_GroupConfig
  x) (cfg_PolicyConfig x) v (cfg_SeverityConfigs x) (cfg_JoinConfigs x)
  (cfg_SinkAlerthubConfig x) (cfg_SinkCmsConfig x) (cfg_SinkEventStoreConfig
  x).
Definition set_cfg_SeverityConfigs (v : list SeverityConfiguration) (x : AlertConfiguration) : AlertConfiguration :=
  mkAlertConfiguration (cfg_ID x) (cfg_AlertID x) (cfg_AutoAnnotation x)
  (cfg_Dashboard x) (cfg_MuteUntil x) (cfg_NoDataFire x) (cfg_NoDataSeverity
  x) (cfg_Threshold x) (cfg_Type x) (cfg_Version x) (cfg_SendResolved x)
  (cfg_ConditionConfigID x) (cfg_GroupConfigID x) (cfg_PolicyConfigID x)
  (cfg_TemplateConfigID x) (cfg_SinkAlerthubConfigID x) (cfg_SinkCmsConfigID
  x) (cfg_SinkEventStoreConfigID x) (cfg_ConditionConfig x) (cfg_GroupConfig
  x) (cfg_PolicyConfig x) (cfg_TemplateConfig x) v (cfg_JoinConfigs x)
  (cfg_SinkAlerthubConfig x) (cfg_SinkCmsConfig x) (cfg_SinkEventStoreConfig
  x).
Definition set_cfg_JoinConfigs (v : list JoinConfiguration) (x : AlertConfiguration) : AlertConfiguration :=
  mkAlertConfiguration (cfg_ID x) (cfg_AlertID x) (cfg_AutoAnnotation x)
  (cfg_Dashboard x) (cfg_MuteUntil x) (cfg_NoDataFire x) (cfg_NoDataSeverity
  x) (cfg_Threshold x) (cfg_Type x) (cfg_Version x) (cfg_SendResolved x)
  (cfg_ConditionConfigID x) (cfg_GroupConfigID x) (cfg_PolicyConfigID x)
  (cfg_TemplateConfigID x) (cfg_SinkAlerthubConfigID x) (cfg_SinkCmsConfigID
  x) (cfg_SinkEventStoreConfigID x) (cfg_ConditionConfig x) (cfg_GroupConfig
  x) (cfg_PolicyConfig x) (cfg_TemplateConfig x) (cfg_SeverityConfigs x) v
  (cfg_SinkAlerthubConfig x) (cfg_SinkCmsConfig x) (cfg_SinkEventStoreConfig
  x).
Definition set_cfg_SinkAlerthubConfig (v : option SinkAlerthubConfiguration) (x : AlertConfiguration) : AlertConfiguration :=
  mkAlertConfiguration (cfg_ID x) (cfg_AlertID x) (cfg_AutoAnnotation x)
  (cfg_Dashboard x) (cfg_MuteUntil x) (cfg_NoDataFire x) (cfg_NoDataSeverity
  x) (cfg_Threshold x) (cfg_Type x) (cfg_Version x) (cfg_SendResolved x)
  (cfg_ConditionConfigID x) (cfg_GroupConfigID x) (cfg_PolicyConfigID x)
  (cfg_TemplateConfigID x) (cfg_SinkAlerthubConfigID x) (cfg_SinkCmsConfigID
  x) (cfg_SinkEventStoreConfigID x) (cfg_ConditionConfig x) (cfg_GroupConfig
  x) (cfg_PolicyConfig x) (cfg_TemplateConfig x) (cfg_SeverityConfigs x)
  (cfg_JoinConfigs x) v (cfg_SinkCmsConfig x) (cfg_SinkEventStoreConfig x).
Definition set_cfg_SinkCmsConfig (v : option SinkCmsConfiguration) (x : AlertConfiguration) : AlertConfiguration :=
  mkAlertConfiguration (cfg_ID x) (cfg_AlertID x) (cfg_AutoAnnotation x)
  (cfg_Dashboard x) (cfg_MuteUntil x) (cfg_NoDataFire x) (cfg_NoDataSeverity
  x) (cfg_Threshold x) (cfg_Type x) (cfg_Version x) (cfg_SendResolved x)
  (cfg_ConditionConfigID x) (cfg_GroupConfigID x) (cfg_PolicyConfigID x)
  (cfg_TemplateConfigID x) (cfg_SinkAlerthubConfigID x) (cfg_SinkCmsConfigID
  x) (cfg_SinkEventStoreConfigID x) (cfg_ConditionConfig x) (cfg_GroupConfig
  x) (cfg_PolicyConfig x) (cfg_TemplateConfig x) (cfg_SeverityConfigs x)
  (cfg_JoinConfigs x) (cfg_SinkAlerthubConfig x) v (cfg_SinkEventStoreConfig
  x).
Definition set_cfg_SinkEventStoreConfig (v : option SinkEventStoreConfiguration) (x : AlertConfiguration) : AlertConfiguration :=
  mkAlertConfiguration (cfg_ID x) (cfg_AlertID x) (cfg_AutoAnnotation x)
  (cfg_Dashboard x) (cfg_MuteUntil x) (cfg_NoDataFire x) (cfg_NoDataSeverity
  x) (cfg_Threshold x) (cfg_Type x) (cfg_Version x) (cfg_SendResolved x)
  (cfg_ConditionConfigID x) (cfg_GroupConfigID x) (cfg_PolicyConfigID x)
  (cfg_TemplateConfigID x) (cfg_SinkAlerthubConfigID x) (cfg_SinkCmsConfigID
  x) (cfg_SinkEventStoreConfigID x) (cfg_ConditionConfig x) (cfg_GroupConfig
  x) (cfg_PolicyConfig x) (cfg_TemplateConfig x) (cfg_SeverityConfigs x)
  (cfg_JoinConfigs x) (cfg_SinkAlerthubConfig x) (cfg_SinkCmsConfig x) v.

Record AlertSchedule : Type := mkAlertSchedule {
  sch_ID : N;
  sch_AlertID : N;
  sch_CronExpression : option string;
  sch_Delay : option Z;
  sch_Interval : option string;
  sch_RunImmediately : option bool;
  sch_TimeZone : option string;
  sch_Type : string
}.

Definition set_sch_ID (v : N) (x : AlertSchedule) : AlertSchedule :=
  mkAlertSchedule v (sch_AlertID x) (sch_CronExpression x) (sch_Delay x)
  (sch_Interval x) (sch_RunImmediately x) (sch_TimeZone x) (sch_Type x).
Definition set_sch_RunImmediately (v : option bool) (x : AlertSchedule) : AlertSchedule :=
  mkAlertSchedule (sch_ID x) (sch_AlertID x) (sch_CronExpression x) (sch_Delay
  x) (sch_Interval x) v (sch_TimeZone x) (sch_Type x).

Record AlertTag : Type := mkAlertTag {
  tag_ID : N;
  tag_AlertID : N;
  tag_TagType : string;
  tag_TagKey : string;
  tag_TagValue : option string
}.

Definition set_tag_ID (v : N) (x : AlertTag) : AlertTag :=
  mkAlertTag v (tag_AlertID x) (tag_TagType x) (tag_TagKey x) (tag_TagValue
  x).

Record AlertQuery : Type := mkAlertQuery {
  q_ID : N;
  q_AlertID : N;
  q_ChartTitle : option string;
  q_DashboardId : option string;
  q_End : option string;
  q_PowerSqlMode : option string;
  q_Project : option string;
  q_Query : string;
  q_Region : option string;
  q_RoleArn : option string;
  q_Start : option string;
  q_Store : option string;
  q_StoreType : option string;
  q_TimeSpanType : option string;
  q_Ui : option string
}.

Definition set_q_ID (v : N) (x : AlertQuery) : AlertQuery :=
  mkAlertQuery v (q_AlertID x) (q_ChartTitle x) (q_DashboardId x) (q_End x)
  (q_PowerSqlMode x) (q_Project x) (q_Query x) (q_Region x) (q_RoleArn x)
  (q_Start x) (q_Store x) (q_StoreType x) (q_TimeSpanType x) (q_Ui x).

Record Alert : Type := mkAlert {
  a_ID : N;
  a_Name : string;
  a_DisplayName : string;
  a_Description : option string;
  a_Status : string;
  a_CreateTime : option Z;
  a_LastModifiedTime : option Z;
  a_ConfigurationID : option N;
  a_ScheduleID : option N;
  a_CreatedAt : Z;
  a_Configuration : option AlertConfiguration;
  a_Schedule : option AlertSchedule;
  a_Tags : list AlertTag;
  a_Queries : list AlertQuery
}.

Definition set_a_ID (v : N) (x : Alert) : Alert :=
  mkAlert v (a_Name x) (a_DisplayName x) (a_Description x) (a_Status x)
  (a_CreateTime x) (a_LastModifiedTime x) (a_ConfigurationID x) (a_ScheduleID
  x) (a_CreatedAt x) (a_Configuration x) (a_Schedule x) (a_Tags x) (a_Queries
  x).
Definition set_a_DisplayName (v : string) (x : Alert) : Alert :=
  mkAlert (a_ID x) (a_Name x) v (a_Description x) (a_Status x) (a_CreateTime
  x) (a_LastModifiedTime x) (a_ConfigurationID x) (a_ScheduleID x)
  (a_CreatedAt x) (a_Configuration x) (a_Schedule x) (a_Tags x) (a_Queries x).
Definition set_a_Description (v : option string) (x : Alert) : Alert :=
  mkAlert (a_ID x) (a_Name x) (a_DisplayName x) v (a_Status x) (a_CreateTime
  x) (a_LastModifiedTime x) (a_ConfigurationID x) (a_ScheduleID x)
  (a_CreatedAt x) (a_Configuration x) (a_Schedule x) (a_Tags x) (a_Queries x).
Definition set_a_Status (v : string) (x : Alert) : Alert :=
  mkAlert (a_ID x) (a_Name x) (a_DisplayName x) (a_Description x) v
  (a_CreateTime x) (a_LastModifiedTime x) (a_ConfigurationID x) (a_ScheduleID
  x) (a_CreatedAt x) (a_Configuration x) (a_Schedule x) (a_Tags x) (a_Queries
  x).
Definition set_a_LastModifiedTime (v : option Z) (x : Alert) : Alert :=
  mkAlert (a_ID x) (a_Name x) (a_DisplayName x) (a_Description x) (a_Status x)
  (a_CreateTime x) v (a_ConfigurationID x) (a_ScheduleID x) (a_CreatedAt x)
  (a_Configuration x) (a_Schedule x) (a_Tags x) (a_Queries x).
Definition set_a_ConfigurationID (v : option N) (x : Alert) : Alert :=
  mkAlert (a_ID x) (a_Name x) (a_DisplayName x) (a_Description x) (a_Status x)
  (a_CreateTime x) (a_LastModifiedTime x) v (a_ScheduleID x) (a_CreatedAt x)
  (a_Configuration x) (a_Schedule x) (a_Tags x) (a_Queries x).
Definition set_a_ScheduleID (v : option N) (x : Alert) : Alert :=
  mkAlert (a_ID x) (a_Name x) (a_DisplayName x) (a_Description x) (a_Status x)
  (a_CreateTime x) (a_LastModifiedTime x) (a_ConfigurationID x) v (a_CreatedAt
  x) (a_Configuration x) (a_Schedule x) (a_Tags x) (a_Queries x).
Definition set_a_CreatedAt (v : Z) (x : Alert) : Alert :=
  mkAlert (a_ID x) (a_Name x) (a_DisplayName x) (a_Description x) (a_Status x)
  (a_CreateTime x) (a_LastModifiedTime x) (a_ConfigurationID x) (a_ScheduleID
  x) v (a_Configuration x) (a_Schedule x) (a_Tags x) (a_Queries x).
Definition set_a_Configuration (v : option AlertConfiguration) (x : Alert) : Alert :=
  mkAlert (a_ID x) (a_Name x) (a_DisplayName x) (a_Description x) (a_Status x)
  (a_CreateTime x) (a_LastModifiedTime x) (a_ConfigurationID x) (a_ScheduleID
  x) (a_CreatedAt x) v (a_Schedule x) (a_Tags x) (a_Queries x).
Definition set_a_Schedule (v : option AlertSchedule) (x : Alert) : Alert :=
  mkAlert (a_ID x) (a_Name x) (a_DisplayName x) (a_Description x) (a_Status x)
  (a_CreateTime x) (a_LastModifiedTime x) (a_ConfigurationID x) (a_ScheduleID
  x) (a_CreatedAt x) (a_Configuration x) v (a_Tags x) (a_Queries x).
Definition set_a_Tags (v : list AlertTag) (x : Alert) : Alert :=
  mkAlert (a_ID x) (a_Name x) (a_DisplayName x) (a_Description x) (a_Status x)
  (a_CreateTime x) (a_LastModifiedTime x) (a_ConfigurationID x) (a_ScheduleID
  x) (a_CreatedAt x) (a_Configuration x) (a_Schedule x) v (a_Queries x).
Definition set_a_Queries (v : list AlertQuery) (x : Alert) : Alert :=
  mkAlert (a_ID x) (a_Name x) (a_DisplayName x) (a_Description x) (a_Status x)
  (a_CreateTime x) (a_LastModifiedTime x) (a_ConfigurationID x) (a_ScheduleID
  x) (a_CreatedAt x) (a_Configuration x) (a_Schedule x) (a_Tags x) v.

End models.
Export models.

(** ** The relational store

    One table per model, each with its rows (in insertion order) and its
    auto-increment counter.  The [journal] records every statement issued
    against the store, in order; its length is the sequence number of the
    next statement. *)

Module database.

Record Table (R : Type) : Type := mkTable {
  rows : list R;
  next_id : N
}.
Arguments mkTable {R} _ _.
Arguments rows {R} _.
Arguments next_id {R} _.

Inductive Verb : Type := INSERT | UPDATE | DELETE | SELECT.

Inductive Statement : Type :=
| BEGIN
| COMMIT
| ROLLBACK
| SQL (v : Verb) (table_name : string).

Record DB : Type := mkDB {
  alerts : Table Alert;
  alert_configurations : Table AlertConfiguration;
  alert_schedules : Table AlertSchedule;
  alert_tags : Table AlertTag;
  alert_queries : Table AlertQuery;
  condition_configurations : Table ConditionConfiguration;
  group_configurations : Table GroupConfiguration;
  policy_configurations : Table PolicyConfiguration;
  template_configurations : Table TemplateConfiguration;
  severity_configurations : Table SeverityConfiguration;
  join_configurations : Table JoinConfiguration;
  sink_alerthub_configurations : Table SinkAlerthubConfiguration;
  sink_cms_configurations : Table SinkCmsConfiguration;
  sink_event_store_configurations : Table SinkEventStoreConfiguration;
  journal : list Statement
}.

Definition with_alerts (v : Table Alert) (d : DB) : DB :=
  mkDB v (alert_configurations d) (alert_schedules d) (alert_tags d)
  (alert_queries d) (condition_configurations d) (group_configurations d)
  (policy_configurations d) (template_configurations d)
  (severity_configurations d) (join_configurations d)
  (sink_alerthub_configurations d) (sink_cms_configurations d)
  (sink_event_store_configurations d) (journal d).
Definition with_alert_configurations (v : Table AlertConfiguration) (d : DB) : DB :=
  mkDB (alerts d) v (alert_schedules d) (alert_tags d) (alert_queries d)
  (condition_configurations d) (group_configurations d) (policy_configurations
  d) (template_configurations d) (severity_configurations d)
  (join_configurations d) (sink_alerthub_configurations d)
  (sink_cms_configurations d) (sink_event_store_configurations d) (journal d).
Definition with_alert_schedules (v : Table AlertSchedule) (d : DB) : DB :=
  mkDB (alerts d) (alert_configurations d) v (alert_tags d) (alert_queries d)
  (condition_configurations d) (group_configurations d) (policy_configurations
  d) (template_configurations d) (severity_configurations d)
  (join_configurations d) (sink_alerthub_configurations d)
  (sink_cms_configurations d) (sink_event_store_configurations d) (journal d).
Definition with_alert_tags (v : Table AlertTag) (d : DB) : DB :=
  mkDB (alerts d) (alert_configurations d) (alert_schedules d) v
  (alert_queries d) (condition_configurations d) (group_configurations d)
  (policy_configurations d) (template_configurations d)
  (severity_configurations d) (join_configurations d)
  (sink_alerthub_configurations d) (sink_cms_configurations d)
  (sink_event_store_configurations d) (journal d).
Definition with_alert_queries (v : Table AlertQuery) (d : DB) : DB :=
  mkDB (alerts d) (alert_configurations d) (alert_schedules d) (alert_tags d)
  v (condition_configurations d) (group_configurations d)
  (policy_configurations d) (template_configurations d)
  (severity_configurations d) (join_configurations d)
  (sink_alerthub_configurations d) (sink_cms_configurations d)
  (sink_event_store_configurations d) (journal d).
Definition with_condition_configurations (v : Table ConditionConfiguration) (d : DB) : DB :=
  mkDB (alerts d) (alert_configurations d) (alert_schedules d) (alert_tags d)
  (alert_queries d) v (group_configurations d) (policy_configurations d)
  (template_configurations d) (severity_configurations d) (join_configurations
  d) (sink_alerthub_configurations d) (sink_cms_configurations d)
  (sink_event_store_configurations d) (journal d).
Definition with_group_configurations (v : Table GroupConfiguration) (d : DB) : DB :=
  mkDB (alerts d) (alert_configurations d) (alert_schedules d) (alert_tags d)
  (alert_queries d) (condition_configurations d) v (policy_configurations d)
  (template_configurations d) (severity_configurations d) (join_configurations
  d) (sink_alerthub_configurations d) (sink_cms_configurations d)
  (sink_event_store_configurations d) (journal d).
Definition with_policy_configurations (v : Table PolicyConfiguration) (d : DB) : DB :=
  mkDB (alerts d) (alert_configurations d) (alert_schedules d) (alert_tags d)
  (alert_queries d) (condition_configurations d) (group_configurations d) v
  (template_configurations d) (severity_configurations d) (join_configurations
  d) (sink_alerthub_configurations d) (sink_cms_configurations d)
  (sink_event_store_configurations d) (journal d).
Definition with_template_configurations (v : Table TemplateConfiguration) (d : DB) : DB :=
  mkDB (alerts d) (alert_configurations d) (alert_schedules d) (alert_tags d)
  (alert_queries d) (condition_configurations d) (group_configurations d)
  (policy_configurations d) v (severity_configurations d) (join_configurations
  d) (sink_alerthub_configurations d) (sink_cms_configurations d)
  (sink_event_store_configurations d) (journal d).
Definition with_severity_configurations (v : Table SeverityConfiguration) (d : DB) : DB :=
  mkDB (alerts d) (alert_configurations d) (alert_schedules d) (alert_tags d)
  (alert_queries d) (condition_configurations d) (group_configurations d)
  (policy_configurations d) (template_configurations d) v (join_configurations
  d) (sink_alerthub_configurations d) (sink_cms_configurations d)
  (sink_event_store_configurations d) (journal d).
Definition with_join_configurations (v : Table JoinConfiguration) (d : DB) : DB :=
  mkDB (alerts d) (alert_configurations d) (alert_schedules d) (alert_tags d)
  (alert_queries d) (condition_configurations d) (group_configurations d)
  (policy_configurations d) (template_configurations d)
  (severity_configurations d) v (sink_alerthub_configurations d)
  (sink_cms_configurations d) (sink_event_store_configurations d) (journal d).
Definition with_sink_alerthub_configurations (v : Table SinkAlerthubConfiguration) (d : DB) : DB :=
  mkDB (alerts d) (alert_configurations d) (alert_schedules d) (alert_tags d)
  (alert_queries d) (condition_configurations d) (group_configurations d)
  (policy_configurations d) (template_configurations d)
  (severity_configurations d) (join_configurations d) v
  (sink_cms_configurations d) (sink_event_store_configurations d) (journal d).
Definition with_sink_cms_configurations (v : Table SinkCmsConfiguration) (d : DB) : DB :=
  mkDB (alerts d) (alert_configurations d) (alert_schedules d) (alert_tags d)
  (alert_queries d) (condition_configurations d) (group_configurations d)
  (policy_configurations d) (template_configurations d)
  (severity_configurations d) (join_configurations d)
  (sink_alerthub_configurations d) v (sink_event_store_configurations d)
  (journal d).
Definition with_sink_event_store_configurations (v : Table SinkEventStoreConfiguration) (d : DB) : DB :=
  mkDB (alerts d) (alert_configurations d) (alert_schedules d) (alert_tags d)
  (alert_queries d) (condition_configurations d) (group_configurations d)
  (policy_configurations d) (template_configurations d)
  (severity_configurations d) (join_configurations d)
  (sink_alerthub_configurations d) (sink_cms_configurations d) v (journal d).
Definition with_journal (v : list Statement) (d : DB) : DB :=
  mkDB (alerts d) (alert_configurations d) (alert_schedules d) (alert_tags d)
  (alert_queries d) (condition_configurations d) (group_configurations d)
  (policy_configurations d) (template_configurations d)
  (severity_configurations d) (join_configurations d)
  (sink_alerthub_configurations d) (sink_cms_configurations d)
  (sink_event_store_configurations d) v.

Definition empty_table {R : Type} : Table R := mkTable [] 1.

(** The store right after [AutoMigrate]: every table exists and is empty. *)
Definition empty_db : DB :=
  mkDB empty_table empty_table empty_table empty_table empty_table
       empty_table empty_table empty_table empty_table empty_table
       empty_table empty_table empty_table empty_table [].

(** What lies outside the program: which statements the storage backend
    rejects (connection loss, constraint violations that the Go code does
    not check itself, ...), indexed by statement sequence number, and the
    wall clock read by [autoCreateTime]. *)
Record Env : Type := mkEnv {
  fails : nat -> bool;
  now : nat -> Z
}.

Definition healthy : Env := mkEnv (fun _ => false) (fun n => Z.of_nat n).

(** A backend that rejects exactly the [k]-th statement. *)
Definition failing_at (k : nat) : Env :=
  mkEnv (fun n => Nat.eqb n k) (fun n => Z.of_nat n).

End database.
Export database.

(** ** GORM: errors, the transaction monad, and the statements the store uses *)

Module gorm.

(** Go [error] values.  [Errorf msg e] is [fmt.Errorf(msg + ": %w", e)],
    [ErrorNew msg] is [fmt.Errorf(msg)] without a cause. *)
Inductive error : Type :=
| ErrRecordNotFound
| ErrDuplicatedKey
| ErrEmptySlice
| ErrStorage (seq : nat)
| ErrorNew (msg : string)
| Errorf (msg : string) (cause : error).

(** [err.Error()] *)
Fixpoint Error (e : error) : string :=
  match e with
  | ErrRecordNotFound => "record not found"
  | ErrDuplicatedKey => "duplicated key not allowed"
  | ErrEmptySlice => "empty slice found"
  | ErrStorage _ => "storage failure"
  | ErrorNew msg => msg
  | Errorf msg cause => String.append msg (String.append ": " (Error cause))
  end.

Inductive result (A : Type) : Type :=
| Ok (a : A)
| Err (e : error).
Arguments Ok {A} _.
Arguments Err {A} _.

(** A computation against a [*gorm.DB] handle: it threads the store and
    stops at the first error, as the Go code does with
    [if err != nil { return ... }]. *)
Definition Tx (A : Type) : Type := DB -> result A * DB.

Definition ret {A : Type} (a : A) : Tx A := fun d => (Ok a, d).

Definition throw {A : Type} (e : error) : Tx A := fun d => (Err e, d).

Definition bind {A B : Type} (m : Tx A) (k : A -> Tx B) : Tx B :=
  fun d =>
    match m d with
    | (Ok a, d') => k a d'
    | (Err e, d') => (Err e, d')
    end.

(** [if err := m; err != nil { return fmt.Errorf(msg + ": %w", err) }] *)
Definition wrap {A : Type} (msg : string) (m : Tx A) : Tx A :=
  fun d =>
    match m d with
    | (Ok a, d') => (Ok a, d')
    | (Err e, d') => (Err (Errorf msg e), d')
    end.

(** Run [m] and hand its outcome to the caller instead of returning early. *)
Definition attempt {A : Type} (m : Tx A) : Tx (result A) :=
  fun d => let (r, d') := m d in (Ok r, d').

Declare Scope tx_scope.
Delimit Scope tx_scope with tx.
Notation "x <- m ;; k" := (bind m (fun x => k))
  (at level 61, m at next level, right associativity) : tx_scope.
Notation "m ;;; k" := (bind m (fun _ => k))
  (at level 61, right associativity) : tx_scope.
Notation "m 'orelse' msg" := (wrap msg m)
  (at level 50, left associativity) : tx_scope.
Local Open Scope tx_scope.

(** What GORM needs to know about a model: its table, its primary key, the
    part of the struct that is a row ([columns] drops the association
    fields), the values GORM fills in before an INSERT (column defaults for
    zero values declared with [default:], [autoCreateTime]), and the unique
    indexes besides the primary key. *)
Class Model (R : Type) : Type := {
  TableName : string;
  table : DB -> Table R;
  with_table : Table R -> DB -> DB;
  pk : R -> N;
  with_pk : N -> R -> R;
  columns : R -> R;
  before_create : Z -> R -> R;
  unique_ok : list R -> R -> bool
}.

(** Issue a statement: it is journalled, and the backend may reject it. *)
Definition exec (env : Env) (s : Statement) : Tx unit :=
  fun d =>
    let n := List.length (journal d) in
    let d' := with_journal (journal d ++ [s]) d in
    if fails env n then (Err (ErrStorage n), d') else (Ok tt, d').

Section Statements.
Context {R : Type} `{Model R}.
Variable env : Env.

(** INSERT of one row.  A zero primary key takes the next auto-increment
    value; a non-zero one is inserted as given and must be unused. *)
Definition insert_row (r : R) (t : Table R) : result (R * Table R) :=
  if negb (unique_ok (rows t) r) then Err ErrDuplicatedKey
  else if pk r =? 0 then
    let r' := with_pk (next_id t) r in
    Ok (r', mkTable (rows t ++ [columns r']) (N.succ (next_id t)))
  else if existsb (fun x => pk x =? pk r) (rows t) then Err ErrDuplicatedKey
  else Ok (r, mkTable (rows t ++ [columns r])
                      (N.max (next_id t) (N.succ (pk r)))).

Fixpoint insert_rows (rs : list R) (t : Table R) : result (list R * Table R) :=
  match rs with
  | [] => Ok ([], t)
  | r :: rs' =>
      match insert_row r t with
      | Err e => Err e
      | Ok (r', t') =>
          match insert_rows rs' t' with
          | Err e => Err e
          | Ok (rs'', t'') => Ok (r' :: rs'', t'')
          end
      end
  end.

(** [tx.Create(&row)]: returns the struct with its identity filled in. *)
Definition Create (r : R) : Tx R :=
  fun d =>
    let n := List.length (journal d) in
    match exec env (SQL INSERT TableName) d with
    | (Err e, d') => (Err e, d')
    | (Ok _, d') =>
        match insert_row (before_create (now env n) r) (table d') with
        | Err e => (Err e, d')
        | Ok (r', t') => (Ok r', with_table t' d')
        end
    end.

(** [tx.Create(&slice)]: one multi-row INSERT. *)
Definition CreateSlice (rs : list R) : Tx (list R) :=
  match rs with
  | [] => throw ErrEmptySlice
  | _ =>
      fun d =>
        let n := List.length (journal d) in
        match exec env (SQL INSERT TableName) d with
        | (Err e, d') => (Err e, d')
        | (Ok _, d') =>
            match insert_rows (map (before_create (now env n)) rs) (table d') with
            | Err e => (Err e, d')
            | Ok (rs', t') => (Ok rs', with_table t' d')
            end
        end
  end.

(** [tx.Where(cond).Delete(&R{})] *)
Definition Delete (cond : R -> bool) : Tx unit :=
  exec env (SQL DELETE TableName) ;;;
  fun d =>
    let t := table d in
    (Ok tt, with_table (mkTable (filter (fun r => negb (cond r)) (rows t))
                                (next_id t)) d).

(** [tx.Model(&R{}).Where(cond).Updates(map)]: [assign] writes the
    columns named in the map. *)
Definition Updates (cond : R -> bool) (assign : R -> R) : Tx unit :=
  exec env (SQL UPDATE TableName) ;;;
  fun d =>
    let t := table d in
    (Ok tt, with_table (mkTable (map (fun r => if cond r then assign r else r)
                                     (rows t))
                                (next_id t)) d).

(** The row with the least primary key. *)
Fixpoint least (l : list R) : option R :=
  match l with
  | [] => None
  | r :: l' =>
      match least l' with
      | None => Some r
      | Some m => if pk r <=? pk m then Some r else Some m
      end
  end.

(** [tx.Model(&R{}).Where(cond).First(&dest)]: ordered by primary key. *)
Definition First (cond : R -> bool) : Tx R :=
  exec env (SQL SELECT TableName) ;;;
  fun d =>
    match least (filter cond (rows (table d))) with
    | Some r => (Ok r, d)
    | None => (Err ErrRecordNotFound, d)
    end.
End Statements.

(** The rows of [old] under the counters and journal of [cur]: what a
    rollback leaves (auto-increment values handed out inside the
    transaction are not given back). *)
Definition restore (R : Type) (old cur : Table R) : Table R :=
  mkTable (rows old) (next_id cur).
Arguments restore {R} _ _.

Definition rollback (old cur : DB) : DB :=
  mkDB (restore (alerts old) (alerts cur))
       (restore (alert_configurations old) (alert_configurations cur))
       (restore (alert_schedules old) (alert_schedules cur))
       (restore (alert_tags old) (alert_tags cur))
       (restore (alert_queries old) (alert_queries cur))
       (restore (condition_configurations old) (condition_configurations cur))
       (restore (group_configurations old) (group_configurations cur))
       (restore (policy_configurations old) (policy_configurations cur))
       (restore (template_configurations old) (template_configurations cur))
       (restore (severity_configurations old) (severity_configurations cur))
       (restore (join_configurations old) (join_configurations cur))
       (restore (sink_alerthub_configurations old) (sink_alerthub_configurations cur))
       (restore (sink_cms_configurations old) (sink_cms_configurations cur))
       (restore (sink_event_store_configurations old)
                (sink_event_store_configurations cur))
       (journal cur ++ [ROLLBACK]).

(** [db.Transaction(func(tx *gorm.DB) error { ... })]: BEGIN, run the
    closure, COMMIT if it returned nil, otherwise (or when COMMIT fails)
    ROLLBACK and return the error. *)
Definition Transaction {A : Type} (env : Env) (fc : Tx A) : Tx A :=
  fun d =>
    match exec env BEGIN d with
    | (Err e, d1) => (Err e, d1)
    | (Ok _, d1) =>
        match fc d1 with
        | (Err e, d2) => (Err e, rollback d d2)
        | (Ok a, d2) =>
            match exec env COMMIT d2 with
            | (Err e, d3) => (Err e, rollback d d3)
            | (Ok _, d3) => (Ok a, d3)
            end
        end
    end.

End gorm.
Export gorm.
Local Open Scope tx_scope.

(** ** The schema: how each model maps onto its table

    Table names are those returned by the [TableName] methods; defaults and
    the unique index on [alerts.name] are those of the [gorm:"..."] tags. *)

Module schema.

(** [gorm:"type:boolean;default:false"] on a [*bool]: a nil pointer is a zero
    value, so the INSERT stores the declared default. *)
Definition default_false (o : option bool) : option bool :=
  match o with
  | None => Some false
  | Some b => Some b
  end.

(** [gorm:"type:varchar(50);default:'ENABLED'"] *)
Definition default_status (s : string) : string :=
  if String.eqb s EmptyString then "ENABLED" else s.

(** [gorm:"autoCreateTime"] *)
Definition auto_create_time (t : Z) (created_at : Z) : Z :=
  if Z.eqb created_at 0 then t else created_at.

#[global] Instance Alert_Model : Model Alert := {|
  TableName := "alerts";
  table := alerts;
  with_table := with_alerts;
  pk := a_ID;
  with_pk := set_a_ID;
  columns := fun a => set_a_Configuration None (set_a_Schedule None
               (set_a_Tags [] (set_a_Queries [] a)));
  before_create := fun t a =>
    set_a_Status (default_status (a_Status a))
      (set_a_CreatedAt (auto_create_time t (a_CreatedAt a)) a);
  unique_ok := fun rs a =>
    negb (existsb (fun r => String.eqb (a_Name r) (a_Name a)) rs)
|}.

#[global] Instance AlertConfiguration_Model : Model AlertConfiguration := {|
  TableName := "alert_configurations";
  table := alert_configurations;
  with_table := with_alert_configurations;
  pk := cfg_ID;
  with_pk := set_cfg_ID;
  columns := fun c =>
    set_cfg_ConditionConfig None (set_cfg_GroupConfig None
      (set_cfg_PolicyConfig None (set_cfg_TemplateConfig None
        (set_cfg_SeverityConfigs [] (set_cfg_JoinConfigs []
          (set_cfg_SinkAlerthubConfig None (set_cfg_SinkCmsConfig None
            (set_cfg_SinkEventStoreConfig None c))))))));
  before_create := fun _ c =>
    set_cfg_AutoAnnotation (default_false (cfg_AutoAnnotation c))
      (set_cfg_NoDataFire (default_false (cfg_NoDataFire c))
        (set_cfg_SendResolved (default_false (cfg_SendResolved c)) c));
  unique_ok := fun _ _ => true
|}.

#[global] Instance AlertSchedule_Model : Model AlertSchedule := {|
  TableName := "alert_schedules";
  table := alert_schedules;
  with_table := with_alert_schedules;
  pk := sch_ID;
  with_pk := set_sch_ID;
  columns := fun s => s;
  before_create := fun _ s =>
    set_sch_RunImmediately (default_false (sch_RunImmediately s)) s;
  unique_ok := fun _ _ => true
|}.

#[global] Instance AlertTag_Model : Model AlertTag := {|
  TableName := "alert_tags";
  table := alert_tags;
  with_table := with_alert_tags;
  pk := tag_ID;
  with_pk := set_tag_ID;
  columns := fun t => t;
  before_create := fun _ t => t;
  unique_ok := fun _ _ => true
|}.

#[global] Instance AlertQuery_Model : Model AlertQuery := {|
  TableName := "alert_queries";
  table := alert_queries;
  with_table := with_alert_queries;
  pk := q_ID;
  with_pk := set_q_ID;
  columns := fun q => q;
  before_create := fun _ q => q;
  unique_ok := fun _ _ => true
|}.

#[global] Instance ConditionConfiguration_Model : Model ConditionConfiguration := {|
  TableName := "condition_configurations";
  table := condition_configurations;
  with_table := with_condition_configurations;
  pk := cond_ID;
  with_pk := set_cond_ID;
  columns := fun c => c;
  before_create := fun _ c => c;
  unique_ok := fun _ _ => true
|}.

#[global] Instance GroupConfiguration_Model : Model GroupConfiguration := {|
  TableName := "group_configurations";
  table := group_configurations;
  with_table := with_group_configurations;
  pk := grp_ID;
  with_pk := set_grp_ID;
  columns := fun c => c;
  before_create := fun _ c => c;
  unique_ok := fun _ _ => true
|}.

#[global] Instance PolicyConfiguration_Model : Model PolicyConfiguration := {|
  TableName := "policy_configurations";
  table := policy_configurations;
  with_table := with_policy_configurations;
  pk := pol_ID;
  with_pk := set_pol_ID;
  columns := fun c => c;
  before_create := fun _ c => c;
  unique_ok := fun _ _ => true
|}.

#[global] Instance TemplateConfiguration_Model : Model TemplateConfiguration := {|
  TableName := "template_configurations";
  table := template_configurations;
  with_table := with_template_configurations;
  pk := tpl_ID;
  with_pk := set_tpl_ID;
  columns := fun c => c;
  before_create := fun _ c => c;
  unique_ok := fun _ _ => true
|}.

#[global] Instance SeverityConfiguration_Model : Model SeverityConfiguration := {|
  TableName := "severity_configurations";
  table := severity_configurations;
  with_table := with_severity_configurations;
  pk := sev_ID;
  with_pk := set_sev_ID;
  columns := set_sev_EvalCondition None;
  before_create := fun _ c => c;
  unique_ok := fun _ _ => true
|}.

#[global] Instance JoinConfiguration_Model : Model JoinConfiguration := {|
  TableName := "join_configurations";
  table := join_configurations;
  with_table := with_join_configurations;
  pk := join_ID;
  with_pk := set_join_ID;
  columns := fun c => c;
  before_create := fun _ c => c;
  unique_ok := fun _ _ => true
|}.

#[global] Instance SinkAlerthubConfiguration_Model : Model SinkAlerthubConfiguration := {|
  TableName := "sink_alerthub_configurations";
  table := sink_alerthub_configurations;
  with_table := with_sink_alerthub_configurations;
  pk := hub_ID;
  with_pk := set_hub_ID;
  columns := fun c => c;
  before_create := fun _ c => set_hub_Enabled (default_false (hub_Enabled c)) c;
  unique_ok := fun _ _ => true
|}.

#[global] Instance SinkCmsConfiguration_Model : Model SinkCmsConfiguration := {|
  TableName := "sink_cms_configurations";
  table := sink_cms_configurations;
  with_table := with_sink_cms_configurations;
  pk := cms_ID;
  with_pk := set_cms_ID;
  columns := fun c => c;
  before_create := fun _ c => set_cms_Enabled (default_false (cms_Enabled c)) c;
  unique_ok := fun _ _ => true
|}.

#[global] Instance SinkEventStoreConfiguration_Model : Model SinkEventStoreConfiguration := {|
  TableName := "sink_event_store_configurations";
  table := sink_event_store_configurations;
  with_table := with_sink_event_store_configurations;
  pk := es_ID;
  with_pk := set_es_ID;
  columns := fun c => c;
  before_create := fun _ c => set_es_Enabled (default_false (es_Enabled c)) c;
  unique_ok := fun _ _ => true
|}.

End schema.
Export schema.

(** ** [internal/store/alert_store.go] *)

Module store.

(** *** Queries

    Reads are rendered by their query semantics on the current rows.  A
    [belongs to] association is fetched through the foreign key held by the
    owner, a [has many] association through the foreign key held by the
    children, as declared by the [gorm:"foreignKey:..."] tags. *)

Section Preload.
Context {R : Type} `{Model R}.

Definition lookup (id : N) (d : DB) : option R :=
  least (filter (fun r => pk r =? id) (rows (table d))).

Definition belongs_to (fk : option N) (d : DB) : option R :=
  match fk with
  | None => None
  | Some id => lookup id d
  end.

Definition has_many (owner : R -> N) (id : N) (d : DB) : list R :=
  filter (fun r => owner r =? id) (rows (table d)).
End Preload.

(** [Preload("Configuration.ConditionConfig")], [...GroupConfig],
    [...PolicyConfig], [...TemplateConfig], [...SeverityConfigs] *)
Definition preload_configuration (d : DB) (c : AlertConfiguration)
  : AlertConfiguration :=
  set_cfg_ConditionConfig (belongs_to (cfg_ConditionConfigID c) d)
    (set_cfg_GroupConfig (belongs_to (cfg_GroupConfigID c) d)
      (set_cfg_PolicyConfig (belongs_to (cfg_PolicyConfigID c) d)
        (set_cfg_TemplateConfig (belongs_to (cfg_TemplateConfigID c) d)
          (set_cfg_SeverityConfigs (has_many sev_AlertConfigID (cfg_ID c) d)
            c)))).

(** The preloads of [GetByID] and [GetByName]. *)
Definition preload_full (d : DB) (a : Alert) : Alert :=
  set_a_Configuration
    (option_map (preload_configuration d) (belongs_to (a_ConfigurationID a) d))
    (set_a_Schedule (belongs_to (a_ScheduleID a) d)
      (set_a_Tags (has_many tag_AlertID (a_ID a) d)
        (set_a_Queries (has_many q_AlertID (a_ID a) d) a))).

(** The preloads of [List] and [ListByStatus]. *)
Definition preload_page (d : DB) (a : Alert) : Alert :=
  set_a_Configuration (belongs_to (a_ConfigurationID a) d)
    (set_a_Schedule (belongs_to (a_ScheduleID a) d)
      (set_a_Tags (has_many tag_AlertID (a_ID a) d)
        (set_a_Queries (has_many q_AlertID (a_ID a) d) a))).

Definition GetByID (id : N) (d : DB) : result Alert :=
  match lookup id d with
  | Some a => Ok (preload_full d a)
  | None => Err ErrRecordNotFound
  end.

Definition GetByName (name : string) (d : DB) : result Alert :=
  match least (filter (fun a => String.eqb (a_Name a) name) (rows (alerts d))) with
  | Some a => Ok (preload_full d a)
  | None => Err ErrRecordNotFound
  end.

(** [Order("created_at DESC")]; rows with equal timestamps keep their
    table order. *)
Fixpoint insert_desc (a : Alert) (l : list Alert) : list Alert :=
  match l with
  | [] => [a]
  | b :: l' =>
      if (a_CreatedAt a <? a_CreatedAt b)%Z then b :: insert_desc a l'
      else a :: l
  end.

Definition order_created_at_desc (l : list Alert) : list Alert :=
  fold_right insert_desc [] l.

(** [Offset(offset).Limit(limit)]: OFFSET is emitted for a positive offset,
    LIMIT for a non-negative limit. *)
Definition page {A : Type} (offset limit : Z) (l : list A) : list A :=
  let l1 := if (0 <? offset)%Z then skipn (Z.to_nat offset) l else l in
  if (0 <=? limit)%Z then firstn (Z.to_nat limit) l1 else l1.

Definition Count (d : DB) : Z := Z.of_nat (List.length (rows (alerts d))).

Definition List (offset limit : Z) (d : DB) : list Alert * Z :=
  let total := Count d in
  let alerts := map (preload_page d)
                  (page offset limit (order_created_at_desc (rows (alerts d)))) in
  (alerts, total).

Definition ListByStatus (status : string) (offset limit : Z) (d : DB)
  : list Alert * Z :=
  let matching := filter (fun a => String.eqb (a_Status a) status)
                    (rows (alerts d)) in
  let total := Z.of_nat (List.length matching) in
  let alerts := map (preload_page d)
                  (page offset limit (order_created_at_desc matching)) in
  (alerts, total).

(** *** Writes *)

Section Writes.
Variable env : Env.

Definition deleteConfigurationAssociations (alertID : N) : Tx unit :=
  found <- attempt (gorm.First env (fun c => cfg_AlertID c =? alertID)) ;;
  match found with
  | Err ErrRecordNotFound => ret tt
  | Err e => throw (Errorf "failed to get configuration ID" e)
  | Ok c =>
      let configID := cfg_ID c in
      gorm.Delete env (fun s => sev_AlertConfigID s =? configID)
        orelse "failed to delete severity configurations" ;;;
      gorm.Delete env (fun j => join_AlertConfigID j =? configID)
        orelse "failed to delete join configurations" ;;;
      ret tt
  end.

Definition Delete (id : N) : Tx unit :=
  Transaction env (
    deleteConfigurationAssociations id
      orelse "failed to delete configuration associations" ;;;
    gorm.Delete env (fun c => cfg_AlertID c =? id)
      orelse "failed to delete alert configuration" ;;;
    gorm.Delete env (fun s => sch_AlertID s =? id)
      orelse "failed to delete alert schedule" ;;;
    gorm.Delete env (fun t => tag_AlertID t =? id)
      orelse "failed to delete alert tags" ;;;
    gorm.Delete env (fun q => q_AlertID q =? id)
      orelse "failed to delete alert queries" ;;;
    gorm.Delete env (fun a => a_ID a =? id)
      orelse "failed to delete alert" ;;;
    ret tt).

(** **** Create *)

(** One optional configuration block of [CreateWithTransaction]:
    [if b != nil { b.AlertConfigID = configID; tx.Create(b) }]. *)
Definition create_block {R : Type} `{Model R}
    (set_AlertConfigID : N -> R -> R) (configID : N) (msg : string)
    (block : option R) : Tx (option R) :=
  match block with
  | None => ret None
  | Some b =>
      b' <- gorm.Create env (set_AlertConfigID configID b) orelse msg ;;
      ret (Some b')
  end.

(** The loop over [SeverityConfigs] that precedes their batch INSERT: each
    present [EvalCondition] is created first and its identity stored in
    [EvalConditionID]; then [AlertConfigID] is set and [ID] reset.
    [stamp] is what the caller does to the eval condition before creating
    it. *)
Fixpoint prepare_severities
    (stamp : ConditionConfiguration -> ConditionConfiguration)
    (configID : N) (l : list SeverityConfiguration)
  : Tx (list SeverityConfiguration) :=
  match l with
  | [] => ret []
  | s :: l' =>
      s1 <- match sev_EvalCondition s with
            | None => ret s
            | Some ec =>
                ec' <- gorm.Create env (stamp ec)
                         orelse "failed to create eval condition" ;;
                ret (set_sev_EvalConditionID (Some (cond_ID ec'))
                       (set_sev_EvalCondition (Some ec') s))
            end ;;
      rest <- prepare_severities stamp configID l' ;;
      ret (set_sev_ID 0 (set_sev_AlertConfigID configID s1) :: rest)
  end.

(** [if len(SeverityConfigs) > 0 { loop; tx.Create(&SeverityConfigs) }].
    (GORM's association auto-save re-submits the already created eval
    conditions with ON CONFLICT DO NOTHING; that changes no row.) *)
Definition create_severities
    (stamp : ConditionConfiguration -> ConditionConfiguration)
    (configID : N) (l : list SeverityConfiguration)
  : Tx (list SeverityConfiguration) :=
  match l with
  | [] => ret []
  | _ =>
      prepared <- prepare_severities stamp configID l ;;
      gorm.CreateSlice env prepared
        orelse "failed to create severity configurations"
  end.

(** [if len(JoinConfigs) > 0 { loop; tx.Create(&JoinConfigs) }] *)
Definition create_joins (configID : N) (l : list JoinConfiguration)
  : Tx (list JoinConfiguration) :=
  match l with
  | [] => ret []
  | _ =>
      gorm.CreateSlice env
        (map (fun j => set_join_ID 0 (set_join_AlertConfigID configID j)) l)
        orelse "failed to create join configurations"
  end.

Definition scheduleToCreate (alertID : N) (s : AlertSchedule) : AlertSchedule :=
  {| sch_ID := 0;
     sch_AlertID := alertID;
     sch_CronExpression := sch_CronExpression s;
     sch_Delay := sch_Delay s;
     sch_Interval := sch_Interval s;
     sch_RunImmediately := sch_RunImmediately s;
     sch_TimeZone := sch_TimeZone s;
     sch_Type := sch_Type s |}.

Definition tagsToCreate (alertID : N) (tags : list AlertTag) : list AlertTag :=
  map (fun tag =>
         {| tag_ID := 0;
            tag_AlertID := alertID;
            tag_TagType := tag_TagType tag;
            tag_TagKey := tag_TagKey tag;
            tag_TagValue := tag_TagValue tag |}) tags.

Definition queriesToCreate (alertID : N) (queries : list AlertQuery)
  : list AlertQuery :=
  map (fun query =>
         {| q_ID := 0;
            q_AlertID := alertID;
            q_ChartTitle := q_ChartTitle query;
            q_DashboardId := q_DashboardId query;
            q_End := q_End query;
            q_PowerSqlMode := q_PowerSqlMode query;
            q_Project := q_Project query;
            q_Query := q_Query query;
            q_Region := q_Region query;
            q_RoleArn := q_RoleArn query;
            q_Start := q_Start query;
            q_Store := q_Store query;
            q_StoreType := q_StoreType query;
            q_TimeSpanType := q_TimeSpanType query;
            q_Ui := q_Ui query |}) queries.

(** The [AlertConfiguration] literal built from the scalar fields of the
    incoming configuration; every other field has its zero value. *)
Definition configToCreate (alertID : N) (c : AlertConfiguration)
  : AlertConfiguration :=
  {| cfg_ID := 0;
     cfg_AlertID := alertID;
     cfg_AutoAnnotation := cfg_AutoAnnotation c;
     cfg_Dashboard := cfg_Dashboard c;
     cfg_MuteUntil := cfg_MuteUntil c;
     cfg_NoDataFire := cfg_NoDataFire c;
     cfg_NoDataSeverity := cfg_NoDataSeverity c;
     cfg_Threshold := cfg_Threshold c;
     cfg_Type := cfg_Type c;
     cfg_Version := cfg_Version c;
     cfg_SendResolved := cfg_SendResolved c;
     cfg_ConditionConfigID := None;
     cfg_GroupConfigID := None;
     cfg_PolicyConfigID := None;
     cfg_TemplateConfigID := None;
     cfg_SinkAlerthubConfigID := None;
     cfg_SinkCmsConfigID := None;
     cfg_SinkEventStoreConfigID := None;
     cfg_ConditionConfig := None;
     cfg_GroupConfig := None;
     cfg_PolicyConfig := None;
     cfg_TemplateConfig := None;
     cfg_SeverityConfigs := [];
     cfg_JoinConfigs := [];
     cfg_SinkAlerthubConfig := None;
     cfg_SinkCmsConfig := None;
     cfg_SinkEventStoreConfig := None |}.

Definition cleanAlert (alert : Alert) : Alert :=
  {| a_ID := 0;
     a_Name := a_Name alert;
     a_DisplayName := a_DisplayName alert;
     a_Description := a_Description alert;
     a_Status := a_Status alert;
     a_CreateTime := a_CreateTime alert;
     a_LastModifiedTime := a_LastModifiedTime alert;
     a_ConfigurationID := None;
     a_ScheduleID := None;
     a_CreatedAt := 0%Z;
     a_Configuration := None;
     a_Schedule := None;
     a_Tags := [];
     a_Queries := [] |}.

(** The closing step of create and update: write the root's
    [configuration_id] / [schedule_id] when the struct holds them. *)
Definition patch_relation_ids (alert : Alert) : Tx unit :=
  match a_ConfigurationID alert, a_ScheduleID alert with
  | None, None => ret tt
  | cid, sid =>
      gorm.Updates env (fun r => a_ID r =? a_ID alert)
        (fun r =>
           let r1 := match cid with
                     | Some c => set_a_ConfigurationID (Some c) r
                     | None => r
                     end in
           match sid with
           | Some s => set_a_ScheduleID (Some s) r1
           | None => r1
           end)
        orelse "failed to update alert with relation IDs"
  end.

(** Steps 2 to 4 of [CreateWithTransaction]: the configuration row, then
    its blocks, then its severity and join rows. *)
Definition create_configuration (alert : Alert)
    (originalConfig : AlertConfiguration) : Tx Alert :=
  created <- gorm.Create env (configToCreate (a_ID alert) originalConfig)
               orelse "failed to create alert configuration" ;;
  let configID := cfg_ID created in
  let alert := set_a_ConfigurationID (Some configID) alert in
  condition <- create_block set_cond_AlertConfigID configID
                 "failed to create condition configuration"
                 (cfg_ConditionConfig originalConfig) ;;
  group <- create_block set_grp_AlertConfigID configID
             "failed to create group configuration"
             (cfg_GroupConfig originalConfig) ;;
  policy <- create_block set_pol_AlertConfigID configID
              "failed to create policy configuration"
              (cfg_PolicyConfig originalConfig) ;;
  template <- create_block set_tpl_AlertConfigID configID
                "failed to create template configuration"
                (cfg_TemplateConfig originalConfig) ;;
  alerthub <- create_block set_hub_AlertConfigID configID
                "failed to create sink alerthub configuration"
                (cfg_SinkAlerthubConfig originalConfig) ;;
  cms <- create_block set_cms_AlertConfigID configID
           "failed to create sink cms configuration"
           (cfg_SinkCmsConfig originalConfig) ;;
  eventstore <- create_block set_es_AlertConfigID configID
                  "failed to create sink event store configuration"
                  (cfg_SinkEventStoreConfig originalConfig) ;;
  severities <- create_severities (set_cond_AlertConfigID configID) configID
                  (cfg_SeverityConfigs originalConfig) ;;
  joins <- create_joins configID (cfg_JoinConfigs originalConfig) ;;
  ret (set_a_Configuration
         (Some (set_cfg_ID configID
            (set_cfg_ConditionConfig condition
              (set_cfg_GroupConfig group
                (set_cfg_PolicyConfig policy
                  (set_cfg_TemplateConfig template
                    (set_cfg_SinkAlerthubConfig alerthub
                      (set_cfg_SinkCmsConfig cms
                        (set_cfg_SinkEventStoreConfig eventstore
                          (set_cfg_SeverityConfigs severities
                            (set_cfg_JoinConfigs joins originalConfig)))))))))))
         alert).

Definition create_schedule (alert : Alert) (msg : string) : Tx Alert :=
  match a_Schedule alert with
  | None => ret alert
  | Some originalSchedule =>
      created <- gorm.Create env (scheduleToCreate (a_ID alert) originalSchedule)
                   orelse msg ;;
      ret (set_a_ScheduleID (Some (sch_ID created)) alert)
  end.

Definition create_tags (alert : Alert) (msg : string) : Tx unit :=
  match a_Tags alert with
  | [] => ret tt
  | originalTags =>
      gorm.CreateSlice env (tagsToCreate (a_ID alert) originalTags)
        orelse msg ;;;
      ret tt
  end.

Definition create_queries (alert : Alert) (msg : string) : Tx unit :=
  match a_Queries alert with
  | [] => ret tt
  | originalQueries =>
      gorm.CreateSlice env (queriesToCreate (a_ID alert) originalQueries)
        orelse msg ;;;
      ret tt
  end.

Definition CreateWithTransaction (alert : Alert) : Tx Alert :=
  Transaction env (
    (* step 1: the bare root record *)
    created <- gorm.Create env (cleanAlert alert)
                 orelse "failed to create alert" ;;
    let alert := set_a_ID (a_ID created) alert in
    (* steps 2-4 *)
    alert <- match a_Configuration alert with
             | None => ret alert
             | Some originalConfig => create_configuration alert originalConfig
             end ;;
    (* step 5 *)
    alert <- create_schedule alert "failed to create alert schedule" ;;
    (* step 6 *)
    create_tags alert "failed to create alert tags" ;;;
    (* step 7 *)
    create_queries alert "failed to create alert queries" ;;;
    (* step 8 *)
    patch_relation_ids alert ;;;
    ret alert).

(** **** Update *)

(** [recreateConfiguration]: no configuration row exists yet.  The blocks
    are created first and their identities embedded in the new
    configuration row. *)
Definition recreateConfiguration (alert : Alert) : Tx Alert :=
  match a_Configuration alert with
  | None => ret alert
  | Some config =>
      let keep := fun (R : Type) (_ : N) (b : R) => b in
      condition <- create_block (keep _) 0
                     "failed to create condition configuration"
                     (cfg_ConditionConfig config) ;;
      group <- create_block (keep _) 0
                 "failed to create group configuration"
                 (cfg_GroupConfig config) ;;
      policy <- create_block (keep _) 0
                  "failed to create policy configuration"
                  (cfg_PolicyConfig config) ;;
      template <- create_block (keep _) 0
                    "failed to create template configuration"
                    (cfg_TemplateConfig config) ;;
      alerthub <- create_block (keep _) 0
                    "failed to create sink alerthub configuration"
                    (cfg_SinkAlerthubConfig config) ;;
      cms <- create_block (keep _) 0
               "failed to create sink cms configuration"
               (cfg_SinkCmsConfig config) ;;
      eventstore <- create_block (keep _) 0
                      "failed to create sink event store configuration"
                      (cfg_SinkEventStoreConfig config) ;;
      created <- gorm.Create env
                   (set_cfg_ConditionConfigID (option_map cond_ID condition)
                     (set_cfg_GroupConfigID (option_map grp_ID group)
                       (set_cfg_PolicyConfigID (option_map pol_ID policy)
                         (set_cfg_TemplateConfigID (option_map tpl_ID template)
                           (set_cfg_SinkAlerthubConfigID (option_map hub_ID alerthub)
                             (set_cfg_SinkCmsConfigID (option_map cms_ID cms)
                               (set_cfg_SinkEventStoreConfigID
                                  (option_map es_ID eventstore)
                                  (configToCreate (a_ID alert) config))))))))
                   orelse "failed to create alert configuration" ;;
      let configID := cfg_ID created in
      let alert := set_a_ConfigurationID (Some configID) alert in
      severities <- create_severities (fun ec => ec) configID
                      (cfg_SeverityConfigs config) ;;
      joins <- create_joins configID (cfg_JoinConfigs config) ;;
      ret (set_a_Configuration
             (Some (set_cfg_ConditionConfig condition
                (set_cfg_GroupConfig group
                  (set_cfg_PolicyConfig policy
                    (set_cfg_TemplateConfig template
                      (set_cfg_SinkAlerthubConfig alerthub
                        (set_cfg_SinkCmsConfig cms
                          (set_cfg_SinkEventStoreConfig eventstore
                            (set_cfg_SeverityConfigs severities
                              (set_cfg_JoinConfigs joins config))))))))))
             alert)
  end.

(** [existingConfigID == nil || *existingConfigID == 0] means the slot is
    empty. *)
Definition occupied (slot : option N) : option N :=
  match slot with
  | None => None
  | Some id => if id =? 0 then None else Some id
  end.

(** The seven [upsert...Config] functions share one body; they differ in
    the slot column of [alert_configurations] they consult ([slot],
    [set_slot]), in the columns of the block they overwrite when the slot
    is occupied ([refresh config row] is [row] with the [updateData]
    columns taken from [config]), and in the wording of their errors. *)
Definition upsert {R : Type} `{Model R} (what : string)
    (slot : AlertConfiguration -> option N)
    (set_slot : option N -> AlertConfiguration -> AlertConfiguration)
    (refresh : R -> R -> R)
    (alertConfigID : N) (config : R) : Tx R :=
  owner <- gorm.First env (fun c => cfg_ID c =? alertConfigID)
             orelse String.append "failed to get existing "
                      (String.append what " config ID") ;;
  match occupied (slot owner) with
  | None =>
      created <- gorm.Create env (with_pk 0 config)
                   orelse String.append "failed to create "
                            (String.append what " configuration") ;;
      gorm.Updates env (fun c => cfg_ID c =? alertConfigID)
        (set_slot (Some (pk created)))
        orelse String.append "failed to update "
                 (String.append what " config reference") ;;;
      ret created
  | Some existingConfigID =>
      gorm.Updates env (fun r => pk r =? existingConfigID) (refresh config)
        orelse String.append "failed to update "
                 (String.append what " configuration") ;;;
      ret (with_pk existingConfigID config)
  end.

Definition upsertConditionConfig : N -> ConditionConfiguration -> Tx _ :=
  upsert "condition" cfg_ConditionConfigID set_cfg_ConditionConfigID
    (fun config row =>
       set_cond_Condition (cond_Condition config)
         (set_cond_CountCondition (cond_CountCondition config) row)).

Definition upsertGroupConfig : N -> GroupConfiguration -> Tx _ :=
  upsert "group" cfg_GroupConfigID set_cfg_GroupConfigID
    (fun config row =>
       set_grp_Fields (grp_Fields config)
         (set_grp_Type (grp_Type config) row)).

Definition upsertPolicyConfig : N -> PolicyConfiguration -> Tx _ :=
  upsert "policy" cfg_PolicyConfigID set_cfg_PolicyConfigID
    (fun config row =>
       set_pol_AlertPolicyId (pol_AlertPolicyId config)
         (set_pol_ActionPolicyId (pol_ActionPolicyId config)
           (set_pol_RepeatInterval (pol_RepeatInterval config) row))).

Definition upsertTemplateConfig : N -> TemplateConfiguration -> Tx _ :=
  upsert "template" cfg_TemplateConfigID set_cfg_TemplateConfigID
    (fun config row =>
       set_tpl_TemplateId (tpl_TemplateId config)
         (set_tpl_Lang (tpl_Lang config)
           (set_tpl_Type (tpl_Type config)
             (set_tpl_Version (tpl_Version config)
               (set_tpl_Aonotations (tpl_Aonotations config)
                 (set_tpl_Tokens (tpl_Tokens config) row)))))).

Definition upsertSinkAlerthubConfig : N -> SinkAlerthubConfiguration -> Tx _ :=
  upsert "sink alerthub" cfg_SinkAlerthubConfigID set_cfg_SinkAlerthubConfigID
    (fun config row => set_hub_Enabled (hub_Enabled config) row).

Definition upsertSinkCmsConfig : N -> SinkCmsConfiguration -> Tx _ :=
  upsert "sink cms" cfg_SinkCmsConfigID set_cfg_SinkCmsConfigID
    (fun config row => set_cms_Enabled (cms_Enabled config) row).

Definition upsertSinkEventStoreConfig
  : N -> SinkEventStoreConfiguration -> Tx _ :=
  upsert "sink event store" cfg_SinkEventStoreConfigID
    set_cfg_SinkEventStoreConfigID
    (fun config row =>
       set_es_Enabled (es_Enabled config)
         (set_es_Endpoint (es_Endpoint config)
           (set_es_EventStore (es_EventStore config)
             (set_es_Project (es_Project config)
               (set_es_RoleArn (es_RoleArn config) row))))).

(** [if block != nil { if err := s.upsert...(tx, id, block); ... }] *)
Definition upsert_block {R : Type} (upsert_fn : N -> R -> Tx R)
    (configID : N) (msg : string) (block : option R) : Tx (option R) :=
  match block with
  | None => ret None
  | Some b =>
      b' <- upsert_fn configID b orelse msg ;;
      ret (Some b')
  end.

(** [if len(l) > 0 { delete the old rows; recreate }] for the severity
    and join rows of an existing configuration. *)
Definition replace_severities (configID : N) (l : list SeverityConfiguration)
  : Tx (list SeverityConfiguration) :=
  match l with
  | [] => ret []
  | _ =>
      gorm.Delete env (fun s => sev_AlertConfigID s =? configID)
        orelse "failed to delete old severity configurations" ;;;
      create_severities (fun ec => ec) configID l
  end.

Definition replace_joins (configID : N) (l : list JoinConfiguration)
  : Tx (list JoinConfiguration) :=
  match l with
  | [] => ret []
  | _ =>
      gorm.Delete env (fun j => join_AlertConfigID j =? configID)
        orelse "failed to delete old join configurations" ;;;
      create_joins configID l
  end.

Definition updateConfiguration (alert : Alert) : Tx Alert :=
  match a_Configuration alert with
  | None => ret alert
  | Some config =>
      found <- attempt (gorm.First env (fun c => cfg_AlertID c =? a_ID alert)) ;;
      match found with
      | Err ErrRecordNotFound => recreateConfiguration alert
      | Err e => throw (Errorf "failed to get existing configuration ID" e)
      | Ok existing =>
          let existingConfigID := cfg_ID existing in
          gorm.Updates env (fun c => cfg_ID c =? existingConfigID)
            (fun row =>
               set_cfg_AutoAnnotation (cfg_AutoAnnotation config)
                 (set_cfg_Dashboard (cfg_Dashboard config)
                   (set_cfg_MuteUntil (cfg_MuteUntil config)
                     (set_cfg_NoDataFire (cfg_NoDataFire config)
                       (set_cfg_NoDataSeverity (cfg_NoDataSeverity config)
                         (set_cfg_Threshold (cfg_Threshold config)
                           (set_cfg_Type (cfg_Type config)
                             (set_cfg_Version (cfg_Version config)
                               (set_cfg_SendResolved (cfg_SendResolved config)
                                  row)))))))))
            orelse "failed to update alert configuration" ;;;
          condition <- upsert_block upsertConditionConfig existingConfigID
                         "failed to upsert condition configuration"
                         (cfg_ConditionConfig config) ;;
          group <- upsert_block upsertGroupConfig existingConfigID
                     "failed to upsert group configuration"
                     (cfg_GroupConfig config) ;;
          policy <- upsert_block upsertPolicyConfig existingConfigID
                      "failed to upsert policy configuration"
                      (cfg_PolicyConfig config) ;;
          template <- upsert_block upsertTemplateConfig existingConfigID
                        "failed to upsert template configuration"
                        (cfg_TemplateConfig config) ;;
          alerthub <- upsert_block upsertSinkAlerthubConfig existingConfigID
                        "failed to upsert sink alerthub configuration"
                        (cfg_SinkAlerthubConfig config) ;;
          cms <- upsert_block upsertSinkCmsConfig existingConfigID
                   "failed to upsert sink cms configuration"
                   (cfg_SinkCmsConfig config) ;;
          eventstore <- upsert_block upsertSinkEventStoreConfig existingConfigID
                          "failed to upsert sink event store configuration"
                          (cfg_SinkEventStoreConfig config) ;;
          severities <- replace_severities existingConfigID
                          (cfg_SeverityConfigs config) ;;
          joins <- replace_joins existingConfigID (cfg_JoinConfigs config) ;;
          ret (set_a_ConfigurationID (Some existingConfigID)
                 (set_a_Configuration
                    (Some (set_cfg_ConditionConfig condition
                       (set_cfg_GroupConfig group
                         (set_cfg_PolicyConfig policy
                           (set_cfg_TemplateConfig template
                             (set_cfg_SinkAlerthubConfig alerthub
                               (set_cfg_SinkCmsConfig cms
                                 (set_cfg_SinkEventStoreConfig eventstore
                                   (set_cfg_SeverityConfigs severities
                                     (set_cfg_JoinConfigs joins config))))))))))
                    alert))
      end
  end.

(** Steps 3 to 5 of [UpdateWithTransaction]. *)
Definition replace_schedule (alert : Alert) : Tx Alert :=
  match a_Schedule alert with
  | None => ret alert
  | Some _ =>
      gorm.Delete env (fun s => sch_AlertID s =? a_ID alert)
        orelse "failed to delete old schedule" ;;;
      create_schedule alert "failed to create new schedule"
  end.

Definition replace_tags (alert : Alert) : Tx unit :=
  match a_Tags alert with
  | [] => ret tt
  | _ =>
      gorm.Delete env (fun t => tag_AlertID t =? a_ID alert)
        orelse "failed to delete old tags" ;;;
      create_tags alert "failed to create new tags"
  end.

Definition replace_queries (alert : Alert) : Tx unit :=
  match a_Queries alert with
  | [] => ret tt
  | _ =>
      gorm.Delete env (fun q => q_AlertID q =? a_ID alert)
        orelse "failed to delete old queries" ;;;
      create_queries alert "failed to create new queries"
  end.

Definition UpdateWithTransaction (alert : Alert) : Tx Alert :=
  Transaction env (
    if a_ID alert =? 0 then throw (ErrorNew "alert ID is required for update")
    else
      (* step 1 *)
      gorm.Updates env (fun r => a_ID r =? a_ID alert)
        (fun r =>
           set_a_DisplayName (a_DisplayName alert)
             (set_a_Description (a_Description alert)
               (set_a_Status (a_Status alert)
                 (set_a_LastModifiedTime (a_LastModifiedTime alert) r))))
        orelse "failed to update alert" ;;;
      (* step 2 *)
      alert <- match a_Configuration alert with
               | None => ret alert
               | Some _ =>
                   deleteConfigurationAssociations (a_ID alert)
                     orelse "failed to delete old configuration associations" ;;;
                   updateConfiguration alert
                     orelse "failed to update configuration"
               end ;;
      (* step 3 *)
      alert <- replace_schedule alert ;;
      (* step 4 *)
      replace_tags alert ;;;
      (* step 5 *)
      replace_queries alert ;;;
      (* step 6 *)
      patch_relation_ids alert ;;;
      ret alert).
End Writes.

End store.

(** ** [internal/service]: the synchronisation service *)

Module service.

(** The two interfaces the sync service is built on.  A Go method
    returning [(T, error)] is a function returning a pair with an
    [option error]. *)
Class AlertStore (S : Type) : Type := {
  alertStore_List : Z -> Z -> S -> list Alert * Z * option error;
  alertStore_Count : S -> Z * option error
}.

Class SLSService (Rm : Type) : Type := {
  GetAlerts : Rm -> list Alert * option error;
  CreateAlert : Alert -> Rm -> option error * Rm;
  UpdateAlert : Alert -> Rm -> option error * Rm
}.

(** The GORM-backed store implements [AlertStore]. *)
#[global] Instance alertStore : AlertStore DB := {|
  alertStore_List := fun offset limit d => (store.List offset limit d, None);
  alertStore_Count := fun d => (store.Count d, None)
|}.

Record SyncStatus : Type := mkSyncStatus {
  LastSyncTime : string;
  SLSAlertCount : Z;
  DBAlertCount : Z;
  SyncedCount : Z;
  FailedCount : Z;
  Status : string;
  LastError : string
}.

Definition set_Status (v : string) (s : SyncStatus) : SyncStatus :=
  mkSyncStatus (LastSyncTime s) (SLSAlertCount s) (DBAlertCount s)
    (SyncedCount s) (FailedCount s) v (LastError s).
Definition set_LastError (v : string) (s : SyncStatus) : SyncStatus :=
  mkSyncStatus (LastSyncTime s) (SLSAlertCount s) (DBAlertCount s)
    (SyncedCount s) (FailedCount s) (Status s) v.

Definition needsUpdate (existing new : Alert) : bool :=
  match a_LastModifiedTime existing, a_LastModifiedTime new with
  | Some existing_t, Some new_t =>
      if negb (existing_t =? new_t)%Z then true
      else if negb (String.eqb (a_DisplayName existing) (a_DisplayName new))
      then true
      else if negb (String.eqb (a_Status existing) (a_Status new)) then true
      else
        match a_Description existing, a_Description new with
        | None, Some _ => true
        | Some _, None => true
        | Some existing_d, Some new_d => negb (String.eqb existing_d new_d)
        | None, None => false
        end
  | _, _ => true
  end.

Section SyncService.
Context {S Rm : Type} `{AlertStore S} `{SLSService Rm}.

(** [slsService.GetAlertByName]: list everything, then filter by name. *)
Definition GetAlertByName (name : string) (remote : Rm)
  : option Alert * option error :=
  let '(alerts, err) := GetAlerts remote in
  match err with
  | Some e => (None, Some e)
  | None =>
      match find (fun alert => String.eqb (a_Name alert) name) alerts with
      | Some alert => (Some alert, None)
      | None =>
          (None, Some (ErrorNew (String.append "alert with name '"
                                   (String.append name "' not found in SLS"))))
      end
  end.

(** The single [err] variable of the Go function is assigned twice; the
    second [let] below is that second assignment. *)
Definition GetSyncStatus (remote : Rm) (local : S) : result SyncStatus :=
  let '(slsAlerts, err) := GetAlerts remote in
  let slsCount := match err with
                  | None => Z.of_nat (List.length slsAlerts)
                  | Some _ => 0%Z
                  end in
  let '(dbCount, err) := alertStore_Count local in
  match err with
  | Some e => Err (Errorf "failed to count database alerts" e)
  | None =>
      let status :=
        mkSyncStatus EmptyString slsCount dbCount 0 0 "unknown" EmptyString in
      match err with
      | Some e =>
          Ok (set_LastError (Error e) (set_Status "sls_connection_failed" status))
      | None => Ok (set_Status "healthy" status)
      end
  end.

(** The loop state of [SyncDatabaseToSLS]. *)
Record Progress : Type := mkProgress {
  remote_state : Rm;
  syncedCount : Z;
  failedCount : Z;
  lastError : string
}.

Definition failed (p : Progress) (remote : Rm) (e : error) : Progress :=
  mkProgress remote (syncedCount p) (failedCount p + 1)%Z (Error e).

Definition synced (p : Progress) (remote : Rm) : Progress :=
  mkProgress remote (syncedCount p + 1)%Z (failedCount p) (lastError p).

(** One iteration of [for _, dbAlert := range dbAlerts]. *)
Definition push (p : Progress) (dbAlert : Alert) : Progress :=
  let remote := remote_state p in
  match GetAlertByName (a_Name dbAlert) remote with
  | (Some _, None) =>
      match UpdateAlert dbAlert remote with
      | (Some e, remote') => failed p remote' e
      | (None, remote') => synced p remote'
      end
  | _ =>
      match CreateAlert dbAlert remote with
      | (Some e, remote') => failed p remote' e
      | (None, remote') => synced p remote'
      end
  end.

Definition SyncDatabaseToSLS (local : S) (remote : Rm) : option error * Rm :=
  let '(dbAlerts, _, err) := alertStore_List 0 1000 local in
  match err with
  | Some e => (Some (Errorf "failed to get alerts from database" e), remote)
  | None =>
      let p := fold_left push dbAlerts (mkProgress remote 0 0 EmptyString) in
      if (0 <? failedCount p)%Z
      then (Some (ErrorNew
                    (String.append "sync completed with "
                       (String.append
                          (NilZero.string_of_int (Z.to_int (failedCount p)))
                          (String.append " failures. Last error: "
                                         (lastError p))))),
            remote_state p)
      else (None, remote_state p)
  end.
End SyncService.

End service.

(** ** Go's machine integers *)

Module golang.

(** A Go [int] on a 64-bit platform: arithmetic wraps around silently. *)
Definition wrap_int (z : Z) : Z :=
  ((z + 2 ^ 63) mod 2 ^ 64 - 2 ^ 63)%Z.

End golang.

(** ** [internal/service/alert_service.go] *)

Module alert_service.

(** [validateAlert].  A Go [error] result is an [option error]. *)
Definition validateAlert (alert : Alert) : option error :=
  if String.eqb (a_Name alert) EmptyString
  then Some (ErrorNew "alert name is required")
  else if String.eqb (a_DisplayName alert) EmptyString
  then Some (ErrorNew "alert display name is required")
  else if negb (String.eqb (a_Status alert) EmptyString) &&
          negb (String.eqb (a_Status alert) "ENABLED") &&
          negb (String.eqb (a_Status alert) "DISABLED")
  then Some (ErrorNew (String.append "invalid status: " (a_Status alert)))
  else None.

(** [fmt.Errorf("alert with name '%s' already exists", name)] *)
Definition already_exists (name : string) : error :=
  ErrorNew (String.append "alert with name '"
              (String.append name "' already exists")).

Section AlertService.
Variable env : Env.

(** [CreateAlert]; the struct handed back is the caller's [*models.Alert]
  as the store has filled it in. *)
Definition CreateAlert (alert : Alert) : Tx Alert :=
match validateAlert alert with
| Some err => throw err
| None =>
    fun d =>
      match store.GetByName (a_Name alert) d with
      | Ok existingAlert => (Err (already_exists (a_Name alert)), d)
      | Err _ => store.CreateWithTransaction env alert d
      end
end.

Definition GetAlertByID (id : N) (d : DB) : result Alert :=
if id =? 0 then Err (ErrorNew "invalid alert ID")
else
  match store.GetByID id d with
  | Err err => Err (Errorf "failed to get alert" err)
  | Ok alert => Ok alert
  end.

Definition GetAlertByName (name : string) (d : DB) : result Alert :=
if String.eqb name EmptyString then Err (ErrorNew "alert name cannot be empty")
else
  match store.GetByName name d with
  | Err err => Err (Errorf "failed to get alert" err)
  | Ok alert => Ok alert
  end.

Definition UpdateAlert (alert : Alert) : Tx Alert :=
if a_ID alert =? 0 then throw (ErrorNew "invalid alert ID")
else
  match validateAlert alert with
  | Some err => throw err
  | None =>
      fun d =>
        let taken :=
          if negb (String.eqb (a_Name alert) EmptyString) then
            match store.GetByName (a_Name alert) d with
            | Ok existingAlert => negb (a_ID existingAlert =? a_ID alert)
            | Err _ => false
            end
          else false in
        if taken then (Err (already_exists (a_Name alert)), d)
        else store.UpdateWithTransaction env alert d
  end.

Definition DeleteAlert (id : N) : Tx unit :=
if id =? 0 then throw (ErrorNew "invalid alert ID")
else
  fun d =>
    match store.GetByID id d with
    | Err err => (Err (Errorf "alert not found" err), d)
    | Ok _ => store.Delete env id d
    end.
End AlertService.

(** The page and page size that [ListAlerts] and [ListAlertsByStatus]
    settle on. *)
Definition clamp_page (page : Z) : Z := if (page <? 1)%Z then 1%Z else page.

Definition clamp_pageSize (pageSize : Z) : Z :=
  if (pageSize <? 1)%Z || (100 <? pageSize)%Z then 20%Z else pageSize.

Definition ListAlerts (page pageSize : Z) (d : DB) : list Alert * Z :=
  let page := clamp_page page in
  let pageSize := clamp_pageSize pageSize in
  let offset := golang.wrap_int ((page - 1) * pageSize) in
  store.List offset pageSize d.

Definition ListAlertsByStatus (status : string) (page pageSize : Z) (d : DB)
  : result (list Alert * Z) :=
  let page := clamp_page page in
  let pageSize := clamp_pageSize pageSize in
  if negb (String.eqb status EmptyString) &&
     negb (String.eqb status "ENABLED") &&
     negb (String.eqb status "DISABLED")
  then Err (ErrorNew (String.append "invalid status: " status))
  else
    let offset := golang.wrap_int ((page - 1) * pageSize) in
    Ok (store.ListByStatus status offset pageSize d).

End alert_service.

(** ** The pull direction of the synchronisation service

    [SyncSLSToDatabase] works on the GORM-backed store through
    [alertStore.GetByName] and the alert service above. *)

Module sync_service.

(** The counters of the loop. *)
Record Tally : Type := mkTally {
  syncedCount : Z;
  failedCount : Z;
  updatedCount : Z;
  createdCount : Z;
  lastError : string
}.

Definition failed (t : Tally) (e : error) : Tally :=
  mkTally (syncedCount t) (failedCount t + 1)%Z (updatedCount t) (createdCount t)
          (Error e).

Definition updated (t : Tally) : Tally :=
  mkTally (syncedCount t + 1)%Z (failedCount t) (updatedCount t + 1)%Z
          (createdCount t) (lastError t).

Definition created (t : Tally) : Tally :=
  mkTally (syncedCount t + 1)%Z (failedCount t) (updatedCount t)
          (createdCount t + 1)%Z (lastError t).

Definition skipped (t : Tally) : Tally :=
  mkTally (syncedCount t + 1)%Z (failedCount t) (updatedCount t) (createdCount t)
          (lastError t).

(** [fmt.Errorf("sync completed with %d failures. Last error: %s", ...)] *)
Definition completed_with_failures (failedCount : Z) (lastError : string) : error :=
  ErrorNew (String.append "sync completed with "
              (String.append (NilZero.string_of_int (Z.to_int failedCount))
                 (String.append " failures. Last error: " lastError))).

Section Pull.
Context {Rm : Type} `{service.SLSService Rm}.
Variable env : Env.

(** One iteration of [for _, slsAlert := range slsAlerts]. *)
Definition pull (acc : Tally * DB) (slsAlert : Alert) : Tally * DB :=
let (t, d) := acc in
match store.GetByName (a_Name slsAlert) d with
| Ok existingAlert =>
    if service.needsUpdate existingAlert slsAlert then
      let slsAlert := set_a_ID (a_ID existingAlert) slsAlert in
      match alert_service.UpdateAlert env slsAlert d with
      | (Err err, d') => (failed t err, d')
      | (Ok _, d') => (updated t, d')
      end
    else (skipped t, d)
| Err _ =>
    match alert_service.CreateAlert env slsAlert d with
    | (Err err, d') => (failed t err, d')
    | (Ok _, d') => (created t, d')
    end
end.

Definition SyncSLSToDatabase (remote : Rm) (d : DB) : option error * DB :=
match service.GetAlerts remote with
| (_, Some err) => (Some (Errorf "failed to get alerts from SLS" err), d)
| (slsAlerts, None) =>
    let (t, d') := fold_left pull slsAlerts (mkTally 0 0 0 0 EmptyString, d) in
    if (0 <? failedCount t)%Z
    then (Some (completed_with_failures (failedCount t) (lastError t)), d')
    else (None, d')
end.
End Pull.

End sync_service.

(** ** The Alibaba Cloud SDK, as far as the service touches it

    [tea.String] and [tea.StringValue]; the structs of package
    [sls20201230] with the fields that the conversions read or write.  A
    pointer field is an [option]; a slice of struct pointers is a list of
    structs (the conversions dereference every element), a slice of
    [*string] a list of [option string].  [J] stands for
    [map[string]interface{}]; a nil map is [None]. *)

Module tea.

Definition String (s : string) : option string := Some s.

Definition StringValue (p : option string) : string :=
  match p with
  | Some s => s
  | None => EmptyString
  end.

End tea.

Module sls20201230.

Record ConditionConfiguration : Type := mkConditionConfiguration {
  cond_Condition : option string;
  cond_CountCondition : option string
}.

Record GroupConfiguration : Type := mkGroupConfiguration {
  grp_Fields : list (option string);
  grp_Type : option string
}.

Record PolicyConfiguration : Type := mkPolicyConfiguration {
  pol_ActionPolicyId : option string;
  pol_AlertPolicyId : option string;
  pol_RepeatInterval : option string
}.

Record TemplateConfiguration (J : Type) : Type := mkTemplateConfiguration {
  tpl_Id : option string;
  tpl_Lang : option string;
  tpl_Type : option string;
  tpl_Version : option string;
  tpl_Aonotations : option J;
  tpl_Tokens : option J
}.
Arguments mkTemplateConfiguration {J} _ _ _ _ _ _.
Arguments tpl_Id {J} _.
Arguments tpl_Lang {J} _.
Arguments tpl_Type {J} _.
Arguments tpl_Version {J} _.
Arguments tpl_Aonotations {J} _.
Arguments tpl_Tokens {J} _.

Record SeverityConfiguration : Type := mkSeverityConfiguration {
  sev_Severity : option Z;
  sev_EvalCondition : option ConditionConfiguration
}.

Record JoinConfiguration : Type := mkJoinConfiguration {
  join_Condition : option string;
  join_Type : option string
}.

Record AlertQuery : Type := mkAlertQuery {
  q_ChartTitle : option string;
  q_DashboardId : option string;
  q_End : option string;
  q_PowerSqlMode : option string;
  q_Project : option string;
  q_Query : option string;
  q_Region : option string;
  q_RoleArn : option string;
  q_Start : option string;
  q_Store : option string;
  q_StoreType : option string;
  q_TimeSpanType : option string;
  q_Ui : option string
}.

Record AlertTag : Type := mkAlertTag {
  tag_Key : option string;
  tag_Value : option string
}.

Record SinkAlerthubConfiguration : Type := mkSinkAlerthubConfiguration {
  hub_Enabled : option bool
}.

Record SinkCmsConfiguration : Type := mkSinkCmsConfiguration {
  cms_Enabled : option bool
}.

Record SinkEventStoreConfiguration : Type := mkSinkEventStoreConfiguration {
  es_Enabled : option bool;
  es_Endpoint : option string;
  es_EventStore : option string;
  es_Project : option string;
  es_RoleArn : option string
}.

Record AlertConfiguration (J : Type) : Type := mkAlertConfiguration {
  cfg_Annotations : list AlertTag;
  cfg_AutoAnnotation : option bool;
  cfg_ConditionConfiguration : option ConditionConfiguration;
  cfg_Dashboard : option string;
  cfg_GroupConfiguration : option GroupConfiguration;
  cfg_JoinConfigurations : list JoinConfiguration;
  cfg_MuteUntil : option Z;
  cfg_NoDataFire : option bool;
  cfg_NoDataSeverity : option Z;
  cfg_PolicyConfiguration : option PolicyConfiguration;
  cfg_QueryList : list AlertQuery;
  cfg_SendResolved : option bool;
  cfg_SeverityConfigurations : list SeverityConfiguration;
  cfg_SinkAlerthub : option SinkAlerthubConfiguration;
  cfg_SinkCms : option SinkCmsConfiguration;
  cfg_SinkEventStore : option SinkEventStoreConfiguration;
  cfg_Tags : list (option string);
  cfg_TemplateConfiguration : option (TemplateConfiguration J);
  cfg_Threshold : option Z;
  cfg_Type : option string;
  cfg_Version : option string
}.
Arguments mkAlertConfiguration {J}.
Arguments cfg_Annotations {J} _.
Arguments cfg_AutoAnnotation {J} _.
Arguments cfg_ConditionConfiguration {J} _.
Arguments cfg_Dashboard {J} _.
Arguments cfg_GroupConfiguration {J} _.
Arguments cfg_JoinConfigurations {J} _.
Arguments cfg_MuteUntil {J} _.
Arguments cfg_NoDataFire {J} _.
Arguments cfg_NoDataSeverity {J} _.
Arguments cfg_PolicyConfiguration {J} _.
Arguments cfg_QueryList {J} _.
Arguments cfg_SendResolved {J} _.
Arguments cfg_SeverityConfigurations {J} _.
Arguments cfg_SinkAlerthub {J} _.
Arguments cfg_SinkCms {J} _.
Arguments cfg_SinkEventStore {J} _.
Arguments cfg_Tags {J} _.
Arguments cfg_TemplateConfiguration {J} _.
Arguments cfg_Threshold {J} _.
Arguments cfg_Type {J} _.
Arguments cfg_Version {J} _.

Record Schedule : Type := mkSchedule {
  sch_CronExpression : option string;
  sch_Delay : option Z;
  sch_Interval : option string;
  sch_RunImmediately : option bool;
  sch_TimeZone : option string;
  sch_Type : option string
}.

Record Alert (J : Type) : Type := mkAlert {
  a_Name : option string;
  a_DisplayName : option string;
  a_Description : option string;
  a_Status : option string;
  a_CreateTime : option Z;
  a_LastModifiedTime : option Z;
  a_Configuration : option (AlertConfiguration J);
  a_Schedule : option Schedule
}.
Arguments mkAlert {J}.
Arguments a_Name {J} _.
Arguments a_DisplayName {J} _.
Arguments a_Description {J} _.
Arguments a_Status {J} _.
Arguments a_CreateTime {J} _.
Arguments a_LastModifiedTime {J} _.
Arguments a_Configuration {J} _.
Arguments a_Schedule {J} _.

Record CreateAlertRequest (J : Type) : Type := mkCreateAlertRequest {
  create_Name : option string;
  create_DisplayName : option string;
  create_Description : option string;
  create_Configuration : option (AlertConfiguration J);
  create_Schedule : option Schedule
}.
Arguments mkCreateAlertRequest {J}.
Arguments create_Name {J} _.
Arguments create_DisplayName {J} _.
Arguments create_Description {J} _.
Arguments create_Configuration {J} _.
Arguments create_Schedule {J} _.

Record UpdateAlertRequest (J : Type) : Type := mkUpdateAlertRequest {
  update_DisplayName : option string;
  update_Description : option string;
  update_Configuration : option (AlertConfiguration J);
  update_Schedule : option Schedule
}.
Arguments mkUpdateAlertRequest {J}.
Arguments update_DisplayName {J} _.
Arguments update_Description {J} _.
Arguments update_Configuration {J} _.
Arguments update_Schedule {J} _.

(** [response.Body] and [response.Body.Results]; a nil [Results] is the
    empty list. *)
Record ListAlertsResponse (J : Type) : Type := mkListAlertsResponse {
  Body : option (list (Alert J))
}.
Arguments mkListAlertsResponse {J}.
Arguments Body {J} _.

(** The three calls of [*sls20201230.Client] that the service makes, each
    against a project. *)
Class Client (J C : Type) : Type := {
  ListAlertsWithOptions : option string -> C -> result (ListAlertsResponse J);
  CreateAlertWithOptions :
    option string -> CreateAlertRequest J -> C -> option error * C;
  UpdateAlertWithOptions :
    option string -> option string -> UpdateAlertRequest J -> C -> option error * C
}.

End sls20201230.

(** ** Package [strings], as far as the service uses it *)

Module strings.

(** [strings.Join(elems, sep)] *)
Fixpoint Join (elems : list string) (sep : string) : string :=
  match elems with
  | [] => EmptyString
  | s :: rest =>
      match rest with
      | [] => s
      | _ => String.append s (String.append sep (Join rest sep))
      end
  end.

(** [strings.Split(s, sep)] for a separator of one byte: the substrings
    between the separators, all of them; the empty string gives one empty
    substring. *)
Fixpoint Split (s : string) (sep : Ascii.ascii) : list string :=
  match s with
  | EmptyString => [EmptyString]
  | String c s' =>
      if Ascii.eqb c sep then EmptyString :: Split s' sep
      else
        match Split s' sep with
        | h :: t => String c h :: t
        | [] => [String c EmptyString]
        end
  end.

(** The byte [','] *)
Definition comma : Ascii.ascii := Ascii.Ascii false false true true false true false false.

End strings.

(** ** [internal/service/sls_service.go]

    The conversions between the SDK's structs and the model structs, and
    the calls built on them.  [encoding/json] and [strings.TrimSpace] lie
    outside the repository; the conversions are written against them:
    [json_Marshal] is [json.Marshal] of a [map[string]interface{}] ([None]
    when it returns an error), [json_Marshal_join c t] is [json.Marshal] of
    the map literal with the keys ["condition"] and ["type"],
    [json_Unmarshal] is [json.Unmarshal] into a nil
    [map[string]interface{}] ([None] when it returns an error, [Some None]
    when it leaves the map nil), [empty_map] is
    [make(map[string]interface{})]. *)

Module sls_service.

Record slsService (C : Type) : Type := mkslsService {
  slsClient : C;
  project : string;
  logStore : string
}.
Arguments mkslsService {C} _ _ _.
Arguments slsClient {C} _.
Arguments project {C} _.
Arguments logStore {C} _.

Section Conversions.
Variable J : Type.
Variable json_Marshal : J -> option string.
Variable json_Marshal_join : option string -> option string -> option string.
Variable json_Unmarshal : string -> option (option J).
Variable empty_map : J.
Variable strings_TrimSpace : string -> string.

(** The non-nil elements of a [[]*string]. *)
Definition present (l : list (option string)) : list string :=
flat_map (fun field => match field with
                       | Some s => [s]
                       | None => []
                       end) l.

(** [Fields] of the SDK's group configuration as one string. *)
Definition fieldsStr (Fields : list (option string)) : option string :=
match Fields with
| [] => None
| _ =>
    match present Fields with
    | [] => None
    | fields => tea.String (strings.Join fields ",")
    end
end.

(** [if m != nil { if b, err := json.Marshal(m); err == nil { ... } }] *)
Definition marshalled (m : option J) : option string :=
match m with
| None => None
| Some m => json_Marshal m
end.

(** The [JoinConfig] text of a join configuration. *)
Definition joinConfigStr (Condition Type_ : option string) : option string :=
match Condition, Type_ with
| None, None => None
| _, _ => json_Marshal_join Condition Type_
end.

Definition convertSLSAlertToModel (slsAlert : sls20201230.Alert J) : Alert :=
let alert :=
  {| a_ID := 0;
     a_Name := tea.StringValue (sls20201230.a_Name slsAlert);
     a_DisplayName := tea.StringValue (sls20201230.a_DisplayName slsAlert);
     a_Description := sls20201230.a_Description slsAlert;
     a_Status := tea.StringValue (sls20201230.a_Status slsAlert);
     a_CreateTime := sls20201230.a_CreateTime slsAlert;
     a_LastModifiedTime := sls20201230.a_LastModifiedTime slsAlert;
     a_ConfigurationID := None;
     a_ScheduleID := None;
     a_CreatedAt := 0%Z;
     a_Configuration := None;
     a_Schedule := None;
     a_Tags := [];
     a_Queries := [] |} in
let alert :=
  match sls20201230.a_Configuration slsAlert with
  | None => alert
  | Some c =>
      {| a_ID := a_ID alert;
         a_Name := a_Name alert;
         a_DisplayName := a_DisplayName alert;
         a_Description := a_Description alert;
         a_Status := a_Status alert;
         a_CreateTime := a_CreateTime alert;
         a_LastModifiedTime := a_LastModifiedTime alert;
         a_ConfigurationID := None;
         a_ScheduleID := None;
         a_CreatedAt := 0%Z;
         a_Configuration := Some
           {| cfg_ID := 0;
              cfg_AlertID := 0;
              cfg_AutoAnnotation := sls20201230.cfg_AutoAnnotation c;
              cfg_Dashboard := sls20201230.cfg_Dashboard c;
              cfg_MuteUntil := sls20201230.cfg_MuteUntil c;
              cfg_NoDataFire := sls20201230.cfg_NoDataFire c;
              cfg_NoDataSeverity := sls20201230.cfg_NoDataSeverity c;
              cfg_Threshold := sls20201230.cfg_Threshold c;
              cfg_Type := sls20201230.cfg_Type c;
              cfg_Version := sls20201230.cfg_Version c;
              cfg_SendResolved := sls20201230.cfg_SendResolved c;
              cfg_ConditionConfigID := None;
              cfg_GroupConfigID := None;
              cfg_PolicyConfigID := None;
              cfg_TemplateConfigID := None;
              cfg_SinkAlerthubConfigID := None;
              cfg_SinkCmsConfigID := None;
              cfg_SinkEventStoreConfigID := None;
              cfg_ConditionConfig :=
                option_map
                  (fun cc => mkConditionConfiguration 0 0
                               (sls20201230.cond_Condition cc)
                               (sls20201230.cond_CountCondition cc))
                  (sls20201230.cfg_ConditionConfiguration c);
              cfg_GroupConfig :=
                option_map
                  (fun g => mkGroupConfiguration 0 0
                              (fieldsStr (sls20201230.grp_Fields g))
                              (sls20201230.grp_Type g))
                  (sls20201230.cfg_GroupConfiguration c);
              cfg_PolicyConfig :=
                option_map
                  (fun p => mkPolicyConfiguration 0 0
                              (sls20201230.pol_ActionPolicyId p)
                              (sls20201230.pol_AlertPolicyId p)
                              (sls20201230.pol_RepeatInterval p))
                  (sls20201230.cfg_PolicyConfiguration c);
              cfg_TemplateConfig :=
                option_map
                  (fun t => mkTemplateConfiguration 0 0
                              (sls20201230.tpl_Id t)
                              (sls20201230.tpl_Lang t)
                              (sls20201230.tpl_Type t)
                              (sls20201230.tpl_Version t)
                              (marshalled (sls20201230.tpl_Aonotations t))
                              (marshalled (sls20201230.tpl_Tokens t)))
                  (sls20201230.cfg_TemplateConfiguration c);
              cfg_SeverityConfigs :=
                map (fun slsSeverity =>
                       mkSeverityConfiguration 0 0
                         (sls20201230.sev_Severity slsSeverity) None
                         (option_map
                            (fun ec => mkConditionConfiguration 0 0
                                         (sls20201230.cond_Condition ec)
                                         (sls20201230.cond_CountCondition ec))
                            (sls20201230.sev_EvalCondition slsSeverity)))
                    (sls20201230.cfg_SeverityConfigurations c);
              cfg_JoinConfigs :=
                map (fun slsJoinConfig =>
                       mkJoinConfiguration 0 0
                         (sls20201230.join_Type slsJoinConfig)
                         (joinConfigStr
                            (sls20201230.join_Condition slsJoinConfig)
                            (sls20201230.join_Type slsJoinConfig)))
                    (sls20201230.cfg_JoinConfigurations c);
              cfg_SinkAlerthubConfig :=
                option_map
                  (fun s => mkSinkAlerthubConfiguration 0 0
                              (sls20201230.hub_Enabled s))
                  (sls20201230.cfg_SinkAlerthub c);
              cfg_SinkCmsConfig :=
                option_map
                  (fun s => mkSinkCmsConfiguration 0 0
                              (sls20201230.cms_Enabled s))
                  (sls20201230.cfg_SinkCms c);
              cfg_SinkEventStoreConfig :=
                option_map
                  (fun s => mkSinkEventStoreConfiguration 0 0
                              (sls20201230.es_Enabled s)
                              (sls20201230.es_Endpoint s)
                              (sls20201230.es_EventStore s)
                              (sls20201230.es_Project s)
                              (sls20201230.es_RoleArn s))
                  (sls20201230.cfg_SinkEventStore c) |};
         a_Schedule := None;
         a_Tags :=
           map (fun slsTag =>
                  mkAlertTag 0 0 "label" (tea.StringValue slsTag) None)
               (sls20201230.cfg_Tags c) ++
           map (fun slsAnnotation =>
                  mkAlertTag 0 0 "annotation"
                    (tea.StringValue (sls20201230.tag_Key slsAnnotation))
                    (sls20201230.tag_Value slsAnnotation))
               (sls20201230.cfg_Annotations c);
         a_Queries :=
           map (fun slsQuery =>
                  mkAlertQuery 0 0
                    (sls20201230.q_ChartTitle slsQuery)
                    (sls20201230.q_DashboardId slsQuery)
                    (sls20201230.q_End slsQuery)
                    (sls20201230.q_PowerSqlMode slsQuery)
                    (sls20201230.q_Project slsQuery)
                    (tea.StringValue (sls20201230.q_Query slsQuery))
                    (sls20201230.q_Region slsQuery)
                    (sls20201230.q_RoleArn slsQuery)
                    (sls20201230.q_Start slsQuery)
                    (sls20201230.q_Store slsQuery)
                    (sls20201230.q_StoreType slsQuery)
                    (sls20201230.q_TimeSpanType slsQuery)
                    (sls20201230.q_Ui slsQuery))
               (sls20201230.cfg_QueryList c) |}
  end in
match sls20201230.a_Schedule slsAlert with
| None => alert
| Some s =>
    set_a_Schedule
      (Some (mkAlertSchedule 0 0
               (sls20201230.sch_CronExpression s)
               (sls20201230.sch_Delay s)
               (sls20201230.sch_Interval s)
               (sls20201230.sch_RunImmediately s)
               (sls20201230.sch_TimeZone s)
               (tea.StringValue (sls20201230.sch_Type s))))
      alert
end.

(** [json.Unmarshal] into a nil map; a text that is rejected gives the
  empty map. *)
Definition unmarshalled (text : option string) : option J :=
match text with
| None => None
| Some s =>
    match json_Unmarshal s with
    | Some m => m
    | None => Some empty_map
    end
end.

(** [Fields] of the model's group configuration as the SDK's slice. *)
Definition fieldList (Fields : option string) : list (option string) :=
match Fields with
| None => []
| Some s =>
    map (fun field => tea.String (strings_TrimSpace field))
        (strings.Split s strings.comma)
end.

Definition convertModelToSLSAlert (alert : Alert) : sls20201230.Alert J :=
{| sls20201230.a_Name := tea.String (a_Name alert);
   sls20201230.a_DisplayName := tea.String (a_DisplayName alert);
   sls20201230.a_Description := a_Description alert;
   sls20201230.a_Status := tea.String (a_Status alert);
   sls20201230.a_CreateTime := a_CreateTime alert;
   sls20201230.a_LastModifiedTime := a_LastModifiedTime alert;
   sls20201230.a_Configuration :=
     option_map
       (fun c =>
          {| sls20201230.cfg_Annotations :=
               map (fun tag =>
                      sls20201230.mkAlertTag (tea.String (tag_TagKey tag))
                                             (tag_TagValue tag))
                   (filter (fun tag => String.eqb (tag_TagType tag) "annotation")
                           (a_Tags alert));
             sls20201230.cfg_AutoAnnotation := cfg_AutoAnnotation c;
             sls20201230.cfg_ConditionConfiguration :=
               option_map
                 (fun cc => sls20201230.mkConditionConfiguration
                              (cond_Condition cc) (cond_CountCondition cc))
                 (cfg_ConditionConfig c);
             sls20201230.cfg_Dashboard := cfg_Dashboard c;
             sls20201230.cfg_GroupConfiguration :=
               option_map
                 (fun g => sls20201230.mkGroupConfiguration
                             (fieldList (grp_Fields g)) (grp_Type g))
                 (cfg_GroupConfig c);
             sls20201230.cfg_JoinConfigurations := [];
             sls20201230.cfg_MuteUntil := cfg_MuteUntil c;
             sls20201230.cfg_NoDataFire := cfg_NoDataFire c;
             sls20201230.cfg_NoDataSeverity := cfg_NoDataSeverity c;
             sls20201230.cfg_PolicyConfiguration :=
               option_map
                 (fun p => sls20201230.mkPolicyConfiguration
                             (pol_ActionPolicyId p) (pol_AlertPolicyId p)
                             (pol_RepeatInterval p))
                 (cfg_PolicyConfig c);
             sls20201230.cfg_QueryList :=
               map (fun query =>
                      sls20201230.mkAlertQuery
                        (q_ChartTitle query) (q_DashboardId query)
                        (q_End query) (q_PowerSqlMode query)
                        (q_Project query) (tea.String (q_Query query))
                        (q_Region query) (q_RoleArn query) (q_Start query)
                        (q_Store query) (q_StoreType query)
                        (q_TimeSpanType query) (q_Ui query))
                   (a_Queries alert);
             sls20201230.cfg_SendResolved := cfg_SendResolved c;
             sls20201230.cfg_SeverityConfigurations := [];
             sls20201230.cfg_SinkAlerthub :=
               option_map
                 (fun s => sls20201230.mkSinkAlerthubConfiguration (hub_Enabled s))
                 (cfg_SinkAlerthubConfig c);
             sls20201230.cfg_SinkCms :=
               option_map
                 (fun s => sls20201230.mkSinkCmsConfiguration (cms_Enabled s))
                 (cfg_SinkCmsConfig c);
             sls20201230.cfg_SinkEventStore :=
               option_map
                 (fun s => sls20201230.mkSinkEventStoreConfiguration
                             (es_Enabled s) (es_Endpoint s) (es_EventStore s)
                             (es_Project s) (es_RoleArn s))
                 (cfg_SinkEventStoreConfig c);
             sls20201230.cfg_Tags :=
               map (fun tag => tea.String (tag_TagKey tag))
                   (filter (fun tag => String.eqb (tag_TagType tag) "label")
                           (a_Tags alert));
             sls20201230.cfg_TemplateConfiguration :=
               option_map
                 (fun t => sls20201230.mkTemplateConfiguration
                             (tpl_TemplateId t) (tpl_Lang t) (tpl_Type t)
                             (tpl_Version t)
                             (unmarshalled (tpl_Aonotations t))
                             (unmarshalled (tpl_Tokens t)))
                 (cfg_TemplateConfig c);
             sls20201230.cfg_Threshold := cfg_Threshold c;
             sls20201230.cfg_Type := cfg_Type c;
             sls20201230.cfg_Version := cfg_Version c |})
       (a_Configuration alert);
   sls20201230.a_Schedule :=
     option_map
       (fun s => sls20201230.mkSchedule
                   (sch_CronExpression s) (sch_Delay s) (sch_Interval s)
                   (sch_RunImmediately s) (sch_TimeZone s)
                   (tea.String (sch_Type s)))
       (a_Schedule alert) |}.

Section Calls.
Context {C : Type} `{sls20201230.Client J C}.

Definition GetAlerts (s : slsService C) : list Alert * option error :=
match sls20201230.ListAlertsWithOptions (tea.String (project s)) (slsClient s) with
| Err err => ([], Some (Errorf "failed to list alerts from SLS" err))
| Ok response =>
    (match sls20201230.Body response with
     | Some results => map convertSLSAlertToModel results
     | None => []
     end, None)
end.

Definition CreateAlert (alert : Alert) (s : slsService C)
: option error * slsService C :=
let slsAlert := convertModelToSLSAlert alert in
let request :=
  {| sls20201230.create_Name := tea.String (a_Name alert);
     sls20201230.create_DisplayName := tea.String (a_DisplayName alert);
     sls20201230.create_Description := a_Description alert;
     sls20201230.create_Configuration := sls20201230.a_Configuration slsAlert;
     sls20201230.create_Schedule := sls20201230.a_Schedule slsAlert |} in
match sls20201230.CreateAlertWithOptions (tea.String (project s)) request
        (slsClient s) with
| (Some err, client) =>
    (Some (Errorf "failed to create alert in SLS" err),
     mkslsService client (project s) (logStore s))
| (None, client) => (None, mkslsService client (project s) (logStore s))
end.

Definition UpdateAlert (alert : Alert) (s : slsService C)
: option error * slsService C :=
let slsAlert := convertModelToSLSAlert alert in
let request :=
  {| sls20201230.update_DisplayName := tea.String (a_DisplayName alert);
     sls20201230.update_Description := a_Description alert;
     sls20201230.update_Configuration := sls20201230.a_Configuration slsAlert;
     sls20201230.update_Schedule := sls20201230.a_Schedule slsAlert |} in
match sls20201230.UpdateAlertWithOptions (tea.String (project s))
        (tea.String (a_Name alert)) request (slsClient s) with
| (Some err, client) =>
    (Some (Errorf "failed to update alert in SLS" err),
     mkslsService client (project s) (logStore s))
| (None, client) => (None, mkslsService client (project s) (logStore s))
end.

(** [slsService] implements the [SLSService] interface. *)
#[global] Instance slsService_SLSService : service.SLSService (slsService C) := {|
service.GetAlerts := GetAlerts;
service.CreateAlert := CreateAlert;
service.UpdateAlert := UpdateAlert
|}.
End Calls.
End Conversions.

End sls_service.

(** ** [internal/handler]: the two list handlers

    The handlers are rendered from the point where [strconv.Atoi] has read
    the query parameters [page] and [page_size].  What a handler leaves
    behind is a JSON response or, when the evaluation of the response body
    panics, no response of its own.  The reads of the store do not fail in
    this development, so [ListAlerts] has no error response here. *)

Module handler.

Inductive outcome : Type :=
  | StatusOK (data : list Alert) (page page_size total total_pages : Z)
  | StatusInternalServerError (error message : string)
  | panic (what : string).

(** [a / b] on [int64]: truncated towards zero, wrapping around, and a
    run-time panic for a zero divisor. *)
Definition quo (a b : Z) : option Z :=
  if (b =? 0)%Z then None else Some (golang.wrap_int (Z.quot a b)).

(** [(total + int64(pageSize) - 1) / int64(pageSize)] *)
Definition total_pages (total pageSize : Z) : option Z :=
  quo (golang.wrap_int (golang.wrap_int (total + pageSize) - 1)) pageSize.

Definition ListAlerts (page pageSize : Z) (d : DB) : outcome :=
  let (alerts, total) := alert_service.ListAlerts page pageSize d in
  match total_pages total pageSize with
  | None => panic "runtime error: integer divide by zero"
  | Some pages => StatusOK alerts page pageSize total pages
  end.

Definition ListAlertsByStatus (status : string) (page pageSize : Z) (d : DB)
  : outcome :=
  match alert_service.ListAlertsByStatus status page pageSize d with
  | Err err => StatusInternalServerError "Failed to get alerts" (Error err)
  | Ok (alerts, total) =>
      match total_pages total pageSize with
      | None => panic "runtime error: integer divide by zero"
      | Some pages => StatusOK alerts page pageSize total pages
      end
  end.

End handler.

(** ** An in-memory remote alerting service

    The remote service is an external collaborator (list, create, update by
    name).  This stand-in keeps the alerts it was sent and can be switched
    to unreachable, in which case every call fails. *)

Module remote.

Record Remote : Type := mkRemote {
  reachable : bool;
  remote_alerts : list Alert
}.

Definition unreachable_error (what : string) : error :=
  Errorf what (ErrorNew "dial tcp: i/o timeout").

#[global] Instance Remote_SLSService : service.SLSService Remote := {|
  service.GetAlerts := fun r =>
    if reachable r then (remote_alerts r, None)
    else ([], Some (unreachable_error "failed to list alerts from SLS"));
  service.CreateAlert := fun alert r =>
    if reachable r then (None, mkRemote true (remote_alerts r ++ [alert]))
    else (Some (unreachable_error "failed to create alert in SLS"), r);
  service.UpdateAlert := fun alert r =>
    if reachable r
    then (None,
          mkRemote true
            (map (fun a => if String.eqb (a_Name a) (a_Name alert) then alert else a)
                 (remote_alerts r)))
    else (Some (unreachable_error "failed to update alert in SLS"), r)
|}.

Definition empty : Remote := mkRemote true [].
Definition unreachable : Remote := mkRemote false [].

End remote.

(** ** Sample data *)

Module examples.

Definition condition : ConditionConfiguration :=
  mkConditionConfiguration 0 0 (Some "cnt > 5") (Some "__count__ > 0").

Definition eval_condition : ConditionConfiguration :=
  mkConditionConfiguration 0 0 (Some "cnt > 50") None.

Definition group : GroupConfiguration :=
  mkGroupConfiguration 0 0 (Some "host,service") (Some "custom").

Definition policy : PolicyConfiguration :=
  mkPolicyConfiguration 0 0 (Some "sls.builtin") (Some "sls.builtin.dynamic")
    (Some "5m").

Definition template : TemplateConfiguration :=
  mkTemplateConfiguration 0 0 (Some "sls.app.ack") (Some "cn") (Some "sys")
    (Some "1.0") (Some "{}") (Some "{}").

Definition alerthub : SinkAlerthubConfiguration :=
  mkSinkAlerthubConfiguration 0 0 (Some true).

Definition cms : SinkCmsConfiguration :=
  mkSinkCmsConfiguration 0 0 (Some true).

Definition eventstore : SinkEventStoreConfiguration :=
  mkSinkEventStoreConfiguration 0 0 (Some true) (Some "cn-hangzhou.log.aliyuncs.com")
    (Some "alerts") (Some "ops") (Some "acs:ram::1:role/sls").

Definition critical : SeverityConfiguration :=
  mkSeverityConfiguration 0 0 (Some 10%Z) None (Some eval_condition).

Definition medium : SeverityConfiguration :=
  mkSeverityConfiguration 0 0 (Some 6%Z) None None.

Definition join : JoinConfiguration :=
  mkJoinConfiguration 0 0 (Some "cross_join") (Some "{}").

Definition configuration : AlertConfiguration :=
  {| cfg_ID := 0;
     cfg_AlertID := 0;
     cfg_AutoAnnotation := Some true;
     cfg_Dashboard := Some "internal-alert-analysis";
     cfg_MuteUntil := Some 0%Z;
     cfg_NoDataFire := Some false;
     cfg_NoDataSeverity := Some 6%Z;
     cfg_Threshold := Some 1%Z;
     cfg_Type := Some "default";
     cfg_Version := Some "2.0";
     cfg_SendResolved := Some false;
     cfg_ConditionConfigID := None;
     cfg_GroupConfigID := None;
     cfg_PolicyConfigID := None;
     cfg_TemplateConfigID := None;
     cfg_SinkAlerthubConfigID := None;
     cfg_SinkCmsConfigID := None;
     cfg_SinkEventStoreConfigID := None;
     cfg_ConditionConfig := Some condition;
     cfg_GroupConfig := Some group;
     cfg_PolicyConfig := Some policy;
     cfg_TemplateConfig := Some template;
     cfg_SeverityConfigs := [critical; medium];
     cfg_JoinConfigs := [join];
     cfg_SinkAlerthubConfig := Some alerthub;
     cfg_SinkCmsConfig := Some cms;
     cfg_SinkEventStoreConfig := Some eventstore |}.

Definition schedule : AlertSchedule :=
  mkAlertSchedule 0 0 None (Some 0%Z) (Some "1m") (Some false) None "FixedRate".

Definition label : AlertTag := mkAlertTag 0 0 "label" "team" (Some "ops").

Definition annotation : AlertTag :=
  mkAlertTag 0 0 "annotation" "title" (Some "CPU is high").

Definition query : AlertQuery :=
  mkAlertQuery 0 0 (Some "cpu") None (Some "now") None (Some "ops")
    "* | select count(1) as cnt" (Some "cn-hangzhou") None (Some "-5m")
    (Some "metrics") (Some "log") (Some "Relative") None.

(** A full aggregate, as the handler would hand it to the store. *)
Definition cpu_alert : Alert :=
  {| a_ID := 0;
     a_Name := "cpu-high";
     a_DisplayName := "CPU high";
     a_Description := Some "CPU usage above threshold";
     a_Status := "ENABLED";
     a_CreateTime := Some 1700000000%Z;
     a_LastModifiedTime := Some 1700000100%Z;
     a_ConfigurationID := None;
     a_ScheduleID := None;
     a_CreatedAt := 0%Z;
     a_Configuration := Some configuration;
     a_Schedule := Some schedule;
     a_Tags := [label; annotation];
     a_Queries := [query] |}.

(** The store after creating [cpu_alert] in an empty store, and the struct
    the create hands back.  The sample stores are kept evaluated. *)
Definition created : result Alert * DB :=
  Eval vm_compute in store.CreateWithTransaction healthy cpu_alert empty_db.

Definition db1 : DB := Eval vm_compute in snd created.

Definition cpu_alert1 : Alert :=
  Eval vm_compute in
  match fst created with
  | Ok a => a
  | Err _ => cpu_alert
  end.

(** An update request for the stored aggregate, as decoded from a request
    body: only the root identity is known. *)
Definition update_request : Alert := set_a_ID 1 cpu_alert.

(** The store after a first update, and after a second one with the same
    request. *)
Definition updated : result Alert * DB :=
  Eval vm_compute in store.UpdateWithTransaction healthy update_request db1.

Definition db2 : DB := Eval vm_compute in snd updated.

Definition update_result : Alert :=
  Eval vm_compute in
  match fst updated with
  | Ok a => a
  | Err _ => update_request
  end.

Definition updated_again : result Alert * DB :=
  Eval vm_compute in store.UpdateWithTransaction healthy update_request db2.

Definition db3 : DB := Eval vm_compute in snd updated_again.

Definition update_result_again : Alert :=
  Eval vm_compute in
  match fst updated_again with
  | Ok a => a
  | Err _ => update_request
  end.

(** An update request that carries no tags, applied to the created
    aggregate. *)
Definition tagless_request : Alert := set_a_Tags [] update_request.

Definition updated_tagless : result Alert * DB :=
  Eval vm_compute in store.UpdateWithTransaction healthy tagless_request db1.

Definition db1_tagless : DB := Eval vm_compute in snd updated_tagless.

Definition tagless_result : Alert :=
  Eval vm_compute in
  match fst updated_tagless with
  | Ok a => a
  | Err _ => tagless_request
  end.

(** An update request that carries nothing but the root scalars. *)
Definition bare_request : Alert :=
  set_a_Queries [] (set_a_Tags [] (set_a_Schedule None
    (set_a_Configuration None update_request))).

(** The alerthub sink block of a later request: the sink switched off. *)
Definition quiet_alerthub : SinkAlerthubConfiguration :=
  mkSinkAlerthubConfiguration 0 0 (Some false).

(** The records of the change-decision example. *)
Definition local_record : Alert :=
  {| a_ID := 7;
     a_Name := "disk-full";
     a_DisplayName := "A";
     a_Description := None;
     a_Status := "ENABLED";
     a_CreateTime := None;
     a_LastModifiedTime := Some 100%Z;
     a_ConfigurationID := None;
     a_ScheduleID := None;
     a_CreatedAt := 0%Z;
     a_Configuration := None;
     a_Schedule := None;
     a_Tags := [];
     a_Queries := [] |}.

Definition incoming_record : Alert := set_a_ID 0 local_record.

(** A store holding [n] bare alerts, named [alert-1] ... [alert-n], created
    in that order. *)
Definition bare_alert (i : nat) : Alert :=
  {| a_ID := N.of_nat i;
     a_Name := String.append "alert-" (NilEmpty.string_of_uint (Nat.to_uint i));
     a_DisplayName := "bare";
     a_Description := None;
     a_Status := "ENABLED";
     a_CreateTime := None;
     a_LastModifiedTime := None;
     a_ConfigurationID := None;
     a_ScheduleID := None;
     a_CreatedAt := Z.of_nat i;
     a_Configuration := None;
     a_Schedule := None;
     a_Tags := [];
     a_Queries := [] |}.

Definition store_of (n : nat) : DB :=
  with_alerts (mkTable (map bare_alert (seq 1 n)) (N.of_nat (S n))) empty_db.

End examples.

(** ** Sample data for the conversions *)

Module samples.

(** A stand-in for the JSON codec and for [strings.TrimSpace] in the
    examples: every map is the one-point map, rendered as an empty object;
    the sample strings carry no surrounding blanks. *)
Definition sample_Marshal (m : unit) : option string := Some "{}".

Definition sample_Marshal_join (c t : option string) : option string := Some "{}".

Definition sample_Unmarshal (text : string) : option (option unit) := Some (Some tt).

Definition sample_TrimSpace (s : string) : string := s.

(** An alert as the SDK lists it, with one severity and one join
    configuration. *)
Definition sdk_alert : sls20201230.Alert unit :=
  {| sls20201230.a_Name := Some "cpu-high";
     sls20201230.a_DisplayName := Some "CPU high";
     sls20201230.a_Description := None;
     sls20201230.a_Status := Some "ENABLED";
     sls20201230.a_CreateTime := Some 1700000000%Z;
     sls20201230.a_LastModifiedTime := Some 1700000100%Z;
     sls20201230.a_Configuration := Some
       {| sls20201230.cfg_Annotations :=
            [sls20201230.mkAlertTag (Some "title") (Some "CPU")];
          sls20201230.cfg_AutoAnnotation := Some true;
          sls20201230.cfg_ConditionConfiguration :=
            Some (sls20201230.mkConditionConfiguration (Some "cnt > 0") None);
          sls20201230.cfg_Dashboard := None;
          sls20201230.cfg_GroupConfiguration :=
            Some (sls20201230.mkGroupConfiguration [Some "host"; Some "service"]
                    (Some "custom"));
          sls20201230.cfg_JoinConfigurations :=
            [sls20201230.mkJoinConfiguration (Some "$0.host == $1.host")
               (Some "left_join")];
          sls20201230.cfg_MuteUntil := None;
          sls20201230.cfg_NoDataFire := Some false;
          sls20201230.cfg_NoDataSeverity := None;
          sls20201230.cfg_PolicyConfiguration := None;
          sls20201230.cfg_QueryList := [];
          sls20201230.cfg_SendResolved := None;
          sls20201230.cfg_SeverityConfigurations :=
            [sls20201230.mkSeverityConfiguration (Some 8%Z) None];
          sls20201230.cfg_SinkAlerthub := None;
          sls20201230.cfg_SinkCms := None;
          sls20201230.cfg_SinkEventStore := None;
          sls20201230.cfg_Tags := [Some "team"; None];
          sls20201230.cfg_TemplateConfiguration := None;
          sls20201230.cfg_Threshold := Some 1%Z;
          sls20201230.cfg_Type := Some "default";
          sls20201230.cfg_Version := Some "2.0" |};
     sls20201230.a_Schedule := None |}.

End samples.

Local Open Scope string_scope.
Local Open Scope list_scope.
Local Open Scope N_scope.
Local Open Scope tx_scope.

(** * Vocabulary of the statements

    The predicates and views in which the theorems below are stated. *)

(** ** Views of the store, effects of a run, and the backend's verdicts *)

(** A view [g] of the store that a successful run of [m] leaves as it was. *)
Definition preserves {X A} (g : DB -> X) (m : Tx A) : Prop :=
  forall d a d', m d = (Ok a, d') -> g d' = g d.

(** What a successful computation returns. *)
Definition returns {A} (m : Tx A) (P : A -> Prop) : Prop :=
  forall d a d', m d = (Ok a, d') -> P a.

(** A view that does not look at the journal. *)
Definition journal_free {X} (g : DB -> X) : Prop :=
  forall j d, g (with_journal j d) = g d.

(** A view that does not look at the table of model [R]. *)
Definition apart {X} (g : DB -> X) (R : Type) `{Model R} : Prop :=
  forall t d, g (with_table t d) = g d.

(** A view that a rollback resets. *)
Definition rollback_stable {X} (g : DB -> X) : Prop :=
  forall old cur, g (rollback old cur) = g old.

(** The store with one more statement in its journal. *)
Definition logged (s : Statement) (d : DB) : DB :=
  with_journal (journal d ++ [s]) d.

(** The accessors of a model behave like the fields of a record: what is
    put into a table is read back, and tables, journal and primary keys do
    not interfere. *)
Class Lawful (R : Type) `{Model R} : Prop := {
  table_with_table : forall t d, table (with_table t d) = t;
  table_with_journal : forall j d, table (with_journal j d) = table d;
  journal_with_table : forall t d, journal (with_table t d) = journal d;
  pk_with_pk : forall n r, pk (with_pk n r) = n;
  pk_before_create : forall t r, pk (before_create t r) = pk r
}.

Ltac lawful := constructor; intros; reflexivity.

#[global] Instance Alert_Lawful : Lawful Alert.
Proof. lawful. Qed.
#[global] Instance AlertConfiguration_Lawful : Lawful AlertConfiguration.
Proof. lawful. Qed.
#[global] Instance AlertSchedule_Lawful : Lawful AlertSchedule.
Proof. lawful. Qed.
#[global] Instance AlertTag_Lawful : Lawful AlertTag.
Proof. lawful. Qed.
#[global] Instance AlertQuery_Lawful : Lawful AlertQuery.
Proof. lawful. Qed.
#[global] Instance ConditionConfiguration_Lawful : Lawful ConditionConfiguration.
Proof. lawful. Qed.
#[global] Instance GroupConfiguration_Lawful : Lawful GroupConfiguration.
Proof. lawful. Qed.
#[global] Instance PolicyConfiguration_Lawful : Lawful PolicyConfiguration.
Proof. lawful. Qed.
#[global] Instance TemplateConfiguration_Lawful : Lawful TemplateConfiguration.
Proof. lawful. Qed.
#[global] Instance SeverityConfiguration_Lawful : Lawful SeverityConfiguration.
Proof. lawful. Qed.
#[global] Instance JoinConfiguration_Lawful : Lawful JoinConfiguration.
Proof. lawful. Qed.
#[global] Instance SinkAlerthubConfiguration_Lawful : Lawful SinkAlerthubConfiguration.
Proof. lawful. Qed.
#[global] Instance SinkCmsConfiguration_Lawful : Lawful SinkCmsConfiguration.
Proof. lawful. Qed.
#[global] Instance SinkEventStoreConfiguration_Lawful : Lawful SinkEventStoreConfiguration.
Proof. lawful. Qed.

(** What "refreshed in place" means for a block table: same rows in the same
    order with the same identities, the [kept] columns untouched everywhere,
    rows other than [existing] untouched altogether, and the row [existing]
    holding what [written] says. *)
Definition refreshed_in_place {R : Type} `{Model R}
    (kept : R -> R -> Prop) (written : R -> Prop) (existing : N)
    (old new : list R) : Prop :=
  Forall2 (fun o n => pk n = pk o /\ kept o n /\
                      (pk o <> existing -> n = o) /\
                      (pk o = existing -> written n)) old new.

(** An upsert that, finding the slot of the owning configuration occupied,
    returns the existing identity, hands out no new one, refreshes the block
    table in place and leaves the configuration table alone. *)
Definition upsert_in_place {R : Type} `{Model R}
    (upsert_fn : Env -> N -> R -> Tx R)
    (slot : AlertConfiguration -> option N)
    (kept : R -> R -> Prop) (written : R -> R -> Prop) : Prop :=
  forall env alertConfigID config d r d' owner existing,
    least (filter (fun c => cfg_ID c =? alertConfigID)
                  (rows (alert_configurations d))) = Some owner ->
    store.occupied (slot owner) = Some existing ->
    upsert_fn env alertConfigID config d = (Ok r, d') ->
    pk r = existing /\
    next_id (table d') = next_id (table d) /\
    refreshed_in_place kept (written config) existing
      (rows (table d)) (rows (table d')) /\
    alert_configurations d' = alert_configurations d.

(** The backend accepted every statement issued between [d] and [d']. *)
Definition accepted (env : Env) (d d' : DB) : Prop :=
  (List.length (journal d) <= List.length (journal d'))%nat /\
  forall n, (List.length (journal d) <= n < List.length (journal d'))%nat ->
            fails env n = false.

(** A computation that returns a result only if the backend accepted every
    statement it issued. *)
Definition audited {A} (env : Env) (m : Tx A) : Prop :=
  forall d a d', m d = (Ok a, d') -> accepted env d d'.

(** Two stores hold the same rows in every table. *)
Record same_rows (d d' : DB) : Prop := {
  same_alerts : rows (alerts d') = rows (alerts d);
  same_alert_configurations :
    rows (alert_configurations d') = rows (alert_configurations d);
  same_alert_schedules : rows (alert_schedules d') = rows (alert_schedules d);
  same_alert_tags : rows (alert_tags d') = rows (alert_tags d);
  same_alert_queries : rows (alert_queries d') = rows (alert_queries d);
  same_condition_configurations :
    rows (condition_configurations d') = rows (condition_configurations d);
  same_group_configurations :
    rows (group_configurations d') = rows (group_configurations d);
  same_policy_configurations :
    rows (policy_configurations d') = rows (policy_configurations d);
  same_template_configurations :
    rows (template_configurations d') = rows (template_configurations d);
  same_severity_configurations :
    rows (severity_configurations d') = rows (severity_configurations d);
  same_join_configurations :
    rows (join_configurations d') = rows (join_configurations d);
  same_sink_alerthub_configurations :
    rows (sink_alerthub_configurations d') = rows (sink_alerthub_configurations d);
  same_sink_cms_configurations :
    rows (sink_cms_configurations d') = rows (sink_cms_configurations d);
  same_sink_event_store_configurations :
    rows (sink_event_store_configurations d') =
    rows (sink_event_store_configurations d)
}.

(** The parts of the incoming struct that the later steps of an update
    read. *)
Definition same_request (alert a' : Alert) : Prop :=
  a_ID a' = a_ID alert /\ a_Schedule a' = a_Schedule alert /\
  a_Tags a' = a_Tags alert /\ a_Queries a' = a_Queries alert.

(** Step 2 of [UpdateWithTransaction]. *)
Definition update_step2 (env : Env) (alert : Alert) : Tx Alert :=
  match a_Configuration alert with
  | None => ret alert
  | Some _ =>
      store.deleteConfigurationAssociations env (a_ID alert)
        orelse "failed to delete old configuration associations" ;;;
      store.updateConfiguration env alert
        orelse "failed to update configuration"
  end.

(** ** Delete *)

(** The alert owns at most one configuration row. *)
Definition one_configuration (d : DB) (id : N) : Prop :=
  forall c c',
    In c (rows (alert_configurations d)) -> In c' (rows (alert_configurations d)) ->
    cfg_AlertID c = id -> cfg_AlertID c' = id -> cfg_ID c = cfg_ID c'.

(** Whether some configuration row belongs to the alert. *)
Definition has_configuration (d : DB) (id : N) : bool :=
  existsb (fun c => cfg_AlertID c =? id) (rows (alert_configurations d)).

(** The statements [Delete] issues, in order. *)
Definition delete_plan (d : DB) (id : N) : list Statement :=
  [BEGIN; SQL SELECT "alert_configurations"] ++
  (if has_configuration d id
   then [SQL DELETE "severity_configurations"; SQL DELETE "join_configurations"]
   else []) ++
  [SQL DELETE "alert_configurations"; SQL DELETE "alert_schedules";
   SQL DELETE "alert_tags"; SQL DELETE "alert_queries"; SQL DELETE "alerts";
   COMMIT].

(** A backend that rejects no statement. *)
Definition never_fails (env : Env) : Prop := forall n, fails env n = false.

(** A computation that returns a result from every store. *)
Definition succeeds {A} (m : Tx A) : Prop :=
  forall d, exists a d', m d = (Ok a, d').

(** ** Values of rows, identities aside *)

(** The values of a row, identities aside. *)
Definition tag_values (t : AlertTag) : string * string * option string :=
  (tag_TagType t, tag_TagKey t, tag_TagValue t).

(** The values of a query row: the row with its identity and owner blanked. *)
Definition query_values (q : AlertQuery) : AlertQuery :=
  set_q_ID 0 (mkAlertQuery 0 0 (q_ChartTitle q) (q_DashboardId q) (q_End q)
    (q_PowerSqlMode q) (q_Project q) (q_Query q) (q_Region q) (q_RoleArn q)
    (q_Start q) (q_Store q) (q_StoreType q) (q_TimeSpanType q) (q_Ui q)).

(** A struct as GORM inserts it: zero values of columns that declare a
    default take that default. *)
Definition as_inserted {R : Type} `{Model R} (r : R) : R := before_create 0%Z r.

(** The values of a schedule row, identities aside. *)
Definition schedule_values (s : AlertSchedule)
  : option string * option Z * option string * option bool * option string * string :=
  (sch_CronExpression s, sch_Delay s, sch_Interval s, sch_RunImmediately s,
   sch_TimeZone s, sch_Type s).

(** ** Journals: the statements a run issues *)

(** A successful run of [m] appends exactly [plan] to the journal. *)
Definition writes {A} (m : Tx A) (plan : list Statement) : Prop :=
  forall d a d', m d = (Ok a, d') -> journal d' = journal d ++ plan.

(** One [INSERT] when the optional part is there. *)
Definition insert_if_present {R : Type} (table_name : string) (o : option R)
  : list Statement :=
  match o with
  | Some _ => [SQL INSERT table_name]
  | None => []
  end.

(** One batch [INSERT] when the collection is not empty. *)
Definition insert_if_any {R : Type} (table_name : string) (l : list R)
  : list Statement :=
  match l with
  | [] => []
  | _ => [SQL INSERT table_name]
  end.

(** One [INSERT] per severity that carries an eval condition. *)
Definition eval_conditions_plan (l : list SeverityConfiguration) : list Statement :=
  flat_map (fun s => insert_if_present "condition_configurations"
                       (sev_EvalCondition s)) l.

(** The eval conditions, then the severity rows in one batch. *)
Definition severities_plan (l : list SeverityConfiguration) : list Statement :=
  match l with
  | [] => []
  | _ => eval_conditions_plan l ++ [SQL INSERT "severity_configurations"]
  end.

(** The configuration row, then its blocks, severities and joins. *)
Definition configuration_plan (c : AlertConfiguration) : list Statement :=
  [SQL INSERT "alert_configurations"] ++
  insert_if_present "condition_configurations" (cfg_ConditionConfig c) ++
  insert_if_present "group_configurations" (cfg_GroupConfig c) ++
  insert_if_present "policy_configurations" (cfg_PolicyConfig c) ++
  insert_if_present "template_configurations" (cfg_TemplateConfig c) ++
  insert_if_present "sink_alerthub_configurations" (cfg_SinkAlerthubConfig c) ++
  insert_if_present "sink_cms_configurations" (cfg_SinkCmsConfig c) ++
  insert_if_present "sink_event_store_configurations" (cfg_SinkEventStoreConfig c) ++
  severities_plan (cfg_SeverityConfigs c) ++
  insert_if_any "join_configurations" (cfg_JoinConfigs c).

(** Whether the closing patch of the root row is issued: it is as soon as
    the struct holds a configuration or schedule identity, created in this
    operation or passed in. *)
Definition patches (alert : Alert) : bool :=
  match a_Configuration alert, a_ConfigurationID alert,
        a_Schedule alert, a_ScheduleID alert with
  | None, None, None, None => false
  | _, _, _, _ => true
  end.

(** Everything [CreateWithTransaction] issues when it succeeds. *)
Definition create_plan (alert : Alert) : list Statement :=
  [BEGIN; SQL INSERT "alerts"] ++
  match a_Configuration alert with
  | Some c => configuration_plan c
  | None => []
  end ++
  insert_if_present "alert_schedules" (a_Schedule alert) ++
  insert_if_any "alert_tags" (a_Tags alert) ++
  insert_if_any "alert_queries" (a_Queries alert) ++
  (if patches alert then [SQL UPDATE "alerts"] else []) ++
  [COMMIT].

(** Steps 2 to 4. *)
Definition create_step2 (env : Env) (alert : Alert) : Tx Alert :=
  match a_Configuration alert with
  | None => ret alert
  | Some originalConfig => store.create_configuration env alert originalConfig
  end.

(** What the steps pass on of the incoming struct. *)
Definition carried (alert a' : Alert) : Prop :=
  a_ID a' = a_ID alert /\ a_Schedule a' = a_Schedule alert /\
  a_Tags a' = a_Tags alert /\ a_Queries a' = a_Queries alert /\
  a_ScheduleID a' = a_ScheduleID alert.

(** ** Rows as the create operation stores them *)

(** [new] is [old] followed by rows that all satisfy [P]. *)
Definition appended {R : Type} (P : R -> Prop) (old new : list R) : Prop :=
  exists news, new = old ++ news /\ Forall P news.

(** A successful run of [m] only appends rows satisfying [P] to the
    view [g]. *)
Definition extends {R A : Type} (g : DB -> list R) (P : R -> Prop) (m : Tx A)
  : Prop :=
  forall d a d', m d = (Ok a, d') -> appended P (g d) (g d').

(** The row stored for the configuration created by [create_configuration]. *)
Definition configuration_row (cid alertID : N) (c : AlertConfiguration)
  : AlertConfiguration :=
  set_cfg_ID cid
    (set_cfg_AutoAnnotation (default_false (cfg_AutoAnnotation c))
      (set_cfg_NoDataFire (default_false (cfg_NoDataFire c))
        (set_cfg_SendResolved (default_false (cfg_SendResolved c))
          (store.configToCreate alertID c)))).

(** The severity row [n] stored for the incoming [s] under configuration
    [cid]. *)
Definition severity_stored (cid : N) (s n : SeverityConfiguration) : Prop :=
  sev_Severity n = sev_Severity s /\ sev_AlertConfigID n = cid /\
  sev_EvalCondition n = None.

(** The join row [n] stored for the incoming [j] under configuration [cid]. *)
Definition join_stored (cid : N) (j n : JoinConfiguration) : Prop :=
  join_JoinType n = join_JoinType j /\ join_JoinConfig n = join_JoinConfig j /\
  join_AlertConfigID n = cid.

(** The root row as first inserted. *)
Definition root_row (id : N) (created_at : Z) (alert : Alert) : Alert :=
  set_a_ID id
    (set_a_Status (default_status (a_Status alert))
      (set_a_CreatedAt created_at (store.cleanAlert alert))).

(** The closing patch of the root row. *)
Definition relation_ids (alert : Alert) (r : Alert) : Alert :=
  let r1 := match a_ConfigurationID alert with
            | Some c => set_a_ConfigurationID (Some c) r
            | None => r
            end in
  match a_ScheduleID alert with
  | Some s => set_a_ScheduleID (Some s) r1
  | None => r1
  end.

(** The schedule row as inserted. *)
Definition schedule_row (sid alertID : N) (s : AlertSchedule) : AlertSchedule :=
  set_sch_ID sid
    (set_sch_RunImmediately (default_false (sch_RunImmediately s))
      (store.scheduleToCreate alertID s)).

(** ** Reading back *)

(** Referential sanity of a store: identities handed out so far lie below
    the auto-increment counters, and child rows refer to identities handed
    out so far. *)
Record well_formed (d : DB) : Prop := {
  alerts_below :
    Forall (fun a => a_ID a < next_id (alerts d)) (rows (alerts d));
  configurations_below :
    Forall (fun c => cfg_ID c < next_id (alert_configurations d))
           (rows (alert_configurations d));
  schedules_below :
    Forall (fun s => sch_ID s < next_id (alert_schedules d))
           (rows (alert_schedules d));
  tags_owned :
    Forall (fun t => tag_AlertID t < next_id (alerts d)) (rows (alert_tags d));
  queries_owned :
    Forall (fun q => q_AlertID q < next_id (alerts d)) (rows (alert_queries d));
  severities_owned :
    Forall (fun s => sev_AlertConfigID s < next_id (alert_configurations d))
           (rows (severity_configurations d))
}.

(** The scalar fields of the root, identities and timestamps of the store
    aside. *)
Definition root_values (a : Alert)
  : string * string * option string * string * option Z * option Z :=
  (a_Name a, a_DisplayName a, a_Description a, a_Status a, a_CreateTime a,
   a_LastModifiedTime a).

(** The scalar fields of a configuration. *)
Definition configuration_values (c : AlertConfiguration)
  : option bool * option string * option Z * option bool * option Z * option Z *
    option string * option string * option bool :=
  (cfg_AutoAnnotation c, cfg_Dashboard c, cfg_MuteUntil c, cfg_NoDataFire c,
   cfg_NoDataSeverity c, cfg_Threshold c, cfg_Type c, cfg_Version c,
   cfg_SendResolved c).

(** ** Three claims as the specification words them *)

(** "Equal in every field, identities newly assigned": a condition block with
    identity and foreign key blanked. *)
Definition condition_values (c : ConditionConfiguration) : ConditionConfiguration :=
  mkConditionConfiguration 0 0 (cond_Condition c) (cond_CountCondition c).

(** A severity with identities blanked, its eval condition included. *)
Definition severity_values (s : SeverityConfiguration) : SeverityConfiguration :=
  mkSeverityConfiguration 0 0 (sev_Severity s) None
    (option_map condition_values (sev_EvalCondition s)).

(** A configuration with the identities of the row, of its blocks and of
    its collections blanked. *)
Definition graph_values (c : AlertConfiguration) : AlertConfiguration :=
  set_cfg_ConditionConfig (option_map condition_values (cfg_ConditionConfig c))
    (set_cfg_GroupConfig
       (option_map (set_grp_ID 0) (option_map (set_grp_AlertConfigID 0)
          (cfg_GroupConfig c)))
    (set_cfg_PolicyConfig
       (option_map (set_pol_ID 0) (option_map (set_pol_AlertConfigID 0)
          (cfg_PolicyConfig c)))
    (set_cfg_TemplateConfig
       (option_map (set_tpl_ID 0) (option_map (set_tpl_AlertConfigID 0)
          (cfg_TemplateConfig c)))
    (set_cfg_SinkAlerthubConfig
       (option_map (set_hub_ID 0) (option_map (set_hub_AlertConfigID 0)
          (cfg_SinkAlerthubConfig c)))
    (set_cfg_SinkCmsConfig
       (option_map (set_cms_ID 0) (option_map (set_cms_AlertConfigID 0)
          (cfg_SinkCmsConfig c)))
    (set_cfg_SinkEventStoreConfig
       (option_map (set_es_ID 0) (option_map (set_es_AlertConfigID 0)
          (cfg_SinkEventStoreConfig c)))
    (set_cfg_SeverityConfigs (map severity_values (cfg_SeverityConfigs c))
    (set_cfg_JoinConfigs
       (map (fun j => set_join_ID 0 (set_join_AlertConfigID 0 j))
            (cfg_JoinConfigs c))
       (store.configToCreate 0 c))))))))).

(** The whole aggregate with every identity blanked. *)
Definition aggregate_values (a : Alert) : Alert :=
  set_a_Configuration (option_map graph_values (a_Configuration a))
    (set_a_Schedule (option_map (store.scheduleToCreate 0) (a_Schedule a))
      (set_a_Tags (store.tagsToCreate 0 (a_Tags a))
        (set_a_Queries (store.queriesToCreate 0 (a_Queries a))
          (store.cleanAlert a)))).

(** C1 as worded: whatever is created reads back equal in every field. *)
Definition round_trips (env : Env) (alert : Alert) (d : DB) : Prop :=
  forall alert' d',
    store.CreateWithTransaction env alert d = (Ok alert', d') ->
    exists out,
      store.GetByID (a_ID alert') d' = Ok out /\
      aggregate_values out = aggregate_values alert.

(** C2 as worded: the blocks first, then the configuration row holding
    their identities. *)
Definition blocks_first_plan (alert : Alert) : list Statement :=
  [BEGIN; SQL INSERT "alerts"] ++
  match a_Configuration alert with
  | Some c =>
      insert_if_present "condition_configurations" (cfg_ConditionConfig c) ++
      insert_if_present "group_configurations" (cfg_GroupConfig c) ++
      insert_if_present "policy_configurations" (cfg_PolicyConfig c) ++
      insert_if_present "template_configurations" (cfg_TemplateConfig c) ++
      insert_if_present "sink_alerthub_configurations" (cfg_SinkAlerthubConfig c) ++
      insert_if_present "sink_cms_configurations" (cfg_SinkCmsConfig c) ++
      insert_if_present "sink_event_store_configurations"
        (cfg_SinkEventStoreConfig c) ++
      [SQL INSERT "alert_configurations"] ++
      severities_plan (cfg_SeverityConfigs c) ++
      insert_if_any "join_configurations" (cfg_JoinConfigs c)
  | None => []
  end ++
  insert_if_present "alert_schedules" (a_Schedule alert) ++
  insert_if_any "alert_tags" (a_Tags alert) ++
  insert_if_any "alert_queries" (a_Queries alert) ++
  (if patches alert then [SQL UPDATE "alerts"] else []) ++
  [COMMIT].

(** The configuration row [row] holds the identities of the blocks of
    [created] in its seven foreign-key columns. *)
Definition keys_embedded (row created : AlertConfiguration) : Prop :=
  cfg_ConditionConfigID row = option_map cond_ID (cfg_ConditionConfig created) /\
  cfg_GroupConfigID row = option_map grp_ID (cfg_GroupConfig created) /\
  cfg_PolicyConfigID row = option_map pol_ID (cfg_PolicyConfig created) /\
  cfg_TemplateConfigID row = option_map tpl_ID (cfg_TemplateConfig created) /\
  cfg_SinkAlerthubConfigID row = option_map hub_ID (cfg_SinkAlerthubConfig created) /\
  cfg_SinkCmsConfigID row = option_map cms_ID (cfg_SinkCmsConfig created) /\
  cfg_SinkEventStoreConfigID row =
    option_map es_ID (cfg_SinkEventStoreConfig created).

(** C2 as worded: the statements are those of [blocks_first_plan], and the
    stored configuration row embeds the identities of the created blocks. *)
Definition persists_blocks_first (env : Env) (alert : Alert) (d : DB) : Prop :=
  forall alert' d',
    store.CreateWithTransaction env alert d = (Ok alert', d') ->
    journal d' = journal d ++ blocks_first_plan alert /\
    forall row created,
      In row (rows (alert_configurations d')) ->
      cfg_AlertID row = a_ID alert' ->
      a_Configuration alert' = Some created ->
      keys_embedded row created.

(** C5 as worded: for every update input the schedule, tag and query rows of
    the alert become the incoming ones. *)
Definition replaces_wholesale (env : Env) (alert : Alert) (d : DB) : Prop :=
  forall alert' d',
    store.UpdateWithTransaction env alert d = (Ok alert', d') ->
    map schedule_values (store.has_many sch_AlertID (a_ID alert) d') =
      map schedule_values
          (match a_Schedule alert with
           | Some s => [as_inserted s]
           | None => []
           end) /\
    map tag_values (store.has_many tag_AlertID (a_ID alert) d') =
      map tag_values (a_Tags alert) /\
    map query_values (store.has_many q_AlertID (a_ID alert) d') =
      map query_values (a_Queries alert).

(** How many join rows a graph carries. *)
Definition join_count (a : Alert) : nat :=
  match a_Configuration a with
  | Some c => List.length (cfg_JoinConfigs c)
  | None => 0%nat
  end.

(** ** Listings *)

(** [created_at] does not increase along the list. *)
Definition newest_first (l : list Alert) : Prop :=
  StronglySorted (fun a b => (a_CreatedAt b <= a_CreatedAt a)%Z) l.

(** ** The root row under an update *)

(** The root row that an update leaves: the four columns of its
    [updateData] map taken from the request, then the closing patch of
    [configuration_id] / [schedule_id]. *)
Definition updated_root (alert alert' : Alert) (r : Alert) : Alert :=
  relation_ids alert'
    (set_a_DisplayName (a_DisplayName alert)
       (set_a_Description (a_Description alert)
          (set_a_Status (a_Status alert)
             (set_a_LastModifiedTime (a_LastModifiedTime alert) r)))).

(** The columns of a root row that no update writes. *)
Definition root_key (r : Alert) : N * string * option Z * Z :=
  (a_ID r, a_Name r, a_CreateTime r, a_CreatedAt r).

(** ** Blocks and owned rows *)

(** The seven block tables hold the same rows. *)
Record same_blocks (d d' : DB) : Prop := {
  blocks_condition :
    rows (condition_configurations d') = rows (condition_configurations d);
  blocks_group : rows (group_configurations d') = rows (group_configurations d);
  blocks_policy : rows (policy_configurations d') = rows (policy_configurations d);
  blocks_template :
    rows (template_configurations d') = rows (template_configurations d);
  blocks_alerthub :
    rows (sink_alerthub_configurations d') = rows (sink_alerthub_configurations d);
  blocks_cms : rows (sink_cms_configurations d') = rows (sink_cms_configurations d);
  blocks_event_store :
    rows (sink_event_store_configurations d') =
    rows (sink_event_store_configurations d)
}.

(** Every child row refers to an identity that its parent table has handed
    out, and no row carries an identity that is still to be handed out. *)
Record children_owned (d : DB) : Prop := {
  owned_well_formed : well_formed d;
  configurations_owned :
    Forall (fun c => cfg_AlertID c < next_id (alerts d))
           (rows (alert_configurations d));
  schedules_owned :
    Forall (fun s => sch_AlertID s < next_id (alerts d)) (rows (alert_schedules d));
  joins_owned :
    Forall (fun j => join_AlertConfigID j < next_id (alert_configurations d))
           (rows (join_configurations d))
}.

(** ** The alert service *)

(** The alerts that [validateAlert] lets through. *)
Definition valid_alert (a : Alert) : Prop :=
  a_Name a <> EmptyString /\ a_DisplayName a <> EmptyString /\
  (a_Status a = EmptyString \/ a_Status a = "ENABLED" \/ a_Status a = "DISABLED").

(** ** The pull direction *)

(** The root table of [d'] is that of [d], identities, names and creation
    times untouched, with further rows after it. *)
Definition kept (d d' : DB) : Prop :=
  exists news,
    map root_key (rows (alerts d')) = map root_key (rows (alerts d)) ++ news.

(** ** The conversions *)

(** The byte [c] occurs in [s]. *)
Fixpoint occurs (c : Ascii.ascii) (s : string) : bool :=
  match s with
  | EmptyString => false
  | String a s' => Ascii.eqb a c || occurs c s'
  end.

(** The functions from outside the repository that the conversions call:
    the JSON codec on [map[string]interface{}] and [strings.TrimSpace]. *)
Record Externals : Type := mkExternals {
  ext_map : Type;
  ext_Marshal : ext_map -> option string;
  ext_Marshal_join : option string -> option string -> option string;
  ext_Unmarshal : string -> option (option ext_map);
  ext_empty_map : ext_map;
  ext_TrimSpace : string -> string
}.

(** What [convertSLSAlertToModel] makes of what [convertModelToSLSAlert]
    made of an alert: the alert pushed, then pulled back. *)
Definition pushed_and_pulled (x : Externals) (alert : Alert) : Alert :=
  sls_service.convertSLSAlertToModel (ext_map x) (ext_Marshal x) (ext_Marshal_join x)
    (sls_service.convertModelToSLSAlert (ext_map x) (ext_Unmarshal x)
       (ext_empty_map x) (ext_TrimSpace x) alert).

(** What [convertModelToSLSAlert] makes of what [convertSLSAlertToModel]
    made of an SDK alert: the alert pulled, then pushed back. *)
Definition pulled_and_pushed (x : Externals)
    (slsAlert : sls20201230.Alert (ext_map x)) : sls20201230.Alert (ext_map x) :=
  sls_service.convertModelToSLSAlert (ext_map x) (ext_Unmarshal x)
    (ext_empty_map x) (ext_TrimSpace x)
    (sls_service.convertSLSAlertToModel (ext_map x) (ext_Marshal x)
       (ext_Marshal_join x) slsAlert).

(** The stand-ins of the examples. *)
Definition sample_externals : Externals :=
  mkExternals unit samples.sample_Marshal samples.sample_Marshal_join
    samples.sample_Unmarshal tt samples.sample_TrimSpace.

(** The model's rendering of a label: no value. *)
Definition as_label (t : AlertTag) : AlertTag :=
  mkAlertTag 0 0 "label" (tag_TagKey t) None.

(** The model's rendering of an annotation. *)
Definition as_annotation (t : AlertTag) : AlertTag :=
  mkAlertTag 0 0 "annotation" (tag_TagKey t) (tag_TagValue t).

(** [tag.TagType == "label"] *)
Definition is_label (t : AlertTag) : bool := String.eqb (tag_TagType t) "label".

(** [tag.TagType == "annotation"] *)
Definition is_annotation (t : AlertTag) : bool :=
  String.eqb (tag_TagType t) "annotation".

(** ** The empty branch of the upserts *)

(** An upsert that, finding the slot of the owning configuration empty
    (nil or 0), inserts the block it was given under the next identity of
    the block table, as GORM inserts it (zero values of columns with a
    declared default take that default), and writes that identity into the
    slot of the owning configuration row, and into no other row. *)
Definition upsert_links_a_new_block {R : Type} `{Model R}
    (upsert_fn : Env -> N -> R -> Tx R)
    (slot : AlertConfiguration -> option N)
    (set_slot : option N -> AlertConfiguration -> AlertConfiguration) : Prop :=
  forall env alertConfigID config d r d' owner,
    least (filter (fun c => cfg_ID c =? alertConfigID)
                  (rows (alert_configurations d))) = Some owner ->
    store.occupied (slot owner) = None ->
    upsert_fn env alertConfigID config d = (Ok r, d') ->
    pk r = next_id (table d) /\
    (exists t, r = with_pk (pk r) (before_create t config)) /\
    rows (table d') = rows (table d) ++ [r] /\
    rows (alert_configurations d') =
      map (fun c => if cfg_ID c =? alertConfigID then set_slot (Some (pk r)) c else c)
          (rows (alert_configurations d)).

(** * Proofs *)

(** ** Generic facts about the transaction monad *)

Lemma bind_Ok {A B} (m : Tx A) (k : A -> Tx B) d b d' :
  bind m k d = (Ok b, d') ->
  exists a d1, m d = (Ok a, d1) /\ k a d1 = (Ok b, d').
Proof.
  unfold bind. destruct (m d) as [[a|e] d1]; intros E.
  - eauto.
  - discriminate.
Qed.

Lemma wrap_Ok {A} msg (m : Tx A) d a d' :
  wrap msg m d = (Ok a, d') -> m d = (Ok a, d').
Proof.
  unfold wrap. destruct (m d) as [[x|e] d1]; intros E; now inversion E.
Qed.

Lemma attempt_Ok {A} (m : Tx A) d r d' :
  attempt m d = (Ok r, d') -> m d = (r, d').
Proof.
  unfold attempt. destruct (m d) as [x d1]. intros E. now inversion E.
Qed.

Lemma exec_Ok env s d u d' :
  exec env s d = (Ok u, d') ->
  d' = with_journal (journal d ++ [s]) d /\
  fails env (List.length (journal d)) = false.
Proof.
  unfold exec. destruct (fails env _); intros E; inversion E; auto.
Qed.

Lemma exec_state env s d r d' :
  exec env s d = (r, d') -> d' = with_journal (journal d ++ [s]) d.
Proof.
  unfold exec. destruct (fails env _); intros E; inversion E; auto.
Qed.

(** ** Frames: a view of the store that a successful computation leaves alone *)

Lemma preserves_ret {X A} (g : DB -> X) (a : A) : preserves g (ret a).
Proof. intros d r d' E. now inversion E. Qed.

Lemma preserves_throw {X A} (g : DB -> X) e : preserves g (@throw A e).
Proof. intros d r d' E. inversion E. Qed.

Lemma preserves_bind {X A B} (g : DB -> X) (m : Tx A) (k : A -> Tx B) :
  preserves g m -> (forall a, preserves g (k a)) -> preserves g (bind m k).
Proof.
  intros Hm Hk d b d' E. apply bind_Ok in E. destruct E as (a & d1 & E1 & E2).
  rewrite (Hk _ _ _ _ E2). eapply Hm; eauto.
Qed.

Lemma preserves_wrap {X A} (g : DB -> X) msg (m : Tx A) :
  preserves g m -> preserves g (wrap msg m).
Proof. intros Hm d a d' E. apply wrap_Ok in E. eapply Hm; eauto. Qed.

Lemma preserves_exec {X} (g : DB -> X) env s :
  journal_free g -> preserves g (exec env s).
Proof. intros Hj d r d' E. apply exec_state in E. subst. apply Hj. Qed.

Section FrameStatements.
Context {X : Type} (g : DB -> X) {R : Type} `{Model R} (env : Env).
Hypothesis Hj : journal_free g.
Hypothesis Ha : apart g R.

Lemma preserves_Create r : preserves g (gorm.Create env r).
Proof.
  intros d res d'. unfold gorm.Create.
  destruct (exec env _ d) as [[u|e] d1] eqn:E; apply exec_state in E; subst.
  - destruct (insert_row _ _) as [[r' t']|e]; intros E2; inversion E2; subst.
    rewrite Ha. apply Hj.
  - intros E2; inversion E2.
Qed.

Lemma preserves_CreateSlice rs : preserves g (gorm.CreateSlice env rs).
Proof.
  intros d res d'. unfold gorm.CreateSlice. destruct rs as [|r0 rs].
  - intros E; inversion E.
  - destruct (exec env _ d) as [[u|e] d1] eqn:E; apply exec_state in E; subst.
    + destruct (insert_rows _ _) as [[r' t']|e]; intros E2; inversion E2; subst.
      rewrite Ha. apply Hj.
    + intros E2; inversion E2.
Qed.

Lemma preserves_Delete cond : preserves g (gorm.Delete env cond).
Proof.
  unfold gorm.Delete. apply preserves_bind.
  - now apply preserves_exec.
  - intros _ d r d' E. inversion E; subst. apply Ha.
Qed.

Lemma preserves_Updates cond assign : preserves g (gorm.Updates env cond assign).
Proof.
  unfold gorm.Updates. apply preserves_bind.
  - now apply preserves_exec.
  - intros _ d r d' E. inversion E; subst. apply Ha.
Qed.
End FrameStatements.

(** A SELECT changes no table at all; neither does inspecting its outcome. *)
Lemma First_state {R} `{Model R} env cond d r d' :
  gorm.First env cond d = (r, d') ->
  d' = with_journal (journal d ++ [SQL SELECT TableName]) d.
Proof.
  unfold gorm.First, bind.
  destruct (exec env _ d) as [[u|e] d1] eqn:E; apply exec_state in E; subst.
  - destruct (least _); intros E; now inversion E.
  - intros E; now inversion E.
Qed.

Lemma preserves_First {X} (g : DB -> X) {R} `{Model R} env cond :
  journal_free g -> preserves g (gorm.First env cond).
Proof. intros Hj d a d' E. apply First_state in E. subst. apply Hj. Qed.

Lemma preserves_attempt_First {X} (g : DB -> X) {R} `{Model R} env cond :
  journal_free g -> preserves g (attempt (gorm.First env cond)).
Proof.
  intros Hj d a d' E. apply attempt_Ok in E. apply First_state in E.
  subst. apply Hj.
Qed.

(** Whatever the closure does, a transaction that returns an error leaves
    every view that a rollback resets as it was. *)
Lemma Transaction_Err {X A} (g : DB -> X) env (fc : Tx A) d e d' :
  journal_free g -> rollback_stable g ->
  Transaction env fc d = (Err e, d') -> g d' = g d.
Proof.
  intros Hj Hr. unfold Transaction.
  destruct (exec env BEGIN d) as [[u|e0] d1] eqn:E1; apply exec_state in E1; subst.
  - destruct (fc _) as [[a|e1] d2].
    + destruct (exec env COMMIT d2) as [[u2|e2] d3] eqn:E3; intros E; inversion E; subst.
      apply Hr.
    + intros E; inversion E; subst. apply Hr.
  - intros E; inversion E; subst. apply Hj.
Qed.

Lemma Transaction_Ok {A} env (fc : Tx A) d a d' :
  Transaction env fc d = (Ok a, d') ->
  exists d2, fc (with_journal (journal d ++ [BEGIN]) d) = (Ok a, d2) /\
             d' = with_journal (journal d2 ++ [COMMIT]) d2 /\
             fails env (List.length (journal d)) = false /\
             fails env (List.length (journal d2)) = false.
Proof.
  unfold Transaction.
  destruct (exec env BEGIN d) as [[u|e0] d1] eqn:E1.
  - apply exec_Ok in E1. destruct E1 as [-> F1].
    destruct (fc _) as [[x|e1] d2].
    + destruct (exec env COMMIT d2) as [[u2|e2] d3] eqn:E3; intros E; inversion E; subst.
      apply exec_Ok in E3. destruct E3 as [-> F3]. eauto.
    + intros E; inversion E.
  - intros E; inversion E.
Qed.

(** A view preserved by the closure is preserved by the transaction,
    however it ends. *)
Lemma Transaction_preserves {X A} (g : DB -> X) env (fc : Tx A) d r d' :
  journal_free g -> rollback_stable g -> preserves g fc ->
  Transaction env fc d = (r, d') -> g d' = g d.
Proof.
  intros Hj Hr Hfc E. destruct r as [a|e].
  - apply Transaction_Ok in E. destruct E as (d2 & E2 & -> & _).
    rewrite Hj. rewrite (Hfc _ _ _ E2). apply Hj.
  - eapply Transaction_Err; eauto.
Qed.

Ltac side := solve [ red; intros; reflexivity ].

Ltac frame_step :=
  lazymatch goal with
  | |- preserves _ (bind _ _) => apply preserves_bind; [ | intro ]
  | |- preserves _ (wrap _ _) => apply preserves_wrap
  | |- preserves _ (attempt (gorm.First _ _)) => apply preserves_attempt_First; side
  | |- preserves _ (ret _) => apply preserves_ret
  | |- preserves _ (throw _) => apply preserves_throw
  | |- preserves _ (gorm.Create _ _) => apply preserves_Create; side
  | |- preserves _ (gorm.CreateSlice _ _) => apply preserves_CreateSlice; side
  | |- preserves _ (gorm.Delete _ _) => apply preserves_Delete; side
  | |- preserves _ (gorm.Updates _ _ _) => apply preserves_Updates; side
  | |- preserves _ (gorm.First _ _) => apply preserves_First; side
  | |- preserves _ ?m =>
      lazymatch m with
      | match ?x with _ => _ end => destruct x
      | if ?b then _ else _ => destruct b
      end
  end.

Ltac frame := repeat frame_step.

Section FrameStore.
Variable env : Env.
Context {X : Type} (g : DB -> X).
Hypothesis Hj : journal_free g.

Lemma preserves_create_block {R} `{Model R} set_id cid msg o :
  apart g R -> preserves g (store.create_block env set_id cid msg o).
Proof.
  intros Ha. unfold store.create_block. destruct o.
  - apply preserves_bind; [apply preserves_wrap; now apply preserves_Create|].
    intro. apply preserves_ret.
  - apply preserves_ret.
Qed.

Lemma preserves_prepare_severities stamp cid l :
  apart g ConditionConfiguration ->
  preserves g (store.prepare_severities env stamp cid l).
Proof.
  intros Ha. induction l as [|s l IH]; simpl.
  - apply preserves_ret.
  - apply preserves_bind.
    + destruct (sev_EvalCondition s).
      * apply preserves_bind; [apply preserves_wrap; now apply preserves_Create|].
        intro; apply preserves_ret.
      * apply preserves_ret.
    + intro. apply preserves_bind; [exact IH|]. intro; apply preserves_ret.
Qed.
End FrameStore.

Lemma returns_ret {A} (a : A) (P : A -> Prop) : P a -> returns (ret a) P.
Proof. intros HP d x d' E. now inversion E; subst. Qed.

Lemma returns_throw {A} e (P : A -> Prop) : returns (throw e) P.
Proof. intros d x d' E. inversion E. Qed.

Lemma returns_bind {A B} (m : Tx A) (k : A -> Tx B) (P : B -> Prop) :
  (forall a, returns (k a) P) -> returns (bind m k) P.
Proof.
  intros Hk d b d' E. apply bind_Ok in E. destruct E as (a & d1 & _ & E2).
  eapply Hk; eauto.
Qed.

Lemma returns_wrap {A} msg (m : Tx A) (P : A -> Prop) :
  returns m P -> returns (wrap msg m) P.
Proof. intros Hm d a d' E. apply wrap_Ok in E. eapply Hm; eauto. Qed.

(** Sequencing when the continuation's frame depends on the value passed. *)
Lemma preserves_bind_returns {X A B} (g : DB -> X) (m : Tx A) (k : A -> Tx B)
      (P : A -> Prop) :
  preserves g m -> returns m P -> (forall a, P a -> preserves g (k a)) ->
  preserves g (bind m k).
Proof.
  intros Hm Hr Hk d b d' E. apply bind_Ok in E. destruct E as (a & d1 & E1 & E2).
  rewrite (Hk a (Hr _ _ _ E1) _ _ _ E2). eapply Hm; eauto.
Qed.

(** ** What each statement does when it succeeds *)

Section StatementEffects.
Context {R : Type} `{Model R} (env : Env).

Lemma insert_row_Ok (r r' : R) t t' :
  insert_row r t = Ok (r', t') ->
  rows t' = rows t ++ [columns r'] /\
  unique_ok (rows t) r = true /\
  ((pk r = 0 /\ r' = with_pk (next_id t) r /\ next_id t' = N.succ (next_id t)) \/
   (pk r <> 0 /\ r' = r /\ next_id t' = N.max (next_id t) (N.succ (pk r)) /\
    existsb (fun x => pk x =? pk r) (rows t) = false)).
Proof.
  unfold insert_row. destruct (unique_ok (rows t) r); simpl; [|discriminate].
  destruct (pk r =? 0) eqn:E0.
  - intros E; inversion E; subst; simpl. apply N.eqb_eq in E0.
    split; [reflexivity|]. split; [reflexivity|]. left. auto.
  - destruct (existsb _ _) eqn:Ex; [discriminate|].
    intros E; inversion E; subst; simpl. apply N.eqb_neq in E0.
    split; [reflexivity|]. split; [reflexivity|]. right. auto.
Qed.

Lemma Create_Ok (r r' : R) d d' :
  gorm.Create env r d = (Ok r', d') ->
  exists t',
    insert_row (before_create (now env (List.length (journal d))) r)
               (table (logged (SQL INSERT TableName) d)) = Ok (r', t') /\
    d' = with_table t' (logged (SQL INSERT TableName) d) /\
    fails env (List.length (journal d)) = false.
Proof.
  unfold gorm.Create.
  destruct (exec env _ d) as [[u|e] d1] eqn:E.
  - apply exec_Ok in E. destruct E as [-> F]. fold (logged (SQL INSERT TableName) d).
    destruct (insert_row _ _) as [[x t']|e] eqn:I; intros E2; inversion E2; subst.
    exists t'. auto.
  - intros E2; inversion E2.
Qed.

Lemma CreateSlice_Ok (rs rs' : list R) d d' :
  gorm.CreateSlice env rs d = (Ok rs', d') ->
  rs <> [] /\
  exists t',
    insert_rows (map (before_create (now env (List.length (journal d)))) rs)
                (table (logged (SQL INSERT TableName) d)) = Ok (rs', t') /\
    d' = with_table t' (logged (SQL INSERT TableName) d) /\
    fails env (List.length (journal d)) = false.
Proof.
  unfold gorm.CreateSlice. destruct rs as [|r0 rs]; [intros E; inversion E|].
  destruct (exec env _ d) as [[u|e] d1] eqn:E.
  - apply exec_Ok in E. destruct E as [-> F]. fold (logged (SQL INSERT TableName) d).
    destruct (insert_rows _ _) as [[x t']|e] eqn:I; intros E2; inversion E2; subst.
    split; [discriminate|]. exists t'. auto.
  - intros E2; inversion E2.
Qed.

Lemma Delete_Ok cond d u d' :
  gorm.Delete env cond d = (Ok u, d') ->
  d' = with_table
         (mkTable (filter (fun r => negb (cond r))
                          (rows (table (logged (SQL DELETE TableName) d))))
                  (next_id (table (logged (SQL DELETE TableName) d))))
         (logged (SQL DELETE TableName) d) /\
  fails env (List.length (journal d)) = false.
Proof.
  unfold gorm.Delete. intros E. apply bind_Ok in E.
  destruct E as (a & d1 & E1 & E2). apply exec_Ok in E1. destruct E1 as [-> F].
  inversion E2; subst. auto.
Qed.

Lemma Updates_Ok cond assign d u d' :
  gorm.Updates env cond assign d = (Ok u, d') ->
  d' = with_table
         (mkTable (map (fun r => if cond r then assign r else r)
                       (rows (table (logged (SQL UPDATE TableName) d))))
                  (next_id (table (logged (SQL UPDATE TableName) d))))
         (logged (SQL UPDATE TableName) d) /\
  fails env (List.length (journal d)) = false.
Proof.
  unfold gorm.Updates. intros E. apply bind_Ok in E.
  destruct E as (a & d1 & E1 & E2). apply exec_Ok in E1. destruct E1 as [-> F].
  inversion E2; subst. auto.
Qed.

Lemma First_Ok cond d (r : R) d' :
  gorm.First env cond d = (Ok r, d') ->
  d' = logged (SQL SELECT TableName) d /\
  least (filter cond (rows (table (logged (SQL SELECT TableName) d)))) = Some r /\
  fails env (List.length (journal d)) = false.
Proof.
  unfold gorm.First. intros E. apply bind_Ok in E.
  destruct E as (a & d1 & E1 & E2). apply exec_Ok in E1. destruct E1 as [-> F].
  fold (logged (SQL SELECT TableName) d) in *.
  destruct (least _) as [x|]; inversion E2; subst. auto.
Qed.

Lemma First_NotFound cond d d' :
  gorm.First env cond d = (Err ErrRecordNotFound, d') ->
  d' = logged (SQL SELECT TableName) d /\
  least (filter cond (rows (table (logged (SQL SELECT TableName) d)))) = None /\
  fails env (List.length (journal d)) = false.
Proof.
  unfold gorm.First, bind. unfold exec.
  destruct (fails env _) eqn:F.
  - intros E; inversion E.
  - fold (logged (SQL SELECT TableName) d).
    destruct (least _) as [x|] eqn:L; intros E; inversion E; subst. auto.
Qed.

Lemma least_In (l : list R) r : least l = Some r -> In r l.
Proof.
  revert r. induction l as [|x l IH]; simpl; intros r E; [discriminate|].
  destruct (least l) as [m|].
  - destruct (pk x <=? pk m); inversion E; subst; auto.
  - inversion E; auto.
Qed.

Lemma least_None (l : list R) : least l = None -> l = [].
Proof.
  destruct l as [|x l]; simpl; [reflexivity|].
  destruct (least l) as [m|]; [destruct (pk x <=? pk m)|]; discriminate.
Qed.

Lemma least_le (l : list R) r : least l = Some r -> Forall (fun x => pk r <= pk x) l.
Proof.
  revert r. induction l as [|x l IH]; simpl; intros r E; [constructor|].
  destruct (least l) as [m|] eqn:L.
  - specialize (IH m eq_refl). destruct (pk x <=? pk m) eqn:C; inversion E; subst.
    + apply N.leb_le in C. constructor; [lia|].
      eapply Forall_impl; [|exact IH]. simpl; intros; lia.
    + apply N.leb_gt in C. constructor; [lia|]. exact IH.
  - apply least_None in L. subst. inversion E; subst. constructor; [lia|constructor].
Qed.
End StatementEffects.

(** ** The store behaves like a record of independent tables *)

Lemma journal_logged s d : journal (logged s d) = journal d ++ [s].
Proof. reflexivity. Qed.

Lemma table_logged {R} `{Lawful R} s d : table (logged s d) = table d.
Proof. unfold logged. apply table_with_journal. Qed.

(** Invert a successful run of a composite computation into the successful
    runs of its parts. *)
Ltac tx_inv :=
  repeat match goal with
  | H : bind _ _ _ = (Ok _, _) |- _ =>
      let a := fresh "a" in let d := fresh "d" in let E := fresh "E" in
      apply bind_Ok in H; destruct H as (a & d & E & H)
  | H : wrap _ _ _ = (Ok _, _) |- _ => apply wrap_Ok in H
  | H : attempt _ _ = (Ok _, _) |- _ => apply attempt_Ok in H
  | H : ret _ _ = (Ok _, _) |- _ => inversion H; subst; clear H
  | H : throw _ _ = (Ok _, _) |- _ => discriminate H
  end.

(** ** The occupied branch of the upsert functions *)

Section UpsertOccupied.
Context {R : Type} `{Lawful R} (env : Env).
Variables (what : string) (slot : AlertConfiguration -> option N)
          (set_slot : option N -> AlertConfiguration -> AlertConfiguration)
          (refresh : R -> R -> R).
Hypothesis HR : apart (fun d => alert_configurations d) R.

Lemma upsert_occupied alertConfigID config d r d' owner existing :
  least (filter (fun c => cfg_ID c =? alertConfigID)
                (rows (alert_configurations d))) = Some owner ->
  store.occupied (slot owner) = Some existing ->
  store.upsert env what slot set_slot refresh alertConfigID config d = (Ok r, d') ->
  rows (table d') =
    map (fun row => if pk row =? existing then refresh config row else row)
        (rows (table d)) /\
  next_id (table d') = next_id (table d) /\
  r = with_pk existing config /\
  alert_configurations d' = alert_configurations d /\
  journal d' = journal d ++ [SQL SELECT "alert_configurations"; SQL UPDATE TableName] /\
  (forall X (g : DB -> X), journal_free g -> apart g R -> g d' = g d).
Proof.
  intros Hown Hocc E. unfold store.upsert in E. tx_inv.
  apply First_Ok in E0. destruct E0 as (-> & L & F0).
  change (table (logged (SQL SELECT TableName) d)) with (alert_configurations d) in L.
  rewrite Hown in L. inversion L; subst a. clear L.
  rewrite Hocc in E. tx_inv.
  apply Updates_Ok in E0. destruct E0 as (-> & F1).
  rewrite !table_logged.
  repeat split.
  - now rewrite table_with_table.
  - now rewrite table_with_table.
  - rewrite HR. reflexivity.
  - rewrite journal_with_table. rewrite !journal_logged. rewrite <- app_assoc. reflexivity.
  - intros X g Hj Ha. rewrite Ha. unfold logged. now rewrite !Hj.
Qed.
End UpsertOccupied.

Lemma refreshed_in_place_map {R : Type} `{Model R}
    (kept : R -> R -> Prop) (written : R -> Prop) existing (f : R -> R) l :
  (forall o, kept o o) ->
  (forall o, pk (f o) = pk o /\ kept o (f o) /\ written (f o)) ->
  refreshed_in_place kept written existing l
    (map (fun row => if pk row =? existing then f row else row) l).
Proof.
  intros Hrefl Hf. unfold refreshed_in_place.
  induction l as [|o l IH]; simpl; constructor; auto.
  destruct (N.eqb_spec (pk o) existing) as [E|E].
  - destruct (Hf o) as (H1 & H2 & H3). repeat split; auto. intros C; contradiction.
  - repeat split; auto. intros C; contradiction.
Qed.

Lemma upsert_in_place_intro {R : Type} `{Lawful R} what slot set_slot refresh
    (kept : R -> R -> Prop) (written : R -> R -> Prop) :
  apart (fun d => alert_configurations d) R ->
  (forall o, kept o o) ->
  (forall config o, pk (refresh config o) = pk o /\ kept o (refresh config o) /\
                    written config (refresh config o)) ->
  upsert_in_place (fun env => store.upsert env what slot set_slot refresh)
                  slot kept written.
Proof.
  intros Ha Hrefl Hf env id config d r d' owner existing Hown Hocc E.
  destruct (upsert_occupied env what slot set_slot refresh Ha _ _ _ _ _ _ _ Hown Hocc E)
    as (Hrows & Hnext & Hr & Hcfg & _).
  repeat split; auto.
  - subst r. apply pk_with_pk.
  - rewrite Hrows. apply refreshed_in_place_map; auto.
Qed.

(** C6. During the update of an existing configuration, an upsert that finds
    its slot occupied creates no row and keeps every row's identity and
    [alert_config_id]; it rewrites, on the referenced row only, the fixed
    set of columns of its [updateData] map: for the two sinks
    [SinkAlerthub] and [SinkCms] that is [enabled] alone. *)
Theorem upsert_occupied_slot_refreshes_fixed_columns :
  upsert_in_place store.upsertSinkAlerthubConfig cfg_SinkAlerthubConfigID
    (fun o n => hub_AlertConfigID n = hub_AlertConfigID o)
    (fun config n => hub_Enabled n = hub_Enabled config) /\
  upsert_in_place store.upsertSinkCmsConfig cfg_SinkCmsConfigID
    (fun o n => cms_AlertConfigID n = cms_AlertConfigID o)
    (fun config n => cms_Enabled n = cms_Enabled config) /\
  upsert_in_place store.upsertSinkEventStoreConfig cfg_SinkEventStoreConfigID
    (fun o n => es_AlertConfigID n = es_AlertConfigID o)
    (fun config n =>
       es_Enabled n = es_Enabled config /\ es_Endpoint n = es_Endpoint config /\
       es_EventStore n = es_EventStore config /\ es_Project n = es_Project config /\
       es_RoleArn n = es_RoleArn config) /\
  upsert_in_place store.upsertConditionConfig cfg_ConditionConfigID
    (fun o n => cond_AlertConfigID n = cond_AlertConfigID o)
    (fun config n =>
       cond_Condition n = cond_Condition config /\
       cond_CountCondition n = cond_CountCondition config) /\
  upsert_in_place store.upsertGroupConfig cfg_GroupConfigID
    (fun o n => grp_AlertConfigID n = grp_AlertConfigID o)
    (fun config n =>
       grp_Fields n = grp_Fields config /\ grp_Type n = grp_Type config) /\
  upsert_in_place store.upsertPolicyConfig cfg_PolicyConfigID
    (fun o n => pol_AlertConfigID n = pol_AlertConfigID o)
    (fun config n =>
       pol_AlertPolicyId n = pol_AlertPolicyId config /\
       pol_ActionPolicyId n = pol_ActionPolicyId config /\
       pol_RepeatInterval n = pol_RepeatInterval config) /\
  upsert_in_place store.upsertTemplateConfig cfg_TemplateConfigID
    (fun o n => tpl_AlertConfigID n = tpl_AlertConfigID o)
    (fun config n =>
       tpl_TemplateId n = tpl_TemplateId config /\ tpl_Lang n = tpl_Lang config /\
       tpl_Type n = tpl_Type config /\ tpl_Version n = tpl_Version config /\
       tpl_Aonotations n = tpl_Aonotations config /\
       tpl_Tokens n = tpl_Tokens config).
Proof.
  repeat match goal with |- _ /\ _ => split end;
    (apply upsert_in_place_intro;
     [ red; intros; reflexivity | reflexivity | intros; simpl; auto 10 ]).
Qed.

(** ** Every statement of a successful run was accepted by the backend *)

Lemma accepted_refl env d : accepted env d d.
Proof. split; [lia|]. intros n Hn; lia. Qed.

Lemma accepted_trans env d1 d2 d3 :
  accepted env d1 d2 -> accepted env d2 d3 -> accepted env d1 d3.
Proof.
  intros [L1 H1] [L2 H2]. split; [lia|]. intros n Hn.
  destruct (Nat.lt_ge_cases n (List.length (journal d2))).
  - apply H1; lia.
  - apply H2; lia.
Qed.

Lemma accepted_logged env s d :
  fails env (List.length (journal d)) = false -> accepted env d (logged s d).
Proof.
  intros F. unfold accepted. rewrite journal_logged, length_app. simpl.
  split; [lia|]. intros n Hn. replace n with (List.length (journal d)) by lia.
  exact F.
Qed.

Lemma accepted_same_journal env d1 d2 d2' :
  journal d2' = journal d2 -> accepted env d1 d2 -> accepted env d1 d2'.
Proof. unfold accepted. intros ->. auto. Qed.

Lemma audited_ret {A} env (a : A) : audited env (ret a).
Proof. intros d x d' E. inversion E; subst. apply accepted_refl. Qed.

Lemma audited_throw {A} env e : audited env (@throw A e).
Proof. intros d x d' E. inversion E. Qed.

Lemma audited_bind {A B} env (m : Tx A) (k : A -> Tx B) :
  audited env m -> (forall a, audited env (k a)) -> audited env (bind m k).
Proof.
  intros Hm Hk d b d' E. apply bind_Ok in E. destruct E as (a & d1 & E1 & E2).
  eapply accepted_trans; [eapply Hm | eapply Hk]; eauto.
Qed.

Lemma audited_wrap {A} env msg (m : Tx A) :
  audited env m -> audited env (wrap msg m).
Proof. intros Hm d a d' E. apply wrap_Ok in E. eapply Hm; eauto. Qed.

Section AuditStatements.
Context {R : Type} `{Lawful R} (env : Env).

Lemma audited_Create r : audited env (gorm.Create env r).
Proof.
  intros d r' d' E. apply Create_Ok in E. destruct E as (t' & _ & -> & F).
  eapply accepted_same_journal; [apply journal_with_table|].
  now apply accepted_logged.
Qed.

Lemma audited_CreateSlice rs : audited env (gorm.CreateSlice env rs).
Proof.
  intros d r' d' E. apply CreateSlice_Ok in E. destruct E as (_ & t' & _ & -> & F).
  eapply accepted_same_journal; [apply journal_with_table|].
  now apply accepted_logged.
Qed.

Lemma audited_Delete cond : audited env (gorm.Delete env cond).
Proof.
  intros d r' d' E. apply Delete_Ok in E. destruct E as (-> & F).
  eapply accepted_same_journal; [apply journal_with_table|].
  now apply accepted_logged.
Qed.

Lemma audited_Updates cond assign : audited env (gorm.Updates env cond assign).
Proof.
  intros d r' d' E. apply Updates_Ok in E. destruct E as (-> & F).
  eapply accepted_same_journal; [apply journal_with_table|].
  now apply accepted_logged.
Qed.

Lemma audited_First cond : audited env (gorm.First env cond).
Proof.
  intros d r' d' E. apply First_Ok in E. destruct E as (-> & _ & F).
  now apply accepted_logged.
Qed.
End AuditStatements.

Lemma audited_Transaction {A} env (fc : Tx A) :
  audited env fc -> audited env (Transaction env fc).
Proof.
  intros Hfc d a d' E. apply Transaction_Ok in E.
  destruct E as (d2 & E2 & -> & F1 & F2).
  eapply accepted_trans; [apply (accepted_logged env BEGIN d F1)|].
  eapply accepted_trans; [eapply Hfc; exact E2|].
  apply (accepted_logged env COMMIT d2 F2).
Qed.

Ltac audit_step :=
  lazymatch goal with
  | |- audited _ (bind _ _) => apply audited_bind; [ | intro ]
  | |- audited _ (wrap _ _) => apply audited_wrap
  | |- audited _ (ret _) => apply audited_ret
  | |- audited _ (throw _) => apply audited_throw
  | |- audited _ (gorm.Create _ _) => apply audited_Create
  | |- audited _ (gorm.CreateSlice _ _) => apply audited_CreateSlice
  | |- audited _ (gorm.Delete _ _) => apply audited_Delete
  | |- audited _ (gorm.Updates _ _ _) => apply audited_Updates
  | |- audited _ (gorm.First _ _) => apply audited_First
  | |- audited _ (Transaction _ _) => apply audited_Transaction
  | |- audited _ ?m =>
      lazymatch m with
      | match ?x with _ => _ end => destruct x
      | if ?b then _ else _ => destruct b
      end
  end.

Ltac audit := repeat audit_step.

Lemma audited_prepare_severities env stamp cid l :
  audited env (store.prepare_severities env stamp cid l).
Proof.
  induction l as [|s l IH]; simpl.
  - apply audited_ret.
  - apply audited_bind; [audit|]. intro.
    apply audited_bind; [exact IH|]. intro. apply audited_ret.
Qed.

Lemma audited_CreateWithTransaction env alert :
  audited env (store.CreateWithTransaction env alert).
Proof.
  unfold store.CreateWithTransaction. audit.
  - unfold store.create_configuration. audit.
    all: try (unfold store.create_block; audit).
    + unfold store.create_severities. audit. apply audited_prepare_severities.
    + unfold store.create_joins. audit.
  - unfold store.create_schedule. audit.
  - unfold store.create_tags. audit.
  - unfold store.create_queries. audit.
  - unfold store.patch_relation_ids. audit.
Qed.

(** ** Reads depend on the rows only *)

Lemma preload_full_same_rows d d' a :
  same_rows d d' -> store.preload_full d' a = store.preload_full d a.
Proof.
  intros [].
  unfold store.preload_full, store.preload_configuration, store.belongs_to,
    store.lookup, store.has_many; simpl.
  repeat match goal with H : rows _ = rows _ |- _ => rewrite H; clear H end.
  reflexivity.
Qed.

Lemma GetByName_same_rows d d' name :
  same_rows d d' -> store.GetByName name d' = store.GetByName name d.
Proof.
  intros S. unfold store.GetByName. rewrite (same_alerts _ _ S).
  destruct (least _); [|reflexivity]. now rewrite (preload_full_same_rows d d').
Qed.

Lemma GetByID_same_rows d d' id :
  same_rows d d' -> store.GetByID id d' = store.GetByID id d.
Proof.
  intros S. unfold store.GetByID, store.lookup; simpl. rewrite (same_alerts _ _ S).
  destruct (least _); [|reflexivity]. now rewrite (preload_full_same_rows d d').
Qed.

(** A transaction that returns an error leaves the rows of every table as
    they were. *)
Lemma Transaction_Err_same_rows {A} env (fc : Tx A) d e d' :
  Transaction env fc d = (Err e, d') -> same_rows d d'.
Proof.
  intros E.
  constructor;
    match goal with
    | |- rows (?tbl d') = _ =>
        apply (Transaction_Err (fun x => rows (tbl x)) env fc d e d'); [side|side|exact E]
    end.
Qed.

(** C3. [CreateWithTransaction] is all or nothing.  If the backend rejects
    any statement the operation issues, the operation returns an error; and
    whenever it returns an error, the rows of every table are those from
    before the call, so that a name that could not be read before cannot be
    read afterwards either. *)
Theorem create_is_all_or_nothing env alert d r d' :
  store.CreateWithTransaction env alert d = (r, d') ->
  ((exists n, (List.length (journal d) <= n < List.length (journal d'))%nat /\
              fails env n = true) ->
   exists e, r = Err e) /\
  (forall e, r = Err e ->
     same_rows d d' /\
     (store.GetByName (a_Name alert) d = Err ErrRecordNotFound ->
      store.GetByName (a_Name alert) d' = Err ErrRecordNotFound)).
Proof.
  intros E. split.
  - intros (n & Hn & F). destruct r as [a|e]; [|eauto].
    apply audited_CreateWithTransaction in E. destruct E as [_ Hacc].
    rewrite (Hacc n Hn) in F. discriminate.
  - intros e ->. assert (S : same_rows d d')
      by (eapply Transaction_Err_same_rows; exact E).
    split; [exact S|]. intros Hnf. now rewrite (GetByName_same_rows d d').
Qed.

(** ** Frames and return values of the store's helpers *)

Create HintDb store_ops.
#[global] Hint Unfold
  store.deleteConfigurationAssociations store.create_severities
  store.create_joins store.create_schedule store.create_tags
  store.create_queries store.patch_relation_ids store.create_configuration
  store.recreateConfiguration store.upsert store.upsert_block
  store.upsertConditionConfig store.upsertGroupConfig store.upsertPolicyConfig
  store.upsertTemplateConfig store.upsertSinkAlerthubConfig
  store.upsertSinkCmsConfig store.upsertSinkEventStoreConfig
  store.replace_severities store.replace_joins store.updateConfiguration
  store.replace_schedule store.replace_tags store.replace_queries : store_ops.

Ltac frame_store_step :=
  lazymatch goal with
  | |- preserves _ (store.create_block _ _ _ _ _) =>
      apply preserves_create_block; side
  | |- preserves _ (store.prepare_severities _ _ _ _) =>
      apply preserves_prepare_severities; side
  | |- _ => first [ frame_step | progress autounfold with store_ops ]
  end.

Ltac frame_store := repeat frame_store_step.

Ltac returns_step :=
  lazymatch goal with
  | |- returns (bind _ _) _ => apply returns_bind; intro
  | |- returns (wrap _ _) _ => apply returns_wrap
  | |- returns (ret _) _ => apply returns_ret
  | |- returns (throw _) _ => apply returns_throw
  | |- returns ?m _ =>
      first [ lazymatch m with
              | match ?x with _ => _ end => destruct x
              | if ?b then _ else _ => destruct b
              end
            | progress autounfold with store_ops ]
  end.

Ltac returns_store := repeat returns_step.

Lemma same_request_refl alert : same_request alert alert.
Proof. repeat split. Qed.

Lemma returns_updateConfiguration env alert :
  returns (store.updateConfiguration env alert) (same_request alert).
Proof. returns_store; repeat split. Qed.

Lemma returns_replace_schedule env alert :
  returns (store.replace_schedule env alert) (same_request alert).
Proof. returns_store; repeat split. Qed.

Lemma returns_update_step2 env alert :
  returns (update_step2 env alert) (same_request alert).
Proof.
  unfold update_step2. destruct (a_Configuration alert) eqn:C.
  - apply returns_bind; intro. apply returns_wrap.
    apply returns_updateConfiguration.
  - apply returns_ret. apply same_request_refl.
Qed.

Lemma same_request_trans a b c :
  same_request a b -> same_request b c -> same_request a c.
Proof.
  intros (I1 & S1 & T1 & Q1) (I2 & S2 & T2 & Q2).
  repeat split; congruence.
Qed.

(** The closure of [UpdateWithTransaction] preserves a view as soon as each
    of its steps does, where the later steps only ever see a struct that
    agrees with the request on what they read. *)
Lemma update_closure_preserves {X} (g : DB -> X) env alert :
  journal_free g -> apart g Alert ->
  preserves g (update_step2 env alert) ->
  (forall a, same_request alert a -> preserves g (store.replace_schedule env a)) ->
  (forall a, same_request alert a -> preserves g (store.replace_tags env a)) ->
  (forall a, same_request alert a -> preserves g (store.replace_queries env a)) ->
  forall d r d',
    store.UpdateWithTransaction env alert d = (r, d') ->
    rollback_stable g -> g d' = g d.
Proof.
  intros Hj Ha H2 H3 H4 H5 d r d' E Hr.
  eapply (Transaction_preserves g); [exact Hj|exact Hr| |exact E].
  destruct (a_ID alert =? 0); [apply preserves_throw|].
  apply preserves_bind; [apply preserves_wrap; now apply preserves_Updates|].
  intros _.
  apply preserves_bind_returns with (P := same_request alert);
    [exact H2|apply returns_update_step2|].
  intros a0 R0.
  apply preserves_bind_returns with (P := same_request alert); [now apply H3| |].
  { intros x a1 x' E1. eapply same_request_trans; [exact R0|].
    eapply returns_replace_schedule; exact E1. }
  intros a1 R1.
  apply preserves_bind; [now apply H4|]. intros _.
  apply preserves_bind; [now apply H5|]. intros _.
  apply preserves_bind; [|intro; apply preserves_ret].
  unfold store.patch_relation_ids.
  destruct (a_ConfigurationID a1), (a_ScheduleID a1);
    try apply preserves_ret; apply preserves_wrap; now apply preserves_Updates.
Qed.

(** C10. [UpdateWithTransaction] leaves alone the parts of the graph that
    its input does not carry: with a nil [Configuration] the configuration,
    severity and join rows (and the rows of the seven blocks) are those from
    before, with a nil [Schedule] the schedule rows, with empty [Tags] the
    tag rows, with empty [Queries] the query rows. *)
Theorem update_leaves_absent_parts_alone env alert d r d' :
  store.UpdateWithTransaction env alert d = (r, d') ->
  (a_Configuration alert = None ->
     rows (alert_configurations d') = rows (alert_configurations d) /\
     rows (severity_configurations d') = rows (severity_configurations d) /\
     rows (join_configurations d') = rows (join_configurations d) /\
     rows (condition_configurations d') = rows (condition_configurations d) /\
     rows (group_configurations d') = rows (group_configurations d) /\
     rows (policy_configurations d') = rows (policy_configurations d) /\
     rows (template_configurations d') = rows (template_configurations d) /\
     rows (sink_alerthub_configurations d') = rows (sink_alerthub_configurations d) /\
     rows (sink_cms_configurations d') = rows (sink_cms_configurations d) /\
     rows (sink_event_store_configurations d') =
       rows (sink_event_store_configurations d)) /\
  (a_Schedule alert = None ->
     rows (alert_schedules d') = rows (alert_schedules d)) /\
  (a_Tags alert = [] -> rows (alert_tags d') = rows (alert_tags d)) /\
  (a_Queries alert = [] -> rows (alert_queries d') = rows (alert_queries d)).
Proof.
  intros E. repeat match goal with |- _ /\ _ => split end.
  - intros C.
    repeat match goal with |- _ /\ _ => split end;
      match goal with
      | |- rows (?tbl d') = _ =>
          apply (update_closure_preserves (fun x => rows (tbl x)) env alert)
            with (r := r); try side; try exact E;
          try (unfold update_step2; rewrite C; apply preserves_ret);
          intros; frame_store
      end.
  - intros C.
    apply (update_closure_preserves (fun x => rows (alert_schedules x)) env alert)
      with (r := r); try side; try exact E.
    + unfold update_step2. frame_store.
    + intros a (_ & S & _ & _). unfold store.replace_schedule.
      rewrite S, C. apply preserves_ret.
    + intros; frame_store.
    + intros; frame_store.
  - intros C.
    apply (update_closure_preserves (fun x => rows (alert_tags x)) env alert)
      with (r := r); try side; try exact E.
    + unfold update_step2. frame_store.
    + intros; frame_store.
    + intros a (_ & _ & T & _). unfold store.replace_tags.
      rewrite T, C. apply preserves_ret.
    + intros; frame_store.
  - intros C.
    apply (update_closure_preserves (fun x => rows (alert_queries x)) env alert)
      with (r := r); try side; try exact E.
    + unfold update_step2. frame_store.
    + intros; frame_store.
    + intros; frame_store.
    + intros a (_ & _ & _ & Q). unfold store.replace_queries.
      rewrite Q, C. apply preserves_ret.
Qed.

(** ** Statement effects, table by table *)

Section TableEffects.
Context {R : Type} `{Lawful R} (env : Env).

Lemma Create_table (r r' : R) d d' :
  gorm.Create env r d = (Ok r', d') ->
  rows (table d') = rows (table d) ++ [columns r'] /\
  journal d' = journal d ++ [SQL INSERT TableName] /\
  (pk r = 0 ->
     r' = with_pk (next_id (table d))
                  (before_create (now env (List.length (journal d))) r) /\
     next_id (table d') = N.succ (next_id (table d))).
Proof.
  intros E. apply Create_Ok in E. destruct E as (t' & I & -> & _).
  rewrite table_logged in I. apply insert_row_Ok in I.
  destruct I as (Hrows & _ & Hcase).
  rewrite table_with_table, journal_with_table, journal_logged.
  split; [exact Hrows|]. split; [reflexivity|].
  intros Hpk. rewrite pk_before_create in Hcase.
  destruct Hcase as [(_ & -> & ->)|(Hne & _)]; [auto|contradiction].
Qed.

Lemma insert_rows_auto (rs rs' : list R) t t' :
  Forall (fun r => pk r = 0) rs ->
  insert_rows rs t = Ok (rs', t') ->
  rows t' = rows t ++ map columns rs' /\
  Forall2 (fun r r' => exists k, r' = with_pk k r) rs rs'.
Proof.
  revert rs' t t'. induction rs as [|r rs IH]; intros rs' t t' Hz E; simpl in E.
  - inversion E; subst. simpl. rewrite app_nil_r. auto.
  - inversion Hz as [|? ? Hr Hrs]; subst.
    destruct (insert_row r t) as [[r1 t1]|e] eqn:I; [|discriminate].
    destruct (insert_rows rs t1) as [[rs1 t2]|e] eqn:I2; [|discriminate].
    inversion E; subst. apply insert_row_Ok in I.
    destruct I as (Hrows & _ & Hcase).
    destruct (IH _ _ _ Hrs I2) as (Hrows2 & Hall).
    split.
    + rewrite Hrows2, Hrows. simpl. now rewrite <- app_assoc.
    + constructor; [|exact Hall].
      destruct Hcase as [(_ & -> & _)|(Hne & _)]; [eauto|contradiction].
Qed.

Lemma CreateSlice_table (rs rs' : list R) d d' :
  Forall (fun r => pk r = 0) rs ->
  gorm.CreateSlice env rs d = (Ok rs', d') ->
  rows (table d') = rows (table d) ++ map columns rs' /\
  journal d' = journal d ++ [SQL INSERT TableName] /\
  Forall2 (fun r r' =>
             exists k, r' = with_pk k
               (before_create (now env (List.length (journal d))) r)) rs rs'.
Proof.
  intros Hz E. apply CreateSlice_Ok in E. destruct E as (_ & t' & I & -> & _).
  rewrite table_logged in I. apply insert_rows_auto in I.
  - destruct I as (Hrows & Hall).
    rewrite table_with_table, journal_with_table, journal_logged.
    split; [exact Hrows|]. split; [reflexivity|].
    clear - Hall. remember (before_create _) as f. clear Heqf.
    revert rs' Hall. induction rs as [|r rs IH]; intros rs' Hall;
      inversion Hall; subst; constructor; auto.
  - clear - Hz H0. induction Hz; simpl; constructor; auto.
    now rewrite pk_before_create.
Qed.

Lemma Delete_table cond d u d' :
  gorm.Delete env cond d = (Ok u, d') ->
  rows (table d') = filter (fun r => negb (cond r)) (rows (table d)) /\
  next_id (table d') = next_id (table d) /\
  journal d' = journal d ++ [SQL DELETE TableName].
Proof.
  intros E. apply Delete_Ok in E. destruct E as (-> & _).
  rewrite !table_with_table, journal_with_table, !table_logged, journal_logged.
  auto.
Qed.

Lemma Updates_table cond assign d u d' :
  gorm.Updates env cond assign d = (Ok u, d') ->
  rows (table d') = map (fun r => if cond r then assign r else r) (rows (table d)) /\
  next_id (table d') = next_id (table d) /\
  journal d' = journal d ++ [SQL UPDATE TableName].
Proof.
  intros E. apply Updates_Ok in E. destruct E as (-> & _).
  rewrite !table_with_table, journal_with_table, !table_logged, journal_logged.
  auto.
Qed.
End TableEffects.

(** ** Delete *)

Lemma filter_none {A} (p : A -> bool) l :
  filter p (filter (fun x => negb (p x)) l) = [].
Proof.
  induction l as [|x l IH]; simpl; [reflexivity|].
  destruct (p x) eqn:P; simpl; [exact IH|]. now rewrite P.
Qed.

Lemma Forall_filter_out {A} (f : A -> N) id l :
  Forall (fun x => f x <> id) (filter (fun x => negb (f x =? id)) l).
Proof.
  apply Forall_forall. intros x Hx. apply filter_In in Hx. destruct Hx as [_ Hx].
  apply negb_true_iff in Hx. now apply N.eqb_neq.
Qed.

Lemma existsb_filter_nil {A} (p : A -> bool) l :
  existsb p l = false <-> filter p l = [].
Proof.
  induction l as [|x l IH]; simpl; [tauto|].
  destruct (p x); simpl; [split; discriminate|exact IH].
Qed.

Lemma delete_effect env id d u d' :
  store.Delete env id d = (Ok u, d') ->
  journal d' = journal d ++ delete_plan d id /\
  rows (alerts d') = filter (fun a => negb (a_ID a =? id)) (rows (alerts d)) /\
  rows (alert_configurations d') =
    filter (fun c => negb (cfg_AlertID c =? id)) (rows (alert_configurations d)) /\
  rows (alert_schedules d') =
    filter (fun s => negb (sch_AlertID s =? id)) (rows (alert_schedules d)) /\
  rows (alert_tags d') =
    filter (fun t => negb (tag_AlertID t =? id)) (rows (alert_tags d)) /\
  rows (alert_queries d') =
    filter (fun q => negb (q_AlertID q =? id)) (rows (alert_queries d)) /\
  match least (filter (fun c => cfg_AlertID c =? id) (rows (alert_configurations d))) with
  | Some c =>
      rows (severity_configurations d') =
        filter (fun s => negb (sev_AlertConfigID s =? cfg_ID c))
               (rows (severity_configurations d)) /\
      rows (join_configurations d') =
        filter (fun j => negb (join_AlertConfigID j =? cfg_ID c))
               (rows (join_configurations d))
  | None =>
      rows (severity_configurations d') = rows (severity_configurations d) /\
      rows (join_configurations d') = rows (join_configurations d)
  end.
Proof.
  intros E. unfold store.Delete in E. apply Transaction_Ok in E.
  destruct E as (d2 & E & -> & _ & _). tx_inv.
  repeat match goal with
         | H : gorm.Delete _ _ _ = (Ok _, _) |- _ =>
             apply Delete_Ok in H; destruct H as (-> & _)
         end.
  unfold store.deleteConfigurationAssociations in E0. tx_inv.
  unfold delete_plan, has_configuration.
  match goal with
  | H : gorm.First _ _ _ = (?res, _) |- _ => rename H into EF; destruct res as [c|e]
  end.
  - tx_inv.
    repeat match goal with
           | H : gorm.Delete _ _ _ = (Ok _, _) |- _ =>
               apply Delete_Ok in H; destruct H as (-> & _)
           end.
    apply First_Ok in EF. destruct EF as (-> & L & _). simpl in L.
    rewrite L.
    assert (Hex : existsb (fun c => cfg_AlertID c =? id) (rows (alert_configurations d)) = true).
    { destruct (existsb _ _) eqn:Ex; [reflexivity|].
      apply existsb_filter_nil in Ex. rewrite Ex in L. discriminate. }
    rewrite Hex. simpl.
    repeat split; try reflexivity.
    rewrite <- !app_assoc. reflexivity.
  - destruct e; tx_inv.
    apply First_NotFound in EF. destruct EF as (-> & L & _). simpl in L.
    rewrite L. apply least_None in L.
    assert (Hex : existsb (fun c => cfg_AlertID c =? id) (rows (alert_configurations d)) = false)
      by now apply existsb_filter_nil.
    rewrite Hex. simpl.
    repeat split; try reflexivity.
    rewrite <- !app_assoc. reflexivity.
Qed.

(** ** Termination with a result on a healthy backend *)

Lemma succeeds_ret {A} (a : A) : succeeds (ret a).
Proof. intros d. now exists a, d. Qed.

Lemma succeeds_bind {A B} (m : Tx A) (k : A -> Tx B) :
  succeeds m -> (forall a, succeeds (k a)) -> succeeds (bind m k).
Proof.
  intros Hm Hk d. destruct (Hm d) as (a & d1 & E1).
  destruct (Hk a d1) as (b & d2 & E2). exists b, d2.
  unfold bind. now rewrite E1.
Qed.

Lemma succeeds_wrap {A} msg (m : Tx A) : succeeds m -> succeeds (wrap msg m).
Proof.
  intros Hm d. destruct (Hm d) as (a & d1 & E1). exists a, d1.
  unfold wrap. now rewrite E1.
Qed.

Section Healthy.
Variable env : Env.
Hypothesis H : never_fails env.

Lemma succeeds_exec s : succeeds (exec env s).
Proof. intros d. unfold exec. rewrite H. eauto. Qed.

Lemma succeeds_Delete {R} `{Model R} cond : succeeds (gorm.Delete env cond).
Proof.
  unfold gorm.Delete. apply succeeds_bind; [apply succeeds_exec|].
  intros _ d. eauto.
Qed.

Lemma succeeds_Updates {R} `{Model R} cond assign :
  succeeds (gorm.Updates env cond assign).
Proof.
  unfold gorm.Updates. apply succeeds_bind; [apply succeeds_exec|].
  intros _ d. eauto.
Qed.

Lemma First_healthy {R} `{Model R} cond d :
  (exists r, gorm.First env cond d = (Ok r, logged (SQL SELECT TableName) d)) \/
  gorm.First env cond d = (Err ErrRecordNotFound, logged (SQL SELECT TableName) d).
Proof.
  unfold gorm.First, bind, exec. rewrite H.
  fold (logged (SQL SELECT TableName) d).
  destruct (least _) as [r|]; eauto.
Qed.

Lemma succeeds_Transaction {A} (fc : Tx A) :
  succeeds fc -> succeeds (Transaction env fc).
Proof.
  intros Hfc d. unfold Transaction, exec. rewrite H.
  destruct (Hfc (with_journal (journal d ++ [BEGIN]) d)) as (a & d2 & E).
  rewrite E, H. eauto.
Qed.

Lemma succeeds_deleteConfigurationAssociations id :
  succeeds (store.deleteConfigurationAssociations env id).
Proof.
  intros d. unfold store.deleteConfigurationAssociations, bind at 1, attempt.
  destruct (First_healthy (fun c => cfg_AlertID c =? id) d) as [[c E]|E];
    rewrite E.
  - apply succeeds_bind; [apply succeeds_wrap, succeeds_Delete|]. intros _.
    apply succeeds_bind; [apply succeeds_wrap, succeeds_Delete|]. intros _.
    apply succeeds_ret.
  - apply succeeds_ret.
Qed.

Lemma succeeds_Delete_alert id : succeeds (store.Delete env id).
Proof.
  unfold store.Delete. apply succeeds_Transaction.
  apply succeeds_bind;
    [apply succeeds_wrap, succeeds_deleteConfigurationAssociations|]. intros _.
  repeat (apply succeeds_bind; [apply succeeds_wrap, succeeds_Delete|]; intros _).
  apply succeeds_ret.
Qed.
End Healthy.

(** C4. [Delete id] returns nil on a backend that rejects nothing; and
    whenever it returns nil it has issued, in this order inside one
    transaction, the deletion of the configuration's severity rows and join
    rows, of the configuration, schedule, tag and query rows, and of the
    root row.  Afterwards [GetByID id] fails with "record not found"; no
    schedule, tag, query or configuration row refers to [id], no severity or
    join row refers to a configuration the alert had; and the rows of the
    seven block tables are those from before. *)
Theorem delete_removes_the_aggregate_but_not_its_blocks env id d :
  one_configuration d id ->
  (never_fails env -> exists d', store.Delete env id d = (Ok tt, d')) /\
  forall d',
    store.Delete env id d = (Ok tt, d') ->
    journal d' = journal d ++ delete_plan d id /\
    store.GetByID id d' = Err ErrRecordNotFound /\
    Forall (fun c => cfg_AlertID c <> id) (rows (alert_configurations d')) /\
    Forall (fun s => sch_AlertID s <> id) (rows (alert_schedules d')) /\
    Forall (fun t => tag_AlertID t <> id) (rows (alert_tags d')) /\
    Forall (fun q => q_AlertID q <> id) (rows (alert_queries d')) /\
    (forall c, In c (rows (alert_configurations d)) -> cfg_AlertID c = id ->
       Forall (fun s => sev_AlertConfigID s <> cfg_ID c)
              (rows (severity_configurations d')) /\
       Forall (fun j => join_AlertConfigID j <> cfg_ID c)
              (rows (join_configurations d'))) /\
    rows (condition_configurations d') = rows (condition_configurations d) /\
    rows (group_configurations d') = rows (group_configurations d) /\
    rows (policy_configurations d') = rows (policy_configurations d) /\
    rows (template_configurations d') = rows (template_configurations d) /\
    rows (sink_alerthub_configurations d') = rows (sink_alerthub_configurations d) /\
    rows (sink_cms_configurations d') = rows (sink_cms_configurations d) /\
    rows (sink_event_store_configurations d') =
      rows (sink_event_store_configurations d).
Proof.
  intros Hone. split.
  { intros Hh. destruct (succeeds_Delete_alert env Hh id d) as ([] & d' & E).
    now exists d'. }
  intros d' E.
  destruct (delete_effect _ _ _ _ _ E) as (J & Ra & Rc & Rs & Rt & Rq & Rsj).
  split; [exact J|].
  split.
  { unfold store.GetByID, store.lookup. simpl. rewrite Ra.
    rewrite (filter_none (fun a => a_ID a =? id)). reflexivity. }
  split; [rewrite Rc; apply (Forall_filter_out cfg_AlertID)|].
  split; [rewrite Rs; apply (Forall_filter_out sch_AlertID)|].
  split; [rewrite Rt; apply (Forall_filter_out tag_AlertID)|].
  split; [rewrite Rq; apply (Forall_filter_out q_AlertID)|].
  split.
  { intros c Hin Hc.
    destruct (least _) as [c0|] eqn:L.
    - pose proof (least_In _ _ L) as Hin0. apply filter_In in Hin0.
      destruct Hin0 as [Hin0 Hc0]. apply N.eqb_eq in Hc0.
      rewrite (Hone c c0 Hin Hin0 Hc Hc0).
      destruct Rsj as [-> ->].
      split; [apply (Forall_filter_out sev_AlertConfigID)
             |apply (Forall_filter_out join_AlertConfigID)].
    - apply least_None in L.
      assert (Hc' : In c (filter (fun c => cfg_AlertID c =? id)
                                 (rows (alert_configurations d))))
        by (apply filter_In; split; [exact Hin|now apply N.eqb_eq]).
      rewrite L in Hc'. destruct Hc'. }
  repeat match goal with |- _ /\ _ => split end;
    match goal with
    | |- rows (?tbl d') = _ =>
        unfold store.Delete in E;
        eapply (Transaction_preserves (fun x => rows (tbl x)));
          [side|side| |exact E]; frame_store
    end.
Qed.

(** ** The steps of [UpdateWithTransaction] *)

Lemma update_closure_inv env alert d alert' d' :
  store.UpdateWithTransaction env alert d = (Ok alert', d') ->
  a_ID alert <> 0 /\
  exists d1 d2 d3 d4 d5 d6 a0 u1 u2 u3 u4,
    gorm.Updates env (fun r => a_ID r =? a_ID alert)
      (fun r =>
         set_a_DisplayName (a_DisplayName alert)
           (set_a_Description (a_Description alert)
             (set_a_Status (a_Status alert)
               (set_a_LastModifiedTime (a_LastModifiedTime alert) r))))
      (logged BEGIN d) = (Ok u1, d1) /\
    update_step2 env alert d1 = (Ok a0, d2) /\
    store.replace_schedule env a0 d2 = (Ok alert', d3) /\
    store.replace_tags env alert' d3 = (Ok u2, d4) /\
    store.replace_queries env alert' d4 = (Ok u3, d5) /\
    store.patch_relation_ids env alert' d5 = (Ok u4, d6) /\
    d' = logged COMMIT d6 /\
    same_request alert a0 /\ same_request alert alert'.
Proof.
  intros E. unfold store.UpdateWithTransaction in E. apply Transaction_Ok in E.
  destruct E as (dl & E & -> & _ & _).
  destruct (N.eqb_spec (a_ID alert) 0) as [Z|Z]; [discriminate E|].
  split; [exact Z|].
  apply bind_Ok in E. destruct E as (u1 & d1 & E1 & E). apply wrap_Ok in E1.
  apply bind_Ok in E. destruct E as (a0 & d2 & E2 & E).
  apply bind_Ok in E. destruct E as (a1 & d3 & E3 & E).
  apply bind_Ok in E. destruct E as (u2 & d4 & E4 & E).
  apply bind_Ok in E. destruct E as (u3 & d5 & E5 & E).
  apply bind_Ok in E. destruct E as (u4 & d6 & E6 & E).
  inversion E; subst a1 dl; clear E.
  pose proof (returns_update_step2 env alert _ _ _ E2) as R0.
  pose proof (returns_replace_schedule env a0 _ _ _ E3) as R1.
  exists d1, d2, d3, d4, d5, d6, a0, u1, u2, u3, u4.
  repeat match goal with |- _ /\ _ => split end; auto.
  exact (same_request_trans _ _ _ R0 R1).
Qed.

Section ReplaceEffects.
Variable env : Env.

Lemma tags_created z id l news :
  Forall2 (fun r r' : AlertTag => exists k, r' = with_pk k (before_create z r))
          (store.tagsToCreate id l) news ->
  map tag_values news = map tag_values l /\
  Forall (fun t => tag_AlertID t = id) news.
Proof.
  revert news. induction l as [|t l IH]; intros news HF;
    inversion HF as [|? r' ? rs' [k Hk] HF']; subst; simpl.
  - auto.
  - destruct (IH _ HF') as [IH1 IH2]. split.
    + rewrite IH1. reflexivity.
    + constructor; [reflexivity|exact IH2].
Qed.

Lemma queries_created z id l news :
  Forall2 (fun r r' : AlertQuery => exists k, r' = with_pk k (before_create z r))
          (store.queriesToCreate id l) news ->
  map query_values news = map query_values l /\
  Forall (fun q => q_AlertID q = id) news.
Proof.
  revert news. induction l as [|t l IH]; intros news HF;
    inversion HF as [|? r' ? rs' [k Hk] HF']; subst; simpl.
  - auto.
  - destruct (IH _ HF') as [IH1 IH2]. split.
    + rewrite IH1. reflexivity.
    + constructor; [reflexivity|exact IH2].
Qed.

Lemma tagsToCreate_fresh id l :
  Forall (fun r : AlertTag => pk r = 0) (store.tagsToCreate id l).
Proof.
  unfold store.tagsToCreate. apply Forall_forall. intros x Hx.
  apply in_map_iff in Hx. destruct Hx as (y & <- & _). reflexivity.
Qed.

Lemma queriesToCreate_fresh id l :
  Forall (fun r : AlertQuery => pk r = 0) (store.queriesToCreate id l).
Proof.
  unfold store.queriesToCreate. apply Forall_forall. intros x Hx.
  apply in_map_iff in Hx. destruct Hx as (y & <- & _). reflexivity.
Qed.

Lemma replace_tags_present a d u d' :
  a_Tags a <> [] ->
  store.replace_tags env a d = (Ok u, d') ->
  exists news,
    rows (alert_tags d') =
      filter (fun t => negb (tag_AlertID t =? a_ID a)) (rows (alert_tags d)) ++ news /\
    map tag_values news = map tag_values (a_Tags a) /\
    Forall (fun t => tag_AlertID t = a_ID a) news.
Proof.
  intros Hne E. unfold store.replace_tags, store.create_tags in E.
  destruct (a_Tags a) as [|t0 ts] eqn:T; [contradiction|].
  tx_inv.
  match goal with
  | H1 : gorm.Delete _ _ _ = _, H2 : gorm.CreateSlice _ _ _ = (Ok ?rs', _) |- _ =>
      rename H1 into HD; rename H2 into HC; rename rs' into news
  end.
  apply Delete_table in HD. destruct HD as (HD & _ & _).
  apply CreateSlice_table in HC; [|apply tagsToCreate_fresh].
  destruct HC as (HC & _ & HF). exists news.
  simpl in HC, HD. rewrite map_id in HC. rewrite HC, HD.
  split; [reflexivity|]. eapply tags_created; exact HF.
Qed.

Lemma replace_queries_present a d u d' :
  a_Queries a <> [] ->
  store.replace_queries env a d = (Ok u, d') ->
  exists news,
    rows (alert_queries d') =
      filter (fun q => negb (q_AlertID q =? a_ID a)) (rows (alert_queries d)) ++ news /\
    map query_values news = map query_values (a_Queries a) /\
    Forall (fun q => q_AlertID q = a_ID a) news.
Proof.
  intros Hne E. unfold store.replace_queries, store.create_queries in E.
  destruct (a_Queries a) as [|t0 ts] eqn:T; [contradiction|].
  tx_inv.
  match goal with
  | H1 : gorm.Delete _ _ _ = _, H2 : gorm.CreateSlice _ _ _ = (Ok ?rs', _) |- _ =>
      rename H1 into HD; rename H2 into HC; rename rs' into news
  end.
  apply Delete_table in HD. destruct HD as (HD & _ & _).
  apply CreateSlice_table in HC; [|apply queriesToCreate_fresh].
  destruct HC as (HC & _ & HF). exists news.
  simpl in HC, HD. rewrite map_id in HC. rewrite HC, HD.
  split; [reflexivity|]. eapply queries_created; exact HF.
Qed.

Lemma replace_schedule_present a s d a' d' :
  a_Schedule a = Some s ->
  store.replace_schedule env a d = (Ok a', d') ->
  exists s',
    rows (alert_schedules d') =
      filter (fun x => negb (sch_AlertID x =? a_ID a)) (rows (alert_schedules d))
      ++ [s'] /\
    schedule_values s' = schedule_values (as_inserted s) /\
    sch_AlertID s' = a_ID a /\
    a_ScheduleID a' = Some (sch_ID s').
Proof.
  intros Hs E. unfold store.replace_schedule, store.create_schedule in E.
  rewrite Hs in E. tx_inv.
  match goal with
  | H1 : gorm.Delete _ _ _ = _, H2 : gorm.Create _ _ _ = (Ok ?r', _) |- _ =>
      rename H1 into HD; rename H2 into HC; rename r' into s'
  end.
  apply Delete_table in HD. destruct HD as (HD & _ & _).
  apply Create_table in HC. destruct HC as (HC & _ & HF). exists s'.
  simpl in *. rewrite HC, HD. split; [reflexivity|].
  destruct (HF eq_refl) as [-> _]. repeat split; reflexivity.
Qed.
End ReplaceEffects.

Ltac frame_of H g :=
  match type of H with
  | ?m ?d = (Ok ?a, ?d') =>
      let F := fresh "F" in
      assert (F : g d' = g d) by
        (apply (fun pf : preserves g m => pf d a d' H);
         unfold update_step2; frame_store);
      cbv beta in F; simpl in F
  end.

Lemma filter_replaced {A} (f : A -> N) id old news :
  Forall (fun x => f x = id) news ->
  filter (fun x => f x =? id) (filter (fun x => negb (f x =? id)) old ++ news) = news.
Proof.
  intros Hn. rewrite filter_app, (filter_none (fun x => f x =? id)). simpl.
  induction Hn as [|x l Hx Hl IH]; simpl; [reflexivity|].
  apply N.eqb_eq in Hx. rewrite Hx. now rewrite IH.
Qed.

(** How an update changes the schedule, tag and query tables. *)
Lemma update_tables env alert d alert' d' :
  store.UpdateWithTransaction env alert d = (Ok alert', d') ->
  exists d3 d4 d5 u2 u3,
    same_request alert alert' /\
    store.replace_tags env alert' d3 = (Ok u2, d4) /\
    store.replace_queries env alert' d4 = (Ok u3, d5) /\
    rows (alert_tags d3) = rows (alert_tags d) /\
    rows (alert_tags d') = rows (alert_tags d4) /\
    rows (alert_queries d4) = rows (alert_queries d) /\
    rows (alert_queries d') = rows (alert_queries d5) /\
    exists d2 a0,
      same_request alert a0 /\
      store.replace_schedule env a0 d2 = (Ok alert', d3) /\
      rows (alert_schedules d2) = rows (alert_schedules d) /\
      rows (alert_schedules d') = rows (alert_schedules d3).
Proof.
  intros E. apply update_closure_inv in E.
  destruct E as (_ & d1 & d2 & d3 & d4 & d5 & d6 & a0 & u1 & u2 & u3 & u4 &
                 E1 & E2 & E3 & E4 & E5 & E6 & -> & R0 & R1).
  exists d3, d4, d5, u2, u3.
  frame_of E1 (fun x => rows (alert_tags x)).
  frame_of E2 (fun x => rows (alert_tags x)).
  frame_of E3 (fun x => rows (alert_tags x)).
  frame_of E5 (fun x => rows (alert_tags x)).
  frame_of E6 (fun x => rows (alert_tags x)).
  frame_of E1 (fun x => rows (alert_queries x)).
  frame_of E2 (fun x => rows (alert_queries x)).
  frame_of E3 (fun x => rows (alert_queries x)).
  frame_of E4 (fun x => rows (alert_queries x)).
  frame_of E6 (fun x => rows (alert_queries x)).
  frame_of E1 (fun x => rows (alert_schedules x)).
  frame_of E2 (fun x => rows (alert_schedules x)).
  frame_of E4 (fun x => rows (alert_schedules x)).
  frame_of E5 (fun x => rows (alert_schedules x)).
  frame_of E6 (fun x => rows (alert_schedules x)).
  repeat match goal with |- _ /\ _ => split end; auto;
    try (simpl; congruence).
  exists d2, a0.
  repeat match goal with |- _ /\ _ => split end; auto; simpl; congruence.
Qed.

(** An update whose request carries no tags leaves the tag rows alone,
    however it ends. *)
Lemma update_without_tags env alert d r d' :
  a_Tags alert = [] ->
  store.UpdateWithTransaction env alert d = (r, d') ->
  rows (alert_tags d') = rows (alert_tags d).
Proof.
  intros C E.
  apply (update_closure_preserves (fun x => rows (alert_tags x)) env alert)
    with (r := r); try side; try exact E.
  - unfold update_step2. frame_store.
  - intros; frame_store.
  - intros a (_ & _ & T & _). unfold store.replace_tags.
    rewrite T, C. apply preserves_ret.
  - intros; frame_store.
Qed.

(** The tag rows of an alert after an update that carried tags. *)
Lemma update_with_tags env alert d alert' d' :
  a_Tags alert <> [] ->
  store.UpdateWithTransaction env alert d = (Ok alert', d') ->
  exists news,
    rows (alert_tags d') =
      filter (fun t => negb (tag_AlertID t =? a_ID alert)) (rows (alert_tags d))
      ++ news /\
    map tag_values news = map tag_values (a_Tags alert) /\
    Forall (fun t => tag_AlertID t = a_ID alert) news.
Proof.
  intros Hne E. apply update_tables in E.
  destruct E as (d3 & d4 & d5 & u2 & u3 & (I & _ & T & _) & E4 & _ & F3 & F4 & _).
  apply replace_tags_present in E4; [|now rewrite T].
  destruct E4 as (news & Hrows & Hvals & Hown). exists news.
  rewrite I in Hrows, Hown. rewrite T in Hvals. rewrite F4, Hrows, F3. auto.
Qed.

(** C5 (as the code has it).  A successful update replaces wholesale, by
    deleting the alert's rows and inserting the incoming ones, the schedule
    when the request carries one, the tags when it carries any, and the
    queries when it carries any.  Updating again with the same tags yields
    tag rows with the same values, in the same number. *)
Theorem update_replaces_the_collections_it_carries env alert d alert' d' :
  store.UpdateWithTransaction env alert d = (Ok alert', d') ->
  (forall s, a_Schedule alert = Some s ->
     exists s',
       rows (alert_schedules d') =
         filter (fun x => negb (sch_AlertID x =? a_ID alert))
                (rows (alert_schedules d)) ++ [s'] /\
       schedule_values s' = schedule_values (as_inserted s) /\
       sch_AlertID s' = a_ID alert) /\
  (a_Tags alert <> [] ->
     exists news,
       rows (alert_tags d') =
         filter (fun t => negb (tag_AlertID t =? a_ID alert))
                (rows (alert_tags d)) ++ news /\
       map tag_values news = map tag_values (a_Tags alert) /\
       Forall (fun t => tag_AlertID t = a_ID alert) news) /\
  (a_Queries alert <> [] ->
     exists news,
       rows (alert_queries d') =
         filter (fun q => negb (q_AlertID q =? a_ID alert))
                (rows (alert_queries d)) ++ news /\
       map query_values news = map query_values (a_Queries alert) /\
       Forall (fun q => q_AlertID q = a_ID alert) news) /\
  (forall env2 again again' d2,
     a_ID again = a_ID alert -> a_Tags again = a_Tags alert ->
     store.UpdateWithTransaction env2 again d' = (Ok again', d2) ->
     map tag_values (store.has_many tag_AlertID (a_ID alert) d2) =
     map tag_values (store.has_many tag_AlertID (a_ID alert) d')).
Proof.
  intros E. repeat match goal with |- _ /\ _ => split end.
  - intros s Hs. apply update_tables in E.
    destruct E as (d3 & d4 & d5 & u2 & u3 & _ & _ & _ & _ & _ & _ & _ &
                   d2 & a0 & (I & S & _ & _) & E3 & F2 & F3).
    apply replace_schedule_present with (s := s) in E3; [|now rewrite S].
    destruct E3 as (s' & Hrows & Hvals & Hown & _). exists s'.
    rewrite F3, Hrows, F2, I. rewrite I in Hown. auto.
  - intros Hne. now apply (update_with_tags env alert d alert' d').
  - intros Hne. apply update_tables in E.
    destruct E as (d3 & d4 & d5 & u2 & u3 & (I & _ & _ & Q) & _ & E5 & _ & _ & F4 & F5 & _).
    apply replace_queries_present in E5; [|now rewrite Q].
    destruct E5 as (news & Hrows & Hvals & Hown). exists news.
    rewrite I in Hrows, Hown. rewrite Q in Hvals. rewrite F5, Hrows, F4. auto.
  - intros env2 again again' d2 Hid Htags E2.
    unfold store.has_many. simpl.
    destruct (a_Tags alert) as [|t0 ts] eqn:T.
    + now rewrite (update_without_tags env2 again d' _ d2 Htags E2).
    + assert (Hne : a_Tags alert <> []) by (rewrite T; discriminate).
      assert (Hne2 : a_Tags again <> []) by (rewrite Htags; discriminate).
      destruct (update_with_tags _ _ _ _ _ Hne E) as (n1 & R1 & V1 & O1).
      destruct (update_with_tags _ _ _ _ _ Hne2 E2) as (n2 & R2 & V2 & O2).
      rewrite Hid in R2, O2. rewrite Htags in V2.
      rewrite R1, R2.
      rewrite (filter_replaced tag_AlertID _ _ _ O1).
      rewrite (filter_replaced tag_AlertID _ _ _ O2).
      rewrite T in V1. congruence.
Qed.

(** ** The statements a successful computation issues *)

Lemma writes_ret {A} (a : A) : writes (ret a) [].
Proof. intros d x d' E. inversion E; subst. now rewrite app_nil_r. Qed.

Lemma writes_bind {A B} (m : Tx A) (k : A -> Tx B) p1 p2 :
  writes m p1 -> (forall a, writes (k a) p2) -> writes (bind m k) (p1 ++ p2).
Proof.
  intros Hm Hk d b d' E. apply bind_Ok in E. destruct E as (a & d1 & E1 & E2).
  rewrite (Hk _ _ _ _ E2), (Hm _ _ _ E1). now rewrite app_assoc.
Qed.

Lemma writes_bind_returns {A B} (m : Tx A) (k : A -> Tx B) (P : A -> Prop) p1 p2 :
  writes m p1 -> returns m P -> (forall a, P a -> writes (k a) p2) ->
  writes (bind m k) (p1 ++ p2).
Proof.
  intros Hm Hr Hk d b d' E. apply bind_Ok in E. destruct E as (a & d1 & E1 & E2).
  rewrite (Hk a (Hr _ _ _ E1) _ _ _ E2), (Hm _ _ _ E1). now rewrite app_assoc.
Qed.

Lemma writes_wrap {A} msg (m : Tx A) p : writes m p -> writes (wrap msg m) p.
Proof. intros Hm d a d' E. apply wrap_Ok in E. eapply Hm; eauto. Qed.

Lemma writes_nil_r {A} (m : Tx A) p : writes m (p ++ []) -> writes m p.
Proof. now rewrite app_nil_r. Qed.

Section WritesStatements.
Context {R : Type} `{Lawful R} (env : Env).

Lemma writes_Create r : writes (gorm.Create env r) [SQL INSERT TableName].
Proof. intros d a d' E. now apply Create_table in E. Qed.

Lemma writes_CreateSlice rs :
  writes (gorm.CreateSlice env rs) [SQL INSERT TableName].
Proof.
  intros d a d' E. apply CreateSlice_Ok in E. destruct E as (_ & t' & _ & -> & _).
  now rewrite journal_with_table, journal_logged.
Qed.

Lemma writes_Delete cond : writes (gorm.Delete env cond) [SQL DELETE TableName].
Proof. intros d a d' E. now apply Delete_table in E. Qed.

Lemma writes_Updates cond assign :
  writes (gorm.Updates env cond assign) [SQL UPDATE TableName].
Proof. intros d a d' E. now apply Updates_table in E. Qed.
End WritesStatements.

(** ** The statements of [CreateWithTransaction], in order *)

Section CreateWrites.
Variable env : Env.

Lemma writes_create_block {R} `{Lawful R} set_id cid msg (o : option R) :
  writes (store.create_block env set_id cid msg o)
         (insert_if_present TableName o).
Proof.
  unfold store.create_block. destruct o; cbn [insert_if_any insert_if_present flat_map].
  - apply writes_nil_r. apply writes_bind.
    + apply writes_wrap, writes_Create.
    + intro. apply writes_ret.
  - apply writes_ret.
Qed.

Lemma writes_prepare_severities stamp cid l :
  writes (store.prepare_severities env stamp cid l) (eval_conditions_plan l).
Proof.
  induction l as [|s l IH]; simpl.
  - apply writes_ret.
  - apply writes_bind.
    + destruct (sev_EvalCondition s); cbn [insert_if_any insert_if_present flat_map].
      * apply writes_nil_r. apply writes_bind.
        -- apply writes_wrap. refine (@writes_Create ConditionConfiguration _ _ env _).
        -- intro. apply writes_ret.
      * apply writes_ret.
    + intro. apply writes_nil_r. apply writes_bind; [exact IH|].
      intro. apply writes_ret.
Qed.

Lemma writes_create_severities stamp cid l :
  writes (store.create_severities env stamp cid l) (severities_plan l).
Proof.
  unfold store.create_severities, severities_plan. destruct l as [|s l].
  - apply writes_ret.
  - apply writes_bind; [apply writes_prepare_severities|].
    intro. apply writes_wrap. refine (@writes_CreateSlice SeverityConfiguration _ _ env _).
Qed.

Lemma writes_create_joins cid l :
  writes (store.create_joins env cid l) (insert_if_any "join_configurations" l).
Proof.
  unfold store.create_joins. destruct l as [|j l]; cbn [insert_if_any insert_if_present flat_map].
  - apply writes_ret.
  - apply writes_wrap. refine (@writes_CreateSlice JoinConfiguration _ _ env _).
Qed.

Lemma writes_create_configuration alert c :
  writes (store.create_configuration env alert c) (configuration_plan c).
Proof.
  unfold store.create_configuration, configuration_plan.
  apply writes_bind;
    [apply writes_wrap; refine (@writes_Create AlertConfiguration _ _ env _)|intro].
  apply writes_bind;
    [refine (@writes_create_block ConditionConfiguration _ _ _ _ _ _)|intro].
  apply writes_bind;
    [refine (@writes_create_block GroupConfiguration _ _ _ _ _ _)|intro].
  apply writes_bind;
    [refine (@writes_create_block PolicyConfiguration _ _ _ _ _ _)|intro].
  apply writes_bind;
    [refine (@writes_create_block TemplateConfiguration _ _ _ _ _ _)|intro].
  apply writes_bind;
    [refine (@writes_create_block SinkAlerthubConfiguration _ _ _ _ _ _)|intro].
  apply writes_bind;
    [refine (@writes_create_block SinkCmsConfiguration _ _ _ _ _ _)|intro].
  apply writes_bind;
    [refine (@writes_create_block SinkEventStoreConfiguration _ _ _ _ _ _)|intro].
  apply writes_bind; [apply writes_create_severities|intro].
  apply writes_nil_r.
  apply writes_bind; [apply writes_create_joins|intro].
  apply writes_ret.
Qed.

Lemma writes_create_schedule alert msg :
  writes (store.create_schedule env alert msg)
         (insert_if_present "alert_schedules" (a_Schedule alert)).
Proof.
  unfold store.create_schedule. destruct (a_Schedule alert); cbn [insert_if_any insert_if_present flat_map].
  - apply writes_nil_r. apply writes_bind.
    + apply writes_wrap. refine (@writes_Create AlertSchedule _ _ env _).
    + intro. apply writes_ret.
  - apply writes_ret.
Qed.

Lemma writes_create_tags alert msg :
  writes (store.create_tags env alert msg)
         (insert_if_any "alert_tags" (a_Tags alert)).
Proof.
  unfold store.create_tags. destruct (a_Tags alert); cbn [insert_if_any insert_if_present flat_map].
  - apply writes_ret.
  - apply writes_nil_r. apply writes_bind.
    + apply writes_wrap. refine (@writes_CreateSlice AlertTag _ _ env _).
    + intro. apply writes_ret.
Qed.

Lemma writes_create_queries alert msg :
  writes (store.create_queries env alert msg)
         (insert_if_any "alert_queries" (a_Queries alert)).
Proof.
  unfold store.create_queries. destruct (a_Queries alert); cbn [insert_if_any insert_if_present flat_map].
  - apply writes_ret.
  - apply writes_nil_r. apply writes_bind.
    + apply writes_wrap. refine (@writes_CreateSlice AlertQuery _ _ env _).
    + intro. apply writes_ret.
Qed.

Lemma writes_patch_relation_ids alert :
  writes (store.patch_relation_ids env alert)
         (match a_ConfigurationID alert, a_ScheduleID alert with
          | None, None => []
          | _, _ => [SQL UPDATE "alerts"]
          end).
Proof.
  unfold store.patch_relation_ids.
  destruct (a_ConfigurationID alert), (a_ScheduleID alert);
    try apply writes_ret;
    apply writes_wrap; refine (@writes_Updates Alert _ _ env _ _).
Qed.
End CreateWrites.

(** ** The steps of [CreateWithTransaction] *)

Lemma create_closure_inv env alert d alert' d' :
  store.CreateWithTransaction env alert d = (Ok alert', d') ->
  exists root d1 a1 d2 d3 d4 d5 d6 u1 u2 u3,
    gorm.Create env (store.cleanAlert alert) (logged BEGIN d) = (Ok root, d1) /\
    create_step2 env (set_a_ID (a_ID root) alert) d1 = (Ok a1, d2) /\
    store.create_schedule env a1 "failed to create alert schedule" d2 = (Ok alert', d3) /\
    store.create_tags env alert' "failed to create alert tags" d3 = (Ok u1, d4) /\
    store.create_queries env alert' "failed to create alert queries" d4 = (Ok u2, d5) /\
    store.patch_relation_ids env alert' d5 = (Ok u3, d6) /\
    d' = logged COMMIT d6.
Proof.
  intros E. unfold store.CreateWithTransaction in E. apply Transaction_Ok in E.
  destruct E as (dl & E & -> & _ & _).
  apply bind_Ok in E. destruct E as (root & d1 & E1 & E). apply wrap_Ok in E1.
  apply bind_Ok in E. destruct E as (a1 & d2 & E2 & E).
  apply bind_Ok in E. destruct E as (a2 & d3 & E3 & E).
  apply bind_Ok in E. destruct E as (u1 & d4 & E4 & E).
  apply bind_Ok in E. destruct E as (u2 & d5 & E5 & E).
  apply bind_Ok in E. destruct E as (u3 & d6 & E6 & E).
  inversion E; subst a2 dl; clear E.
  exists root, d1, a1, d2, d3, d4, d5, d6, u1, u2, u3. auto 10.
Qed.

Lemma returns_create_configuration env alert c :
  returns (store.create_configuration env alert c)
    (fun a' => carried alert a' /\ a_ConfigurationID a' <> None).
Proof.
  unfold store.create_configuration.
  repeat (apply returns_bind; intro). apply returns_ret.
  simpl. split; [repeat split|discriminate].
Qed.

Lemma returns_create_step2 env alert :
  returns (create_step2 env alert)
    (fun a' => carried alert a' /\
               (a_ConfigurationID a' = None <->
                a_Configuration alert = None /\ a_ConfigurationID alert = None)).
Proof.
  unfold create_step2. destruct (a_Configuration alert) as [c|] eqn:C.
  - intros d a' d' E. apply returns_create_configuration in E.
    destruct E as [Hc Hn]. split; [exact Hc|]. split.
    + intros; contradiction.
    + intros [? _]; discriminate.
  - apply returns_ret. split; [repeat split|]. tauto.
Qed.

Lemma returns_create_schedule env alert msg :
  returns (store.create_schedule env alert msg)
    (fun a' => a_ID a' = a_ID alert /\ a_Tags a' = a_Tags alert /\
               a_Queries a' = a_Queries alert /\
               a_ConfigurationID a' = a_ConfigurationID alert /\
               (a_ScheduleID a' = None <->
                a_Schedule alert = None /\ a_ScheduleID alert = None)).
Proof.
  unfold store.create_schedule. destruct (a_Schedule alert) as [s|] eqn:S.
  - apply returns_bind; intro. apply returns_ret. simpl.
    do 4 (split; [reflexivity|]).
    split; [discriminate|intros [? _]; discriminate].
  - apply returns_ret. do 4 (split; [reflexivity|]). tauto.
Qed.

Lemma writes_create_step2 env alert :
  writes (create_step2 env alert)
    (match a_Configuration alert with
     | Some c => configuration_plan c
     | None => []
     end).
Proof.
  unfold create_step2. destruct (a_Configuration alert).
  - apply writes_create_configuration.
  - apply writes_ret.
Qed.

(** The journal of a successful create. *)
Lemma create_journal env alert d alert' d' :
  store.CreateWithTransaction env alert d = (Ok alert', d') ->
  journal d' = journal d ++ create_plan alert.
Proof.
  intros E. apply create_closure_inv in E.
  destruct E as (root & d1 & a1 & d2 & d3 & d4 & d5 & d6 & u1 & u2 & u3 &
                 E1 & E2 & E3 & E4 & E5 & E6 & ->).
  pose proof (returns_create_step2 _ _ _ _ _ E2) as ((I1 & S1 & T1 & Q1 & SI1) & C1).
  pose proof (returns_create_schedule _ _ _ _ _ _ E3) as (I2 & T2 & Q2 & C2 & SI2).
  apply Create_table in E1. destruct E1 as (_ & J1 & _).
  apply writes_create_step2 in E2.
  apply writes_create_schedule in E3.
  apply writes_create_tags in E4.
  apply writes_create_queries in E5.
  apply writes_patch_relation_ids in E6.
  rewrite journal_logged, E6, E5, E4, E3, E2, J1, journal_logged.
  simpl in *. unfold create_plan. rewrite <- !app_assoc. simpl.
  rewrite T2, Q2, T1, Q1, S1. repeat f_equal.
  unfold patches. rewrite C2.
  destruct (a_ConfigurationID a1) eqn:Ca, (a_ScheduleID alert') eqn:Sa;
    destruct (a_Configuration alert) eqn:Cb, (a_ConfigurationID alert) eqn:Cc,
             (a_Schedule alert) eqn:Sb, (a_ScheduleID alert) eqn:Sc;
    try reflexivity; rewrite S1, SI1 in SI2; exfalso;
    repeat match goal with
           | H : _ <-> _ |- _ => destruct H
           | H : None = None -> _ |- _ => specialize (H eq_refl)
           | H : None = None /\ None = None -> _ |- _ => specialize (H (conj eq_refl eq_refl))
           | H : _ /\ _ |- _ => destruct H
           end; discriminate.
Qed.

(** ** Rows appended by a computation *)

Lemma appended_refl {R} (P : R -> Prop) l : appended P l l.
Proof. exists []. split; [now rewrite app_nil_r|constructor]. Qed.

Lemma appended_eq {R} (P : R -> Prop) l l' : l' = l -> appended P l l'.
Proof. intros ->. apply appended_refl. Qed.

Lemma appended_trans {R} (P : R -> Prop) l1 l2 l3 :
  appended P l1 l2 -> appended P l2 l3 -> appended P l1 l3.
Proof.
  intros (n1 & -> & F1) (n2 & -> & F2). exists (n1 ++ n2).
  split; [now rewrite app_assoc|]. apply Forall_app. auto.
Qed.

Lemma extends_of_preserves {R A} (g : DB -> list R) P (m : Tx A) :
  preserves g m -> extends g P m.
Proof. intros Hm d a d' E. apply appended_eq. eapply Hm; eauto. Qed.

Lemma extends_ret {R A} (g : DB -> list R) P (a : A) : extends g P (ret a).
Proof. apply extends_of_preserves, preserves_ret. Qed.

Lemma extends_bind {R A B} (g : DB -> list R) P (m : Tx A) (k : A -> Tx B) :
  extends g P m -> (forall a, extends g P (k a)) -> extends g P (bind m k).
Proof.
  intros Hm Hk d b d' E. apply bind_Ok in E. destruct E as (a & d1 & E1 & E2).
  eapply appended_trans; [eapply Hm|eapply Hk]; eauto.
Qed.

Lemma extends_wrap {R A} (g : DB -> list R) P msg (m : Tx A) :
  extends g P m -> extends g P (wrap msg m).
Proof. intros Hm d a d' E. apply wrap_Ok in E. eapply Hm; eauto. Qed.

Lemma extends_Create {R} `{Lawful R} env (P : R -> Prop) r :
  (forall z k, P (columns (with_pk k (before_create z r)))) ->
  (forall z, P (columns (before_create z r))) ->
  extends (fun d => rows (table d)) P (gorm.Create env r).
Proof.
  intros H1 H2 d r' d' E. apply Create_Ok in E. destruct E as (t' & I & -> & _).
  rewrite table_logged in I. apply insert_row_Ok in I.
  destruct I as (Hrows & _ & Hcase). rewrite table_with_table.
  exists [columns r']. split; [exact Hrows|]. constructor; [|constructor].
  destruct Hcase as [(_ & -> & _)|(_ & -> & _)]; auto.
Qed.

(** ** What [create_configuration] adds to the block tables *)

Section Stamped.
Variable env : Env.
Variable cid : N.

Lemma extends_create_block {R} `{Lawful R}
      (get : R -> N) (set : N -> R -> R) msg o :
  (forall z k b, get (columns (with_pk k (before_create z (set cid b)))) = cid) ->
  (forall z b, get (columns (before_create z (set cid b))) = cid) ->
  extends (fun d => rows (table d)) (fun b => get b = cid)
          (store.create_block env set cid msg o).
Proof.
  intros H1 H2. unfold store.create_block. destruct o as [b|].
  - apply extends_bind; [|intro; apply extends_ret].
    apply extends_wrap. apply extends_Create; auto.
  - apply extends_ret.
Qed.

Lemma extends_prepare_severities l :
  extends (fun d => rows (condition_configurations d))
          (fun b => cond_AlertConfigID b = cid)
          (store.prepare_severities env (set_cond_AlertConfigID cid) cid l).
Proof.
  induction l as [|s l IH]; simpl.
  - apply extends_ret.
  - apply extends_bind.
    + destruct (sev_EvalCondition s).
      * apply extends_bind; [|intro; apply extends_ret].
        apply extends_wrap.
        refine (@extends_Create ConditionConfiguration _ _ env _ _ _ _);
          intros; reflexivity.
      * apply extends_ret.
    + intro. apply extends_bind; [exact IH|intro; apply extends_ret].
Qed.
End Stamped.

Ltac extend_step :=
  lazymatch goal with
  | |- extends _ _ (bind _ _) =>
      first [ apply extends_of_preserves; solve [frame_store]
            | apply extends_bind; [ | intro ] ]
  | |- extends _ _ (wrap _ _) => apply extends_wrap
  | |- extends _ _ (ret _) => apply extends_ret
  | |- extends _ _ (store.create_block _ _ _ _ _) =>
      first [ apply extends_of_preserves; solve [frame_store]
            | refine (extends_create_block _ _ _ _ _ _ _ _); intros; reflexivity ]
  | |- extends _ _ (store.prepare_severities _ _ _ _) =>
      first [ apply extends_of_preserves; solve [frame_store]
            | apply extends_prepare_severities ]
  | |- extends _ _ ?m =>
      first [ apply extends_of_preserves; solve [frame_store]
            | lazymatch m with
              | match ?x with _ => _ end => destruct x
              end
            | progress autounfold with store_ops ]
  end.

Ltac extend_store := repeat extend_step.

Section CreateConfiguration.
Variable env : Env.

Lemma create_configuration_row alert c d a' d' :
  store.create_configuration env alert c d = (Ok a', d') ->
  rows (alert_configurations d') =
    rows (alert_configurations d) ++
    [configuration_row (next_id (alert_configurations d)) (a_ID alert) c] /\
  a_ConfigurationID a' = Some (next_id (alert_configurations d)).
Proof.
  intros E. unfold store.create_configuration in E.
  apply bind_Ok in E. destruct E as (created & d1 & E1 & E).
  apply wrap_Ok in E1. apply Create_table in E1.
  destruct E1 as (Hrows & _ & Hnew). destruct (Hnew eq_refl) as [-> _].
  simpl in Hrows. simpl in E.
  split.
  - match type of E with
    | ?m d1 = _ =>
        assert (F : preserves (fun x => rows (alert_configurations x)) m)
          by frame_store
    end.
    rewrite (F _ _ _ E), Hrows. reflexivity.
  - apply (fun pf : returns _ (fun a => a_ConfigurationID a =
                                       Some (next_id (alert_configurations d)))
           => pf _ _ _ E).
    repeat (apply returns_bind; intro). apply returns_ret. reflexivity.
Qed.

Lemma create_configuration_blocks alert c d a' d' :
  store.create_configuration env alert c d = (Ok a', d') ->
  let cid := next_id (alert_configurations d) in
  appended (fun b => cond_AlertConfigID b = cid)
    (rows (condition_configurations d)) (rows (condition_configurations d')) /\
  appended (fun b => grp_AlertConfigID b = cid)
    (rows (group_configurations d)) (rows (group_configurations d')) /\
  appended (fun b => pol_AlertConfigID b = cid)
    (rows (policy_configurations d)) (rows (policy_configurations d')) /\
  appended (fun b => tpl_AlertConfigID b = cid)
    (rows (template_configurations d)) (rows (template_configurations d')) /\
  appended (fun b => hub_AlertConfigID b = cid)
    (rows (sink_alerthub_configurations d)) (rows (sink_alerthub_configurations d')) /\
  appended (fun b => cms_AlertConfigID b = cid)
    (rows (sink_cms_configurations d)) (rows (sink_cms_configurations d')) /\
  appended (fun b => es_AlertConfigID b = cid)
    (rows (sink_event_store_configurations d))
    (rows (sink_event_store_configurations d')).
Proof.
  intros E cid. unfold store.create_configuration in E.
  apply bind_Ok in E. destruct E as (created & d1 & E1 & E).
  apply wrap_Ok in E1.
  assert (Hcid : cfg_ID created = cid).
  { apply Create_table in E1. destruct E1 as (_ & _ & Hnew).
    destruct (Hnew eq_refl) as [-> _]. reflexivity. }
  rewrite Hcid in E.
  repeat match goal with |- _ /\ _ => split end;
    match goal with
    | |- appended ?P (rows (?tbl d)) _ =>
        assert (F1 : rows (tbl d1) = rows (tbl d))
          by (apply (fun pf : preserves (fun x => rows (tbl x)) _
                     => pf _ _ _ E1); frame_store);
        rewrite <- F1;
        apply (fun pf : extends (fun x => rows (tbl x)) P _ => pf _ _ _ E);
        extend_store
    end.
Qed.
End CreateConfiguration.

(** ** The severity and join rows of a created configuration *)

Section Collections.
Variable env : Env.

Lemma prepare_severities_spec stamp cid l prepared d d' :
  store.prepare_severities env stamp cid l d = (Ok prepared, d') ->
  Forall2 (fun s p => sev_Severity p = sev_Severity s /\
                      sev_AlertConfigID p = cid /\ sev_ID p = 0) l prepared.
Proof.
  revert prepared d d'. induction l as [|s l IH]; simpl; intros prepared d d' E.
  - inversion E; subst. constructor.
  - apply bind_Ok in E. destruct E as (s1 & d1 & E1 & E).
    apply bind_Ok in E. destruct E as (rest & d2 & E2 & E).
    inversion E; subst; clear E. constructor; [|eapply IH; eauto].
    simpl. repeat split.
    destruct (sev_EvalCondition s).
    + apply bind_Ok in E1. destruct E1 as (ec & d3 & _ & E1).
      inversion E1; subst. reflexivity.
    + inversion E1; subst. reflexivity.
Qed.

Lemma create_severities_rows stamp cid l l' d d' :
  store.create_severities env stamp cid l d = (Ok l', d') ->
  exists news,
    rows (severity_configurations d') = rows (severity_configurations d) ++ news /\
    Forall2 (severity_stored cid) l news.
Proof.
  intros E. unfold store.create_severities in E. destruct l as [|s0 l0].
  - inversion E; subst. exists []. split; [now rewrite app_nil_r|constructor].
  - remember (s0 :: l0) as l. clear Heql.
    apply bind_Ok in E. destruct E as (prepared & d1 & E1 & E). apply wrap_Ok in E.
    assert (F : rows (severity_configurations d1) = rows (severity_configurations d)).
    { apply (fun pf : preserves (fun x => rows (severity_configurations x)) _
             => pf _ _ _ E1). frame_store. }
    apply prepare_severities_spec in E1.
    apply CreateSlice_table in E.
    + destruct E as (Hrows & _ & HF). exists (map columns l').
      simpl in Hrows. rewrite Hrows, F. split; [reflexivity|].
      clear - E1 HF. revert prepared l' E1 HF.
      induction l as [|s l IH]; intros prepared l' E1 HF;
        inversion E1 as [|? p ? ps (H1 & H2 & H3) E1']; subst;
        inversion HF as [|? n ? ns [k Hk] HF']; subst; simpl; constructor.
      * unfold severity_stored. simpl. auto.
      * eapply IH; eauto.
    + clear - E1. induction E1 as [|s p l ps (_ & _ & H3) _ IH]; constructor; auto.
Qed.

Lemma create_joins_rows cid l l' d d' :
  store.create_joins env cid l d = (Ok l', d') ->
  exists news,
    rows (join_configurations d') = rows (join_configurations d) ++ news /\
    Forall2 (join_stored cid) l news.
Proof.
  intros E. unfold store.create_joins in E. destruct l as [|j0 l0].
  - inversion E; subst. exists []. split; [now rewrite app_nil_r|constructor].
  - remember (j0 :: l0) as l. clear Heql. apply wrap_Ok in E.
    apply CreateSlice_table in E.
    + destruct E as (Hrows & _ & HF). exists l'.
      simpl in Hrows. rewrite map_id in Hrows. split; [exact Hrows|].
      clear - HF. revert l' HF.
      induction l as [|j l IH]; intros l' HF;
        inversion HF as [|? n ? ns [k Hk] HF']; subst; simpl; constructor.
      * unfold join_stored. simpl. auto.
      * eapply IH; eauto.
    + apply Forall_forall. intros x Hx. apply in_map_iff in Hx.
      destruct Hx as (y & <- & _). reflexivity.
Qed.

Lemma create_configuration_collections alert c d a' d' :
  store.create_configuration env alert c d = (Ok a', d') ->
  let cid := next_id (alert_configurations d) in
  (exists news,
     rows (severity_configurations d') = rows (severity_configurations d) ++ news /\
     Forall2 (severity_stored cid) (cfg_SeverityConfigs c) news) /\
  (exists news,
     rows (join_configurations d') = rows (join_configurations d) ++ news /\
     Forall2 (join_stored cid) (cfg_JoinConfigs c) news).
Proof.
  intros E cid. unfold store.create_configuration in E.
  apply bind_Ok in E. destruct E as (created & d1 & E1 & E).
  apply wrap_Ok in E1.
  assert (Hcid : cfg_ID created = cid).
  { pose proof E1 as E1'. apply Create_table in E1'. destruct E1' as (_ & _ & Hnew).
    destruct (Hnew eq_refl) as [-> _]. reflexivity. }
  rewrite Hcid in E.
  assert (S1 : rows (severity_configurations d1) = rows (severity_configurations d))
    by (apply (fun pf : preserves (fun x => rows (severity_configurations x)) _
               => pf _ _ _ E1); frame_store).
  assert (J1 : rows (join_configurations d1) = rows (join_configurations d))
    by (apply (fun pf : preserves (fun x => rows (join_configurations x)) _
               => pf _ _ _ E1); frame_store).
  do 7 (apply bind_Ok in E;
        let b := fresh "b" in let dx := fresh "dx" in let Eb := fresh "Eb" in
        destruct E as (b & dx & Eb & E);
        apply (preserves_create_block env (fun x => rows (severity_configurations x)))
          in Eb as ?; [|side|side];
        apply (preserves_create_block env (fun x => rows (join_configurations x)))
          in Eb; [|side|side]).
  apply bind_Ok in E. destruct E as (sevs & d8 & ES & E).
  apply bind_Ok in E. destruct E as (joins & d9 & EJ & E).
  inversion E; subst; clear E.
  assert (J8 : rows (join_configurations d8) = rows (join_configurations dx5))
    by (apply (fun pf : preserves (fun x => rows (join_configurations x)) _
               => pf _ _ _ ES); frame_store).
  assert (S9 : rows (severity_configurations d') = rows (severity_configurations d8))
    by (apply (fun pf : preserves (fun x => rows (severity_configurations x)) _
               => pf _ _ _ EJ); frame_store).
  apply create_severities_rows in ES. destruct ES as (ns & HS & FS).
  apply create_joins_rows in EJ. destruct EJ as (nj & HJ & FJ).
  split.
  - exists ns. split; [|exact FS]. rewrite S9, HS. f_equal. congruence.
  - exists nj. split; [|exact FJ]. rewrite HJ, J8. f_equal. congruence.
Qed.
End Collections.

(** ** The tables after a successful create *)

Tactic Notation "frame_at" hyp(H) constr(tbl) "as" ident(F) :=
  match type of H with
  | ?m ?d = (Ok ?a, ?d') =>
      assert (F : tbl d' = tbl d) by
        (apply (fun pf : preserves (fun x => tbl x) m => pf d a d' H);
         unfold create_step2; frame_store);
      simpl in F
  end.

Section CreateTables.
Variable env : Env.

Lemma create_schedule_row a msg d a' d' :
  store.create_schedule env a msg d = (Ok a', d') ->
  match a_Schedule a with
  | Some s =>
      rows (alert_schedules d') =
        rows (alert_schedules d) ++
        [schedule_row (next_id (alert_schedules d)) (a_ID a) s] /\
      a_ScheduleID a' = Some (next_id (alert_schedules d))
  | None =>
      rows (alert_schedules d') = rows (alert_schedules d) /\
      a_ScheduleID a' = a_ScheduleID a
  end.
Proof.
  intros E. unfold store.create_schedule in E. destruct (a_Schedule a) as [s|].
  - apply bind_Ok in E. destruct E as (created & d1 & E1 & E).
    apply wrap_Ok in E1. inversion E; subst; clear E.
    apply Create_table in E1. destruct E1 as (Hrows & _ & Hnew).
    destruct (Hnew eq_refl) as [-> _]. simpl in Hrows. split; [exact Hrows|reflexivity].
  - inversion E; subst. auto.
Qed.

Lemma create_tags_rows a msg d u d' :
  store.create_tags env a msg d = (Ok u, d') ->
  exists news,
    rows (alert_tags d') = rows (alert_tags d) ++ news /\
    map tag_values news = map tag_values (a_Tags a) /\
    Forall (fun t => tag_AlertID t = a_ID a) news.
Proof.
  intros E. unfold store.create_tags in E. destruct (a_Tags a) as [|t0 ts].
  - inversion E; subst. exists []. rewrite app_nil_r. auto.
  - remember (t0 :: ts) as l. clear Heql.
    apply bind_Ok in E. destruct E as (news & d1 & E1 & E).
    inversion E; subst; clear E. apply wrap_Ok in E1.
    apply CreateSlice_table in E1; [|apply tagsToCreate_fresh].
    destruct E1 as (Hrows & _ & HF). exists news.
    simpl in Hrows. rewrite map_id in Hrows. split; [exact Hrows|].
    eapply tags_created; exact HF.
Qed.

Lemma create_queries_rows a msg d u d' :
  store.create_queries env a msg d = (Ok u, d') ->
  exists news,
    rows (alert_queries d') = rows (alert_queries d) ++ news /\
    map query_values news = map query_values (a_Queries a) /\
    Forall (fun q => q_AlertID q = a_ID a) news.
Proof.
  intros E. unfold store.create_queries in E. destruct (a_Queries a) as [|t0 ts].
  - inversion E; subst. exists []. rewrite app_nil_r. auto.
  - remember (t0 :: ts) as l. clear Heql.
    apply bind_Ok in E. destruct E as (news & d1 & E1 & E).
    inversion E; subst; clear E. apply wrap_Ok in E1.
    apply CreateSlice_table in E1; [|apply queriesToCreate_fresh].
    destruct E1 as (Hrows & _ & HF). exists news.
    simpl in Hrows. rewrite map_id in Hrows. split; [exact Hrows|].
    eapply queries_created; exact HF.
Qed.

Lemma patch_relation_ids_rows a d u d' :
  store.patch_relation_ids env a d = (Ok u, d') ->
  rows (alerts d') =
    map (fun r => if a_ID r =? a_ID a then relation_ids a r else r)
        (rows (alerts d)).
Proof.
  intros E. unfold store.patch_relation_ids in E. unfold relation_ids.
  destruct (a_ConfigurationID a) as [c|] eqn:C, (a_ScheduleID a) as [s|] eqn:S;
    try (apply wrap_Ok in E; apply Updates_table in E;
         destruct E as (Hrows & _); exact Hrows).
  inversion E; subst. symmetry.
  rewrite <- (map_id (rows (alerts d'))) at 2. apply map_ext.
  intros r. now destruct (a_ID r =? a_ID a).
Qed.

(** The root, schedule, tag and query tables after a successful create,
    and the struct it returns. *)
Lemma create_tables alert d alert' d' :
  store.CreateWithTransaction env alert d = (Ok alert', d') ->
  let id := next_id (alerts d) in
  a_ID alert' = id /\
  (exists created_at,
     rows (alerts d') =
       map (fun r => if a_ID r =? id then relation_ids alert' r else r)
           (rows (alerts d) ++ [root_row id created_at alert])) /\
  match a_Schedule alert with
  | Some s =>
      rows (alert_schedules d') =
        rows (alert_schedules d) ++
        [schedule_row (next_id (alert_schedules d)) id s] /\
      a_ScheduleID alert' = Some (next_id (alert_schedules d))
  | None =>
      rows (alert_schedules d') = rows (alert_schedules d) /\
      a_ScheduleID alert' = a_ScheduleID alert
  end /\
  (exists news,
     rows (alert_tags d') = rows (alert_tags d) ++ news /\
     map tag_values news = map tag_values (a_Tags alert) /\
     Forall (fun t => tag_AlertID t = id) news) /\
  (exists news,
     rows (alert_queries d') = rows (alert_queries d) ++ news /\
     map query_values news = map query_values (a_Queries alert) /\
     Forall (fun q => q_AlertID q = id) news).
Proof.
  intros E id. apply create_closure_inv in E.
  destruct E as (root & d1 & a1 & d2 & d3 & d4 & d5 & d6 & u1 & u2 & u3 &
                 E1 & E2 & E3 & E4 & E5 & E6 & ->).
  pose proof (returns_create_step2 _ _ _ _ _ E2) as ((I1 & S1 & T1 & Q1 & SI1) & _).
  pose proof (returns_create_schedule _ _ _ _ _ _ E3) as (I2 & T2 & Q2 & _ & _).
  assert (Hroot : root = root_row id (now env (List.length (journal (logged BEGIN d)))) alert
                  /\ rows (alerts d1) = rows (alerts d) ++ [root]).
  { pose proof E1 as E1'. apply Create_table in E1'.
    destruct E1' as (Hrows & _ & Hnew). destruct (Hnew eq_refl) as [Hr _].
    split; [exact Hr|]. simpl in Hrows. rewrite Hrows, Hr. reflexivity. }
  destruct Hroot as [Hroot Ralerts].
  assert (Hid : a_ID root = id) by (rewrite Hroot; reflexivity).
  simpl in I1. rewrite Hid in I1. rewrite I1 in I2.
  simpl in S1, T1, Q1, SI1.
  frame_at E2 alerts as A2. frame_at E3 alerts as A3.
  frame_at E4 alerts as A4. frame_at E5 alerts as A5.
  frame_at E1 alert_schedules as S1'. frame_at E2 alert_schedules as S2'.
  frame_at E4 alert_schedules as S4'. frame_at E5 alert_schedules as S5'.
  frame_at E6 alert_schedules as S6'.
  frame_at E1 alert_tags as T1'. frame_at E2 alert_tags as T2'.
  frame_at E3 alert_tags as T3'. frame_at E5 alert_tags as T5'.
  frame_at E6 alert_tags as T6'.
  frame_at E1 alert_queries as Q1'. frame_at E2 alert_queries as Q2'.
  frame_at E3 alert_queries as Q3'. frame_at E4 alert_queries as Q4'.
  frame_at E6 alert_queries as Q6'.
  apply patch_relation_ids_rows in E6.
  apply create_schedule_row in E3. rewrite S1, I1, SI1, S2', S1' in E3.
  apply create_tags_rows in E4. destruct E4 as (nt & Ht & Vt & Ot).
  apply create_queries_rows in E5. destruct E5 as (nq & Hq & Vq & Oq).
  rewrite I2 in *. rewrite T2, T1 in Vt. rewrite Q2, Q1 in Vq.
  rewrite T3', T2', T1' in Ht. rewrite Q4', Q3', Q2', Q1' in Hq.
  split; [reflexivity|].
  split.
  { exists (now env (List.length (journal (logged BEGIN d)))).
    simpl. rewrite E6, A5, A4, A3, A2, Ralerts, Hroot. reflexivity. }
  split.
  { simpl. rewrite S6', S5', S4'. exact E3. }
  split.
  - exists nt. split; [|auto]. simpl. now rewrite T6', T5'.
  - exists nq. split; [|auto]. simpl. now rewrite Q6'.
Qed.
End CreateTables.

(** ** Create followed by read *)

Lemma filter_fresh {A} (f : A -> N) k old news :
  Forall (fun x => f x < k) old -> Forall (fun x => f x = k) news ->
  filter (fun x => f x =? k) (old ++ news) = news.
Proof.
  intros Ho Hn. rewrite filter_app.
  replace (filter (fun x => f x =? k) old) with (@nil A).
  - simpl. induction Hn as [|x l Hx _ IH]; simpl; [reflexivity|].
    apply N.eqb_eq in Hx. now rewrite Hx, IH.
  - induction Ho as [|x l Hx _ IH]; simpl; [reflexivity|].
    destruct (N.eqb_spec (f x) k); [lia|exact IH].
Qed.

Section ConfigurationTables.
Variable env : Env.

Lemma create_configuration_tables alert c d alert' d' :
  a_Configuration alert = Some c ->
  store.CreateWithTransaction env alert d = (Ok alert', d') ->
  let id := next_id (alerts d) in
  let cid := next_id (alert_configurations d) in
  rows (alert_configurations d') =
    rows (alert_configurations d) ++ [configuration_row cid id c] /\
  a_ConfigurationID alert' = Some cid /\
  (exists news,
     rows (severity_configurations d') = rows (severity_configurations d) ++ news /\
     Forall2 (severity_stored cid) (cfg_SeverityConfigs c) news) /\
  (exists news,
     rows (join_configurations d') = rows (join_configurations d) ++ news /\
     Forall2 (join_stored cid) (cfg_JoinConfigs c) news) /\
  appended (fun b => cond_AlertConfigID b = cid)
    (rows (condition_configurations d)) (rows (condition_configurations d')) /\
  appended (fun b => grp_AlertConfigID b = cid)
    (rows (group_configurations d)) (rows (group_configurations d')) /\
  appended (fun b => pol_AlertConfigID b = cid)
    (rows (policy_configurations d)) (rows (policy_configurations d')) /\
  appended (fun b => tpl_AlertConfigID b = cid)
    (rows (template_configurations d)) (rows (template_configurations d')) /\
  appended (fun b => hub_AlertConfigID b = cid)
    (rows (sink_alerthub_configurations d)) (rows (sink_alerthub_configurations d')) /\
  appended (fun b => cms_AlertConfigID b = cid)
    (rows (sink_cms_configurations d)) (rows (sink_cms_configurations d')) /\
  appended (fun b => es_AlertConfigID b = cid)
    (rows (sink_event_store_configurations d))
    (rows (sink_event_store_configurations d')).
Proof.
  intros C E id cid. apply create_closure_inv in E.
  destruct E as (root & d1 & a1 & d2 & d3 & d4 & d5 & d6 & u1 & u2 & u3 &
                 E1 & E2 & E3 & E4 & E5 & E6 & ->).
  pose proof (returns_create_schedule _ _ _ _ _ _ E3) as (_ & _ & _ & C2 & _).
  assert (Hid : a_ID root = id).
  { pose proof E1 as E1'. apply Create_table in E1'.
    destruct E1' as (_ & _ & Hnew). destruct (Hnew eq_refl) as [-> _]. reflexivity. }
  unfold create_step2 in E2. simpl in E2. rewrite C in E2.
  frame_at E1 alert_configurations as C1'.
  frame_at E3 alert_configurations as C3'. frame_at E4 alert_configurations as C4'.
  frame_at E5 alert_configurations as C5'. frame_at E6 alert_configurations as C6'.
  frame_at E1 severity_configurations as V1'.
  frame_at E3 severity_configurations as V3'. frame_at E4 severity_configurations as V4'.
  frame_at E5 severity_configurations as V5'. frame_at E6 severity_configurations as V6'.
  frame_at E1 join_configurations as J1'.
  frame_at E3 join_configurations as J3'. frame_at E4 join_configurations as J4'.
  frame_at E5 join_configurations as J5'. frame_at E6 join_configurations as J6'.
  frame_at E1 condition_configurations as B11.
  frame_at E3 condition_configurations as B13. frame_at E4 condition_configurations as B14.
  frame_at E5 condition_configurations as B15. frame_at E6 condition_configurations as B16.
  frame_at E1 group_configurations as B21.
  frame_at E3 group_configurations as B23. frame_at E4 group_configurations as B24.
  frame_at E5 group_configurations as B25. frame_at E6 group_configurations as B26.
  frame_at E1 policy_configurations as B31.
  frame_at E3 policy_configurations as B33. frame_at E4 policy_configurations as B34.
  frame_at E5 policy_configurations as B35. frame_at E6 policy_configurations as B36.
  frame_at E1 template_configurations as B41.
  frame_at E3 template_configurations as B43. frame_at E4 template_configurations as B44.
  frame_at E5 template_configurations as B45. frame_at E6 template_configurations as B46.
  frame_at E1 sink_alerthub_configurations as B51.
  frame_at E3 sink_alerthub_configurations as B53.
  frame_at E4 sink_alerthub_configurations as B54.
  frame_at E5 sink_alerthub_configurations as B55.
  frame_at E6 sink_alerthub_configurations as B56.
  frame_at E1 sink_cms_configurations as B61.
  frame_at E3 sink_cms_configurations as B63. frame_at E4 sink_cms_configurations as B64.
  frame_at E5 sink_cms_configurations as B65. frame_at E6 sink_cms_configurations as B66.
  frame_at E1 sink_event_store_configurations as B71.
  frame_at E3 sink_event_store_configurations as B73.
  frame_at E4 sink_event_store_configurations as B74.
  frame_at E5 sink_event_store_configurations as B75.
  frame_at E6 sink_event_store_configurations as B76.
  destruct (create_configuration_row _ _ _ _ _ _ E2) as (Rc & Ic).
  destruct (create_configuration_collections _ _ _ _ _ _ E2) as (Rs & Rj).
  destruct (create_configuration_blocks _ _ _ _ _ _ E2)
    as (K1 & K2 & K3 & K4 & K5 & K6 & K7).
  simpl in Rc. rewrite Hid, C1' in *.
  simpl.
  rewrite C6', C5', C4', C3', V6', V5', V4', V3', J6', J5', J4', J3',
    B16, B15, B14, B13, B26, B25, B24, B23, B36, B35, B34, B33,
    B46, B45, B44, B43, B56, B55, B54, B53, B66, B65, B64, B63,
    B76, B75, B74, B73.
  rewrite V1' in Rs. rewrite J1' in Rj.
  rewrite B11 in K1. rewrite B21 in K2. rewrite B31 in K3. rewrite B41 in K4.
  rewrite B51 in K5. rewrite B61 in K6. rewrite B71 in K7.
  rewrite C2, Ic.
  repeat match goal with |- _ /\ _ => split end; auto.
Qed.
End ConfigurationTables.

Lemma least_singleton {R} `{Model R} (x : R) : least [x] = Some x.
Proof. reflexivity. Qed.

Lemma Forall_lt_neq {A} (f : A -> N) k l :
  Forall (fun x => f x < k) l -> Forall (fun x => f x <> k) l.
Proof. apply Forall_impl. intros; lia. Qed.

Lemma map_patch_fresh {A} (f : A -> N) (p : A -> A) k old x :
  Forall (fun r => f r < k) old -> f x = k ->
  map (fun r => if f r =? k then p r else r) (old ++ [x]) = old ++ [p x].
Proof.
  intros Ho Hx. rewrite map_app. simpl. rewrite Hx, N.eqb_refl. f_equal.
  induction Ho as [|r l Hr _ IH]; simpl; [reflexivity|].
  destruct (N.eqb_spec (f r) k); [lia|]. now rewrite IH.
Qed.

Lemma Forall2_Forall_r {A B} (P : A -> B -> Prop) (Q : B -> Prop) l l' :
  (forall a b, P a b -> Q b) -> Forall2 P l l' -> Forall Q l'.
Proof. intros H F. induction F; constructor; eauto. Qed.

(** C1 (as the code has it).  After a successful create of an aggregate that
    carries a configuration and a schedule, [GetByID] on the new identity
    returns the root with its scalar fields, the configuration with its
    scalar fields and its severity rows, the schedule, the tags and the
    queries, each with the values of the input (zero values of columns with
    a declared default read back as that default) under newly assigned
    identities.  The read does not hydrate the join rows, the three sink
    blocks or the eval conditions of the severity rows. *)
Theorem create_then_read_returns_the_preloaded_graph env alert c s d alert' d' :
  well_formed d ->
  a_Configuration alert = Some c ->
  a_Schedule alert = Some s ->
  store.CreateWithTransaction env alert d = (Ok alert', d') ->
  exists out c' s',
    store.GetByID (a_ID alert') d' = Ok out /\
    a_ID out = a_ID alert' /\
    a_ID out = next_id (alerts d) /\
    cfg_ID c' = next_id (alert_configurations d) /\
    sch_ID s' = next_id (alert_schedules d) /\
    root_values out = root_values (as_inserted alert) /\
    a_ConfigurationID out = Some (cfg_ID c') /\
    a_ScheduleID out = Some (sch_ID s') /\
    a_Configuration out = Some c' /\
    cfg_AlertID c' = a_ID out /\
    configuration_values c' = configuration_values (as_inserted c) /\
    Forall2 (severity_stored (cfg_ID c'))
            (cfg_SeverityConfigs c) (cfg_SeverityConfigs c') /\
    cfg_JoinConfigs c' = [] /\
    cfg_SinkAlerthubConfig c' = None /\
    cfg_SinkCmsConfig c' = None /\
    cfg_SinkEventStoreConfig c' = None /\
    a_Schedule out = Some s' /\
    sch_AlertID s' = a_ID out /\
    schedule_values s' = schedule_values (as_inserted s) /\
    map tag_values (a_Tags out) = map tag_values (a_Tags alert) /\
    Forall (fun t => tag_AlertID t = a_ID out) (a_Tags out) /\
    map query_values (a_Queries out) = map query_values (a_Queries alert) /\
    Forall (fun q => q_AlertID q = a_ID out) (a_Queries out).
Proof.
  intros W C S E.
  destruct (create_tables env _ _ _ _ E) as (I & (z & Ra) & Rs & (nt & Rt & Vt & Ot)
                                             & (nq & Rq & Vq & Oq)).
  destruct (create_configuration_tables env _ c _ _ _ C E)
    as (Rc & Ic & (ns & Rv & Fv) & _).
  rewrite S in Rs. destruct Rs as (Rs & Is).
  destruct W as [Wa Wc Ws Wt Wq Wv].
  set (id := next_id (alerts d)) in *.
  set (cid := next_id (alert_configurations d)) in *.
  set (sid := next_id (alert_schedules d)) in *.
  rewrite (map_patch_fresh a_ID (relation_ids alert') id) in Ra; [|exact Wa|reflexivity].
  set (root := relation_ids alert' (root_row id z alert)) in *.
  assert (Hroot : a_ID root = id /\ a_ConfigurationID root = Some cid /\
                  a_ScheduleID root = Some sid /\
                  root_values root = root_values (as_inserted alert)).
  { unfold root, relation_ids. rewrite Ic, Is. repeat split. }
  destruct Hroot as (Hr1 & Hr2 & Hr3 & Hr4).
  assert (Lr : store.lookup id d' = Some root).
  { unfold store.lookup. simpl. rewrite Ra.
    rewrite (filter_fresh a_ID id); [reflexivity|exact Wa|].
    constructor; [exact Hr1|constructor]. }
  assert (Lc : store.lookup cid d' = Some (configuration_row cid id c)).
  { unfold store.lookup. simpl. rewrite Rc.
    rewrite (filter_fresh cfg_ID cid); [reflexivity|exact Wc|].
    constructor; [reflexivity|constructor]. }
  assert (Ls : store.lookup sid d' = Some (schedule_row sid id s)).
  { unfold store.lookup. simpl. rewrite Rs.
    rewrite (filter_fresh sch_ID sid); [reflexivity|exact Ws|].
    constructor; [reflexivity|constructor]. }
  assert (Hv : store.has_many sev_AlertConfigID cid d' = ns).
  { unfold store.has_many. simpl. rewrite Rv.
    apply filter_fresh; [exact Wv|].
    eapply Forall2_Forall_r; [|exact Fv]. intros a b (_ & H & _). exact H. }
  assert (Ht : store.has_many tag_AlertID id d' = nt).
  { unfold store.has_many. simpl. rewrite Rt. now apply filter_fresh. }
  assert (Hq : store.has_many q_AlertID id d' = nq).
  { unfold store.has_many. simpl. rewrite Rq. now apply filter_fresh. }
  exists (store.preload_full d' root),
         (store.preload_configuration d' (configuration_row cid id c)),
         (schedule_row sid id s).
  split.
  { rewrite I. unfold store.GetByID. now rewrite Lr. }
  unfold store.preload_full.
  rewrite Hr1, Hr2, Hr3. cbn [store.belongs_to].
  rewrite Lc, Ls, Ht, Hq. cbn [option_map].
  unfold store.preload_configuration.
  change (cfg_ID (configuration_row cid id c)) with cid.
  rewrite Hv. simpl.
  repeat match goal with |- _ /\ _ => split end; auto;
    rewrite ?Hr1; auto.
Qed.
(** C2 (as the code has it).  A successful create issues its statements in
    this order: the bare root row; the configuration row, carrying scalar
    fields only; each present block (condition, group, policy, template,
    the three sinks); the eval conditions and the severity rows; the join
    rows; the schedule, the tags, the queries; and last the patch of the
    root row's [configuration_id] / [schedule_id].  Every block, severity
    and join row inserted by the operation carries the identity of the
    configuration row inserted by the same operation, and the root row ends
    up holding the identities of that configuration and schedule. *)
Theorem create_persists_configuration_then_blocks env alert d alert' d' :
  store.CreateWithTransaction env alert d = (Ok alert', d') ->
  journal d' = journal d ++ create_plan alert /\
  a_ID alert' = next_id (alerts d) /\
  (exists root,
     In root (rows (alerts d')) /\ a_ID root = a_ID alert' /\
     a_ConfigurationID root = a_ConfigurationID alert' /\
     a_ScheduleID root = a_ScheduleID alert') /\
  (forall s, a_Schedule alert = Some s ->
     a_ScheduleID alert' = Some (next_id (alert_schedules d)) /\
     rows (alert_schedules d') =
       rows (alert_schedules d) ++
       [schedule_row (next_id (alert_schedules d)) (a_ID alert') s]) /\
  (forall c, a_Configuration alert = Some c ->
     let cid := next_id (alert_configurations d) in
     a_ConfigurationID alert' = Some cid /\
     rows (alert_configurations d') =
       rows (alert_configurations d) ++ [configuration_row cid (a_ID alert') c] /\
     appended (fun b => cond_AlertConfigID b = cid)
       (rows (condition_configurations d)) (rows (condition_configurations d')) /\
     appended (fun b => grp_AlertConfigID b = cid)
       (rows (group_configurations d)) (rows (group_configurations d')) /\
     appended (fun b => pol_AlertConfigID b = cid)
       (rows (policy_configurations d)) (rows (policy_configurations d')) /\
     appended (fun b => tpl_AlertConfigID b = cid)
       (rows (template_configurations d)) (rows (template_configurations d')) /\
     appended (fun b => hub_AlertConfigID b = cid)
       (rows (sink_alerthub_configurations d))
       (rows (sink_alerthub_configurations d')) /\
     appended (fun b => cms_AlertConfigID b = cid)
       (rows (sink_cms_configurations d)) (rows (sink_cms_configurations d')) /\
     appended (fun b => es_AlertConfigID b = cid)
       (rows (sink_event_store_configurations d))
       (rows (sink_event_store_configurations d')) /\
     appended (fun v => sev_AlertConfigID v = cid)
       (rows (severity_configurations d)) (rows (severity_configurations d')) /\
     appended (fun j => join_AlertConfigID j = cid)
       (rows (join_configurations d)) (rows (join_configurations d'))).
Proof.
  intros E.
  destruct (create_tables env _ _ _ _ E) as (I & (z & Ra) & Rs & _).
  split; [now apply (create_journal env alert d alert' d')|].
  split; [exact I|].
  split.
  { exists (relation_ids alert' (root_row (next_id (alerts d)) z alert)).
    split.
    - rewrite Ra. apply in_map_iff.
      exists (root_row (next_id (alerts d)) z alert). split.
      + simpl. now rewrite N.eqb_refl.
      + apply in_or_app. right. now left.
    - unfold relation_ids.
      destruct (a_ConfigurationID alert'), (a_ScheduleID alert'); simpl; auto. }
  split.
  { intros s Hs. rewrite Hs in Rs. destruct Rs as [Rs Is]. rewrite I. auto. }
  intros c Hc cid.
  destruct (create_configuration_tables env _ c _ _ _ Hc E)
    as (Rc & Ic & (ns & Rv & Fv) & (nj & Rj & Fj) & K1 & K2 & K3 & K4 & K5 & K6 & K7).
  rewrite I.
  repeat match goal with |- _ /\ _ => split end; auto.
  - exists ns. split; [exact Rv|].
    eapply Forall2_Forall_r; [|exact Fv]. intros a b (_ & H & _). exact H.
  - exists nj. split; [exact Rj|].
    eapply Forall2_Forall_r; [|exact Fj]. intros a b (_ & _ & H). exact H.
Qed.

Import examples.

(** ** Where the code departs from the wording of the specification *)

Lemma created_ok :
  store.CreateWithTransaction healthy cpu_alert empty_db = (Ok cpu_alert1, db1).
Proof. vm_compute. reflexivity. Qed.

Lemma updated_ok :
  store.UpdateWithTransaction healthy update_request db1 = (Ok update_result, db2).
Proof. vm_compute. reflexivity. Qed.

Lemma updated_again_ok :
  store.UpdateWithTransaction healthy update_request db2 =
  (Ok update_result_again, db3).
Proof. vm_compute. reflexivity. Qed.

Lemma updated_tagless_ok :
  store.UpdateWithTransaction healthy tagless_request db1 =
  (Ok tagless_result, db1_tagless).
Proof. vm_compute. reflexivity. Qed.

Lemma join_count_values a : join_count (aggregate_values a) = join_count a.
Proof.
  unfold join_count, aggregate_values. simpl.
  destruct (a_Configuration a) as [c|]; simpl; [|reflexivity].
  apply length_map.
Qed.

(** C1, counterexample: the full aggregate [cpu_alert], created in an empty
    store, does not read back equal in every field: [GetByID] returns it
    without its join row. *)
Lemma full_aggregate_does_not_round_trip :
  ~ round_trips healthy cpu_alert empty_db.
Proof.
  intros H. destruct (H _ _ created_ok) as (out & G & V).
  assert (J : match store.GetByID (a_ID cpu_alert1) db1 with
              | Ok a => join_count a
              | Err _ => 0%nat
              end = 0%nat) by (vm_compute; reflexivity).
  rewrite G in J.
  apply (f_equal join_count) in V. rewrite !join_count_values, J in V.
  vm_compute in V. discriminate V.
Qed.

(** C2, counterexample: for [cpu_alert] the third statement of the
    transaction inserts the configuration row, not a block. *)
Lemma full_aggregate_is_not_persisted_blocks_first :
  ~ persists_blocks_first healthy cpu_alert empty_db.
Proof.
  intros H. destruct (H _ _ created_ok) as (J & _).
  apply (f_equal (fun l => nth 2 l BEGIN)) in J.
  vm_compute in J. discriminate J.
Qed.

(** The second half of C2 fails on the same input: the stored configuration
    row has an empty [condition_config_id] although the condition block was
    inserted under identity 1. *)
Lemma full_aggregate_keys_are_not_embedded :
  exists row created,
    In row (rows (alert_configurations db1)) /\
    cfg_AlertID row = a_ID cpu_alert1 /\
    a_Configuration cpu_alert1 = Some created /\
    cfg_ConditionConfigID row = None /\
    option_map cond_ID (cfg_ConditionConfig created) = Some 1.
Proof.
  vm_compute. do 2 eexists. split; [left; reflexivity|]. repeat split.
Qed.

(** On the same input the four blocks that [GetByID] does preload come back
    empty as well: they are read through the foreign-key columns of the
    configuration row, which the create leaves empty. *)
Lemma created_blocks_are_read_back_empty :
  exists out c,
    store.GetByID (a_ID cpu_alert1) db1 = Ok out /\
    a_Configuration out = Some c /\
    cfg_ConditionConfig c = None /\ cfg_GroupConfig c = None /\
    cfg_PolicyConfig c = None /\ cfg_TemplateConfig c = None.
Proof.
  vm_compute. do 2 eexists. repeat split.
Qed.

(** C5, counterexample: an update that carries no tags leaves the two
    stored tag rows of the alert in place. *)
Lemma update_without_tags_keeps_the_tag_rows :
  ~ replaces_wholesale healthy tagless_request db1.
Proof.
  intros H. destruct (H _ _ updated_tagless_ok) as (_ & T & _).
  apply (f_equal (@List.length _)) in T.
  vm_compute in T. discriminate T.
Qed.

(** ** The synchronisation service *)

(** C7. [needsUpdate] answers "update" exactly when a [lastModifiedTime] is
    absent on either side, or the two differ, or [displayName] differs, or
    [status] differs, or [description] differs in presence or value, and
    "skip" otherwise.  For the two records of the example (both with
    [lastModifiedTime] 100, display name "A", status "ENABLED", no
    description) the answer is "skip"; giving the incoming record any
    description turns it into "update". *)
Theorem needsUpdate_is_the_change_decision :
  (forall existing new,
     service.needsUpdate existing new = true <->
     (a_LastModifiedTime existing = None \/
      a_LastModifiedTime new = None \/
      a_LastModifiedTime existing <> a_LastModifiedTime new \/
      a_DisplayName existing <> a_DisplayName new \/
      a_Status existing <> a_Status new \/
      a_Description existing <> a_Description new)) /\
  service.needsUpdate local_record incoming_record = false /\
  (forall text,
     service.needsUpdate local_record
       (set_a_Description (Some text) incoming_record) = true).
Proof.
  split; [|split; [reflexivity|intros; reflexivity]].
  intros existing new. unfold service.needsUpdate.
  destruct (a_LastModifiedTime existing) as [t1|];
    [|split; [auto|reflexivity]].
  destruct (a_LastModifiedTime new) as [t2|];
    [|split; [auto|reflexivity]].
  destruct (Z.eqb_spec t1 t2) as [Ht|Ht]; simpl.
  2:{ split; [|reflexivity]. intros _. right; right; left. congruence. }
  destruct (String.eqb_spec (a_DisplayName existing) (a_DisplayName new))
    as [Hn|Hn]; simpl.
  2:{ split; [|reflexivity]. intros _. tauto. }
  destruct (String.eqb_spec (a_Status existing) (a_Status new)) as [Hs|Hs]; simpl.
  2:{ split; [|reflexivity]. intros _. tauto. }
  subst t2.
  destruct (a_Description existing) as [d1|], (a_Description new) as [d2|].
  - destruct (String.eqb_spec d1 d2) as [Hd|Hd]; simpl.
    + subst. split; [discriminate|].
      intros [H|[H|[H|[H|[H|H]]]]]; try discriminate; contradiction.
    + split; [|reflexivity]. intros _. do 5 right. congruence.
  - split; [|reflexivity]. intros _. do 5 right. discriminate.
  - split; [|reflexivity]. intros _. do 5 right. discriminate.
  - split; [discriminate|].
    intros [H|[H|[H|[H|[H|H]]]]]; try discriminate; contradiction.
Qed.

Section Status.
Context {S Rm : Type} `{service.AlertStore S} `{service.SLSService Rm}.

(** C9.  When the remote listing fails and the local count succeeds,
    [GetSyncStatus] reports zero remote alerts, the local count, status
    "healthy" and no error: the failure of the remote call is lost when
    [err] is assigned the outcome of the count. *)
Theorem status_is_healthy_although_the_remote_listing_failed
    (remote : Rm) (local : S) alerts e count :
  service.GetAlerts remote = (alerts, Some e) ->
  service.alertStore_Count local = (count, None) ->
  service.GetSyncStatus remote local =
    Ok (service.mkSyncStatus EmptyString 0 count 0 0 "healthy" EmptyString).
Proof.
  intros G C. unfold service.GetSyncStatus. rewrite G, C. reflexivity.
Qed.

(** When the remote listing succeeds the status is "healthy" as well,
    with both counts. *)
Lemma status_when_the_remote_listing_succeeded
    (remote : Rm) (local : S) alerts count :
  service.GetAlerts remote = (alerts, None) ->
  service.alertStore_Count local = (count, None) ->
  service.GetSyncStatus remote local =
    Ok (service.mkSyncStatus EmptyString (Z.of_nat (List.length alerts)) count
          0 0 "healthy" EmptyString).
Proof.
  intros G C. unfold service.GetSyncStatus. rewrite G, C. reflexivity.
Qed.

(** No outcome of [GetSyncStatus] carries the failure status. *)
Lemma status_is_never_sls_connection_failed (remote : Rm) (local : S) st :
  service.GetSyncStatus remote local = Ok st ->
  service.Status st = "healthy".
Proof.
  unfold service.GetSyncStatus.
  destruct (service.GetAlerts remote) as [alerts err].
  destruct (service.alertStore_Count local) as [count [e|]];
    intros E; inversion E; reflexivity.
Qed.
End Status.

(** An unreachable remote service and the empty local store. *)
Lemma status_witness :
  service.GetSyncStatus remote.unreachable empty_db =
    Ok (service.mkSyncStatus EmptyString 0 0 0 0 "healthy" EmptyString).
Proof.
  apply (status_is_healthy_although_the_remote_listing_failed
           remote.unreachable empty_db []
           (remote.unreachable_error "failed to list alerts from SLS") 0%Z);
    reflexivity.
Defined.

(** ** Pushing the local store to the remote service *)

Lemma length_page {A} offset limit (l : list A) :
  (0 <= limit)%Z -> (List.length (store.page offset limit l) <= Z.to_nat limit)%nat.
Proof.
  intros Hl. unfold store.page.
  destruct (0 <=? limit)%Z eqn:E; [|lia].
  apply firstn_le_length.
Qed.

(** However many alerts the store holds, [List 0 1000] hands at most 1000
    of them to the push. *)
Lemma List_hands_over_at_most_the_limit d :
  (List.length (fst (store.List 0 1000 d)) <= 1000)%nat.
Proof.
  unfold store.List. simpl fst. rewrite length_map.
  apply (length_page 0%Z 1000%Z). lia.
Qed.

(** C8.  With 1001 alerts in the local store and an empty, reachable
    remote, [SyncDatabaseToSLS] returns nil after creating 1000 alerts
    remotely; the oldest local alert, [alert-1], is not among them. *)
Theorem push_stops_after_a_thousand_alerts :
  List.length (rows (alerts (store_of 1001))) = 1001%nat /\
  existsb (fun a => String.eqb (a_Name a) "alert-1")
          (rows (alerts (store_of 1001))) = true /\
  fst (service.SyncDatabaseToSLS (store_of 1001) remote.empty) = None /\
  List.length (remote.remote_alerts
                 (snd (service.SyncDatabaseToSLS (store_of 1001) remote.empty)))
    = 1000%nat /\
  existsb (fun a => String.eqb (a_Name a) "alert-1")
          (remote.remote_alerts
             (snd (service.SyncDatabaseToSLS (store_of 1001) remote.empty)))
    = false.
Proof.
  vm_compute. repeat split.
Qed.

(** ** The theorems at work on the sample data *)

(** A run whose result is [Ok a] is that result with the store it left. *)
Lemma run_Ok {A} (m : Tx A) (d : DB) (a : A) :
  fst (m d) = Ok a -> m d = (Ok a, snd (m d)).
Proof. destruct (m d) as [r d']. simpl. now intros ->. Qed.

(** The empty store is well formed. *)
Lemma well_formed_empty_db : well_formed empty_db.
Proof. constructor; constructor. Qed.

Lemma never_fails_healthy : never_fails healthy.
Proof. intros n. reflexivity. Qed.

(** Two members that pass a test which at most one member passes are one. *)
Lemma at_most_one {A} (p : A -> bool) (l : list A) x y :
  (List.length (filter p l) <=? 1)%nat = true ->
  In x l -> In y l -> p x = true -> p y = true -> x = y.
Proof.
  intros L Hx Hy Px Py. apply Nat.leb_le in L.
  assert (Fx : In x (filter p l)) by (apply filter_In; auto).
  assert (Fy : In y (filter p l)) by (apply filter_In; auto).
  destruct (filter p l) as [|z [|z' t]]; simpl in *; [tauto| |lia].
  destruct Fx as [<-|[]], Fy as [<-|[]]. reflexivity.
Qed.

(** The sample store holds one configuration for alert 1. *)
Lemma one_configuration_db1 : one_configuration db1 1.
Proof.
  assert (L : Nat.leb (List.length (filter (fun c => cfg_AlertID c =? 1)
                                       (rows (alert_configurations db1)))) 1
               = true)
    by (vm_compute; reflexivity).
  intros c c' Hc Hc' Ic Ic'. apply (f_equal cfg_ID).
  apply N.eqb_eq in Ic, Ic'.
  exact (at_most_one _ _ c c' L Hc Hc' Ic Ic').
Qed.

(** The sample aggregate, created in the empty store, reads back with its
    name, tags, queries and schedule. *)
Lemma create_then_read_witness :
  exists out,
    store.GetByID (a_ID cpu_alert1) db1 = Ok out /\
    a_Name out = "cpu-high" /\
    map tag_values (a_Tags out) = map tag_values [label; annotation] /\
    map query_values (a_Queries out) = map query_values [query] /\
    option_map schedule_values (a_Schedule out) = Some (schedule_values schedule).
Proof.
  destruct (create_then_read_returns_the_preloaded_graph
              healthy cpu_alert configuration schedule empty_db cpu_alert1 db1
              well_formed_empty_db eq_refl eq_refl created_ok)
    as (out & c' & s' & G & _ & _ & _ & _ & R & _ & _ & _ & _ & _ & _ & _ & _ & _
        & _ & S & _ & Sv & T & _ & Q & _).
  exists out. split; [exact G|].
  split; [exact (f_equal (fun v => fst (fst (fst (fst (fst v))))) R)|].
  split; [exact T|]. split; [exact Q|].
  rewrite S. simpl. now rewrite Sv.
Defined.

(** The sample aggregate, created in the empty store: the journal is the
    plan, the configuration row carries identity 1, and the condition block
    refers to it. *)
Lemma create_persists_witness :
  journal db1 = create_plan cpu_alert /\
  rows (alert_configurations db1) = [configuration_row 1 1 configuration] /\
  appended (fun b => cond_AlertConfigID b = 1) []
    (rows (condition_configurations db1)).
Proof.
  destruct (create_persists_configuration_then_blocks
              healthy cpu_alert empty_db cpu_alert1 db1 created_ok)
    as (J & _ & _ & _ & C).
  destruct (C configuration eq_refl) as (_ & Rc & Bc & _).
  split; [exact J|]. split; [exact Rc|exact Bc].
Defined.

(** A backend that rejects the sixth statement of the create: the operation
    fails, every table is as before, and the name cannot be read. *)
Lemma create_is_all_or_nothing_witness :
  (exists e, fst (store.CreateWithTransaction (failing_at 5) cpu_alert empty_db)
             = Err e) /\
  same_rows empty_db
    (snd (store.CreateWithTransaction (failing_at 5) cpu_alert empty_db)) /\
  store.GetByName "cpu-high"
    (snd (store.CreateWithTransaction (failing_at 5) cpu_alert empty_db))
    = Err ErrRecordNotFound.
Proof.
  destruct (create_is_all_or_nothing (failing_at 5) cpu_alert empty_db _ _
              (surjective_pairing _)) as [F R].
  assert (X : exists e,
             fst (store.CreateWithTransaction (failing_at 5) cpu_alert empty_db)
             = Err e).
  { apply F. exists 5%nat. split; [vm_compute; lia|reflexivity]. }
  split; [exact X|]. destruct X as [e X].
  destruct (R e X) as [S G]. split; [exact S|]. apply G. reflexivity.
Defined.

(** Deleting the sample aggregate on a healthy backend. *)
Lemma delete_witness :
  exists d',
    store.Delete healthy 1 db1 = (Ok tt, d') /\
    journal d' = journal db1 ++ delete_plan db1 1 /\
    store.GetByID 1 d' = Err ErrRecordNotFound /\
    rows (condition_configurations d') = rows (condition_configurations db1) /\
    rows (sink_cms_configurations d') = rows (sink_cms_configurations db1).
Proof.
  destruct (delete_removes_the_aggregate_but_not_its_blocks
              healthy 1 db1 one_configuration_db1) as (R & F).
  destruct (R never_fails_healthy) as (d' & E).
  destruct (F d' E) as (J & G & _ & _ & _ & _ & _ & B1 & _ & _ & _ & _ & B6 & _).
  exists d'. repeat split; assumption.
Defined.

(** Updating the stored sample aggregate twice with the same request: the
    second update leaves tag rows with the same values as the first. *)
Lemma update_replaces_witness :
  (exists news,
     rows (alert_tags db2) =
       filter (fun t => negb (tag_AlertID t =? a_ID update_request))
              (rows (alert_tags db1)) ++ news /\
     map tag_values news = map tag_values (a_Tags update_request) /\
     Forall (fun t => tag_AlertID t = a_ID update_request) news) /\
  map tag_values (store.has_many tag_AlertID (a_ID update_request) db3) =
  map tag_values (store.has_many tag_AlertID (a_ID update_request) db2).
Proof.
  destruct (update_replaces_the_collections_it_carries
              healthy update_request db1 update_result db2 updated_ok)
    as (_ & T & _ & I).
  split.
  - apply T. discriminate.
  - exact (I healthy update_request update_result_again db3 eq_refl eq_refl
             updated_again_ok).
Defined.

(** An update of the stored sample aggregate that carries the root scalars
    only leaves its configuration, schedule, tag and query rows alone. *)
Lemma update_leaves_absent_parts_alone_witness :
  rows (alert_configurations
          (snd (store.UpdateWithTransaction healthy bare_request db1)))
    = rows (alert_configurations db1) /\
  rows (alert_schedules
          (snd (store.UpdateWithTransaction healthy bare_request db1)))
    = rows (alert_schedules db1) /\
  rows (alert_tags (snd (store.UpdateWithTransaction healthy bare_request db1)))
    = rows (alert_tags db1) /\
  rows (alert_queries (snd (store.UpdateWithTransaction healthy bare_request db1)))
    = rows (alert_queries db1) /\
  List.length (rows (alert_tags db1)) = 2%nat.
Proof.
  destruct (update_leaves_absent_parts_alone healthy bare_request db1 _ _
              (surjective_pairing _)) as (C & S & T & Q).
  split; [exact (proj1 (C eq_refl))|].
  split; [exact (S eq_refl)|].
  split; [exact (T eq_refl)|].
  split; [exact (Q eq_refl)|].
  vm_compute. reflexivity.
Defined.

(** After a first update the alerthub slot of the sample configuration is
    occupied (block 2); upserting a switched-off alerthub block hands out no
    identity and leaves the configuration table alone. *)
Lemma upsert_occupied_slot_witness :
  next_id (sink_alerthub_configurations
             (snd (store.upsertSinkAlerthubConfig healthy 1 quiet_alerthub db2)))
    = next_id (sink_alerthub_configurations db2) /\
  alert_configurations
    (snd (store.upsertSinkAlerthubConfig healthy 1 quiet_alerthub db2))
    = alert_configurations db2.
Proof.
  destruct upsert_occupied_slot_refreshes_fixed_columns as [H _].
  assert (L : exists owner,
             least (filter (fun c => cfg_ID c =? 1) (rows (alert_configurations db2)))
               = Some owner /\
             store.occupied (cfg_SinkAlerthubConfigID owner) = Some 2).
  { vm_compute. eexists. split; reflexivity. }
  assert (E : exists r,
             fst (store.upsertSinkAlerthubConfig healthy 1 quiet_alerthub db2) = Ok r).
  { vm_compute. eexists. reflexivity. }
  destruct L as (owner & L & O), E as (r & E).
  destruct (H healthy 1 quiet_alerthub db2 r _ owner 2 L O
              (run_Ok (store.upsertSinkAlerthubConfig healthy 1 quiet_alerthub)
                      db2 r E))
    as (_ & N & _ & C).
  split; [exact N|exact C].
Defined.

(** ** Listing: pages, totals and order *)

Lemma length_page_le {A} offset limit (l : list A) :
  (0 <= limit)%Z -> (List.length (store.page offset limit l) <= Z.to_nat limit)%nat.
Proof.
  intros Hl. unfold store.page.
  destruct (0 <=? limit)%Z eqn:E; [|lia].
  apply firstn_le_length.
Qed.

Lemma In_firstn_elim {A} n (l : list A) x : In x (firstn n l) -> In x l.
Proof.
  revert l. induction n; intros [|y l]; simpl; try tauto.
  intros [->|Hx]; auto.
Qed.

Lemma In_skipn_elim {A} n (l : list A) x : In x (skipn n l) -> In x l.
Proof.
  revert l. induction n; intros [|y l]; simpl; auto.
Qed.

Lemma page_incl {A} offset limit (l : list A) x :
  In x (store.page offset limit l) -> In x l.
Proof.
  unfold store.page. intros Hx.
  destruct (0 <=? limit)%Z; [apply In_firstn_elim in Hx|];
    (destruct (0 <? offset)%Z; [now apply In_skipn_elim in Hx|exact Hx]).
Qed.





Lemma insert_desc_perm a l : Permutation (a :: l) (store.insert_desc a l).
Proof.
  induction l as [|b l IH]; simpl; [reflexivity|].
  destruct (a_CreatedAt a <? a_CreatedAt b)%Z; [|reflexivity].
  rewrite perm_swap. now constructor.
Qed.

Lemma order_perm l : Permutation l (store.order_created_at_desc l).
Proof.
  induction l as [|a l IH]; simpl; [constructor|].
  rewrite <- insert_desc_perm. now constructor.
Qed.

Lemma insert_desc_In a l x : In x (store.insert_desc a l) -> x = a \/ In x l.
Proof.
  intros H. apply (Permutation_in _ (Permutation_sym (insert_desc_perm a l))) in H.
  destruct H; auto.
Qed.

Lemma insert_desc_sorted a l : newest_first l -> newest_first (store.insert_desc a l).
Proof.
  unfold newest_first. induction 1 as [|b l Hs IH Hb]; simpl.
  - repeat constructor.
  - destruct (a_CreatedAt a <? a_CreatedAt b)%Z eqn:E.
    + constructor; [exact IH|].
      apply Forall_forall. intros x Hx. apply insert_desc_In in Hx.
      destruct Hx as [->|Hx]; [lia|].
      rewrite Forall_forall in Hb. auto.
    + constructor; [now constructor|].
      constructor; [lia|].
      apply Forall_forall. intros x Hx. rewrite Forall_forall in Hb.
      specialize (Hb x Hx). lia.
Qed.

Lemma order_sorted l : newest_first (store.order_created_at_desc l).
Proof.
  induction l as [|a l IH]; simpl; [constructor|]. now apply insert_desc_sorted.
Qed.

Lemma newest_first_skipn n l : newest_first l -> newest_first (skipn n l).
Proof.
  revert l. induction n; intros l H; simpl; [exact H|].
  destruct l; [constructor|]. inversion H; subst. now apply IHn.
Qed.

Lemma newest_first_firstn n l : newest_first l -> newest_first (firstn n l).
Proof.
  revert l. induction n; intros l H; simpl; [constructor|].
  destruct l as [|a l]; [constructor|]. inversion H; subst.
  constructor; [now apply IHn|].
  apply Forall_forall. intros x Hx.
  apply In_firstn_elim in Hx.
  rewrite Forall_forall in H3. auto.
Qed.

Lemma newest_first_page offset limit l :
  newest_first l -> newest_first (store.page offset limit l).
Proof.
  intros H. unfold store.page.
  destruct (0 <? offset)%Z, (0 <=? limit)%Z;
    auto using newest_first_skipn, newest_first_firstn.
Qed.

Lemma newest_first_map (f : Alert -> Alert) l :
  (forall a, a_CreatedAt (f a) = a_CreatedAt a) ->
  newest_first l -> newest_first (map f l).
Proof.
  intros Hf. unfold newest_first. induction 1 as [|a l Hs IH Ha]; simpl; constructor.
  - exact IH.
  - rewrite Forall_map. rewrite Hf. eapply Forall_impl; [|exact Ha].
    intros b Hb. simpl in Hb. now rewrite Hf.
Qed.

Lemma page_all {A} (l : list A) limit :
  (Z.of_nat (List.length l) <= limit)%Z -> store.page 0 limit l = l.
Proof.
  intros H. unfold store.page. simpl.
  destruct (0 <=? limit)%Z eqn:E; [|lia].
  apply firstn_all2. lia.
Qed.

Lemma preload_page_CreatedAt d a :
  a_CreatedAt (store.preload_page d a) = a_CreatedAt a.
Proof. reflexivity. Qed.

Lemma preload_page_ID d a : a_ID (store.preload_page d a) = a_ID a.
Proof. reflexivity. Qed.

Lemma preload_page_Status d a : a_Status (store.preload_page d a) = a_Status a.
Proof. reflexivity. Qed.

Lemma List_page offset limit d :
  (0 <= limit)%Z ->
  (List.length (fst (store.List offset limit d)) <= Z.to_nat limit)%nat /\
  Forall (fun a => exists r, In r (rows (alerts d)) /\ a = store.preload_page d r)
         (fst (store.List offset limit d)) /\
  newest_first (fst (store.List offset limit d)) /\
  snd (store.List offset limit d) = Z.of_nat (List.length (rows (alerts d))).
Proof.
  intros Hl. unfold store.List. cbn [fst snd].
  split; [rewrite length_map; now apply length_page_le|].
  split.
  { apply Forall_forall. intros a Ha. apply in_map_iff in Ha.
    destruct Ha as (r & <- & Hr). exists r. split; [|reflexivity].
    apply page_incl in Hr.
    apply (Permutation_in _ (Permutation_sym (order_perm _))) in Hr. exact Hr. }
  split; [|reflexivity].
  apply newest_first_map; [apply preload_page_CreatedAt|].
  apply newest_first_page, order_sorted.
Qed.

(** X1. A page of [List] holds at most [limit] alerts, each of them a stored
    row with its four associations preloaded, newest first; the total it
    reports is the number of stored alerts, whatever the page. *)
Theorem List_returns_a_bounded_page_newest_first offset limit d :
  (0 <= limit)%Z ->
  (List.length (fst (store.List offset limit d)) <= Z.to_nat limit)%nat /\
  Forall (fun a => exists r, In r (rows (alerts d)) /\ a = store.preload_page d r)
         (fst (store.List offset limit d)) /\
  newest_first (fst (store.List offset limit d)) /\
  snd (store.List offset limit d) = Z.of_nat (List.length (rows (alerts d))).
Proof. apply List_page. Qed.

Lemma List_page_witness :
  (List.length (fst (store.List 1 2 (examples.store_of 5))) <= Z.to_nat 2)%nat /\
  newest_first (fst (store.List 1 2 (examples.store_of 5))) /\
  map a_Name (fst (store.List 1 2 (examples.store_of 5))) = ["alert-4"; "alert-3"].
Proof.
  destruct (List_returns_a_bounded_page_newest_first 1 2 (examples.store_of 5))
    as (L & _ & S & _); [lia|].
  split; [exact L|]. split; [exact S|]. vm_compute. reflexivity.
Defined.



(** X3. A first page large enough for the table lists every stored alert
    exactly once. *)
Theorem List_of_everything_lists_each_alert_once limit d :
  (Z.of_nat (List.length (rows (alerts d))) <= limit)%Z ->
  Permutation (map a_ID (fst (store.List 0 limit d)))
              (map a_ID (rows (alerts d))).
Proof.
  intros H. unfold store.List. cbn [fst].
  rewrite page_all.
  - rewrite map_map. apply Permutation_map with (f := a_ID).
    symmetry. apply order_perm.
  - erewrite Permutation_length; [exact H|]. symmetry. apply order_perm.
Qed.

Lemma List_of_everything_witness :
  Permutation (map a_ID (fst (store.List 0 1000 (examples.store_of 5))))
              (map a_ID (rows (alerts (examples.store_of 5)))).
Proof.
  apply (List_of_everything_lists_each_alert_once 1000 (examples.store_of 5)).
  vm_compute. discriminate.
Defined.




(** ** Reads by identity and by name *)

Lemma least_filter_None {R} `{Model R} (p : R -> bool) (l : list R) :
  least (filter p l) = None <-> Forall (fun r => p r = false) l.
Proof.
  split.
  - intros L. apply least_None in L. apply Forall_forall. intros r Hr.
    destruct (p r) eqn:P; [|reflexivity].
    assert (In r (filter p l)) by (apply filter_In; auto).
    rewrite L in H0. destruct H0.
  - intros F. replace (filter p l) with (@nil R); [reflexivity|].
    symmetry. apply existsb_filter_nil.
    induction F as [|r l Hr _ IH]; simpl; [reflexivity|]. now rewrite Hr.
Qed.

Lemma least_filter_Some {R} `{Model R} (p : R -> bool) (l : list R) r :
  least (filter p l) = Some r -> In r l /\ p r = true.
Proof. intros L. apply least_In in L. now apply filter_In in L. Qed.


Lemma GetByID_Err id d e :
  store.GetByID id d = Err e <->
  e = ErrRecordNotFound /\ Forall (fun r => a_ID r <> id) (rows (alerts d)).
Proof.
  unfold store.GetByID, store.lookup.
  change (rows (table d)) with (rows (alerts d)).
  destruct (least _) as [r|] eqn:L.
  - apply least_filter_Some in L. destruct L as [Hr Hp]. apply N.eqb_eq in Hp.
    split; [discriminate|]. intros [_ F]. rewrite Forall_forall in F.
    destruct (F r Hr). exact Hp.
  - apply least_filter_None in L. split.
    + intros E. inversion E. split; [reflexivity|].
      eapply Forall_impl; [|exact L]. intros r Hr. now apply N.eqb_neq.
    + intros [-> _]. reflexivity.
Qed.

Lemma GetByName_Ok name d a :
  store.GetByName name d = Ok a ->
  a_Name a = name /\
  exists r, In r (rows (alerts d)) /\ a_Name r = name /\ a = store.preload_full d r.
Proof.
  unfold store.GetByName.
  destruct (least _) as [r|] eqn:L; [|discriminate].
  apply least_filter_Some in L. destruct L as [Hr Hp]. apply String.eqb_eq in Hp.
  intros E. inversion E; subst a. split; [exact Hp|]. now exists r.
Qed.

Lemma GetByName_Err name d e :
  store.GetByName name d = Err e <->
  e = ErrRecordNotFound /\ Forall (fun r => a_Name r <> name) (rows (alerts d)).
Proof.
  unfold store.GetByName.
  destruct (least _) as [r|] eqn:L.
  - apply least_filter_Some in L. destruct L as [Hr Hp]. apply String.eqb_eq in Hp.
    split; [discriminate|]. intros [_ F]. rewrite Forall_forall in F.
    destruct (F r Hr). exact Hp.
  - apply least_filter_None in L. split.
    + intros E. inversion E. split; [reflexivity|].
      eapply Forall_impl; [|exact L]. intros r Hr. now apply String.eqb_neq.
    + intros [-> _]. reflexivity.
Qed.


(** ** Updates: the identity check and the root row *)

(** X6. An update request without an identity is refused before any row is
    touched: the transaction is opened and rolled back, with the error
    "alert ID is required for update". *)
Theorem update_without_identity_is_refused env alert d :
  a_ID alert = 0 ->
  exists e d',
    store.UpdateWithTransaction env alert d = (Err e, d') /\
    same_rows d d' /\
    (fails env (List.length (journal d)) = false ->
     e = ErrorNew "alert ID is required for update" /\
     journal d' = journal d ++ [BEGIN; ROLLBACK]).
Proof.
  intros Hid.
  destruct (store.UpdateWithTransaction env alert d) as [r d'] eqn:E.
  assert (X : exists e, r = Err e /\
                (fails env (List.length (journal d)) = false ->
                 e = ErrorNew "alert ID is required for update" /\
                 journal d' = journal d ++ [BEGIN; ROLLBACK])).
  { unfold store.UpdateWithTransaction, Transaction, exec in E.
    rewrite Hid in E. change (0 =? 0) with true in E. cbv iota in E.
    destruct (fails env (List.length (journal d))) eqn:F.
    - inversion E; subst. eexists. split; [reflexivity|]. discriminate.
    - unfold throw in E. inversion E; subst. eexists. split; [reflexivity|].
      intros _. split; [reflexivity|]. simpl. now rewrite <- app_assoc. }
  destruct X as (e & -> & X). exists e, d'. split; [reflexivity|].
  split; [|exact X]. eapply Transaction_Err_same_rows. exact E.
Qed.

Lemma update_without_identity_witness :
  exists e d',
    store.UpdateWithTransaction healthy examples.cpu_alert examples.db1 = (Err e, d') /\
    same_rows examples.db1 d'.
Proof.
  destruct (update_without_identity_is_refused healthy examples.cpu_alert
              examples.db1 eq_refl) as (e & d' & E & S & _).
  exists e, d'. split; assumption.
Defined.

Ltac frame_over H tbl F :=
  match type of H with
  | ?m ?d = (Ok ?a, ?d') =>
      assert (F : tbl d' = tbl d) by
        (apply (fun pf : preserves (fun x => tbl x) m => pf d a d' H);
         unfold update_step2; frame_store);
      simpl in F
  end.

Lemma patch_relation_ids_next env a d u d' :
  store.patch_relation_ids env a d = (Ok u, d') ->
  next_id (alerts d') = next_id (alerts d).
Proof.
  intros E. unfold store.patch_relation_ids in E.
  destruct (a_ConfigurationID a), (a_ScheduleID a);
    try (apply wrap_Ok in E; apply Updates_table in E;
         destruct E as (_ & Hn & _); exact Hn).
  now inversion E.
Qed.

Lemma root_key_updated_root alert alert' r :
  root_key (updated_root alert alert' r) = root_key r.
Proof.
  unfold updated_root, relation_ids, root_key.
  destruct (a_ConfigurationID alert'), (a_ScheduleID alert'); reflexivity.
Qed.

Lemma update_root_table env alert d r d' :
  store.UpdateWithTransaction env alert d = (r, d') ->
  map root_key (rows (alerts d')) = map root_key (rows (alerts d)) /\
  forall alert', r = Ok alert' ->
    rows (alerts d') =
      map (fun x => if a_ID x =? a_ID alert then updated_root alert alert' x else x)
          (rows (alerts d)) /\
    next_id (alerts d') = next_id (alerts d).
Proof.
  intros E.
  assert (X : forall alert', r = Ok alert' ->
    rows (alerts d') =
      map (fun x => if a_ID x =? a_ID alert then updated_root alert alert' x else x)
          (rows (alerts d)) /\
    next_id (alerts d') = next_id (alerts d)).
  { intros alert' ->. apply update_closure_inv in E.
    destruct E as (_ & d1 & d2 & d3 & d4 & d5 & d6 & a0 & u1 & u2 & u3 & u4 &
                   E1 & E2 & E3 & E4 & E5 & E6 & -> & R0 & R1).
    apply Updates_table in E1. destruct E1 as (H1 & N1 & _).
    change (rows (table d1)) with (rows (alerts d1)) in H1.
    change (next_id (table d1)) with (next_id (alerts d1)) in N1.
    change (table (logged BEGIN d)) with (alerts d) in H1, N1.
    frame_over E2 alerts F2. frame_over E3 alerts F3.
    frame_over E4 alerts F4. frame_over E5 alerts F5.
    pose proof (patch_relation_ids_rows env _ _ _ _ E6) as H6.
    pose proof (patch_relation_ids_next env _ _ _ _ E6) as N6.
    change (alerts (logged COMMIT d6)) with (alerts d6).
    rewrite H6, N6, F5, F4, F3, F2, H1, N1. split; [|reflexivity].
    rewrite map_map. apply map_ext. intros x.
    destruct R1 as (I1 & _). rewrite I1.
    destruct (a_ID x =? a_ID alert) eqn:C.
    - assert (Hid : a_ID (set_a_DisplayName (a_DisplayName alert)
                       (set_a_Description (a_Description alert)
                          (set_a_Status (a_Status alert)
                             (set_a_LastModifiedTime (a_LastModifiedTime alert) x))))
                    = a_ID x) by reflexivity.
      rewrite Hid, C. reflexivity.
    - rewrite C. reflexivity. }
  split; [|exact X].
  destruct r as [alert'|e].
  - destruct (X alert' eq_refl) as [-> _]. rewrite map_map. apply map_ext.
    intros x. destruct (a_ID x =? a_ID alert); [|reflexivity].
    apply root_key_updated_root.
  - apply Transaction_Err_same_rows in E. now rewrite (same_alerts _ _ E).
Qed.

(** X7. A successful update rewrites the root row of the request's identity in
    place: [display_name], [description], [status] and
    [last_modified_time] become the request's (an empty status or a nil
    description included), [configuration_id] / [schedule_id] are patched,
    and nothing else changes.  Whatever the outcome, no root row is
    inserted or deleted and no [name], [create_time] or [created_at] is
    written: a new name in the request is not stored. *)
Theorem update_rewrites_the_root_row_in_place env alert d r d' :
  store.UpdateWithTransaction env alert d = (r, d') ->
  map root_key (rows (alerts d')) = map root_key (rows (alerts d)) /\
  forall alert', r = Ok alert' ->
    rows (alerts d') =
      map (fun x => if a_ID x =? a_ID alert then updated_root alert alert' x else x)
          (rows (alerts d)) /\
    next_id (alerts d') = next_id (alerts d).
Proof. apply update_root_table. Qed.

Lemma update_root_row_witness :
  map root_key (rows (alerts examples.db2)) = map root_key (rows (alerts examples.db1)) /\
  rows (alerts examples.db2) =
    map (fun x => if a_ID x =? a_ID examples.update_request
                  then updated_root examples.update_request examples.update_result x
                  else x)
        (rows (alerts examples.db1)).
Proof.
  destruct (update_rewrites_the_root_row_in_place healthy examples.update_request
              examples.db1 _ _ updated_ok) as (K & X).
  split; [exact K|]. exact (proj1 (X _ eq_refl)).
Defined.

(** ** Names stay unique *)

Lemma Create_duplicate {R} `{Model R} env (r : R) d :
  unique_ok (rows (table (logged (SQL INSERT TableName) d)))
            (before_create (now env (List.length (journal d))) r) = false ->
  fails env (List.length (journal d)) = false ->
  gorm.Create env r d = (Err ErrDuplicatedKey, logged (SQL INSERT TableName) d).
Proof.
  intros U F. unfold gorm.Create, exec. rewrite F.
  fold (logged (SQL INSERT TableName) d).
  unfold insert_row. rewrite U. reflexivity.
Qed.

Lemma name_taken_unique_ok rs a t :
  In (a_Name a) (map a_Name rs) ->
  unique_ok rs (before_create t (store.cleanAlert a)) = false.
Proof.
  intros Hin. simpl. apply negb_false_iff. apply existsb_exists.
  apply in_map_iff in Hin. destruct Hin as (x & Hx & Hin).
  exists x. split; [exact Hin|]. now apply String.eqb_eq.
Qed.

Lemma create_taken_name env alert d r d' :
  In (a_Name alert) (map a_Name (rows (alerts d))) ->
  store.CreateWithTransaction env alert d = (r, d') ->
  same_rows d d' /\
  exists e, r = Err e /\
    (fails env (List.length (journal d)) = false ->
     fails env (S (List.length (journal d))) = false ->
     e = Errorf "failed to create alert" ErrDuplicatedKey /\
     journal d' = journal d ++ [BEGIN; SQL INSERT "alerts"; ROLLBACK]).
Proof.
  intros Hin E.
  assert (X : exists e, r = Err e /\
    (fails env (List.length (journal d)) = false ->
     fails env (S (List.length (journal d))) = false ->
     e = Errorf "failed to create alert" ErrDuplicatedKey /\
     journal d' = journal d ++ [BEGIN; SQL INSERT "alerts"; ROLLBACK])).
  { destruct r as [alert'|e].
    - exfalso. apply create_closure_inv in E.
      destruct E as (root & d1 & _ & _ & _ & _ & _ & _ & _ & _ & _ & E1 & _).
      apply Create_Ok in E1. destruct E1 as (t' & I & _).
      apply insert_row_Ok in I. destruct I as (_ & U & _).
      rewrite name_taken_unique_ok in U; [discriminate|exact Hin].
    - exists e. split; [reflexivity|]. intros F0 F1.
      unfold store.CreateWithTransaction, Transaction in E.
      unfold exec at 1 in E. rewrite F0 in E.
      fold (logged BEGIN d) in E.
      unfold bind at 1 in E. unfold wrap at 1 in E.
      rewrite (Create_duplicate env (store.cleanAlert alert) (logged BEGIN d)) in E.
      + inversion E; subst. split; [reflexivity|]. simpl.
        now rewrite <- !app_assoc.
      + apply name_taken_unique_ok. exact Hin.
      + rewrite journal_logged, length_app. simpl.
        now rewrite Nat.add_1_r. }
  split; [|exact X]. destruct X as (e & -> & _).
  eapply Transaction_Err_same_rows. exact E.
Qed.

(** X8. Creating an alert under a name that is already stored fails and stores
    nothing; on a backend that accepts the statements the error is the
    duplicate-key error of the unique index on [name], raised by the first
    INSERT. *)
Theorem create_refuses_a_taken_name env alert d r d' :
  In (a_Name alert) (map a_Name (rows (alerts d))) ->
  store.CreateWithTransaction env alert d = (r, d') ->
  same_rows d d' /\
  exists e, r = Err e /\
    (fails env (List.length (journal d)) = false ->
     fails env (S (List.length (journal d))) = false ->
     e = Errorf "failed to create alert" ErrDuplicatedKey /\
     journal d' = journal d ++ [BEGIN; SQL INSERT "alerts"; ROLLBACK]).
Proof. apply create_taken_name. Qed.

Lemma create_taken_name_witness :
  fst (store.CreateWithTransaction healthy examples.cpu_alert examples.db1)
    = Err (Errorf "failed to create alert" ErrDuplicatedKey) /\
  same_rows examples.db1
    (snd (store.CreateWithTransaction healthy examples.cpu_alert examples.db1)).
Proof.
  destruct (create_refuses_a_taken_name healthy examples.cpu_alert examples.db1 _ _
              ltac:(vm_compute; left; reflexivity) (surjective_pairing _))
    as (S & e & -> & X).
  split; [|exact S]. f_equal. exact (proj1 (X eq_refl eq_refl)).
Defined.

Lemma NoDup_map_filter {A B} (f : A -> B) (p : A -> bool) l :
  NoDup (map f l) -> NoDup (map f (filter p l)).
Proof.
  induction l as [|x l IH]; simpl; intros N; [constructor|].
  inversion N as [|? ? Hx Hl]; subst.
  destruct (p x); simpl; [|now apply IH].
  constructor; [|now apply IH].
  intros Hin. apply Hx. apply in_map_iff in Hin. destruct Hin as (y & Hy & Hin).
  apply filter_In in Hin. apply in_map_iff. exists y. tauto.
Qed.

Lemma relation_ids_Name a r : a_Name (relation_ids a r) = a_Name r.
Proof.
  unfold relation_ids. destruct (a_ConfigurationID a), (a_ScheduleID a); reflexivity.
Qed.

Lemma create_names env alert d alert' d' :
  store.CreateWithTransaction env alert d = (Ok alert', d') ->
  map a_Name (rows (alerts d')) = map a_Name (rows (alerts d)) ++ [a_Name alert].
Proof.
  intros E. destruct (create_tables env _ _ _ _ E) as (_ & (t & ->) & _).
  rewrite map_map.
  rewrite (map_ext _ a_Name).
  - rewrite map_app. reflexivity.
  - intros x. destruct (a_ID x =? _); [apply relation_ids_Name|reflexivity].
Qed.

(** X9. The three writes of the store keep the names of the stored alerts
    pairwise distinct, whether they succeed or fail. *)
Theorem writes_keep_names_unique env d :
  NoDup (map a_Name (rows (alerts d))) ->
  (forall alert r d',
     store.CreateWithTransaction env alert d = (r, d') ->
     NoDup (map a_Name (rows (alerts d')))) /\
  (forall alert r d',
     store.UpdateWithTransaction env alert d = (r, d') ->
     NoDup (map a_Name (rows (alerts d')))) /\
  (forall id r d',
     store.Delete env id d = (r, d') ->
     NoDup (map a_Name (rows (alerts d')))).
Proof.
  intros N. split; [|split].
  - intros alert [alert'|e] d' E.
    + rewrite (create_names _ _ _ _ _ E).
      apply NoDup_app; [exact N|repeat constructor; simpl; tauto|].
      intros x Hx [<-|[]].
      destruct (create_taken_name _ _ _ _ _ Hx E) as (_ & e & He & _).
      discriminate.
    + apply Transaction_Err_same_rows in E. now rewrite (same_alerts _ _ E).
  - intros alert r d' E. apply update_root_table in E. destruct E as [K _].
    assert (H : forall l, map a_Name l =
                          map (fun k => snd (fst (fst k))) (map root_key l))
      by (intros l; rewrite map_map; reflexivity).
    now rewrite (H (rows (alerts d'))), K, <- H.
  - intros id [[]|e] d' E.
    + apply delete_effect in E. destruct E as (_ & -> & _).
      now apply NoDup_map_filter.
    + apply Transaction_Err_same_rows in E. now rewrite (same_alerts _ _ E).
Qed.

Lemma names_unique_witness :
  NoDup (map a_Name (rows (alerts examples.db2))).
Proof.
  refine (proj1 (proj2 (writes_keep_names_unique healthy examples.db1 _))
            examples.update_request _ _ updated_ok).
  vm_compute. repeat constructor. simpl. tauto.
Defined.

(** ** Delete: what goes, what stays *)

Lemma delete_blocks env id d r d' : store.Delete env id d = (r, d') -> same_blocks d d'.
Proof.
  intros E. constructor;
    match goal with
    | |- rows (?tbl d') = _ =>
        unfold store.Delete in E;
        eapply (Transaction_preserves (fun x => rows (tbl x)));
          [side|side| |exact E]; frame_store
    end.
Qed.

Lemma filter_filter_same {A} (p : A -> bool) l : filter p (filter p l) = filter p l.
Proof.
  induction l as [|x l IH]; simpl; [reflexivity|].
  destruct (p x) eqn:P; simpl; [now rewrite P, IH|exact IH].
Qed.



(** X11. Deleting the same identity a second time changes no row. *)
Theorem delete_is_idempotent env env' id d d1 d2 :
  store.Delete env id d = (Ok tt, d1) ->
  store.Delete env' id d1 = (Ok tt, d2) ->
  same_rows d1 d2.
Proof.
  intros E1 E2.
  pose proof (delete_blocks _ _ _ _ _ E2) as [B1 B2 B3 B4 B5 B6 B7].
  apply delete_effect in E1. apply delete_effect in E2.
  destruct E1 as (_ & A1 & C1 & S1 & T1 & Q1 & _).
  destruct E2 as (_ & A2 & C2 & S2 & T2 & Q2 & V2).
  rewrite C1 in V2.
  rewrite (filter_none (fun c => cfg_AlertID c =? id)) in V2. simpl in V2.
  destruct V2 as [V2 J2].
  constructor; try assumption.
  - now rewrite A2, A1, filter_filter_same.
  - now rewrite C2, C1, filter_filter_same.
  - now rewrite S2, S1, filter_filter_same.
  - now rewrite T2, T1, filter_filter_same.
  - now rewrite Q2, Q1, filter_filter_same.
Qed.

Lemma delete_idempotent_witness :
  same_rows (snd (store.Delete healthy 1 examples.db1))
            (snd (store.Delete healthy 1 (snd (store.Delete healthy 1 examples.db1)))).
Proof.
  apply (delete_is_idempotent healthy healthy 1 examples.db1).
  - apply (run_Ok (store.Delete healthy 1) examples.db1 tt). vm_compute. reflexivity.
  - apply (run_Ok (store.Delete healthy 1)
                  (snd (store.Delete healthy 1 examples.db1)) tt).
    vm_compute. reflexivity.
Defined.

(** ** Create followed by delete *)

Lemma filter_out_fresh {A} (f : A -> N) k old news :
  Forall (fun x => f x < k) old -> Forall (fun x => f x = k) news ->
  filter (fun x => negb (f x =? k)) (old ++ news) = old.
Proof.
  intros Ho Hn. rewrite filter_app.
  replace (filter (fun x => negb (f x =? k)) news) with (@nil A).
  - rewrite app_nil_r. induction Ho as [|x l Hx _ IH]; simpl; [reflexivity|].
    destruct (N.eqb_spec (f x) k); [lia|]. simpl. now rewrite IH.
  - induction Hn as [|x l Hx _ IH]; simpl; [reflexivity|].
    apply N.eqb_eq in Hx. now rewrite Hx.
Qed.

Lemma filter_out_old {A} (f : A -> N) k old :
  Forall (fun x => f x < k) old -> filter (fun x => negb (f x =? k)) old = old.
Proof.
  intros Ho. rewrite <- (app_nil_r old) at 1.
  rewrite (filter_out_fresh f k old []); auto.
Qed.

Lemma filter_in_old {A} (f : A -> N) k old :
  Forall (fun x => f x < k) old -> filter (fun x => f x =? k) old = [].
Proof.
  intros Ho. rewrite <- (app_nil_r old).
  rewrite (filter_fresh f k old []); auto.
Qed.

Lemma relation_ids_ID a r : a_ID (relation_ids a r) = a_ID r.
Proof.
  unfold relation_ids. destruct (a_ConfigurationID a), (a_ScheduleID a); reflexivity.
Qed.

Lemma create_without_configuration env alert d r d' :
  a_Configuration alert = None ->
  store.CreateWithTransaction env alert d = (r, d') ->
  rows (alert_configurations d') = rows (alert_configurations d) /\
  rows (severity_configurations d') = rows (severity_configurations d) /\
  rows (join_configurations d') = rows (join_configurations d) /\
  same_blocks d d'.
Proof.
  intros C E.
  assert (P : forall X (g : DB -> X),
             journal_free g -> rollback_stable g ->
             apart g Alert -> apart g AlertSchedule -> apart g AlertTag ->
             apart g AlertQuery -> g d' = g d).
  { intros X g Hj Hr A1 A2 A3 A4.
    unfold store.CreateWithTransaction in E.
    eapply (Transaction_preserves g); [exact Hj|exact Hr| |exact E].
    apply preserves_bind; [apply preserves_wrap; now apply preserves_Create|].
    intros created. cbn [a_Configuration set_a_ID]. rewrite C.
    apply preserves_bind; [apply preserves_ret|]. intros a1.
    apply preserves_bind.
    { unfold store.create_schedule. destruct (a_Schedule a1); [|apply preserves_ret].
      apply preserves_bind; [|intro; apply preserves_ret].
      apply preserves_wrap. now apply preserves_Create. }
    intros a2.
    apply preserves_bind.
    { unfold store.create_tags. destruct (a_Tags a2); [apply preserves_ret|].
      apply preserves_bind; [|intro; apply preserves_ret].
      apply preserves_wrap. now apply preserves_CreateSlice. }
    intros _.
    apply preserves_bind.
    { unfold store.create_queries. destruct (a_Queries a2); [apply preserves_ret|].
      apply preserves_bind; [|intro; apply preserves_ret].
      apply preserves_wrap. now apply preserves_CreateSlice. }
    intros _.
    apply preserves_bind; [|intro; apply preserves_ret].
    unfold store.patch_relation_ids.
    destruct (a_ConfigurationID a2), (a_ScheduleID a2);
      try apply preserves_ret; apply preserves_wrap; now apply preserves_Updates. }
  split; [apply (P _ (fun x => rows (alert_configurations x))); side|].
  split; [apply (P _ (fun x => rows (severity_configurations x))); side|].
  split; [apply (P _ (fun x => rows (join_configurations x))); side|].
  constructor;
    match goal with
    | |- rows (?tbl d') = _ => apply (P _ (fun x => rows (tbl x))); side
    end.
Qed.

Lemma Forall2_right {A B} (P : A -> B -> Prop) (Q : B -> Prop) l l' :
  (forall a b, P a b -> Q b) -> Forall2 P l l' -> Forall Q l'.
Proof. intros H F. induction F; constructor; eauto. Qed.

(** X12. In a store whose child rows refer to existing parents, creating an
    aggregate and then deleting it brings the root, configuration,
    schedule, tag, query, severity and join tables back to the rows they
    held before; the blocks the create inserted stay in their tables. *)
Theorem create_then_delete_leaves_only_the_blocks env env' alert d alert' d1 d2 :
  children_owned d ->
  store.CreateWithTransaction env alert d = (Ok alert', d1) ->
  store.Delete env' (a_ID alert') d1 = (Ok tt, d2) ->
  rows (alerts d2) = rows (alerts d) /\
  rows (alert_configurations d2) = rows (alert_configurations d) /\
  rows (alert_schedules d2) = rows (alert_schedules d) /\
  rows (alert_tags d2) = rows (alert_tags d) /\
  rows (alert_queries d2) = rows (alert_queries d) /\
  rows (severity_configurations d2) = rows (severity_configurations d) /\
  rows (join_configurations d2) = rows (join_configurations d) /\
  same_blocks d1 d2.
Proof.
  intros [[Wa Wc Ws Wt Wq Wv] Oc Os Oj] E1 E2.
  pose proof (delete_blocks _ _ _ _ _ E2) as B.
  destruct (create_tables env _ _ _ _ E1) as (I & (z & Ra) & Rs & (nt & Rt & _ & Ot)
                                              & (nq & Rq & _ & Oq)).
  rewrite I in E2. apply delete_effect in E2.
  destruct E2 as (_ & A2 & C2 & S2 & T2 & Q2 & V2).
  set (id := next_id (alerts d)) in *.
  set (cid := next_id (alert_configurations d)) in *.
  assert (HA : rows (alerts d2) = rows (alerts d)).
  { rewrite A2, Ra. rewrite map_app.
    rewrite (map_ext_in _ (fun r => r)); [rewrite map_id|].
    - apply filter_out_fresh; [exact Wa|]. simpl. constructor; [|constructor].
      change (a_ID (root_row id z alert)) with id. rewrite N.eqb_refl.
      apply relation_ids_ID.
    - intros x Hx. rewrite Forall_forall in Wa. specialize (Wa x Hx).
      destruct (N.eqb_spec (a_ID x) id); [lia|reflexivity]. }
  assert (HS : rows (alert_schedules d2) = rows (alert_schedules d)).
  { rewrite S2. destruct (a_Schedule alert) as [s|].
    - destruct Rs as [-> _]. apply filter_out_fresh; [exact Os|].
      constructor; [reflexivity|constructor].
    - destruct Rs as [-> _]. now apply filter_out_old. }
  assert (HT : rows (alert_tags d2) = rows (alert_tags d))
    by (rewrite T2, Rt; now apply filter_out_fresh).
  assert (HQ : rows (alert_queries d2) = rows (alert_queries d))
    by (rewrite Q2, Rq; now apply filter_out_fresh).
  destruct (a_Configuration alert) as [c|] eqn:C.
  - destruct (create_configuration_tables env _ c _ _ _ C E1)
      as (Rc & _ & (ns & Rv & Fv) & (nj & Rj & Fj) & _).
    fold id cid in Rc, Rv, Rj, Fv, Fj.
    rewrite Rc in V2, C2.
    rewrite (filter_fresh cfg_AlertID id) in V2;
      [|exact Oc|constructor; [reflexivity|constructor]].
    rewrite least_singleton in V2.
    change (cfg_ID (configuration_row cid id c)) with cid in V2.
    destruct V2 as [V2 J2].
    repeat match goal with |- _ /\ _ => split end; try assumption.
    + rewrite C2. apply filter_out_fresh; [exact Oc|].
      constructor; [reflexivity|constructor].
    + rewrite V2, Rv. apply filter_out_fresh; [exact Wv|].
      eapply Forall2_right; [|exact Fv]. intros a b (_ & Hb & _). exact Hb.
    + rewrite J2, Rj. apply filter_out_fresh; [exact Oj|].
      eapply Forall2_right; [|exact Fj]. intros a b (_ & _ & Hb). exact Hb.
  - destruct (create_without_configuration _ _ _ _ _ C E1) as (Rc & Rv & Rj & _).
    rewrite Rc in V2, C2.
    rewrite (filter_in_old cfg_AlertID id) in V2 by exact Oc.
    simpl in V2. destruct V2 as [V2 J2].
    repeat match goal with |- _ /\ _ => split end; try assumption.
    + rewrite C2. now apply filter_out_old.
    + now rewrite V2.
    + now rewrite J2.
Qed.

Lemma children_owned_empty_db : children_owned empty_db.
Proof. constructor; [apply well_formed_empty_db| | |]; constructor. Qed.

Lemma create_then_delete_witness :
  rows (alerts (snd (store.Delete healthy (a_ID examples.cpu_alert1) examples.db1)))
    = rows (alerts empty_db) /\
  rows (severity_configurations
          (snd (store.Delete healthy (a_ID examples.cpu_alert1) examples.db1)))
    = rows (severity_configurations empty_db) /\
  same_blocks examples.db1
    (snd (store.Delete healthy (a_ID examples.cpu_alert1) examples.db1)).
Proof.
  destruct (create_then_delete_leaves_only_the_blocks healthy healthy
              examples.cpu_alert empty_db examples.cpu_alert1 examples.db1 _
              children_owned_empty_db created_ok
              (run_Ok (store.Delete healthy (a_ID examples.cpu_alert1))
                      examples.db1 tt ltac:(vm_compute; reflexivity)))
    as (A & _ & _ & _ & _ & V & _ & B).
  split; [exact A|]. split; [exact V|exact B].
Defined.

(** ** The alert service *)

Lemma validateAlert_None a :
  alert_service.validateAlert a = None <-> valid_alert a.
Proof.
  unfold alert_service.validateAlert, valid_alert.
  destruct (String.eqb_spec (a_Name a) EmptyString) as [N|N].
  { split; [discriminate|]. intros [H _]. contradiction. }
  destruct (String.eqb_spec (a_DisplayName a) EmptyString) as [D|D].
  { split; [discriminate|]. intros (_ & H & _). contradiction. }
  destruct (String.eqb_spec (a_Status a) EmptyString) as [S0|S0];
    [simpl; tauto|].
  destruct (String.eqb_spec (a_Status a) "ENABLED") as [S1|S1];
    [simpl; tauto|].
  destruct (String.eqb_spec (a_Status a) "DISABLED") as [S2|S2];
    [simpl; tauto|].
  simpl. split; [discriminate|]. intros (_ & _ & [H|[H|H]]); contradiction.
Qed.

Lemma valid_relation_ids a r : valid_alert (relation_ids a r) <-> valid_alert r.
Proof.
  unfold relation_ids, valid_alert.
  destruct (a_ConfigurationID a), (a_ScheduleID a); reflexivity.
Qed.

Lemma valid_root_row id t alert : valid_alert alert -> valid_alert (root_row id t alert).
Proof.
  unfold valid_alert, root_row. simpl. unfold default_status.
  intros (N & D & S). split; [exact N|]. split; [exact D|].
  destruct (String.eqb_spec (a_Status alert) EmptyString); [tauto|].
  destruct S as [S|S]; [contradiction|tauto].
Qed.

Lemma valid_updated_root alert alert' r :
  valid_alert alert -> valid_alert r -> valid_alert (updated_root alert alert' r).
Proof.
  intros (_ & D & S) (N & _ & _). unfold updated_root.
  apply valid_relation_ids. unfold valid_alert. simpl. tauto.
Qed.

Lemma GetByName_found name d :
  In name (map a_Name (rows (alerts d))) ->
  exists a, store.GetByName name d = Ok a.
Proof.
  intros Hin. destruct (store.GetByName name d) as [a|e] eqn:E; [now exists a|].
  apply GetByName_Err in E. destruct E as [_ F].
  apply in_map_iff in Hin. destruct Hin as (r & Hn & Hr).
  rewrite Forall_forall in F. destruct (F r Hr Hn).
Qed.

Lemma GetByID_found id d r :
  In r (rows (alerts d)) -> a_ID r = id -> exists a, store.GetByID id d = Ok a.
Proof.
  intros Hr Hid. destruct (store.GetByID id d) as [a|e] eqn:E; [now exists a|].
  apply GetByID_Err in E. destruct E as [_ F].
  rewrite Forall_forall in F. destruct (F r Hr Hid).
Qed.

(** What a service write does to the root table, whatever its outcome. *)
Lemma CreateAlert_roots env alert d r d' :
  alert_service.CreateAlert env alert d = (r, d') ->
  match r with
  | Ok alert' =>
      valid_alert alert /\
      ~ In (a_Name alert) (map a_Name (rows (alerts d))) /\
      exists created_at,
        rows (alerts d') =
          map (fun r => if a_ID r =? next_id (alerts d)
                        then relation_ids alert' r else r)
              (rows (alerts d) ++ [root_row (next_id (alerts d)) created_at alert])
  | Err _ => rows (alerts d') = rows (alerts d)
  end.
Proof.
  unfold alert_service.CreateAlert.
  destruct (alert_service.validateAlert alert) as [err|] eqn:V.
  { unfold throw. intros E. inversion E; subst. reflexivity. }
  apply validateAlert_None in V.
  destruct (store.GetByName (a_Name alert) d) as [existing|e0] eqn:G.
  { intros E. inversion E; subst. reflexivity. }
  intros E. destruct r as [alert'|e].
  - split; [exact V|]. split.
    + intros Hin. apply GetByName_found in Hin. destruct Hin as [a Ha].
      rewrite Ha in G. discriminate.
    + exact (proj1 (proj2 (create_tables env _ _ _ _ E))).
  - apply Transaction_Err_same_rows in E. apply (same_alerts _ _ E).
Qed.

Lemma UpdateAlert_roots env alert d r d' :
  alert_service.UpdateAlert env alert d = (r, d') ->
  map root_key (rows (alerts d')) = map root_key (rows (alerts d)) /\
  match r with
  | Ok alert' =>
      valid_alert alert /\
      rows (alerts d') =
        map (fun x => if a_ID x =? a_ID alert then updated_root alert alert' x else x)
            (rows (alerts d))
  | Err _ => rows (alerts d') = rows (alerts d)
  end.
Proof.
  unfold alert_service.UpdateAlert.
  destruct (a_ID alert =? 0).
  { unfold throw. intros E. inversion E; subst. split; reflexivity. }
  destruct (alert_service.validateAlert alert) as [err|] eqn:V.
  { unfold throw. intros E. inversion E; subst. split; reflexivity. }
  apply validateAlert_None in V.
  match goal with |- (if ?b then _ else _) = _ -> _ => destruct b end.
  { intros E. inversion E; subst. split; reflexivity. }
  intros E. pose proof (update_root_table _ _ _ _ _ E) as [K X].
  split; [exact K|]. destruct r as [alert'|e].
  - split; [exact V|]. exact (proj1 (X alert' eq_refl)).
  - apply Transaction_Err_same_rows in E. apply (same_alerts _ _ E).
Qed.

Lemma DeleteAlert_roots env id d r d' :
  alert_service.DeleteAlert env id d = (r, d') ->
  match r with
  | Ok _ => rows (alerts d') = filter (fun a => negb (a_ID a =? id)) (rows (alerts d))
  | Err _ => rows (alerts d') = rows (alerts d)
  end.
Proof.
  unfold alert_service.DeleteAlert.
  destruct (id =? 0).
  { unfold throw. intros E. inversion E; subst. reflexivity. }
  destruct (store.GetByID id d) as [a|e0].
  2:{ intros E. inversion E; subst. reflexivity. }
  intros E. destruct r as [[]|e].
  - apply delete_effect in E. exact (proj1 (proj2 E)).
  - apply Transaction_Err_same_rows in E. apply (same_alerts _ _ E).
Qed.

(** X13. Every alert that the service has stored passes its own validation: if
    the stored alerts all have a name, a display name and a status that is
    empty, ENABLED or DISABLED, they still do after [CreateAlert],
    [UpdateAlert] or [DeleteAlert], whether the call succeeds or fails. *)
Theorem service_writes_keep_the_stored_alerts_valid env d :
  Forall valid_alert (rows (alerts d)) ->
  (forall alert r d',
     alert_service.CreateAlert env alert d = (r, d') ->
     Forall valid_alert (rows (alerts d'))) /\
  (forall alert r d',
     alert_service.UpdateAlert env alert d = (r, d') ->
     Forall valid_alert (rows (alerts d'))) /\
  (forall id r d',
     alert_service.DeleteAlert env id d = (r, d') ->
     Forall valid_alert (rows (alerts d'))).
Proof.
  intros F. split; [|split].
  - intros alert r d' E. apply CreateAlert_roots in E. destruct r as [alert'|e].
    + destruct E as (V & _ & t & ->). apply Forall_map.
      assert (F' : Forall valid_alert
                     (rows (alerts d) ++ [root_row (next_id (alerts d)) t alert])).
      { apply Forall_app. split; [exact F|]. constructor; [|constructor].
        now apply valid_root_row. }
      eapply Forall_impl; [|exact F']. intros x Hx. simpl.
      destruct (a_ID x =? _); [now apply valid_relation_ids|exact Hx].
    + now rewrite E.
  - intros alert r d' E. apply UpdateAlert_roots in E. destruct E as [_ E].
    destruct r as [alert'|e].
    + destruct E as (V & ->). apply Forall_map.
      eapply Forall_impl; [|exact F]. intros x Hx. simpl.
      destruct (a_ID x =? _); [now apply valid_updated_root|exact Hx].
    + now rewrite E.
  - intros id r d' E. apply DeleteAlert_roots in E. destruct r as [u|e].
    + rewrite E. apply Forall_forall. intros x Hx. apply filter_In in Hx.
      rewrite Forall_forall in F. apply F. tauto.
    + now rewrite E.
Qed.

Lemma service_valid_witness :
  Forall valid_alert (rows (alerts examples.db1)).
Proof.
  refine (proj1 (service_writes_keep_the_stored_alerts_valid healthy empty_db _)
            examples.cpu_alert (Ok examples.cpu_alert1) examples.db1 _).
  - constructor.
  - vm_compute. reflexivity.
Defined.

(** ** What the service refuses by itself *)







(** ** Listing through the service *)

Lemma clamp_pageSize_range pageSize :
  (1 <= alert_service.clamp_pageSize pageSize <= 100)%Z.
Proof.
  unfold alert_service.clamp_pageSize.
  destruct (pageSize <? 1)%Z eqn:A; simpl; [lia|].
  destruct (100 <? pageSize)%Z eqn:B; lia.
Qed.

Lemma ListAlerts_page page pageSize d :
  (List.length (fst (alert_service.ListAlerts page pageSize d)) <=
     Z.to_nat (alert_service.clamp_pageSize pageSize))%nat /\
  Forall (fun a => exists r, In r (rows (alerts d)) /\ a = store.preload_page d r)
         (fst (alert_service.ListAlerts page pageSize d)) /\
  newest_first (fst (alert_service.ListAlerts page pageSize d)) /\
  snd (alert_service.ListAlerts page pageSize d) =
    Z.of_nat (List.length (rows (alerts d))).
Proof.
  unfold alert_service.ListAlerts.
  pose proof (clamp_pageSize_range pageSize) as R.
  apply List_page. lia.
Qed.

Lemma ListAlerts_page_facts page pageSize d :
  snd (alert_service.ListAlerts page pageSize d) =
    Z.of_nat (List.length (rows (alerts d))) /\
  ((1 <= pageSize)%Z ->
   (Z.of_nat (List.length (fst (alert_service.ListAlerts page pageSize d))) <=
      (if (pageSize <=? 100)%Z then pageSize else 20))%Z).
Proof.
  destruct (ListAlerts_page page pageSize d) as (L & _ & _ & T).
  split; [exact T|]. intros A.
  unfold alert_service.clamp_pageSize in L.
  destruct (Z.ltb_spec pageSize 1) as [A'|_]; [lia|]. cbn [orb] in L.
  destruct (Z.ltb_spec 100 pageSize) as [B|B];
    destruct (Z.leb_spec pageSize 100); lia.
Qed.

(** X17. Whatever page and page size are asked for, [ListAlerts] returns at most
    100 alerts, each a stored row with its associations preloaded, newest
    first, together with the number of stored alerts. *)
Theorem ListAlerts_returns_at_most_a_hundred_alerts page pageSize d :
  (List.length (fst (alert_service.ListAlerts page pageSize d)) <= 100)%nat /\
  Forall (fun a => exists r, In r (rows (alerts d)) /\ a = store.preload_page d r)
         (fst (alert_service.ListAlerts page pageSize d)) /\
  newest_first (fst (alert_service.ListAlerts page pageSize d)) /\
  snd (alert_service.ListAlerts page pageSize d) =
    Z.of_nat (List.length (rows (alerts d))).
Proof.
  pose proof (clamp_pageSize_range pageSize) as R.
  destruct (ListAlerts_page page pageSize d) as (L & F & S & T).
  split; [lia|]. split; [exact F|]. split; [exact S|exact T].
Qed.



(** ** The pull direction: [SyncSLSToDatabase] *)

Lemma kept_refl d : kept d d.
Proof. exists []. now rewrite app_nil_r. Qed.

Lemma kept_trans d1 d2 d3 : kept d1 d2 -> kept d2 d3 -> kept d1 d3.
Proof.
  intros [l1 H1] [l2 H2]. exists (l1 ++ l2). now rewrite H2, H1, app_assoc.
Qed.

Lemma kept_same d d' :
  map root_key (rows (alerts d')) = map root_key (rows (alerts d)) -> kept d d'.
Proof. intros H. exists []. now rewrite app_nil_r. Qed.

Lemma names_of_keys l :
  map a_Name l = map (fun k => snd (fst (fst k))) (map root_key l).
Proof. rewrite map_map. reflexivity. Qed.

Lemma kept_names d d' name :
  kept d d' ->
  In name (map a_Name (rows (alerts d))) -> In name (map a_Name (rows (alerts d'))).
Proof.
  intros [l H] Hin. rewrite names_of_keys in *. rewrite H, map_app.
  apply in_or_app. now left.
Qed.

Lemma root_key_relation_ids a r : root_key (relation_ids a r) = root_key r.
Proof.
  unfold relation_ids, root_key.
  destruct (a_ConfigurationID a), (a_ScheduleID a); reflexivity.
Qed.

Lemma CreateAlert_kept env alert d r d' :
  alert_service.CreateAlert env alert d = (r, d') ->
  kept d d' /\
  forall alert', r = Ok alert' -> In (a_Name alert) (map a_Name (rows (alerts d'))).
Proof.
  intros E. apply CreateAlert_roots in E. destruct r as [alert'|e].
  - destruct E as (_ & _ & t & E).
    assert (K : map root_key (rows (alerts d')) =
                map root_key (rows (alerts d)) ++
                [root_key (root_row (next_id (alerts d)) t alert)]).
    { rewrite E, map_map.
      transitivity (map root_key
                      (rows (alerts d) ++ [root_row (next_id (alerts d)) t alert]));
        [|apply map_app].
      apply map_ext. intros x.
      destruct (a_ID x =? _); [apply root_key_relation_ids|reflexivity]. }
    split; [eexists; exact K|]. intros _ _.
    rewrite names_of_keys, K, map_app. apply in_or_app. right. now left.
  - split; [|discriminate]. apply kept_same. now rewrite E.
Qed.

Section Pull.
Context {Rm : Type} `{service.SLSService Rm}.
Variable env : Env.

Lemma pull_step t d s t' d' :
sync_service.pull env (t, d) s = (t', d') ->
kept d d' /\
((sync_service.failedCount t' = sync_service.failedCount t /\
  In (a_Name s) (map a_Name (rows (alerts d')))) \/
 sync_service.failedCount t' = (sync_service.failedCount t + 1)%Z).
Proof.
unfold sync_service.pull.
destruct (store.GetByName (a_Name s) d) as [existing|e0] eqn:G.
- apply GetByName_Ok in G. destruct G as (_ & r & Hr & Hn & _).
  assert (Hin : In (a_Name s) (map a_Name (rows (alerts d)))).
  { rewrite <- Hn. now apply in_map. }
  destruct (service.needsUpdate existing s).
  + destruct (alert_service.UpdateAlert env (set_a_ID (a_ID existing) s) d)
      as [[a|e] d1] eqn:U; intros E; inversion E; subst;
      apply UpdateAlert_roots in U; destruct U as [K _];
      (split; [now apply kept_same|]).
    * left. split; [reflexivity|]. eapply kept_names; [|exact Hin].
      now apply kept_same.
    * right. reflexivity.
  + intros E. inversion E; subst. split; [apply kept_refl|].
    left. split; [reflexivity|exact Hin].
- destruct (alert_service.CreateAlert env s d) as [[a|e] d1] eqn:C;
    intros E; inversion E; subst;
    apply CreateAlert_kept in C; destruct C as [K N];
    (split; [exact K|]).
  + left. split; [reflexivity|]. now apply (N a).
  + right. reflexivity.
Qed.

Lemma pull_all l : forall t d t' d',
fold_left (sync_service.pull env) l (t, d) = (t', d') ->
kept d d' /\
(sync_service.failedCount t <= sync_service.failedCount t')%Z /\
(sync_service.failedCount t' = sync_service.failedCount t ->
 incl (map a_Name l) (map a_Name (rows (alerts d')))).
Proof.
induction l as [|s l IH]; intros t d t' d' E; cbn [fold_left] in E.
- inversion E; subst. split; [apply kept_refl|]. split; [lia|].
  intros _ x [].
- destruct (sync_service.pull env (t, d) s) as [t1 d1] eqn:P.
  apply pull_step in P. destruct P as [K1 P].
  apply IH in E. destruct E as (K2 & L & I).
  split; [eapply kept_trans; eassumption|]. split; [lia|].
  intros Hf. destruct P as [[P N]|P]; [|lia].
  intros x [<-|Hx].
  + eapply kept_names; eassumption.
  + apply I; [lia|exact Hx].
Qed.

End Pull.

(** X19. A pull never removes or renames a stored alert, whatever the remote
    service lists and whichever statements the backend rejects: the
    identities, names, create times and creation timestamps of the stored
    alerts are what they were, in the same order, and new alerts come after
    them. *)
Theorem pull_never_removes_or_renames_a_stored_alert
    {Rm : Type} `{service.SLSService Rm} env (remote : Rm) d :
  exists news,
    map root_key (rows (alerts (snd (sync_service.SyncSLSToDatabase env remote d)))) =
    map root_key (rows (alerts d)) ++ news.
Proof.
  change (kept d (snd (sync_service.SyncSLSToDatabase env remote d))).
  unfold sync_service.SyncSLSToDatabase.
  destruct (service.GetAlerts remote) as [slsAlerts [err|]]; [apply kept_refl|].
  destruct (fold_left _ _ _) as [t d'] eqn:F.
  apply pull_all in F. destruct F as (K & _).
  destruct (0 <? sync_service.failedCount t)%Z; exact K.
Qed.





(** ** The conversions between the SDK's structs and the model *)

Lemma Split_not_nil s c : strings.Split s c <> [].
Proof.
  destruct s as [|a s']; simpl; [discriminate|].
  destruct (Ascii.eqb a c); [discriminate|].
  destruct (strings.Split s' c); discriminate.
Qed.

Lemma Join_cons_String a h t sep :
  strings.Join (String a h :: t) sep = String a (strings.Join (h :: t) sep).
Proof. destruct t; reflexivity. Qed.

Lemma Join_Split s c :
  strings.Join (strings.Split s c) (String c EmptyString) = s.
Proof.
  induction s as [|a s' IH]; [reflexivity|]. simpl strings.Split.
  destruct (Ascii.eqb_spec a c) as [->|Hac].
  - pose proof (Split_not_nil s' c) as N.
    destruct (strings.Split s' c) as [|h t] eqn:E; [contradiction|].
    change (strings.Join (EmptyString :: h :: t) (String c EmptyString))
      with (String c (strings.Join (h :: t) (String c EmptyString))).
    now rewrite IH.
  - pose proof (Split_not_nil s' c) as N.
    destruct (strings.Split s' c) as [|h t] eqn:E; [contradiction|].
    rewrite Join_cons_String. now rewrite IH.
Qed.

Lemma Split_free s c : occurs c s = false -> strings.Split s c = [s].
Proof.
  induction s as [|a s' IH]; [reflexivity|]. simpl. intros H.
  apply orb_false_iff in H. destruct H as [Hac Hs]. rewrite Hac.
  now rewrite (IH Hs).
Qed.

Lemma Split_app s rest c :
  occurs c s = false ->
  strings.Split (String.append s (String c rest)) c = s :: strings.Split rest c.
Proof.
  induction s as [|a s' IH]; simpl; intros H.
  - now rewrite Ascii.eqb_refl.
  - apply orb_false_iff in H. destruct H as [Hac Hs]. rewrite Hac.
    now rewrite (IH Hs).
Qed.

Lemma Split_Join l c :
  l <> [] -> Forall (fun s => occurs c s = false) l ->
  strings.Split (strings.Join l (String c EmptyString)) c = l.
Proof.
  induction l as [|s l IH]; [contradiction|]. intros _ F.
  inversion F as [|? ? Hs Hl]; subst.
  destruct l as [|s2 l2].
  - simpl. now apply Split_free.
  - change (strings.Join (s :: s2 :: l2) (String c EmptyString))
      with (String.append s (String c (strings.Join (s2 :: l2) (String c EmptyString)))).
    rewrite Split_app by exact Hs. f_equal. apply IH; [discriminate|exact Hl].
Qed.

Lemma present_Some l : sls_service.present (map Some l) = l.
Proof.
  unfold sls_service.present. induction l as [|s l IH]; [reflexivity|].
  simpl. now rewrite IH.
Qed.

Lemma pushed_and_pulled_root x alert :
  root_values (pushed_and_pulled x alert) = root_values alert /\
  a_ID (pushed_and_pulled x alert) = 0 /\
  a_ConfigurationID (pushed_and_pulled x alert) = None /\
  a_ScheduleID (pushed_and_pulled x alert) = None /\
  a_Schedule (pushed_and_pulled x alert) =
    option_map (store.scheduleToCreate 0) (a_Schedule alert).
Proof.
  unfold pushed_and_pulled, sls_service.convertSLSAlertToModel,
    sls_service.convertModelToSLSAlert, root_values.
  destruct (a_Configuration alert), (a_Schedule alert); simpl; repeat split.
Qed.

Lemma needsUpdate_same_root a b :
  root_values b = root_values a ->
  service.needsUpdate a b =
    match a_LastModifiedTime a with
    | Some _ => false
    | None => true
    end.
Proof.
  unfold root_values. intros E. inversion E as [[E1 E2 E3 E4 E5 E6]].
  unfold service.needsUpdate. rewrite E2, E3, E4, E6.
  destruct (a_LastModifiedTime a) as [t|]; [|reflexivity].
  rewrite Z.eqb_refl, !String.eqb_refl. simpl.
  destruct (a_Description a) as [s|]; [|reflexivity].
  now rewrite String.eqb_refl.
Qed.

(** X22. An alert that is pushed and pulled back has the name, display name,
    description, status and the two remote timestamps it had, so that
    [needsUpdate] sees no change between the two, unless the alert has no
    modification time, in which case it always sees one.  The identity and
    the foreign keys come back blank, the schedule with its identity and
    owner blanked. *)
Theorem a_pushed_alert_pulled_back_needs_no_update x alert :
  root_values (pushed_and_pulled x alert) = root_values alert /\
  service.needsUpdate alert (pushed_and_pulled x alert) =
    match a_LastModifiedTime alert with
    | Some _ => false
    | None => true
    end /\
  a_ID (pushed_and_pulled x alert) = 0 /\
  a_ConfigurationID (pushed_and_pulled x alert) = None /\
  a_ScheduleID (pushed_and_pulled x alert) = None /\
  a_Schedule (pushed_and_pulled x alert) =
    option_map (store.scheduleToCreate 0) (a_Schedule alert).
Proof.
  destruct (pushed_and_pulled_root x alert) as (R & I & C & S & Sch).
  split; [exact R|]. split; [now apply needsUpdate_same_root|].
  repeat split; assumption.
Qed.

(** X23. The tags and the queries of an alert travel inside its configuration:
    pushed without one, an alert comes back with no configuration, no tag
    and no query. *)
Theorem without_configuration_tags_and_queries_are_not_pushed x alert :
  a_Configuration alert = None ->
  a_Configuration (pushed_and_pulled x alert) = None /\
  a_Tags (pushed_and_pulled x alert) = [] /\
  a_Queries (pushed_and_pulled x alert) = [].
Proof.
  intros H. unfold pushed_and_pulled, sls_service.convertSLSAlertToModel,
    sls_service.convertModelToSLSAlert.
  rewrite H. destruct (a_Schedule alert); simpl; repeat split.
Qed.

Lemma filter_labels (l1 l2 : list AlertTag) :
  Forall (fun t => tag_TagType t = "label") l1 ->
  Forall (fun t => tag_TagType t = "annotation") l2 ->
  filter is_label (l1 ++ l2) = l1 /\ filter is_annotation (l1 ++ l2) = l2.
Proof.
  intros F1 F2. rewrite !filter_app. split.
  - replace (filter is_label l2) with (@nil AlertTag).
    + rewrite app_nil_r. induction F1 as [|t l H _ IH]; [reflexivity|].
      simpl. unfold is_label at 1. rewrite H. simpl. now rewrite IH.
    + induction F2 as [|t l H _ IH]; [reflexivity|].
      simpl. unfold is_label at 1. rewrite H. simpl. exact IH.
  - replace (filter is_annotation l1) with (@nil AlertTag).
    + simpl. induction F2 as [|t l H _ IH]; [reflexivity|].
      simpl. unfold is_annotation at 1. rewrite H. simpl. now rewrite IH.
    + induction F1 as [|t l H _ IH]; [reflexivity|].
      simpl. unfold is_annotation at 1. rewrite H. simpl. exact IH.
Qed.

(** X24. An alert pushed with its configuration comes back with the scalar
    fields of the configuration, its condition, policy and sink blocks and
    its queries (identities blanked throughout), but without any severity
    or join configuration.  Of the tags, the labels come back first and
    without their values, the annotations after them; a tag of any other
    type is dropped. *)
Theorem with_configuration_severities_joins_and_label_values_are_lost x alert c :
  a_Configuration alert = Some c ->
  exists c',
    a_Configuration (pushed_and_pulled x alert) = Some c' /\
    configuration_values c' = configuration_values c /\
    cfg_ConditionConfig c' = option_map condition_values (cfg_ConditionConfig c) /\
    cfg_PolicyConfig c' =
      option_map (fun p => set_pol_ID 0 (set_pol_AlertConfigID 0 p))
                 (cfg_PolicyConfig c) /\
    cfg_SinkAlerthubConfig c' =
      option_map (fun x => set_hub_ID 0 (set_hub_AlertConfigID 0 x))
                 (cfg_SinkAlerthubConfig c) /\
    cfg_SinkCmsConfig c' =
      option_map (fun x => set_cms_ID 0 (set_cms_AlertConfigID 0 x))
                 (cfg_SinkCmsConfig c) /\
    cfg_SinkEventStoreConfig c' =
      option_map (fun x => set_es_ID 0 (set_es_AlertConfigID 0 x))
                 (cfg_SinkEventStoreConfig c) /\
    cfg_SeverityConfigs c' = [] /\
    cfg_JoinConfigs c' = [] /\
    a_Queries (pushed_and_pulled x alert) = map query_values (a_Queries alert) /\
    a_Tags (pushed_and_pulled x alert) =
      map as_label (filter is_label (a_Tags alert)) ++
      map as_annotation (filter is_annotation (a_Tags alert)).
Proof.
  intros H. unfold pushed_and_pulled, sls_service.convertSLSAlertToModel,
    sls_service.convertModelToSLSAlert.
  rewrite H. cbn [option_map sls20201230.a_Configuration sls20201230.a_Schedule].
  destruct (a_Schedule alert); cbn [option_map set_a_Schedule a_Configuration
    a_Tags a_Queries a_ID a_Name a_DisplayName a_Description a_Status
    a_CreateTime a_LastModifiedTime];
    (eexists; split; [reflexivity|]);
    (split; [reflexivity|]);
    (split; [simpl; destruct (cfg_ConditionConfig c); reflexivity|]);
    (split; [simpl; destruct (cfg_PolicyConfig c); reflexivity|]);
    (split; [simpl; destruct (cfg_SinkAlerthubConfig c); reflexivity|]);
    (split; [simpl; destruct (cfg_SinkCmsConfig c); reflexivity|]);
    (split; [simpl; destruct (cfg_SinkEventStoreConfig c); reflexivity|]);
    (split; [reflexivity|]);
    (split; [reflexivity|]);
    (split; [simpl; rewrite map_map; reflexivity|]);
    simpl; rewrite !map_map; reflexivity.
Qed.

(** X25. An SDK alert pulled and pushed back keeps, inside its configuration,
    its labels and annotations in their order (a nil key becoming the empty
    string), its queries, scalar fields, condition, policy and sink blocks;
    its severity and join configurations are not pushed back. *)
Theorem a_pulled_alert_pushed_back_loses_severities_and_joins x
    (slsAlert : sls20201230.Alert (ext_map x)) c :
  sls20201230.a_Configuration slsAlert = Some c ->
  exists c',
    sls20201230.a_Configuration (pulled_and_pushed x slsAlert) = Some c' /\
    sls20201230.cfg_Tags c' =
      map (fun t => Some (tea.StringValue t)) (sls20201230.cfg_Tags c) /\
    sls20201230.cfg_Annotations c' =
      map (fun a => sls20201230.mkAlertTag
                      (Some (tea.StringValue (sls20201230.tag_Key a)))
                      (sls20201230.tag_Value a))
          (sls20201230.cfg_Annotations c) /\
    map sls20201230.q_Query (sls20201230.cfg_QueryList c') =
      map (fun q => Some (tea.StringValue (sls20201230.q_Query q)))
          (sls20201230.cfg_QueryList c) /\
    sls20201230.cfg_ConditionConfiguration c' =
      sls20201230.cfg_ConditionConfiguration c /\
    sls20201230.cfg_PolicyConfiguration c' = sls20201230.cfg_PolicyConfiguration c /\
    sls20201230.cfg_SinkAlerthub c' = sls20201230.cfg_SinkAlerthub c /\
    sls20201230.cfg_SinkCms c' = sls20201230.cfg_SinkCms c /\
    sls20201230.cfg_SinkEventStore c' = sls20201230.cfg_SinkEventStore c /\
    sls20201230.cfg_SeverityConfigurations c' = [] /\
    sls20201230.cfg_JoinConfigurations c' = [].
Proof.
  intros H. unfold pulled_and_pushed, sls_service.convertSLSAlertToModel,
    sls_service.convertModelToSLSAlert.
  rewrite H.
  pose proof (filter_labels
    (map (fun slsTag => mkAlertTag 0 0 "label" (tea.StringValue slsTag) None)
         (sls20201230.cfg_Tags c))
    (map (fun slsAnnotation =>
            mkAlertTag 0 0 "annotation"
              (tea.StringValue (sls20201230.tag_Key slsAnnotation))
              (sls20201230.tag_Value slsAnnotation))
         (sls20201230.cfg_Annotations c))) as [FL FA].
  { apply Forall_map, Forall_forall. reflexivity. }
  { apply Forall_map, Forall_forall. reflexivity. }
  unfold is_label in FL. unfold is_annotation in FA.
  destruct (sls20201230.a_Schedule slsAlert);
    cbn [option_map set_a_Schedule a_Configuration
      a_Tags a_Queries a_ID a_Name a_DisplayName a_Description a_Status
      a_CreateTime a_LastModifiedTime a_Schedule
      sls20201230.a_Configuration];
    (eexists; split; [reflexivity|]);
    cbn [sls20201230.cfg_Tags sls20201230.cfg_Annotations
         sls20201230.cfg_QueryList sls20201230.cfg_ConditionConfiguration
         sls20201230.cfg_PolicyConfiguration sls20201230.cfg_SinkAlerthub
         sls20201230.cfg_SinkCms sls20201230.cfg_SinkEventStore
         sls20201230.cfg_SeverityConfigurations
         sls20201230.cfg_JoinConfigurations];
    (split; [rewrite FL, map_map; reflexivity|]);
    (split; [rewrite FA, map_map; reflexivity|]);
    (split; [rewrite !map_map; reflexivity|]);
    (split; [simpl; destruct (sls20201230.cfg_ConditionConfiguration c) as [[]|];
             reflexivity|]);
    (split; [simpl; destruct (sls20201230.cfg_PolicyConfiguration c) as [[]|];
             reflexivity|]);
    (split; [simpl; destruct (sls20201230.cfg_SinkAlerthub c) as [[]|];
             reflexivity|]);
    (split; [simpl; destruct (sls20201230.cfg_SinkCms c) as [[]|];
             reflexivity|]);
    (split; [simpl; destruct (sls20201230.cfg_SinkEventStore c) as [[]|];
             reflexivity|]);
    split; reflexivity.
Qed.

(** X26. The group fields, kept as one comma-separated string in the store,
    survive a push and pull provided that trimming changes none of the
    pieces between the commas. *)
Theorem stored_group_fields_survive_a_push_and_pull
    (strings_TrimSpace : string -> string) (Fields : option string) :
  (forall s, Fields = Some s ->
     Forall (fun field => strings_TrimSpace field = field)
            (strings.Split s strings.comma)) ->
  sls_service.fieldsStr (sls_service.fieldList strings_TrimSpace Fields) = Fields.
Proof.
  intros T. destruct Fields as [s|]; [|reflexivity].
  specialize (T s eq_refl). unfold sls_service.fieldList.
  assert (E : map (fun field => tea.String (strings_TrimSpace field))
                  (strings.Split s strings.comma) =
              map Some (strings.Split s strings.comma)).
  { apply map_ext_in. intros f Hf. rewrite Forall_forall in T.
    unfold tea.String. now rewrite (T f Hf). }
  rewrite E. unfold sls_service.fieldsStr. rewrite present_Some.
  pose proof (Split_not_nil s strings.comma) as N.
  destruct (strings.Split s strings.comma) as [|h t] eqn:S; [contradiction|].
  cbn [map]. unfold tea.String. f_equal.
  rewrite <- S. apply Join_Split.
Qed.

(** X27. The group fields that the SDK lists survive a pull and push provided
    that there is at least one, none is nil, none contains a comma and
    trimming changes none of them. *)
Theorem listed_group_fields_survive_a_pull_and_push
    (strings_TrimSpace : string -> string) (fields : list string) :
  fields <> [] ->
  Forall (fun field => occurs strings.comma field = false /\
                       strings_TrimSpace field = field) fields ->
  sls_service.fieldList strings_TrimSpace
    (sls_service.fieldsStr (map Some fields)) = map Some fields.
Proof.
  intros N F.
  assert (E : sls_service.fieldsStr (map Some fields) =
              Some (strings.Join fields (String strings.comma EmptyString))).
  { unfold sls_service.fieldsStr. rewrite present_Some.
    destruct fields as [|f l]; [contradiction|reflexivity]. }
  rewrite E. unfold sls_service.fieldList.
  rewrite Split_Join; [|exact N|].
  - apply map_ext_in. intros x Hx. rewrite Forall_forall in F.
    unfold tea.String. now rewrite (proj2 (F x Hx)).
  - eapply Forall_impl; [|exact F]. intros x [Hx _]. exact Hx.
Qed.

Lemma without_configuration_witness :
  a_Tags (set_a_Configuration None examples.cpu_alert) <> [] /\
  a_Tags (pushed_and_pulled sample_externals
            (set_a_Configuration None examples.cpu_alert)) = [].
Proof.
  split; [discriminate|].
  exact (proj1 (proj2 (without_configuration_tags_and_queries_are_not_pushed
           sample_externals (set_a_Configuration None examples.cpu_alert) eq_refl))).
Defined.

Lemma with_configuration_witness :
  cfg_SeverityConfigs examples.configuration <> [] /\
  exists c',
    a_Configuration (pushed_and_pulled sample_externals examples.cpu_alert) = Some c' /\
    cfg_SeverityConfigs c' = [].
Proof.
  split; [discriminate|].
  destruct (with_configuration_severities_joins_and_label_values_are_lost
              sample_externals examples.cpu_alert examples.configuration eq_refl)
    as (c' & C & _ & _ & _ & _ & _ & _ & S & _).
  exists c'. split; [exact C|exact S].
Defined.

Lemma pulled_and_pushed_witness :
  exists c',
    sls20201230.a_Configuration (pulled_and_pushed sample_externals samples.sdk_alert)
      = Some c' /\
    sls20201230.cfg_Tags c' = [Some "team"; Some EmptyString] /\
    sls20201230.cfg_SeverityConfigurations c' = [].
Proof.
  destruct (a_pulled_alert_pushed_back_loses_severities_and_joins sample_externals
              samples.sdk_alert _ eq_refl)
    as (c' & C & T & _ & _ & _ & _ & _ & _ & _ & S & _).
  exists c'. split; [exact C|]. split; [exact T|exact S].
Defined.

Lemma stored_group_fields_witness :
  sls_service.fieldsStr (sls_service.fieldList samples.sample_TrimSpace (Some "host,service"))
    = Some "host,service".
Proof.
  apply (stored_group_fields_survive_a_push_and_pull samples.sample_TrimSpace
           (Some "host,service")).
  intros s E. inversion E; subst s. vm_compute. repeat constructor.
Defined.

Lemma listed_group_fields_witness :
  sls_service.fieldList samples.sample_TrimSpace
    (sls_service.fieldsStr (map Some ["host"; "service"])) =
  map Some ["host"; "service"].
Proof.
  apply (listed_group_fields_survive_a_pull_and_push samples.sample_TrimSpace
           ["host"; "service"]).
  - discriminate.
  - repeat constructor.
Defined.

(** ** The empty branch of the upsert functions *)

Section UpsertEmpty.
Context {R : Type} `{Lawful R} (env : Env).
Variables (what : string) (slot : AlertConfiguration -> option N)
        (set_slot : option N -> AlertConfiguration -> AlertConfiguration)
        (refresh : R -> R -> R).
Hypothesis HR : apart (fun d => alert_configurations d) R.
Hypothesis HC : apart (fun d => table (R := R) d) AlertConfiguration.

Lemma upsert_empty alertConfigID config d r d' owner :
least (filter (fun c => cfg_ID c =? alertConfigID)
              (rows (alert_configurations d))) = Some owner ->
store.occupied (slot owner) = None ->
store.upsert env what slot set_slot refresh alertConfigID config d = (Ok r, d') ->
r = with_pk (next_id (table d))
      (before_create (now env (S (List.length (journal d)))) (with_pk 0 config)) /\
rows (table d') = rows (table d) ++ [columns r] /\
next_id (table d') = N.succ (next_id (table d)) /\
rows (alert_configurations d') =
  map (fun c => if cfg_ID c =? alertConfigID then set_slot (Some (pk r)) c else c)
      (rows (alert_configurations d)) /\
next_id (alert_configurations d') = next_id (alert_configurations d) /\
journal d' = journal d ++ [SQL SELECT "alert_configurations"; SQL INSERT TableName;
                           SQL UPDATE "alert_configurations"].
Proof.
intros Hown Hocc E. unfold store.upsert in E. tx_inv.
apply First_Ok in E0. destruct E0 as (-> & L & F0).
change (table (logged (SQL SELECT TableName) d)) with (alert_configurations d) in L.
rewrite Hown in L. inversion L; subst a. clear L.
rewrite Hocc in E. tx_inv.
match goal with
| HCr : gorm.Create env _ _ = (Ok r, ?dm),
  HUp : gorm.Updates env _ _ ?dm = (Ok _, d') |- _ =>
    rename HCr into Cr; rename HUp into Up; rename dm into dm0
end.
pose proof (Create_table env _ _ _ _ Cr) as (Hrows & Hj & Hnew).
destruct (Hnew (pk_with_pk 0 config)) as [Hr Hnext].
rewrite table_logged in Hrows, Hr, Hnext. rewrite journal_logged in Hj, Hr.
pose proof (Updates_table (R := AlertConfiguration) env _ _ _ _ _ Up)
  as (Urows & Unext & Uj).
assert (T : table (R := R) d' = table dm0).
{ apply Updates_Ok in Up. destruct Up as (-> & _).
  rewrite HC. apply table_logged. }
assert (C : alert_configurations dm0 = alert_configurations d).
{ apply Create_Ok in Cr. destruct Cr as (t' & _ & -> & _). now rewrite HR. }
change (table (R := AlertConfiguration) d') with (alert_configurations d') in *.
change (table (R := AlertConfiguration) dm0) with (alert_configurations dm0) in *.
rewrite C in Urows, Unext.
split.
{ rewrite Hr. f_equal. f_equal. f_equal. rewrite length_app. simpl. lia. }
split; [now rewrite T|]. split; [now rewrite T|].
split; [exact Urows|]. split; [exact Unext|].
rewrite Uj, Hj. rewrite <- !app_assoc. reflexivity.
Qed.
End UpsertEmpty.

Lemma upsert_links_a_new_block_intro {R : Type} `{Lawful R} what slot set_slot refresh :
  apart (fun d => alert_configurations d) R ->
  apart (fun d => table (R := R) d) AlertConfiguration ->
  (forall r : R, columns r = r) ->
  (forall t n (r : R), with_pk n (before_create t (with_pk 0 r)) =
                       with_pk n (before_create t r)) ->
  upsert_links_a_new_block (fun env => store.upsert env what slot set_slot refresh)
                           slot set_slot.
Proof.
  intros Ha Hc Hcol Hpk env id config d r d' owner Hown Hocc E.
  destruct (upsert_empty env what slot set_slot refresh Ha Hc _ _ _ _ _ _ Hown Hocc E)
    as (Hr & Hrows & _ & Hcfg & _).
  assert (P : pk r = next_id (table d)) by (rewrite Hr; apply pk_with_pk).
  split; [exact P|]. split.
  - eexists. rewrite P, Hr at 1. apply Hpk.
  - split; [now rewrite Hrows, Hcol|exact Hcfg].
Qed.

(** X28. During the update of an existing configuration, each of the seven
    upserts that finds its slot empty creates one block row, under the next
    identity of its table and with the columns of the request (the
    request's own [alert_config_id] included, declared defaults applied),
    and links it by writing that identity into its slot column of the
    owning configuration row. *)
Theorem upsert_empty_slot_inserts_the_block_and_links_it :
  upsert_links_a_new_block store.upsertSinkAlerthubConfig
    cfg_SinkAlerthubConfigID set_cfg_SinkAlerthubConfigID /\
  upsert_links_a_new_block store.upsertSinkCmsConfig
    cfg_SinkCmsConfigID set_cfg_SinkCmsConfigID /\
  upsert_links_a_new_block store.upsertSinkEventStoreConfig
    cfg_SinkEventStoreConfigID set_cfg_SinkEventStoreConfigID /\
  upsert_links_a_new_block store.upsertConditionConfig
    cfg_ConditionConfigID set_cfg_ConditionConfigID /\
  upsert_links_a_new_block store.upsertGroupConfig
    cfg_GroupConfigID set_cfg_GroupConfigID /\
  upsert_links_a_new_block store.upsertPolicyConfig
    cfg_PolicyConfigID set_cfg_PolicyConfigID /\
  upsert_links_a_new_block store.upsertTemplateConfig
    cfg_TemplateConfigID set_cfg_TemplateConfigID.
Proof.
  repeat match goal with |- _ /\ _ => split end;
    (apply upsert_links_a_new_block_intro;
     [ red; intros; reflexivity | red; intros; reflexivity
     | reflexivity | reflexivity ]).
Qed.

(** Right after its creation the sample configuration has an empty
    alerthub slot; upserting an alerthub block creates block 2 and links
    it. *)
Lemma upsert_empty_slot_witness :
  exists r,
    fst (store.upsertSinkAlerthubConfig healthy 1 quiet_alerthub db1) = Ok r /\
    pk r = next_id (sink_alerthub_configurations db1) /\
    rows (alert_configurations
            (snd (store.upsertSinkAlerthubConfig healthy 1 quiet_alerthub db1))) =
      map (fun c => if cfg_ID c =? 1
                    then set_cfg_SinkAlerthubConfigID (Some (pk r)) c else c)
          (rows (alert_configurations db1)).
Proof.
  destruct upsert_empty_slot_inserts_the_block_and_links_it as [H _].
  assert (L : exists owner,
             least (filter (fun c => cfg_ID c =? 1) (rows (alert_configurations db1)))
               = Some owner /\
             store.occupied (cfg_SinkAlerthubConfigID owner) = None).
  { vm_compute. eexists. split; reflexivity. }
  assert (E : exists r,
             fst (store.upsertSinkAlerthubConfig healthy 1 quiet_alerthub db1) = Ok r).
  { vm_compute. eexists. reflexivity. }
  destruct L as (owner & L & O), E as (r & E).
  destruct (H healthy 1 quiet_alerthub db1 r _ owner L O
              (run_Ok (store.upsertSinkAlerthubConfig healthy 1 quiet_alerthub)
                      db1 r E))
    as (P & _ & _ & C).
  exists r. split; [exact E|]. split; [exact P|exact C].
Defined.

(** ** An update for an identity that is not stored *)




(** ** The pagination block of the list handlers *)

Lemma wrap_int_small z :
  (- 2 ^ 63 <= z < 2 ^ 63)%Z -> golang.wrap_int z = z.
Proof.
  intros H. unfold golang.wrap_int. rewrite Z.mod_small; lia.
Qed.

Lemma total_pages_ceiling total pageSize :
  (0 <= total < 2 ^ 62)%Z -> (1 <= pageSize < 2 ^ 62)%Z ->
  exists pages,
    handler.total_pages total pageSize = Some pages /\
    ((pages - 1) * pageSize < total <= pages * pageSize)%Z.
Proof.
  intros Ht Hp. unfold handler.total_pages, handler.quo.
  destruct (Z.eqb_spec pageSize 0) as [E|_]; [lia|].
  rewrite (wrap_int_small (total + pageSize)) by lia.
  rewrite (wrap_int_small (total + pageSize - 1)) by lia.
  rewrite Z.quot_div_nonneg by lia.
  pose proof (Z.div_mod (total + pageSize - 1) pageSize ltac:(lia)) as D.
  pose proof (Z.mod_pos_bound (total + pageSize - 1) pageSize ltac:(lia)) as M.
  assert (Q : (0 <= (total + pageSize - 1) / pageSize <= total + pageSize - 1)%Z).
  { split; [apply Z.div_pos; lia|]. apply Z.div_le_upper_bound; nia. }
  rewrite wrap_int_small by lia.
  eexists. split; [reflexivity|]. nia.
Qed.

(** X30. The list handler reports and divides by the page size it was asked for,
    not the one the service settled on.  For a page size of 0 it panics on
    the division instead of answering.  For a positive page size it answers
    with the number of stored alerts and with that number divided by the
    requested size, rounded up, as the page count, although beyond 100 the
    page it hands over holds at most 20 alerts. *)
Theorem the_list_handler_divides_by_the_page_size_asked_for page pageSize d :
  (Z.of_nat (List.length (rows (alerts d))) < 2 ^ 62)%Z ->
  (pageSize = 0%Z ->
   handler.ListAlerts page pageSize d =
     handler.panic "runtime error: integer divide by zero") /\
  ((1 <= pageSize < 2 ^ 62)%Z ->
   exists data pages,
     handler.ListAlerts page pageSize d =
       handler.StatusOK data page pageSize
         (Z.of_nat (List.length (rows (alerts d)))) pages /\
     ((pages - 1) * pageSize < Z.of_nat (List.length (rows (alerts d)))
        <= pages * pageSize)%Z /\
     (Z.of_nat (List.length data) <= (if (pageSize <=? 100)%Z then pageSize else 20))%Z).
Proof.
  intros Ht. unfold handler.ListAlerts.
  destruct (ListAlerts_page_facts page pageSize d) as (T & L).
  destruct (alert_service.ListAlerts page pageSize d) as [data total] eqn:E.
  cbn [fst snd] in L, T. subst total. split.
  - intros ->. reflexivity.
  - intros Hp.
    destruct (total_pages_ceiling (Z.of_nat (List.length (rows (alerts d)))) pageSize)
      as (pages & -> & C); [lia|lia|].
    exists data, pages. split; [reflexivity|]. split; [exact C|apply L; lia].
Qed.

Lemma list_handler_witness :
  handler.ListAlerts 1 0 (examples.store_of 5) =
    handler.panic "runtime error: integer divide by zero" /\
  exists data,
    handler.ListAlerts 1 500 (examples.store_of 5) = handler.StatusOK data 1 500 5 1 /\
    List.length data = 5%nat.
Proof.
  destruct (the_list_handler_divides_by_the_page_size_asked_for 1 0
              (examples.store_of 5)) as [P _]; [vm_compute; reflexivity|].
  split; [exact (P eq_refl)|].
  eexists. split; vm_compute; reflexivity.
Defined.
